(** * Chunked upload hook: a shallow embedding of [useChunkUpload]

    The development follows the JavaScript source function by function.
    JavaScript numbers that hold amounts, sizes, indices and timestamps are
    integers in [Z]; the fee rate and the simulated progress value are
    double-precision numbers, multiplied, divided and rounded as the engine
    does it.  Thrown values, [localStorage], the network, the wallet, the
    host's timers and the toast channel are explicit: every effectful
    function is a computation in the monad [M] over a [World].

    Left out: what the page draws (the progress panel, the confirmation
    dialog's markup, the task cards) and the console output.  The calls that
    feed them are kept as events where a statement needs them.

    The second hook, [useFileToChainDirect], is embedded in [Direct] over
    the same world, and the task loader of the first in [Tasks]. *)

From Stdlib Require Import ZArith Ascii String List Lia.
From Stdlib Require Import Sorted Permutation.
From Stdlib Require SpecFloat.
From stdpp Require Import base option list gmap strings pretty.

Local Open Scope string_scope.
Local Open Scope list_scope.
Local Open Scope Z_scope.

(** ** JavaScript strings *)

Module JsString.

(** [String.prototype.toLowerCase], on the ASCII letters. *)
Definition lower_ascii (c : ascii) : ascii :=
  let n := nat_of_ascii c in
  if (Nat.leb 65 n && Nat.leb n 90)%bool then ascii_of_nat (n + 32) else c.

Fixpoint toLowerCase (s : string) : string :=
  match s with
  | EmptyString => EmptyString
  | String c r => String (lower_ascii c) (toLowerCase r)
  end.

(** [s.startsWith(p)] *)
Fixpoint startsWith (p s : string) : bool :=
  match p, s with
  | EmptyString, _ => true
  | String a p', String b s' => (Ascii.eqb a b && startsWith p' s')%bool
  | String _ _, EmptyString => false
  end.

(** [s.includes(p)] *)
Fixpoint includes (p s : string) : bool :=
  (startsWith p s ||
   match s with
   | EmptyString => false
   | String _ s' => includes p s'
   end)%bool.

(** JavaScript truthiness of a string: only the empty string is falsy. *)
Definition truthy (s : string) : bool :=
  match s with EmptyString => false | String _ _ => true end.

(** Template-literal rendering of an integer. *)
Definition ofZ (z : Z) : string := pretty z.

End JsString.

(** ** Task status classification *)

Module Status.
Import JsString.

(** [getStatusClass(status = '')]: [None] is an [undefined] or [null]
    argument, which [status || ''] (and the default parameter) turn into
    the empty string. *)
Definition getStatusClass (status : option string) : string :=
  let normalized := toLowerCase (default "" status) in
  if String.eqb normalized "success" then "success"
  else if String.eqb normalized "failed" then "failed"
  else if String.eqb normalized "processing" then "processing"
  else "pending".

End Status.

(** ** Thrown values and outcomes *)

Module Js.

(** What a [catch (error)] clause can receive: an [Error] object with its
    message, or some other rejected value, whose [.message] reads
    [undefined]. *)
Inductive Thrown : Type :=
| Error (message : string)
| NonError.

Definition message_of (t : Thrown) : option string :=
  match t with Error m => Some m | NonError => None end.

(** [`${error.message}`] and ['...' + error.message]. *)
Definition show_message (t : Thrown) : string :=
  default "undefined" (message_of t).

Inductive Outcome (A : Type) : Type :=
| Return (a : A)
| Throw (t : Thrown).
Arguments Return {A} a.
Arguments Throw {A} t.

(** [a || b] on an optional string: [undefined] and [''] are falsy. *)
Definition or_string (a : option string) (b : string) : string :=
  match a with
  | Some s => if JsString.truthy s then s else b
  | None => b
  end.

(** [Math.ceil(a / b)] on integers, for a positive divisor. *)
Definition ceil_div (a b : Z) : Z := - ((- a) / b).

(** Reading a property of [undefined]. *)
Definition TypeError (property : string) : Thrown :=
  Error ("Cannot read properties of undefined (reading '" +:+ property +:+ "')").

(** [Array.prototype.sort(cmp)]: a stable sort; [cmp a b <= 0] keeps [a]
    before [b]. *)
Fixpoint insert_by {A} (cmp : A -> A -> Z) (x : A) (l : list A) : list A :=
  match l with
  | [] => [x]
  | y :: l' => if (cmp x y <=? 0)%Z then x :: l else y :: insert_by cmp x l'
  end.

Definition sort_by {A} (cmp : A -> A -> Z) (l : list A) : list A :=
  foldr (insert_by cmp) [] l.

End Js.
Export Js.

(** ** JavaScript numbers

    A number is an IEEE 754 double: [SpecFloat] of the Standard Library at
    53 bits of precision, with its signed zeros, its infinities and [NaN].
    The operations round to nearest, ties to even, as the engine does. *)

Module Num.
Import SpecFloat.

Definition number : Type := spec_float.

Definition prec : Z := 53.
Definition emax : Z := 1024.

(** The number an integer literal or an integer variable holds. *)
Definition ofZ (z : Z) : number := binary_normalize prec emax z 0 false.

Definition mul : number -> number -> number := SFmul prec emax.
Definition add : number -> number -> number := SFadd prec emax.
Definition div : number -> number -> number := SFdiv prec emax.

(** [a <= b] and [a < b]; both are false when an operand is [NaN]. *)
Definition leb : number -> number -> bool := SFleb.
Definition ltb : number -> number -> bool := SFltb.

(** The decimal literal [n/d], rounded once, as the parser rounds it. *)
Definition decimal (n d : Z) : number := div (ofZ n) (ofZ d).

(** In a condition and under [||]: zero and [NaN] are falsy. *)
Definition truthy (x : number) : bool :=
  match x with
  | S754_zero _ | S754_nan => false
  | S754_infinity _ | S754_finite _ _ _ => true
  end.

(** [Math.ceil]; a value in (-1, 0) gives the negative zero, an infinity
    and [NaN] give themselves. *)
Definition ceil (x : number) : number :=
  match x with
  | S754_finite s m e =>
      if 0 <=? e then x
      else
        let c := - ((- cond_Zopp s (Zpos m)) / 2 ^ (- e)) in
        if c =? 0 then S754_zero s else ofZ c
  | S754_zero _ | S754_infinity _ | S754_nan => x
  end.

(** The integer a number holds, where an amount is computed from it.
    Amounts are integers: an infinite number and [NaN] hold none and are
    outside the model; [toZ] is [0] on them. *)
Definition toZ (x : number) : Z :=
  match x with
  | S754_finite s m e =>
      cond_Zopp s (if 0 <=? e then Zpos m * 2 ^ e else Zpos m / 2 ^ (- e))
  | S754_zero _ | S754_infinity _ | S754_nan => 0
  end.

End Num.

(** ** Data model *)

Record File : Type := {
  file_name : string;
  file_size : Z;
  file_type : string
}.

Record UserInfo : Type := {
  metaid : string;
  address : string
}.

(** A part of a multipart upload, as pushed to [parts] and as listed by the
    remote store. *)
Record UploadPart : Type := {
  partNumber : Z;
  etag : string;
  part_size : Z
}.

(** The record [saveUploadSession] writes. *)
Record SessionData : Type := {
  uploadId : string;
  key : string;
  fileName : string;
  fileSize : Z;
  s_metaId : string;
  s_address : string;
  timestamp : Z
}.

(** What [JSON.parse] yields on a text that is the text of a JSON value,
    [null] apart, and was not written by [saveUploadSession]; the value is
    kept by what the hook reads of it: whether it is truthy, its [timestamp]
    as the number the subtraction makes of it ([None] when that is [NaN], as
    for a missing property), and its [uploadId] and [key] ([None] for a
    missing property).  The text
    [{}] is [{| j_truthy := true; j_timestamp := None; j_uploadId := None;
    j_key := None |}], and so is the text [123]. *)
Record JsonValue : Type := {
  j_truthy : bool;
  j_timestamp : option Z;
  j_uploadId : option string;
  j_key : option string
}.

(** A [localStorage] value: the JSON text of a session record; the text of
    another JSON value; or a text from which the lookup reads no value:
    [JSON.parse] throws on it, or yields [null], whose [timestamp] cannot be
    read (the empty text is falsy and is not parsed at all). *)
Inductive Stored : Type :=
| SessionJson (session : SessionData)
| JsonText (value : JsonValue)
| Unreadable (text : string).

Record FeeEstimate : Type := {
  chunkSize : Z;
  chunkNumber : Z;
  chunkPreTxFee : Z;
  indexPreTxFee : Z;
  perChunkFee : Z;
  totalFee : Z
}.

Record UploadResult : Type := {
  ur_status : string;
  ur_message : option string;
  ur_indexTxId : string
}.

(** *** Transactions of the mvc library

    Scripts travel as hex text, as the source passes them. *)
Record TxOutput : Type := {
  out_script : string;
  out_satoshis : Z
}.

Record TxInput : Type := {
  prevTxId : string;
  in_outputIndex : Z;
  in_output : TxOutput;
  in_script : option string
}.

Record Transaction : Type := {
  version : Z;
  inputs : list TxInput;
  outputs : list TxOutput
}.

(** An unspent output as the wallet lists it. *)
Record WalletUtxo : Type := {
  w_txid : string;
  w_outIndex : Z;
  w_address : string;
  w_value : Z
}.

(** An unspent output as the builders consume it. *)
Record Utxo : Type := {
  txId : string;
  outputIndex : Z;
  script : option string;
  satoshis : Z
}.

Record UtxoData : Type := {
  utxos : list Utxo;
  totalAmount : Z
}.

Record SignRequest : Type := {
  sr_txHex : string;
  sr_address : string;
  sr_inputIndex : Z;
  sr_scriptHex : option string;
  sr_satoshis : Z;
  sr_sigtype : Z
}.

Record SignResult : Type := {
  sig : string;
  publicKey : string
}.

Record PayParams : Type := {
  pay_txComposer : Transaction;
  pay_message : string;
  pay_feeb : Num.number
}.

(** The body of the three backend calls that carry the file reference. *)
Record UploadBody : Type := {
  b_metaId : option string;
  b_address : option string;
  b_fileName : string;
  b_path : string;
  b_operation : option string;
  b_contentType : string;
  b_chunkPreTxHex : option string;
  b_indexPreTxHex : option string;
  b_mergeTxHex : option string;
  b_feeRate : Num.number;
  b_isBroadcast : bool;
  b_storageKey : option string;
  b_content : option string
}.

(** *** HTTP *)

(** The upload id and the key of the store requests are [None] when the
    session they are read from has no such property. *)
Inductive Request : Type :=
| ReqListParts (uploadId key : option string)
| ReqInitiate (fileName : string) (fileSize : Z) (metaId address : string)
| ReqUploadPart (uploadId key : option string) (partNumber : Z) (content : string)
| ReqComplete (uploadId key : option string) (parts : list UploadPart)
| ReqEstimate (body : UploadBody)
| ReqCreateTask (body : UploadBody)
| ReqChunkedUpload (body : UploadBody).

Record JsonBody (D : Type) : Type := {
  code : Z;
  message : option string;
  data : option D
}.
Arguments code {D} _.
Arguments message {D} _.
Arguments data {D} _.

(** A resolved [fetch]: [json] is what [response.json()] settles to. *)
Record Response (D : Type) : Type := {
  ok : bool;
  status : Z;
  json : Outcome (JsonBody D)
}.
Arguments ok {D} _.
Arguments status {D} _.
Arguments json {D} _.

Inductive ToastLevel : Type := LInfo | LSuccess | LWarning | LError.

(** *** Observable events, in the order they happen *)

Inductive Event : Type :=
| EvFetch (r : Request)
| EvReadChunk (start stop : Z)
| EvProgress (currentPart totalParts uploadedBytes totalBytes : Z)
| EvToast (text : string) (level : ToastLevel)
| EvGetUtxos
| EvPay (p : PayParams)
| EvSign (r : SignRequest)
| EvConfirmDialog
| EvLoadTasks.

(** A call to one of the host's timer functions. *)
Inductive TimerCall : Type :=
| SetInterval (id : nat)
| ClearInterval (id : nat).

(** The state outside the hook: [localStorage], what has happened so far,
    and the calls to the host's timer functions so far.  The timer calls are
    kept apart from the trace: a timer callback runs beside a pending
    request, in no fixed order with what the request does. *)
Record World : Type := {
  localStorage : gmap string Stored;
  trace : list Event;
  timers : list TimerCall
}.

(** The result of [script.toAddress(network)]: it throws, yields a falsy
    value, or yields an address. *)
Inductive AddressResult : Type :=
| AddrThrows
| AddrNone
| Addr (a : string).

(** [chainStore.mvcFeeRate()]: a number, or nothing. *)
Record ChainStore : Type := {
  mvcFeeRate : option Num.number
}.

(** [userStore.last]: the record of the user, or [undefined]. *)
Record UserStore : Type := {
  last : option UserInfo
}.

(** [userStore.last.address] and [userStore.last.metaid]: reading a
    property of the record throws when there is no record. *)
Definition readLast {A} (userStore : UserStore) (property : string)
    (field : UserInfo -> A) : Outcome A :=
  match last userStore with
  | Some user => Return (field user)
  | None => Throw (TypeError property)
  end.

(** ** The collaborators

    Everything the hook receives from outside: the injected dependencies,
    the primitives of the mvc library, and the answers of the network, the
    wallet, the clock and the user.  An answer may depend on everything that
    happened before it. *)
Record Env : Type := {
  toastInstance : bool;
  chainStoreInstance : option ChainStore;
  userStoreInstance : option UserStore;
  BufferInstance : bool;
  mvcInstance : bool;
  TxComposerInstance : bool;
  (* mvc *)
  buildPublicKeyHashOut : string -> Outcome string;
  buildPublicKeyHashIn : string -> string -> Z -> string;
  signatureToDER : string -> Outcome string;
  toAddress : string -> AddressResult;
  toHex : Transaction -> Outcome string;
  getTxId : Transaction -> string;
  (* environment *)
  dateNow : list Event -> Z;
  readAsDataURL : list Event -> File -> Z -> Z -> Outcome string;
  confirmDialog : list Event -> File -> FeeEstimate -> bool;
  timerTicks : list Event -> nat;
  (* network *)
  fetchListParts : list Event -> Request -> Outcome (Response (option (list UploadPart)));
  fetchInitiate : list Event -> Request -> Outcome (Response (string * string));
  fetchUploadPart : list Event -> Request -> Outcome (Response string);
  fetchComplete : list Event -> Request -> Outcome (Response string);
  fetchEstimate : list Event -> Request -> Outcome (Response FeeEstimate);
  fetchCreateTask : list Event -> Request -> Outcome (Response unit);
  fetchChunkedUpload : list Event -> Request -> Outcome (Response UploadResult);
  (* wallet *)
  walletGetUtxos : list Event -> Outcome (option (list WalletUtxo));
  walletPayAvailable : bool;
  walletPay : list Event -> PayParams -> Outcome (option Transaction);
  walletSignTransaction : list Event -> SignRequest -> Outcome (option SignResult)
}.

(** ** The monad of effectful code *)

Module Monad.

Definition M (A : Type) : Type := World -> Outcome A * World.

Definition ret {A} (a : A) : M A := fun w => (Return a, w).

Definition throw {A} (t : Thrown) : M A := fun w => (Throw t, w).

Definition bind {A B} (c : M A) (k : A -> M B) : M B :=
  fun w =>
    match c w with
    | (Return a, w') => k a w'
    | (Throw t, w') => (Throw t, w')
    end.

(** [try { c } catch (error) { h error }] *)
Definition try_catch {A} (c : M A) (h : Thrown -> M A) : M A :=
  fun w =>
    match c w with
    | (Return a, w') => (Return a, w')
    | (Throw t, w') => h t w'
    end.

(** Settling a promise whose outcome is known. *)
Definition await {A} (o : Outcome A) : M A := fun w => (o, w).

Definition emit (e : Event) : M unit :=
  fun w => (Return tt, {| localStorage := localStorage w;
                          trace := trace w ++ [e];
                          timers := timers w |}).

Definition history : M (list Event) := fun w => (Return (trace w), w).

Definition getItem (k : string) : M (option Stored) :=
  fun w => (Return (localStorage w !! k), w).

Definition setItem (k : string) (v : Stored) : M unit :=
  fun w => (Return tt, {| localStorage := <[k := v]> (localStorage w);
                          trace := trace w;
                          timers := timers w |}).

Definition removeItem (k : string) : M unit :=
  fun w => (Return tt, {| localStorage := delete k (localStorage w);
                          trace := trace w;
                          timers := timers w |}).

(** The identifiers the host has handed out so far, and the timers it
    still has scheduled. *)
Definition timerIds (calls : list TimerCall) : gset nat :=
  foldl (fun ids call =>
           match call with
           | SetInterval id => {[id]} ∪ ids
           | ClearInterval _ => ids
           end) ∅ calls.

Definition scheduled (calls : list TimerCall) : gset nat :=
  foldl (fun ids call =>
           match call with
           | SetInterval id => {[id]} ∪ ids
           | ClearInterval id => ids ∖ {[id]}
           end) ∅ calls.

(** [setInterval(callback, 1000)]: the host schedules a timer and hands
    back its identifier, a positive integer it has not handed out before. *)
Definition setInterval : M nat :=
  fun w =>
    let id := fresh ({[0%nat]} ∪ timerIds (timers w)) in
    (Return id, {| localStorage := localStorage w;
                   trace := trace w;
                   timers := timers w ++ [SetInterval id] |}).

(** [clearInterval(id)]; clearing twice is harmless. *)
Definition clearInterval (id : nat) : M unit :=
  fun w => (Return tt, {| localStorage := localStorage w;
                          trace := trace w;
                          timers := timers w ++ [ClearInterval id] |}).

End Monad.
Export Monad.

Declare Scope js_scope.
Delimit Scope js_scope with js.
Notation "'let*' x ':=' c 'in' k" := (bind c (fun x => k))
  (at level 10, x pattern, c at level 100, k at level 200) : js_scope.
Notation "c ';;' k" := (bind c (fun _ => k))
  (at level 100, k at level 200, right associativity) : js_scope.
Local Open Scope js_scope.

(** ** Upload sessions in [localStorage] *)

Module Session.
Section WithEnv.
Context (env : Env).

Definition maxAge : Z := 7 * 24 * 60 * 60 * 1000.

Definition Date_now : M Z :=
  let* h := history in ret (dateNow env h).

Definition getUploadSessionKey (file : File) (metaId address : string) : string :=
  "multipart_upload_" +:+ file_name file +:+ "_" +:+ JsString.ofZ (file_size file)
    +:+ "_" +:+ metaId +:+ "_" +:+ address.

(** [Date.now() - session.timestamp > maxAge]; the difference is [NaN]
    when the timestamp is no number, and the comparison is false then. *)
Definition expired (now : Z) (timestamp : option Z) : bool :=
  match timestamp with
  | Some t => (now - t >? maxAge)%Z
  | None => false
  end.

(** What the hook reads of a parsed value.  An unreadable text is never
    parsed: its cases only make the functions total. *)
Definition timestampOf (parsed : Stored) : option Z :=
  match parsed with
  | SessionJson session => Some (timestamp session)
  | JsonText value => j_timestamp value
  | Unreadable _ => None
  end.

Definition uploadIdOf (parsed : Stored) : option string :=
  match parsed with
  | SessionJson session => Some (uploadId session)
  | JsonText value => j_uploadId value
  | Unreadable _ => None
  end.

Definition keyOf (parsed : Stored) : option string :=
  match parsed with
  | SessionJson session => Some (key session)
  | JsonText value => j_key value
  | Unreadable _ => None
  end.

(** [if (existingSession)]: an object is truthy. *)
Definition isTruthy (parsed : Stored) : bool :=
  match parsed with
  | SessionJson _ => true
  | JsonText value => j_truthy value
  | Unreadable _ => false
  end.

(** The lookup hands back the parsed value, whatever it is, unless it is too
    old. *)
Definition getUploadSession (file : File) (metaId address : string)
  : M (option Stored) :=
  let sessionKey := getUploadSessionKey file metaId address in
  let* sessionData := getItem sessionKey in
  match sessionData with
  | None => ret None
  | Some (Unreadable "") => ret None
  | Some (Unreadable _) =>
      (* JSON.parse throws, or reading the timestamp of null does *)
      removeItem sessionKey ;; ret None
  | Some parsed =>
      let* now := Date_now in
      if expired now (timestampOf parsed) then
        removeItem sessionKey ;; ret None
      else ret (Some parsed)
  end.

Definition saveUploadSession (file : File) (metaId address uploadId key : string)
  : M unit :=
  let sessionKey := getUploadSessionKey file metaId address in
  let* now := Date_now in
  let sessionData :=
    {| uploadId := uploadId; key := key;
       fileName := file_name file; fileSize := file_size file;
       s_metaId := metaId; s_address := address;
       timestamp := now |} in
  setItem sessionKey (SessionJson sessionData).

Definition clearUploadSession (file : File) (metaId address : string) : M unit :=
  removeItem (getUploadSessionKey file metaId address).

End WithEnv.
End Session.

(** ** Resumable multipart upload *)

Module Oss.
Section WithEnv.
Context (env : Env).
Import Session.

Definition MULTIPART_CHUNK_SIZE : Z := 1 * 1024 * 1024.

(** [await fetch(url, {body})]: the request is issued, then the network
    answers. *)
Definition fetch {D} (answer : list Event -> Request -> Outcome (Response D))
    (r : Request) : M (Response D) :=
  let* h := history in
  emit (EvFetch r) ;;
  await (answer h r).

(** The progress side channel; what it draws is left to the page. *)
Definition updateOSSUploadProgress (currentPart totalParts uploadedBytes totalBytes : Z)
  : M unit :=
  emit (EvProgress currentPart totalParts uploadedBytes totalBytes).

(** The inner [try] of the resume branch: the session survives unless
    listing the parts throws. *)
Definition listExistingParts (existingSession : Stored)
  : M (option Stored * list UploadPart) :=
  try_catch
    (let* listPartsResponse :=
       fetch (fetchListParts env)
             (ReqListParts (uploadIdOf existingSession) (keyOf existingSession)) in
     if ok listPartsResponse then
       let* listPartsResult := await (json listPartsResponse) in
       match data listPartsResult with
       | Some (Some parts) =>
           if (code listPartsResult =? 0)%Z
           then ret (Some existingSession, parts)
           else ret (Some existingSession, [])
       | _ => ret (Some existingSession, [])
       end
     else ret (Some existingSession, []))
    (fun _ => ret (None, [])).

Definition initiateUpload (file : File) (metaId currentAddress : string)
  : M (string * string) :=
  let* initiateResponse :=
    fetch (fetchInitiate env)
          (ReqInitiate (file_name file) (file_size file) metaId currentAddress) in
  if negb (ok initiateResponse) then
    throw (Error ("Failed to initiate multipart upload: HTTP "
                  +:+ JsString.ofZ (status initiateResponse)))
  else
    let* initiateResult := await (json initiateResponse) in
    if negb (code initiateResult =? 0)%Z then
      throw (Error (or_string (message initiateResult)
                              "Failed to initiate multipart upload"))
    else
      match data initiateResult with
      | None => throw (TypeError "uploadId")
      | Some (uploadId, key) =>
          saveUploadSession env file metaId currentAddress uploadId key ;;
          ret (uploadId, key)
      end.

(** [existingParts.forEach(part => existingPartsMap.set(part.partNumber, part))] *)
Definition existingPartsMap (existingParts : list UploadPart) : gmap Z UploadPart :=
  foldl (fun m part => <[partNumber part := part]> m) ∅ existingParts.

Definition readChunk (file : File) (start stop : Z) : M string :=
  let* h := history in
  emit (EvReadChunk start stop) ;;
  await (readAsDataURL env h file start stop).

(** The [for] loop over the parts: [n] iterations are left, the next one
    handles [partNumber]. *)
Fixpoint uploadParts (file : File) (uploadId key : option string)
    (existing : gmap Z UploadPart) (totalParts totalBytes : Z)
    (n : nat) (partNumber : Z) (parts : list UploadPart) (uploadedBytes : Z)
  : M (list UploadPart * Z) :=
  match n with
  | O => ret (parts, uploadedBytes)
  | S n' =>
      let start := (partNumber - 1) * MULTIPART_CHUNK_SIZE in
      let stop := Z.min (start + MULTIPART_CHUNK_SIZE) (file_size file) in
      let partSize := stop - start in
      match existing !! partNumber with
      | Some existingPart =>
          let parts := parts ++ [{| partNumber := partNumber;
                                    etag := etag existingPart;
                                    part_size := partSize |}] in
          let uploadedBytes := uploadedBytes + partSize in
          updateOSSUploadProgress partNumber totalParts uploadedBytes totalBytes ;;
          uploadParts file uploadId key existing totalParts totalBytes
                      n' (partNumber + 1) parts uploadedBytes
      | None =>
          let* chunkBase64 := readChunk file start stop in
          let* uploadPartResponse :=
            fetch (fetchUploadPart env)
                  (ReqUploadPart uploadId key partNumber chunkBase64) in
          if negb (ok uploadPartResponse) then
            throw (Error ("Failed to upload part " +:+ JsString.ofZ partNumber
                          +:+ ": HTTP " +:+ JsString.ofZ (status uploadPartResponse)))
          else
            let* uploadPartResult := await (json uploadPartResponse) in
            if negb (code uploadPartResult =? 0)%Z then
              throw (Error (or_string (message uploadPartResult)
                              ("Failed to upload part " +:+ JsString.ofZ partNumber)))
            else
              match data uploadPartResult with
              | None => throw (TypeError "etag")
              | Some newEtag =>
                  let parts := parts ++ [{| partNumber := partNumber;
                                            etag := newEtag;
                                            part_size := partSize |}] in
                  let uploadedBytes := uploadedBytes + partSize in
                  updateOSSUploadProgress partNumber totalParts uploadedBytes totalBytes ;;
                  uploadParts file uploadId key existing totalParts totalBytes
                              n' (partNumber + 1) parts uploadedBytes
              end
      end
  end.

Definition completeUpload (uploadId key : option string) (parts : list UploadPart)
  : M string :=
  let* completeResponse :=
    fetch (fetchComplete env) (ReqComplete uploadId key parts) in
  if negb (ok completeResponse) then
    throw (Error ("Failed to complete multipart upload: HTTP "
                  +:+ JsString.ofZ (status completeResponse)))
  else
    let* completeResult := await (json completeResponse) in
    if negb (code completeResult =? 0)%Z then
      throw (Error (or_string (message completeResult)
                              "Failed to complete multipart upload"))
    else
      match data completeResult with
      | None => throw (TypeError "key")
      | Some storageKey => ret storageKey
      end.

(** The body of the outer [try].  Showing and hiding the progress panel
    only touch the page and are left out. *)
Definition uploadFileToOSS_body (file : File) : M string :=
  match userStoreInstance env with
  | None => throw (Error "UserStore not available")
  | Some userStore =>
      let* metaId := await (readLast userStore "metaid" metaid) in
      let* currentAddress := await (readLast userStore "address" address) in
      let* existingSession := getUploadSession env file metaId currentAddress in
      let* resumed :=
        match existingSession with
        | Some session =>
            if isTruthy session then listExistingParts session
            else ret (existingSession, [])
        | None => ret (None, [])
        end in
      let* started :=
        match resumed with
        | (Some session, (_ :: _) as existingParts) =>
            ret (uploadIdOf session, keyOf session, existingParts)
        | _ =>
            let* fresh := initiateUpload file metaId currentAddress in
            ret (Some (fst fresh), Some (snd fresh), [])
        end in
      let '(uploadId, key, existingParts) := started in
      let totalParts := ceil_div (file_size file) MULTIPART_CHUNK_SIZE in
      let totalBytes := file_size file in
      updateOSSUploadProgress 0 totalParts 0 totalBytes ;;
      let* uploaded :=
        uploadParts file uploadId key (existingPartsMap existingParts)
                    totalParts totalBytes (Z.to_nat totalParts) 1 [] 0 in
      let parts := sort_by (fun a b => partNumber a - partNumber b) (fst uploaded) in
      updateOSSUploadProgress totalParts totalParts totalBytes totalBytes ;;
      let* storageKey := completeUpload uploadId key parts in
      clearUploadSession file metaId currentAddress ;;
      ret storageKey
  end.

Definition uploadFileToOSS (file : File) : M string :=
  try_catch (uploadFileToOSS_body file)
    (fun error =>
       throw (Error ("Failed to upload file to OSS: " +:+ show_message error))).

End WithEnv.
End Oss.

(** ** The transaction library

    Modelled from the spec: the mvc transaction library is not part of the
    sources.  A transaction is built from nothing; [from] adds one input
    spending the given unspent output, [to] adds one output paying an amount
    to an address, and [setScript] replaces the unlocking script of an
    existing input.  Serialization, script construction and signature
    decoding stay primitives of [Env]. *)

Module Mvc.
Section WithEnv.
Context (env : Env).

Definition newTransaction : Transaction :=
  {| version := 1; inputs := []; outputs := [] |}.

Definition setVersion (v : Z) (tx : Transaction) : Transaction :=
  {| version := v; inputs := inputs tx; outputs := outputs tx |}.

Definition from (tx : Transaction) (utxo : Utxo) : Transaction :=
  {| version := version tx;
     inputs := inputs tx ++
               [{| prevTxId := txId utxo;
                   in_outputIndex := outputIndex utxo;
                   in_output := {| out_script := default "" (script utxo);
                                   out_satoshis := satoshis utxo |};
                   in_script := None |}];
     outputs := outputs tx |}.

Definition to (tx : Transaction) (address : string) (amount : Z)
  : Outcome Transaction :=
  match buildPublicKeyHashOut env address with
  | Return lockingScript =>
      Return {| version := version tx;
                inputs := inputs tx;
                outputs := outputs tx ++
                           [{| out_script := lockingScript;
                               out_satoshis := amount |}] |}
  | Throw t => Throw t
  end.

(** [tx.inputs[i].setScript(s)]; reading a missing input throws. *)
Definition setScript (tx : Transaction) (i : Z) (s : string)
  : Outcome Transaction :=
  if i <? 0 then Throw (TypeError "setScript") else
  match inputs tx !! Z.to_nat i with
  | None => Throw (TypeError "setScript")
  | Some input =>
      Return {| version := version tx;
                inputs := <[Z.to_nat i :=
                             {| prevTxId := prevTxId input;
                                in_outputIndex := in_outputIndex input;
                                in_output := in_output input;
                                in_script := Some s |}]> (inputs tx);
                outputs := outputs tx |}
  end.

End WithEnv.
End Mvc.

(** ** Funding: wallet outputs, merge transaction, open pre-transactions *)

Module Chain.
Section WithEnv.
Context (env : Env).

(** [chainStore.mvcFeeRate() || 1]: a missing rate, a zero rate and [NaN]
    are falsy. *)
Definition feeRateOrDefault (chainStore : ChainStore) : Num.number :=
  match mvcFeeRate chainStore with
  | Some r => if Num.truthy r then r else Num.ofZ 1
  | None => Num.ofZ 1
  end.

(** The selection loop of [getWalletUTXOs]. *)
Fixpoint selectUtxos (requiredAmount : Z) (sortedUtxos : list WalletUtxo)
    (selectedUtxos : list Utxo) (totalAmount : Z) : Outcome (list Utxo * Z) :=
  match sortedUtxos with
  | [] => Return (selectedUtxos, totalAmount)
  | utxo :: rest =>
      match buildPublicKeyHashOut env (w_address utxo) with
      | Throw t => Throw t
      | Return scriptHex =>
          let selectedUtxos :=
            selectedUtxos ++ [{| txId := w_txid utxo;
                                 outputIndex := w_outIndex utxo;
                                 script := Some scriptHex;
                                 satoshis := w_value utxo |}] in
          let totalAmount := totalAmount + w_value utxo in
          if totalAmount >=? requiredAmount + 1
          then Return (selectedUtxos, totalAmount)
          else selectUtxos requiredAmount rest selectedUtxos totalAmount
      end
  end.

(** [getWalletUTXOs]; [useFileToChainDirect] holds the same function, word
    for word. *)
Definition getWalletUTXOs (requiredAmount : Z) : M UtxoData :=
  try_catch
    (if negb (mvcInstance env) then throw (Error "MVC library not available")
     else
       let* h := history in
       emit EvGetUtxos ;;
       let* utxos := await (walletGetUtxos env h) in
       match utxos with
       | None | Some [] => throw (Error "No available UTXOs in wallet")
       | Some utxos =>
           let filler := 600 in
           let fillerUtxos := List.filter (fun utxo => w_value utxo >? filler) utxos in
           match fillerUtxos with
           | [] => throw (Error "No UTXOs larger than 600 satoshis available in wallet")
           | _ :: _ =>
               let sortedUtxos :=
                 sort_by (fun a b => w_value b - w_value a) fillerUtxos in
               let* selection := await (selectUtxos requiredAmount sortedUtxos [] 0) in
               let selectedUtxos := fst selection in
               let totalAmount := snd selection in
               if totalAmount <? requiredAmount + 1 then
                 throw (Error ("Insufficient balance! Need "
                               +:+ JsString.ofZ (requiredAmount + 1)
                               +:+ " satoshis, but only have "
                               +:+ JsString.ofZ totalAmount +:+ " satoshis"))
               else ret {| utxos := selectedUtxos; totalAmount := totalAmount |}
           end
       end)
    (fun error => throw (Error ("Failed to get UTXOs: " +:+ show_message error))).

Record MergeResult : Type := {
  mergeTxId : string;
  mergeTxHex : string;
  chunkPreTxOutputIndex : Z;
  indexPreTxOutputIndex : Z;
  chunkPreTxScript : option string;
  indexPreTxScript : option string
}.

(** The four variables the matching loop assigns. *)
Record Matched : Type := {
  m_chunkIndex : Z;
  m_indexIndex : Z;
  m_chunkScript : option string;
  m_indexScript : option string
}.

Definition amountTolerance : Z := 1000.

Definition unmatched : Matched :=
  {| m_chunkIndex := -1; m_indexIndex := -1;
     m_chunkScript := None; m_indexScript := None |}.

(** One iteration of the matching loop, on output [i]. *)
Definition matchOutput (ownAddress : string)
    (chunkPreTxOutputAmount indexPreTxOutputAmount : Z)
    (i : Z) (output : TxOutput) (m : Matched) : Matched :=
  let outputScript := out_script output in
  let outputAmount := out_satoshis output in
  match toAddress env outputScript with
  | Addr addr =>
      if String.eqb addr ownAddress then
        if (m_chunkIndex m =? -1)
           && (Z.abs (outputAmount - chunkPreTxOutputAmount) <=? amountTolerance)
        then {| m_chunkIndex := i; m_indexIndex := m_indexIndex m;
                m_chunkScript := Some outputScript;
                m_indexScript := m_indexScript m |}
        else if (m_indexIndex m =? -1)
                && (Z.abs (outputAmount - indexPreTxOutputAmount) <=? amountTolerance)
        then {| m_chunkIndex := m_chunkIndex m; m_indexIndex := i;
                m_chunkScript := m_chunkScript m;
                m_indexScript := Some outputScript |}
        else m
      else m
  | AddrNone => m
  | AddrThrows => m
  end.

Fixpoint matchOutputs (ownAddress : string)
    (chunkPreTxOutputAmount indexPreTxOutputAmount : Z)
    (outs : list TxOutput) (i : Z) (m : Matched) : Matched :=
  match outs with
  | [] => m
  | output :: rest =>
      matchOutputs ownAddress chunkPreTxOutputAmount indexPreTxOutputAmount
        rest (i + 1)
        (matchOutput ownAddress chunkPreTxOutputAmount indexPreTxOutputAmount
                     i output m)
  end.

Definition buildChunkedUploadMergeTx (utxoData : UtxoData)
    (chunkPreTxOutputAmount indexPreTxOutputAmount mergeTxFee : Z)
  : M MergeResult :=
  try_catch
    (match userStoreInstance env, chainStoreInstance env with
     | Some userStore, Some chainStore =>
         if negb (mvcInstance env && TxComposerInstance env) then
           throw (Error "MetaIDJs library (mvc/TxComposer) not available")
         else
           let mergeTx := Mvc.setVersion 10 Mvc.newTransaction in
           let mergeTx := foldl Mvc.from mergeTx (utxos utxoData) in
           let* ownAddress := await (readLast userStore "address" address) in
           let* mergeTx := await (Mvc.to env mergeTx ownAddress chunkPreTxOutputAmount) in
           let* mergeTx := await (Mvc.to env mergeTx ownAddress indexPreTxOutputAmount) in
           if negb (walletPayAvailable env) then
             throw (Error "Wallet does not support pay method")
           else
             let feeRate := feeRateOrDefault chainStore in
             let payParams :=
               {| pay_txComposer := mergeTx;
                  pay_message := "Merge UTXOs for chunked upload";
                  pay_feeb := feeRate |} in
             let* h := history in
             emit (EvPay payParams) ;;
             let* payResult := await (walletPay env h payParams) in
             match payResult with
             | None => throw (TypeError "0")
             | Some parsedMergeTx =>
                 let* signedMergeTxHex := await (toHex env parsedMergeTx) in
                 let mergeTxId := getTxId env parsedMergeTx in
                 let m := matchOutputs ownAddress chunkPreTxOutputAmount
                            indexPreTxOutputAmount (outputs parsedMergeTx) 0
                            unmatched in
                 ret {| mergeTxId := mergeTxId;
                        mergeTxHex := signedMergeTxHex;
                        chunkPreTxOutputIndex := m_chunkIndex m;
                        indexPreTxOutputIndex := m_indexIndex m;
                        chunkPreTxScript := m_chunkScript m;
                        indexPreTxScript := m_indexScript m |}
             end
     | _, _ => throw (Error "Required stores not available")
     end)
    (fun error =>
       throw (Error ("Failed to build merge transaction: " +:+ show_message error))).

(** [0x2 | 0x40], the signature mode of the open pre-transactions. *)
Definition openSigtype : Z := Z.lor 0x2 0x40.

(** The signing loop of the pre-transaction builders: input [i] is signed
    for [utxo], the remaining ones follow.  The address of the user is read
    for every request. *)
Fixpoint signInputs (userStore : UserStore) (remaining : list Utxo) (i : Z)
    (tx : Transaction) : M Transaction :=
  match remaining with
  | [] => ret tx
  | utxo :: rest =>
      let* txHex := await (toHex env tx) in
      let* ownAddress := await (readLast userStore "address" address) in
      let request :=
        {| sr_txHex := txHex;
           sr_address := ownAddress;
           sr_inputIndex := i;
           sr_scriptHex := script utxo;
           sr_satoshis := satoshis utxo;
           sr_sigtype := openSigtype |} in
      let* h := history in
      emit (EvSign request) ;;
      let* signResult := await (walletSignTransaction env h request) in
      match signResult with
      | None => throw (TypeError "sig")
      | Some signature =>
          let* der := await (signatureToDER env (sig signature)) in
          let unlockingScript :=
            buildPublicKeyHashIn env (publicKey signature) der openSigtype in
          let* tx := await (Mvc.setScript tx i unlockingScript) in
          signInputs userStore rest (i + 1) tx
      end
  end.

(** The common body of the two builders. *)
Definition buildOpenPreTx (utxoData : UtxoData) : M string :=
  match userStoreInstance env with
  | None => throw (Error "UserStore not available")
  | Some userStore =>
      if negb (mvcInstance env && BufferInstance env) then
        throw (Error "MetaIDJs library (mvc) or Buffer not available")
      else
        let tx := Mvc.setVersion 10 Mvc.newTransaction in
        let tx := foldl Mvc.from tx (utxos utxoData) in
        let* tx := signInputs userStore (utxos utxoData) 0 tx in
        await (toHex env tx)
  end.

Definition buildChunkFundingPreTx (utxoData : UtxoData) (totalChunkFee : Z)
  : M string :=
  try_catch (buildOpenPreTx utxoData)
    (fun error =>
       throw (Error ("Failed to build chunk funding pre-tx: " +:+ show_message error))).

Definition buildIndexPreTx (utxoData : UtxoData) (indexFee : Z) : M string :=
  try_catch (buildOpenPreTx utxoData)
    (fun error =>
       throw (Error ("Failed to build index pre-tx: " +:+ show_message error))).

End WithEnv.
End Chain.

(** ** Backend calls *)

Module Backend.
Section WithEnv.
Context (env : Env).
Import JsString.

Definition buildContentType (file : File) : string :=
  let contentType :=
    if truthy (file_type file) then file_type file
    else "application/octet-stream" in
  let isTextType :=
    (startsWith "text/" contentType
     || String.eqb contentType "application/json"
     || String.eqb contentType "application/javascript"
     || String.eqb contentType "application/xml")%bool in
  if (negb isTextType && negb (includes ";binary" contentType))%bool
  then contentType +:+ ";binary"
  else contentType.

(** [if (storageKey) ... else if (fileContentBase64) ... else throw]. *)
Definition withPayload (body : UploadBody) (fileContentBase64 : option string)
    (storageKey : string) : Outcome UploadBody :=
  let set (k c : option string) :=
    {| b_metaId := b_metaId body; b_address := b_address body;
       b_fileName := b_fileName body; b_path := b_path body;
       b_operation := b_operation body; b_contentType := b_contentType body;
       b_chunkPreTxHex := b_chunkPreTxHex body;
       b_indexPreTxHex := b_indexPreTxHex body;
       b_mergeTxHex := b_mergeTxHex body;
       b_feeRate := b_feeRate body; b_isBroadcast := b_isBroadcast body;
       b_storageKey := k; b_content := c |} in
  if truthy storageKey then Return (set (Some storageKey) None)
  else
    match fileContentBase64 with
    | Some content =>
        if truthy content then Return (set None (Some content))
        else Throw (Error "Either storageKey or content must be provided")
    | None => Throw (Error "Either storageKey or content must be provided")
    end.

(** The tail shared by the three calls: check the HTTP status, parse, check
    the code, hand back [result.data]. *)
Definition readData {D} (response : Response D) : M (option D) :=
  if negb (ok response) then
    throw (Error ("HTTP Error: " +:+ ofZ (status response)))
  else
    let* result := await (json response) in
    if negb (code result =? 0) then
      throw (Error (default "" (message result)))
    else ret (data result).

Definition estimateChunkedUploadFee (file : File)
    (fileContentBase64 : option string) (storageKey : string)
  : M (option FeeEstimate) :=
  try_catch
    (match chainStoreInstance env with
     | None => throw (Error "ChainStore not available")
     | Some chainStore =>
         let requestBody :=
           {| b_metaId := None; b_address := None;
              b_fileName := file_name file; b_path := "/file";
              b_operation := None;
              b_contentType := buildContentType file;
              b_chunkPreTxHex := None; b_indexPreTxHex := None;
              b_mergeTxHex := None;
              b_feeRate := Chain.feeRateOrDefault chainStore;
              b_isBroadcast := false;
              b_storageKey := None; b_content := None |} in
         let* requestBody := await (withPayload requestBody fileContentBase64 storageKey) in
         let* response := Oss.fetch (fetchEstimate env) (ReqEstimate requestBody) in
         readData response
     end)
    (fun error => throw (Error ("Failed to estimate fee: " +:+ show_message error))).

Definition uploadBody (metaId currentAddress : string) (chainStore : ChainStore)
    (file : File) (chunkPreTxHex indexPreTxHex mergeTxHex : string)
    (isBroadcast : bool) : UploadBody :=
  {| b_metaId := Some metaId;
     b_address := Some currentAddress;
     b_fileName := file_name file; b_path := "/file";
     b_operation := Some "create";
     b_contentType := buildContentType file;
     b_chunkPreTxHex := Some chunkPreTxHex;
     b_indexPreTxHex := Some indexPreTxHex;
     b_mergeTxHex := Some mergeTxHex;
     b_feeRate := Chain.feeRateOrDefault chainStore;
     b_isBroadcast := isBroadcast;
     b_storageKey := None; b_content := None |}.

Definition createChunkedUploadTask (file : File)
    (fileContentBase64 : option string) (storageKey : string)
    (chunkPreTxHex indexPreTxHex mergeTxHex : string) : M (option unit) :=
  try_catch
    (match userStoreInstance env, chainStoreInstance env with
     | Some userStore, Some chainStore =>
         let* metaId := await (readLast userStore "metaid" metaid) in
         let* currentAddress := await (readLast userStore "address" address) in
         let requestBody :=
           uploadBody metaId currentAddress chainStore file chunkPreTxHex
                      indexPreTxHex mergeTxHex false in
         let* requestBody := await (withPayload requestBody fileContentBase64 storageKey) in
         let* response := Oss.fetch (fetchCreateTask env) (ReqCreateTask requestBody) in
         readData response
     | _, _ => throw (Error "Required stores not available")
     end)
    (fun error =>
       throw (Error ("Chunked upload task failed: " +:+ show_message error))).

Definition chunkedUpload (file : File)
    (fileContentBase64 : option string) (storageKey : string)
    (chunkPreTxHex indexPreTxHex mergeTxHex : string) : M (option UploadResult) :=
  try_catch
    (match userStoreInstance env, chainStoreInstance env with
     | Some userStore, Some chainStore =>
         let* metaId := await (readLast userStore "metaid" metaid) in
         let* currentAddress := await (readLast userStore "address" address) in
         let requestBody :=
           uploadBody metaId currentAddress chainStore file chunkPreTxHex
                      indexPreTxHex mergeTxHex true in
         let* requestBody := await (withPayload requestBody fileContentBase64 storageKey) in
         let* response := Oss.fetch (fetchChunkedUpload env) (ReqChunkedUpload requestBody) in
         readData response
     | _, _ => throw (Error "Required stores not available")
     end)
    (fun error => throw (Error ("ChunkedUpload failed: " +:+ show_message error))).

End WithEnv.
End Backend.

(** ** The simulated progress of the synchronous upload *)

Module ProgressSim.

(** The variables the timer callback closes over. *)
Record State : Type := {
  currentProgress : Num.number;
  elapsedSeconds : Z;
  isApiReturned : bool
}.

Definition baseProgress : Num.number := Num.ofZ 50.
Definition uploadProgressRange : Num.number := Num.ofZ 40.

(** A division by zero gives an infinity, as the engine has it. *)
Definition progressPerSecond (chunkedUploadChunkNumber : Z) : Num.number :=
  let totalTransactions := chunkedUploadChunkNumber + 1 in
  let estimatedTotalSeconds := totalTransactions * 3 in
  Num.div uploadProgressRange (Num.ofZ estimatedTotalSeconds).

Definition start : State :=
  {| currentProgress := baseProgress; elapsedSeconds := 0;
     isApiReturned := false |}.

(** The body of the interval callback. *)
Definition callback (progressPerSecond : Num.number) (progressInterval : nat)
    (s : State) : M State :=
  if isApiReturned s then
    (clearInterval progressInterval ;; ret s)%js
  else
    let elapsedSeconds := elapsedSeconds s + 1 in
    let currentProgress :=
      Num.add baseProgress (Num.mul progressPerSecond (Num.ofZ elapsedSeconds)) in
    if Num.leb (Num.ofZ 90) currentProgress then
      (clearInterval progressInterval ;;
       ret {| currentProgress := Num.ofZ 90; elapsedSeconds := elapsedSeconds;
              isApiReturned := false |})%js
    else
      ret {| currentProgress := currentProgress;
             elapsedSeconds := elapsedSeconds;
             isApiReturned := false |}.

(** One second passes: the host runs the callback if the timer is still
    scheduled. *)
Definition tick (progressPerSecond : Num.number) (progressInterval : nat)
    (s : State) : M State :=
  fun w =>
    if decide (progressInterval ∈ scheduled (timers w))
    then callback progressPerSecond progressInterval s w
    else (Return s, w).

Fixpoint ticks (n : nat) (progressPerSecond : Num.number) (progressInterval : nat)
    (s : State) : M State :=
  match n with
  | O => ret s
  | S n' =>
      (let* s' := tick progressPerSecond progressInterval s in
       ticks n' progressPerSecond progressInterval s')%js
  end.

End ProgressSim.

(** ** The chunked upload flow *)

Module Flow.
Section WithEnv.
Context (env : Env).
Import JsString.

Record FlowResult : Type := {
  fr_txId : string;
  fr_pinId : string
}.

Definition showToast (text : string) (level : ToastLevel) : M unit :=
  emit (EvToast text level).

Definition showChunkedUploadConfirmation (file : File)
    (estimateResult : FeeEstimate) : M bool :=
  let* h := history in
  emit EvConfirmDialog ;;
  ret (confirmDialog env h file estimateResult).

(** The amounts computed between the confirmation and the wallet calls. *)
Record Fees : Type := {
  feeRate : Num.number;
  chunkPreTxBuildFee : Z;
  indexPreTxBuildFee : Z;
  chunkPreTxOutputAmount : Z;
  indexPreTxOutputAmount : Z;
  mergeTxFee : Z;
  totalRequiredAmount : Z
}.

(** Each fee is the product of a size and the rate as the engine computes
    it, in double precision, rounded up by [Math.ceil]; it enters the amounts
    as the integer it holds. *)
Definition computeFees (chainStore : ChainStore) (estimateResult : FeeEstimate)
  : Fees :=
  let preTxBaseSize := 200 in
  let preTxInputSize := 150 in
  let feeRate := Chain.feeRateOrDefault chainStore in
  let chunkPreTxSize := preTxBaseSize + preTxInputSize in
  let chunkPreTxBuildFee :=
    Num.toZ (Num.ceil (Num.mul (Num.ofZ chunkPreTxSize) feeRate)) in
  let indexPreTxSize := preTxBaseSize + preTxInputSize in
  let indexPreTxBuildFee :=
    Num.toZ (Num.ceil (Num.mul (Num.ofZ indexPreTxSize) feeRate)) in
  let chunkPreTxOutputAmount := chunkPreTxFee estimateResult + chunkPreTxBuildFee in
  let indexPreTxOutputAmount := indexPreTxFee estimateResult + indexPreTxBuildFee in
  let mergeTxBaseSize := 200 in
  let mergeTxInputSize := 150 in
  let mergeTxOutputSize := 34 in
  let estimatedMergeTxInputs := 2 in
  let mergeTxSize :=
    mergeTxBaseSize + (mergeTxInputSize * estimatedMergeTxInputs)
    + (mergeTxOutputSize * 2) in
  let mergeTxFee := Num.toZ (Num.ceil (Num.mul (Num.ofZ mergeTxSize) feeRate)) in
  let totalRequiredAmount :=
    chunkPreTxOutputAmount + indexPreTxOutputAmount + mergeTxFee in
  {| feeRate := feeRate;
     chunkPreTxBuildFee := chunkPreTxBuildFee;
     indexPreTxBuildFee := indexPreTxBuildFee;
     chunkPreTxOutputAmount := chunkPreTxOutputAmount;
     indexPreTxOutputAmount := indexPreTxOutputAmount;
     mergeTxFee := mergeTxFee;
     totalRequiredAmount := totalRequiredAmount |}.

(** The synchronous branch up to the settled request: the timer runs
    beside the request and is cleared when the request settles. *)
Definition syncUpload (file : File) (storageKey : string)
    (chunkPreTxHex indexPreTxHex mergeTxHex : string)
    (chunkedUploadChunkNumber : Z) : M (option UploadResult) :=
  let progressPerSecond := ProgressSim.progressPerSecond chunkedUploadChunkNumber in
  let* progressInterval := setInterval in
  let* h := history in
  let* _ := ProgressSim.ticks (timerTicks env h) progressPerSecond
              progressInterval ProgressSim.start in
  try_catch
    (let* uploadResult :=
       Backend.chunkedUpload env file None storageKey chunkPreTxHex
                             indexPreTxHex mergeTxHex in
     (if negb (progressInterval =? 0)%nat then clearInterval progressInterval
      else ret tt) ;;
     ret uploadResult)
    (fun error =>
       (if negb (progressInterval =? 0)%nat then clearInterval progressInterval
        else ret tt) ;;
       throw error).

(** From the fee computation to the end of the [try] block.  The hook's
    variable [chunkedUploadChunkNumber] is written once, from the estimate,
    and read once, by the synchronous branch: the estimate's field stands
    for it.  [loadChunkTasks] is started and not awaited. *)
Definition submitStage (chainStore : ChainStore) (file : File)
    (asynchronous : bool) (storageKey : string) (estimateResult : FeeEstimate)
  : M (option FlowResult) :=
  let fees := computeFees chainStore estimateResult in
  let* allUtxos := Chain.getWalletUTXOs env (totalRequiredAmount fees) in
  showToast "Please confirm merge transaction in wallet..." LInfo ;;
  let* mergeResult :=
    Chain.buildChunkedUploadMergeTx env allUtxos
      (chunkPreTxOutputAmount fees) (indexPreTxOutputAmount fees)
      (mergeTxFee fees) in
  showToast "Please confirm pre-transactions in wallet..." LInfo ;;
  let chunkPreTxUtxo :=
    {| utxos := [{| txId := Chain.mergeTxId mergeResult;
                    outputIndex := Chain.chunkPreTxOutputIndex mergeResult;
                    script := Chain.chunkPreTxScript mergeResult;
                    satoshis := chunkPreTxOutputAmount fees |}];
       totalAmount := chunkPreTxOutputAmount fees |} in
  let* chunkPreTxHex :=
    Chain.buildChunkFundingPreTx env chunkPreTxUtxo (chunkPreTxFee estimateResult) in
  let indexPreTxUtxo :=
    {| utxos := [{| txId := Chain.mergeTxId mergeResult;
                    outputIndex := Chain.indexPreTxOutputIndex mergeResult;
                    script := Chain.indexPreTxScript mergeResult;
                    satoshis := indexPreTxOutputAmount fees |}];
       totalAmount := indexPreTxOutputAmount fees |} in
  let* indexPreTxHex :=
    Chain.buildIndexPreTx env indexPreTxUtxo (indexPreTxFee estimateResult) in
  if asynchronous then
    Backend.createChunkedUploadTask env file None storageKey chunkPreTxHex
      indexPreTxHex (Chain.mergeTxHex mergeResult) ;;
    showToast "🎉 Async chunk upload task created! Monitor progress in task list."
              LSuccess ;;
    emit EvLoadTasks ;;
    ret None
  else
    let* uploadResult :=
      syncUpload file storageKey chunkPreTxHex indexPreTxHex
                 (Chain.mergeTxHex mergeResult) (chunkNumber estimateResult) in
    match uploadResult with
    | None => throw (TypeError "status")
    | Some uploadResult =>
        if String.eqb (ur_status uploadResult) "failed" then
          throw (Error (or_string (ur_message uploadResult)
                                  "Upload failed with unknown error"))
        else
          showToast "🎉 File uploaded successfully!" LSuccess ;;
          ret (Some {| fr_txId := ur_indexTxId uploadResult;
                       fr_pinId := ur_indexTxId uploadResult +:+ "i0" |})
    end.

Definition flowLabel : string := "Async Chunked Upload Task".

(** The body of the [try] block. *)
Definition flowBody (chainStore : ChainStore) (file : File) (asynchronous : bool)
  : M (option FlowResult) :=
  showToast ("Starting " +:+ flowLabel +:+ "...") LInfo ;;
  let* storageKey := Oss.uploadFileToOSS env file in
  let* estimateResult := Backend.estimateChunkedUploadFee env file None storageKey in
  match estimateResult with
  | None => throw (TypeError "chunkNumber")
  | Some estimateResult =>
      let* confirmed := showChunkedUploadConfirmation file estimateResult in
      if negb confirmed then ret None
      else submitStage chainStore file asynchronous storageKey estimateResult
  end.

(** The [catch] block. *)
Definition flowCatch (error : Thrown) : M (option FlowResult) :=
  (if match message_of error with
      | Some m => (truthy m && includes "user cancelled" m)%bool
      | None => false
      end
   then showToast (flowLabel +:+ " cancelled") LWarning
   else showToast (flowLabel +:+ " failed: " +:+ show_message error) LError) ;;
  ret None.

(** The address of the user is read between the check of the dependencies
    and the [try] block. *)
Definition runChunkedUploadFlow (file : File) (asynchronous : bool)
  : M (option FlowResult) :=
  match toastInstance env, chainStoreInstance env, userStoreInstance env with
  | true, Some chainStore, Some userStore =>
      let* currentAddress := await (readLast userStore "address" address) in
      try_catch (flowBody chainStore file asynchronous) flowCatch
  | _, _, _ =>
      throw (Error "Required dependencies (toast, chainStore, userStore) are not available")
  end.

End WithEnv.
End Flow.

(** ** A concrete set of collaborators

    A small world on which the functions can be run: a wallet holding the
    given outputs, a store that lists the given parts and accepts every
    request, and a library whose scripts are readable text. *)

Module Demo.

Definition user : UserInfo := {| metaid := "meta1"; address := "addr1" |}.

Definition file : File :=
  {| file_name := "movie.bin"; file_size := 2621440;
     file_type := "application/octet-stream" |}.

Definition accept {D} (d : D) : Outcome (Response D) :=
  Return {| ok := true; status := 200;
            json := Return {| code := 0; message := None; data := Some d |} |}.

Definition lock (a : string) : string := "76a914" +:+ a +:+ "88ac".

Definition unlock (s : string) : AddressResult :=
  if JsString.startsWith "76a914" s
  then Addr (String.substring 6 (String.length s - 10) s)
  else AddrNone.

Definition estimate : FeeEstimate :=
  {| chunkSize := 1048576; chunkNumber := 3; chunkPreTxFee := 5000;
     indexPreTxFee := 800; perChunkFee := 1500; totalFee := 5800 |}.

Definition env (wallet : list WalletUtxo) (listed : list UploadPart)
    (payed : Outcome (option Transaction)) (rate : option Num.number) : Env :=
  {| toastInstance := true;
     chainStoreInstance := Some {| mvcFeeRate := rate |};
     userStoreInstance := Some {| last := Some user |};
     BufferInstance := true;
     mvcInstance := true;
     TxComposerInstance := true;
     buildPublicKeyHashOut := fun a => Return (lock a);
     buildPublicKeyHashIn := fun pk der t => der +:+ JsString.ofZ t +:+ pk;
     signatureToDER := fun s => Return ("30" +:+ s);
     toAddress := unlock;
     toHex := fun tx =>
       Return (JsString.ofZ (version tx) +:+ ":"
               +:+ JsString.ofZ (Z.of_nat (length (inputs tx))) +:+ ":"
               +:+ JsString.ofZ (Z.of_nat (length (outputs tx))));
     getTxId := fun tx => "merge-txid";
     dateNow := fun h => 1700000000000 + Z.of_nat (length h);
     readAsDataURL := fun h f a b => Return ("bytes" +:+ JsString.ofZ a);
     confirmDialog := fun h f e => true;
     timerTicks := fun h => 4%nat;
     fetchListParts := fun h r => accept (Some listed);
     fetchInitiate := fun h r => accept ("upload-1", "k1");
     fetchUploadPart := fun h r =>
       match r with
       | ReqUploadPart _ _ n _ => accept ("etag-" +:+ JsString.ofZ n)
       | _ => Throw NonError
       end;
     fetchComplete := fun h r => accept "k1";
     fetchEstimate := fun h r => accept estimate;
     fetchCreateTask := fun h r => accept tt;
     fetchChunkedUpload := fun h r =>
       accept {| ur_status := "success"; ur_message := None;
                 ur_indexTxId := "index-txid" |};
     walletGetUtxos := fun h => Return (Some wallet);
     walletPayAvailable := true;
     walletPay := fun h p => payed;
     walletSignTransaction := fun h r =>
       Return (Some {| sig := "c0ffee"; publicKey := "02ab" |}) |}.

Definition plain : Env := env [] [] (Return None) (Some (Num.ofZ 1)).

(** The same collaborators, except that the store answers HTTP 500 to the
    upload of part [failing]. *)
Definition interrupted (failing : Z) : Env :=
  let e := plain in
  {| toastInstance := toastInstance e;
     chainStoreInstance := chainStoreInstance e;
     userStoreInstance := userStoreInstance e;
     BufferInstance := BufferInstance e;
     mvcInstance := mvcInstance e;
     TxComposerInstance := TxComposerInstance e;
     buildPublicKeyHashOut := buildPublicKeyHashOut e;
     buildPublicKeyHashIn := buildPublicKeyHashIn e;
     signatureToDER := signatureToDER e;
     toAddress := toAddress e;
     toHex := toHex e;
     getTxId := getTxId e;
     dateNow := dateNow e;
     readAsDataURL := readAsDataURL e;
     confirmDialog := confirmDialog e;
     timerTicks := timerTicks e;
     fetchListParts := fetchListParts e;
     fetchInitiate := fetchInitiate e;
     fetchUploadPart := fun h r =>
       match r with
       | ReqUploadPart _ _ n _ =>
           if n =? failing
           then Return {| ok := false; status := 500; json := Throw NonError |}
           else fetchUploadPart e h r
       | _ => fetchUploadPart e h r
       end;
     fetchComplete := fetchComplete e;
     fetchEstimate := fetchEstimate e;
     fetchCreateTask := fetchCreateTask e;
     fetchChunkedUpload := fetchChunkedUpload e;
     walletGetUtxos := walletGetUtxos e;
     walletPayAvailable := walletPayAvailable e;
     walletPay := walletPay e;
     walletSignTransaction := walletSignTransaction e |}.

(** The same collaborators, with a user store that holds no record: nobody
    has signed in. *)
Definition signedOut : Env :=
  let e := plain in
  {| toastInstance := toastInstance e;
     chainStoreInstance := chainStoreInstance e;
     userStoreInstance := Some {| last := None |};
     BufferInstance := BufferInstance e;
     mvcInstance := mvcInstance e;
     TxComposerInstance := TxComposerInstance e;
     buildPublicKeyHashOut := buildPublicKeyHashOut e;
     buildPublicKeyHashIn := buildPublicKeyHashIn e;
     signatureToDER := signatureToDER e;
     toAddress := toAddress e;
     toHex := toHex e;
     getTxId := getTxId e;
     dateNow := dateNow e;
     readAsDataURL := readAsDataURL e;
     confirmDialog := confirmDialog e;
     timerTicks := timerTicks e;
     fetchListParts := fetchListParts e;
     fetchInitiate := fetchInitiate e;
     fetchUploadPart := fetchUploadPart e;
     fetchComplete := fetchComplete e;
     fetchEstimate := fetchEstimate e;
     fetchCreateTask := fetchCreateTask e;
     fetchChunkedUpload := fetchChunkedUpload e;
     walletGetUtxos := walletGetUtxos e;
     walletPayAvailable := walletPayAvailable e;
     walletPay := walletPay e;
     walletSignTransaction := walletSignTransaction e |}.

(** What the store lists once parts 1 and 2 have arrived. *)
Definition listedTwo : list UploadPart :=
  [{| partNumber := 1; etag := "etag-1"; part_size := 1048576 |};
   {| partNumber := 2; etag := "etag-2"; part_size := 1048576 |}].

Definition coin (id : string) (value : Z) : WalletUtxo :=
  {| w_txid := id; w_outIndex := 0; w_address := address user; w_value := value |}.

Definition wallet : list WalletUtxo :=
  [coin "a" 500; coin "b" 1000; coin "c" 3000; coin "d" 2000].

Definition dustWallet : list WalletUtxo := [coin "a" 500].

Definition richWallet : list WalletUtxo := [coin "e" 700; coin "f" 9000].


Definition pays (a : string) (amount : Z) : TxOutput :=
  {| out_script := lock a; out_satoshis := amount |}.

(** A signed merge transaction none of whose outputs pays the caller. *)
Definition payedElsewhere : Transaction :=
  {| version := 10; inputs := []; outputs := [pays "addr9" 5350; pays "addr9" 1150] |}.

(** A signed merge transaction whose index output comes first, followed by
    the wallet's change, paid to the caller as well, and by the chunk
    output. *)
Definition payedReordered : Transaction :=
  {| version := 10; inputs := [];
     outputs := [pays "addr1" 1150; pays "addr1" 90000; pays "addr1" 5350] |}.

(** A signed merge transaction in which the wallet's change, paid to the
    caller and 350 satoshis short of the chunk amount, comes before the two
    requested outputs. *)
Definition payedWithChange : Transaction :=
  {| version := 10; inputs := [];
     outputs := [pays "addr1" 5000; pays "addr1" 5350; pays "addr1" 1150] |}.

Definition funding : Utxo :=
  {| txId := "merge-txid"; outputIndex := 0; script := Some (lock "addr1");
     satoshis := 5350 |}.

Definition selection : UtxoData :=
  {| utxos := [{| txId := "c"; outputIndex := 0; script := Some (lock "addr1");
                  satoshis := 3000 |}];
     totalAmount := 3000 |}.

Definition world (store : gmap string Stored) : World :=
  {| localStorage := store; trace := []; timers := [] |}.

Definition session (stamp : Z) : SessionData :=
  {| uploadId := "upload-0"; key := "k0";
     fileName := file_name file; fileSize := file_size file;
     s_metaId := metaid user; s_address := address user;
     timestamp := stamp |}.

Definition sessionKey : string :=
  Session.getUploadSessionKey file (metaid user) (address user).

Definition stored (stamp : Z) : gmap string Stored :=
  {[ sessionKey := SessionJson (session stamp) ]}.

End Demo.

(** ** Vocabulary of the statements *)

Module Spec.

Definition sumValues (l : list WalletUtxo) : Z :=
  foldr (fun u acc => w_value u + acc) 0 l.

(** The wallet outputs above the 600 satoshi threshold. *)
Definition spendable (wallet : list WalletUtxo) : list WalletUtxo :=
  List.filter (fun utxo => w_value utxo >? 600) wallet.

Definition byValueDescending (a b : WalletUtxo) : Z := w_value b - w_value a.

(** A wallet output as the selection records it. *)
Definition selected (lockingScript : string -> string) (u : WalletUtxo) : Utxo :=
  {| txId := w_txid u; outputIndex := w_outIndex u;
     script := Some (lockingScript (w_address u)); satoshis := w_value u |}.

(** How many outputs the greedy accumulation takes from the front of [l]
    when it starts with [total] already gathered. *)
Fixpoint greedyCount (requiredAmount : Z) (l : list WalletUtxo) (total : Z) : nat :=
  match l with
  | [] => O
  | u :: rest =>
      if total + w_value u >=? requiredAmount + 1 then 1%nat
      else S (greedyCount requiredAmount rest (total + w_value u))
  end.


(** The output pays the caller's own address. *)
Definition ownOutput (env : Env) (ownAddress : string) (o : TxOutput) : bool :=
  match toAddress env (out_script o) with
  | Addr a => String.eqb a ownAddress
  | AddrNone | AddrThrows => false
  end.

(** Two amounts are within the matching tolerance of each other. *)
Definition near (a b : Z) : bool := Z.abs (a - b) <=? 1000.

(** The output can be claimed at all: it pays the caller's address and its
    amount is within tolerance of one of the two requested amounts. *)
Definition candidate (env : Env) (ownAddress : string)
    (chunkAmount indexAmount : Z) (o : TxOutput) : bool :=
  ownOutput env ownAddress o
  && (near (out_satoshis o) chunkAmount || near (out_satoshis o) indexAmount).

(** The open pre-transaction over one unspent output: version 10, that
    output as its only input, no output; [unlockingScript] is what the input
    carries. *)
Definition openTx (u : Utxo) (unlockingScript : option string) : Transaction :=
  {| version := 10;
     inputs := [{| prevTxId := txId u;
                   in_outputIndex := outputIndex u;
                   in_output := {| out_script := default "" (script u);
                                   out_satoshis := satoshis u |};
                   in_script := unlockingScript |}];
     outputs := [] |}.

(** The signature request for input 0 of the serialized [txHex]. *)
Definition openSignRequest (ownAddress txHex : string) (u : Utxo) : SignRequest :=
  {| sr_txHex := txHex; sr_address := ownAddress; sr_inputIndex := 0;
     sr_scriptHex := script u; sr_satoshis := satoshis u;
     sr_sigtype := 0x42 |}.

(** What it means for [hex] to be the open pre-transaction over [u]: the
    wallet was asked once, for input 0 of the unsigned transaction and with
    mode [0x2 | 0x40]; the unlocking script built from its answer sits in
    the only input; the transaction has no output; [hex] is its
    serialization. *)
Definition openlySigned (env : Env) (ownAddress : string) (u : Utxo)
    (w : World) (hex : string) (w' : World) : Prop :=
  exists (txHex : string) (signature : SignResult) (der : string)
         (request : SignRequest) (tx : Transaction),
    toHex env (openTx u None) = Return txHex
    /\ request = openSignRequest ownAddress txHex u
    /\ sr_sigtype request = Z.lor 0x2 0x40
    /\ sr_inputIndex request = 0
    /\ walletSignTransaction env (trace w) request = Return (Some signature)
    /\ signatureToDER env (sig signature) = Return der
    /\ tx = openTx u (Some (buildPublicKeyHashIn env (publicKey signature) der
                              (Z.lor 0x2 0x40)))
    /\ length (inputs tx) = 1%nat
    /\ outputs tx = []
    /\ toHex env tx = Return hex
    /\ trace w' = trace w ++ [EvSign request]
    /\ localStorage w' = localStorage w.

(** The part numbers [p], [p + 1], ... ([n] of them). *)
Fixpoint countFrom (p : Z) (n : nat) : list Z :=
  match n with
  | O => []
  | S n' => p :: countFrom (p + 1) n'
  end.

(** The number of parts of a file and the byte size of part [p]. *)
Definition totalParts (file : File) : nat :=
  Z.to_nat (ceil_div (file_size file) Oss.MULTIPART_CHUNK_SIZE).

Definition partSize (file : File) (p : Z) : Z :=
  Z.min ((p - 1) * Oss.MULTIPART_CHUNK_SIZE + Oss.MULTIPART_CHUNK_SIZE) (file_size file)
  - (p - 1) * Oss.MULTIPART_CHUNK_SIZE.

(** Among [n] part numbers from [p], those the store has not listed. *)
Fixpoint missing (existing : gmap Z UploadPart) (p : Z) (n : nat) : list Z :=
  match n with
  | O => []
  | S n' =>
      match existing !! p with
      | Some _ => missing existing (p + 1) n'
      | None => p :: missing existing (p + 1) n'
      end
  end.

(** The progress reports of [n] parts from [p], [bytes] being counted
    before them: each part, skipped or uploaded, adds its size. *)
Fixpoint progressFrom (file : File) (total : Z) (p : Z) (n : nat) (bytes : Z)
  : list (Z * Z * Z * Z) :=
  match n with
  | O => []
  | S n' =>
      (p, total, bytes + partSize file p, file_size file)
        :: progressFrom file total (p + 1) n' (bytes + partSize file p)
  end.

(** Reading the trace: the parts sent to the store, the completion calls,
    the initiations, and the progress reports. *)
Definition uploadedPart (e : Event)
  : option (option string * option string * Z) :=
  match e with
  | EvFetch (ReqUploadPart u k n _) => Some (u, k, n)
  | _ => None
  end.

Definition completion (e : Event)
  : option (option string * option string * list UploadPart) :=
  match e with
  | EvFetch (ReqComplete u k parts) => Some (u, k, parts)
  | _ => None
  end.

Definition initiation (e : Event) : option string :=
  match e with
  | EvFetch (ReqInitiate name _ _ _) => Some name
  | _ => None
  end.

Definition progressReport (e : Event) : option (Z * Z * Z * Z) :=
  match e with
  | EvProgress a b c d => Some (a, b, c, d)
  | _ => None
  end.

Definition uploadedParts (evs : list Event)
  : list (option string * option string * Z) :=
  omap uploadedPart evs.

Definition completions (evs : list Event)
  : list (option string * option string * list UploadPart) :=
  omap completion evs.

Definition initiations (evs : list Event) : list string := omap initiation evs.

Definition progressReports (evs : list Event) : list (Z * Z * Z * Z) :=
  omap progressReport evs.

(** The test of the [catch] block: the thrown value has a message that
    mentions a cancellation by the user. *)
Definition userCancelled (t : Thrown) : bool :=
  match t with
  | Error m => JsString.includes "user cancelled" m
  | NonError => false
  end.

(** The toast the [catch] block shows for a thrown value. *)
Definition failureToast (t : Thrown) : Event :=
  if userCancelled t
  then EvToast "Async Chunked Upload Task cancelled" LWarning
  else EvToast ("Async Chunked Upload Task failed: " +:+ show_message t) LError.

Definition setTimers (T : list TimerCall) (w : World) : World :=
  {| localStorage := localStorage w; trace := trace w; timers := T |}.

(** The progress the timer callback computes in second [k], and whether it
    is at the ceiling or beyond: [currentProgress >= 90]. *)
Definition progressAt (perSecond : Num.number) (k : Z) : Num.number :=
  Num.add ProgressSim.baseProgress (Num.mul perSecond (Num.ofZ k)).

Definition reachesCeiling (perSecond : Num.number) (k : Z) : bool :=
  Num.leb (Num.ofZ 90) (progressAt perSecond k).

(** The first of the [n] seconds from [k] on in which the callback reaches
    the ceiling. *)
Fixpoint firstCeiling (perSecond : Num.number) (k : Z) (n : nat) : option Z :=
  match n with
  | O => None
  | S n' =>
      if reachesCeiling perSecond k then Some k
      else firstCeiling perSecond (k + 1) n'
  end.

Definition after (w : World) (e : Event) : World :=
  {| localStorage := localStorage w; trace := trace w ++ [e]; timers := timers w |}.

End Spec.

(** ** Direct upload: the hook [useFileToChainDirect]

    The second hook shares the stores, the library and the wallet with the
    first one.  What it receives beside them is gathered in [Site]. *)

Module Direct.
Import JsString.

Record Constants : Type := {
  METAFS_API_UPLOADER : option string;
  METAFS_API_BASE : option string
}.

(** The fields appended to the form of the upload request. *)
Record FormData : Type := {
  f_file : File;
  f_path : string;
  f_mergeTxHex : option string;
  f_preTxHex : string;
  f_operation : string;
  f_contentType : string;
  f_metaId : string;
  f_address : string;
  f_changeAddress : string;
  f_feeRate : string;
  f_totalInputAmount : string
}.

Record DirectResult : Type := {
  d_txId : string;
  d_pinId : string;
  d_status : string
}.

(** [constantsInstance], [Number.prototype.toString] on the fee rate, and
    the answer of the upload endpoint to a form posted to a URL.  The upload
    request leaves no event in the trace; its answer may still depend on
    everything that happened before. *)
Record Site : Type := {
  constantsInstance : option Constants;
  numberToString : Num.number -> string;
  fetchDirectUpload : list Event -> string -> FormData -> Outcome (Response DirectResult)
}.

(** What [mergeUTXOs] returns. *)
Record Merged : Type := {
  merged_utxos : list Utxo;
  merged_totalAmount : Z;
  merged_mergeTxId : string;
  merged_mergeTxHex : string
}.

Section WithEnv.
Context (env : Env) (site : Site).

Definition API_BASE : string := "https://file.metaid.io/metafile-uploader".

(** The fee is computed in double precision and handed on as the integer
    it holds. *)
Definition estimateUploadFee (file : File) : M Z :=
  try_catch
    (match chainStoreInstance env with
     | None => throw (Error "ChainStore not available")
     | Some chainStore =>
         let baseSize := 200 in
         let inputSize := 150 in
         let outputSize := 34 in
         let opReturnOverhead := 50 in
         let fileSize := file_size file in
         let path := "/file" in
         let fileHost := "" in
         let finalPath := if truthy fileHost then fileHost +:+ ":" +:+ path else path in
         let metadataSize := 6 + 10 + Z.of_nat (String.length finalPath) + 10 + 10 + 50 in
         let opReturnSize := opReturnOverhead + metadataSize + fileSize in
         let estimatedTxSize := baseSize + inputSize + outputSize * 2 + opReturnSize in
         let feeRate := Chain.feeRateOrDefault chainStore in
         let estimatedFee := Num.ceil (Num.mul (Num.ofZ estimatedTxSize) feeRate) in
         let feeWithMargin := Num.ceil (Num.mul estimatedFee (Num.decimal 12 10)) in
         ret (Num.toZ feeWithMargin)
     end)
    (fun error =>
       throw (Error ("Failed to estimate upload fee: " +:+ show_message error))).

(** The search loop of [mergeUTXOs]: the first output that pays the
    caller's address, with its position and amount. *)
Fixpoint findOwnOutput (ownAddress : string) (outs : list TxOutput) (i : Z)
  : option (Z * Z) :=
  match outs with
  | [] => None
  | output :: rest =>
      match toAddress env (out_script output) with
      | Addr addr =>
          if String.eqb addr ownAddress then Some (i, out_satoshis output)
          else findOwnOutput ownAddress rest (i + 1)
      | AddrNone => findOwnOutput ownAddress rest (i + 1)
      | AddrThrows => findOwnOutput ownAddress rest (i + 1)
      end
  end.

Definition mergeUTXOs (utxoData : UtxoData) (estimatedFee : Z) : M Merged :=
  try_catch
    (match userStoreInstance env, chainStoreInstance env with
     | Some userStore, Some chainStore =>
         if negb (mvcInstance env && TxComposerInstance env) then
           throw (Error "MetaIDJs library (mvc/TxComposer) not available")
         else if negb (walletPayAvailable env) then
           throw (Error "Wallet does not support pay method")
         else
           let mergeTx := Mvc.setVersion 10 Mvc.newTransaction in
           let* ownAddress := await (readLast userStore "address" address) in
           let* mergeTx := await (Mvc.to env mergeTx ownAddress estimatedFee) in
           let feeRate := Chain.feeRateOrDefault chainStore in
           let payParams :=
             {| pay_txComposer := mergeTx;
                pay_message := "Merge UTXOs";
                pay_feeb := feeRate |} in
           let* h := history in
           emit (EvPay payParams) ;;
           let* payResult := await (walletPay env h payParams) in
           match payResult with
           | None => throw (TypeError "0")
           | Some parsedMergeTx =>
               let* signedMergeTxHex := await (toHex env parsedMergeTx) in
               let mergeTxId := getTxId env parsedMergeTx in
               let* merged :=
                 match findOwnOutput ownAddress (outputs parsedMergeTx) 0 with
                 | Some found => ret found
                 | None =>
                     (* Fallback: use the first output *)
                     match outputs parsedMergeTx !! 0%nat with
                     | Some first => ret (0, out_satoshis first)
                     | None => throw (TypeError "satoshis")
                     end
                 end in
               let mergedOutputIndex := fst merged in
               let mergedOutputAmount := snd merged in
               match outputs parsedMergeTx !! Z.to_nat mergedOutputIndex with
               | None => throw (TypeError "script")
               | Some output =>
                   let newUtxo :=
                     {| txId := mergeTxId;
                        outputIndex := mergedOutputIndex;
                        script := Some (out_script output);
                        satoshis := mergedOutputAmount |} in
                   ret {| merged_utxos := [newUtxo];
                          merged_totalAmount := satoshis newUtxo;
                          merged_mergeTxId := mergeTxId;
                          merged_mergeTxHex := signedMergeTxHex |}
               end
           end
     | _, _ => throw (Error "Required stores not available")
     end)
    (fun error => throw (Error ("Failed to merge UTXOs: " +:+ show_message error))).

(** [0x3 | 0x80 | 0x40], the signature mode of the base transaction. *)
Definition baseSigtype : Z := Z.lor (Z.lor 0x3 0x80) 0x40.

Definition buildAndSignBaseTx (utxoData : UtxoData) : M string :=
  try_catch
    (match userStoreInstance env with
     | None => throw (Error "UserStore not available")
     | Some userStore =>
         if negb (mvcInstance env && BufferInstance env) then
           throw (Error "MetaIDJs library (mvc) or Buffer not available")
         else
           match utxos utxoData with
           | [utxo] =>
               let tx := Mvc.setVersion 10 Mvc.newTransaction in
               let tx := Mvc.from tx utxo in
               let* ownAddress := await (readLast userStore "address" address) in
               let* tx := await (Mvc.to env tx ownAddress 1) in
               let* txHex := await (toHex env tx) in
               let request :=
                 {| sr_txHex := txHex;
                    sr_address := ownAddress;
                    sr_inputIndex := 0;
                    sr_scriptHex := script utxo;
                    sr_satoshis := satoshis utxo;
                    sr_sigtype := baseSigtype |} in
               let* h := history in
               emit (EvSign request) ;;
               let* signResult := await (walletSignTransaction env h request) in
               match signResult with
               | None => throw (Error "Failed to get signature")
               | Some signature =>
                   if negb (truthy (sig signature)) then
                     throw (Error "Failed to get signature")
                   else
                     let* der := await (signatureToDER env (sig signature)) in
                     let unlockingScript :=
                       buildPublicKeyHashIn env (publicKey signature) der baseSigtype in
                     let* tx := await (Mvc.setScript tx 0 unlockingScript) in
                     await (toHex env tx)
               end
           | other =>
               throw (Error ("SIGHASH_SINGLE requires exactly 1 UTXO, got "
                             +:+ ofZ (Z.of_nat (length other))))
           end
     end)
    (fun error =>
       throw (Error ("Failed to build/sign MVC transaction: " +:+ show_message error))).

(** The content type of this hook: [;binary] is appended to every type that
    does not carry it, text types included. *)
Definition contentTypeOf (file : File) : string :=
  let contentType :=
    if truthy (file_type file) then file_type file
    else "application/octet-stream" in
  if negb (includes ";binary" contentType) then contentType +:+ ";binary"
  else contentType.

Definition apiBase : string :=
  let constants := constantsInstance site in
  or_string (constants ≫= METAFS_API_UPLOADER)
            (or_string (constants ≫= METAFS_API_BASE) API_BASE).

Definition directUpload (file : File) (preTxHex : string) (totalInputAmount : Z)
    (mergeTxHex : string) : M DirectResult :=
  try_catch
    (match chainStoreInstance env, userStoreInstance env with
     | Some chainStore, Some userStore =>
         let contentType := contentTypeOf file in
         let path := "/file" in
         let fileHost := "" in
         let finalPath := if truthy fileHost then fileHost +:+ ":" +:+ path else path in
         let* metaId := await (readLast userStore "metaid" metaid) in
         let* ownAddress := await (readLast userStore "address" address) in
         let* feeRate :=
           match mvcFeeRate chainStore with
           | None => throw (TypeError "toString")
           | Some rate => ret (or_string (Some (numberToString site rate)) "1")
           end in
         let formData :=
           {| f_file := file;
              f_path := finalPath;
              f_mergeTxHex := if truthy mergeTxHex then Some mergeTxHex else None;
              f_preTxHex := preTxHex;
              f_operation := "create";
              f_contentType := contentType;
              f_metaId := metaId;
              f_address := ownAddress;
              f_changeAddress := ownAddress;
              f_feeRate := feeRate;
              f_totalInputAmount := ofZ totalInputAmount |} in
         let* h := history in
         let* response :=
           await (fetchDirectUpload site h (apiBase +:+ "/api/v1/files/direct-upload")
                                    formData) in
         let* data := Backend.readData response in
         match data with
         | None => throw (TypeError "txId")
         | Some uploadResult => ret uploadResult
         end
     | _, _ => throw (Error "Required stores not available")
     end)
    (fun error => throw (Error ("DirectUpload failed: " +:+ show_message error))).

(** Steps 3 to 5 of [uploadFileToChainDirect]: the fee, the wallet outputs,
    and their merge when more than one was selected.  The result is
    [finalUtxo] with [mergeTxHex]. *)
Definition fundUpload (file : File) : M (UtxoData * string) :=
  let* estimatedFee := estimateUploadFee file in
  let* selection := Chain.getWalletUTXOs env estimatedFee in
  if (Z.of_nat (length (utxos selection)) >? 1) then
    let* mergeResult := mergeUTXOs selection estimatedFee in
    ret ({| utxos := merged_utxos mergeResult;
            totalAmount := merged_totalAmount mergeResult |},
         or_string (Some (merged_mergeTxHex mergeResult)) "")
  else
    ret ({| utxos := utxos selection; totalAmount := totalAmount selection |}, "").

Definition uploadFileToChainDirect (file : File) : M DirectResult :=
  try_catch
    (match toastInstance env, chainStoreInstance env, userStoreInstance env with
     | true, Some chainStore, Some userStore =>
         let contentType := contentTypeOf file in
         let* funded := fundUpload file in
         let finalUtxo := fst funded in
         let mergeTxHex := snd funded in
         Flow.showToast "Please confirm signature in wallet..." LInfo ;;
         let* preTxHex := buildAndSignBaseTx finalUtxo in
         directUpload file preTxHex (totalAmount finalUtxo) mergeTxHex
     | _, _, _ =>
         throw (Error "Required dependencies (toast, chainStore, userStore) are not available")
     end)
    (fun error => throw error).

End WithEnv.
End Direct.

(** ** The task list *)

Module Tasks.
Import JsString.

Record Task : Type := {
  taskId : string;
  t_status : option string;
  t_progress : option Z;
  processedChunks : option Z;
  totalChunks : option Z;
  errorMessage : option string
}.

(** [result.data] of the task endpoint. *)
Record TaskPage : Type := {
  tasks : option (list Task);
  nextCursor : option Z;
  hasMore : bool
}.

(** The three variables of the hook that the loader reads and writes. *)
Record State : Type := {
  taskList : list Task;
  taskCursor : Z;
  taskHasMore : bool
}.

Definition initial : State :=
  {| taskList := []; taskCursor := 0; taskHasMore := false |}.

(** Whether the page holds the list container, and the answer of the task
    endpoint to a request for an address, a cursor and a page size. *)
Record Page : Type := {
  taskListContainer : bool;
  fetchTasks : list Event -> string -> Z -> Z -> Outcome (Response TaskPage)
}.

Section WithEnv.
Context (env : Env) (page : Page).

Definition TASK_PAGE_SIZE : Z := 10.

(** [loadChunkTasks({append, silent})], from the hook's variables to their
    new values, for a call that runs alone.  Over tasks of the shape of
    [Task] drawing the cards does not throw; it is left to the page, as is
    the state of the button. *)
Definition loadChunkTasks (append silent : bool) (s : State) : M State :=
  match userStoreInstance env, toastInstance env with
  | Some userStore, true =>
      if negb (taskListContainer page) then ret s
      else if (append && negb (taskHasMore s))%bool then
        Flow.showToast "No more tasks" LInfo ;; ret s
      else
        try_catch
          (let cursorParam := if append then taskCursor s else 0 in
           let* ownAddress := await (readLast userStore "address" address) in
           let* h := history in
           let* response :=
             await (fetchTasks page h ownAddress cursorParam TASK_PAGE_SIZE) in
           if negb (ok response) then
             throw (Error ("HTTP Error: " +:+ ofZ (status response)))
           else
             let* result := await (json response) in
             if negb (code result =? 0) then
               throw (Error (or_string (message result) "Failed to fetch tasks"))
             else
               let data :=
                 default {| tasks := Some []; nextCursor := Some 0; hasMore := false |}
                         (data result) in
               let tasks := default [] (tasks data) in
               let taskList := if negb append then tasks else taskList s ++ tasks in
               ret {| taskList := taskList;
                      taskCursor := default 0 (nextCursor data);
                      taskHasMore := hasMore data |})
          (fun error =>
             (if negb silent then
                Flow.showToast ("Failed to load tasks: " +:+ show_message error) LError
              else ret tt) ;;
             ret s)
  | _, _ => ret s
  end.

End WithEnv.
End Tasks.

(** ** Concrete collaborators of the direct upload and of the task list *)

Module Demo2.

Definition uploaded : Direct.DirectResult :=
  {| Direct.d_txId := "direct-txid"; Direct.d_pinId := "direct-txidi0";
     Direct.d_status := "success" |}.

(** A site whose constants name an uploader URL and whose endpoint accepts
    every form. *)
Definition site : Direct.Site :=
  {| Direct.constantsInstance :=
       Some {| Direct.METAFS_API_UPLOADER := Some "https://uploader.example";
               Direct.METAFS_API_BASE := None |};
     Direct.numberToString := fun rate => JsString.ofZ (Num.toZ rate);
     Direct.fetchDirectUpload := fun h url form => Demo.accept uploaded |}.

Definition task (id : string) : Tasks.Task :=
  {| Tasks.taskId := id; Tasks.t_status := Some "processing";
     Tasks.t_progress := Some 40; Tasks.processedChunks := Some 2;
     Tasks.totalChunks := Some 5; Tasks.errorMessage := None |}.

(** A page with the list container whose endpoint serves two tasks per
    cursor and has more to give below cursor 4. *)
Definition page : Tasks.Page :=
  {| Tasks.taskListContainer := true;
     Tasks.fetchTasks := fun h address cursor size =>
       Demo.accept
         {| Tasks.tasks := Some [task ("t" +:+ JsString.ofZ cursor);
                                 task ("t" +:+ JsString.ofZ (cursor + 1))];
            Tasks.nextCursor := Some (cursor + 2);
            Tasks.hasMore := cursor + 2 <? 4 |} |}.

End Demo2.

(** ** Vocabulary of the further properties *)

Module Props.

(** The computation only appends to the trace, and every event it appends
    satisfies [P]. *)
Definition Emits {A} (P : Event -> Prop) (c : M A) : Prop :=
  forall w, exists evs, trace (snd (c w)) = trace w ++ evs /\ Forall P evs.

(** The events that reach the wallet. *)
Definition walletEvent (e : Event) : bool :=
  match e with
  | EvGetUtxos | EvPay _ | EvSign _ => true
  | _ => false
  end.

Definition quiet (e : Event) : Prop :=
  walletEvent e = false /\ e <> EvConfirmDialog.

Definition notDialog (e : Event) : Prop := e <> EvConfirmDialog.

(** An answer to the list-parts request from which an upload is resumed:
    HTTP success, code 0, and at least one part listed.  Every other
    answer, a rejected request included, makes the upload start afresh. *)
Definition listingUsable (answer : Outcome (Response (option (list UploadPart)))) : bool :=
  match answer with
  | Return response =>
      ok response
      && match json response with
         | Return result =>
             match data result with
             | Some (Some (_ :: _)) => (code result =? 0)%Z
             | _ => false
             end
         | Throw _ => false
         end
  | Throw _ => false
  end.

(** The record [saveUploadSession] writes at time [now]. *)
Definition sessionRecord (file : File) (user : UserInfo) (uploadId key : string)
    (now : Z) : SessionData :=
  {| uploadId := uploadId; key := key;
     fileName := file_name file; fileSize := file_size file;
     s_metaId := metaid user; s_address := address user;
     timestamp := now |}.

(** What a run that starts an upload afresh leaves behind: [evs] are the
    events after the initiation request, [w1] is the world once the new
    session has been saved. *)
Definition freshUpload (env : Env) (file : File) (uid ukey sessionKey : string)
    (w1 : World) (evs : list Event) (r : Outcome string) (w' : World) : Prop :=
  let total := Spec.totalParts file in
  let sent (q : Z) := (Some uid, Some ukey, q) in
  timers w' = timers w1
  /\ Spec.initiations evs = []
  /\ Spec.uploadedParts evs `prefix_of` map sent (Spec.countFrom 1 total)
  /\ (forall storageKey, r = Return storageKey ->
        Spec.uploadedParts evs = map sent (Spec.countFrom 1 total)
        /\ (exists parts,
              Spec.completions evs = [(Some uid, Some ukey, parts)]
              /\ map partNumber parts = Spec.countFrom 1 total
              /\ forall x, In x parts -> part_size x = Spec.partSize file (partNumber x))
        /\ localStorage w' = delete sessionKey (localStorage w1))
  /\ (forall t, r = Throw t ->
        localStorage w' = localStorage w1
        /\ exists m, t = Error ("Failed to upload file to OSS: " +:+ m)).

Definition sumSatoshis (l : list Utxo) : Z :=
  foldr (fun u acc => satoshis u + acc) 0 l.

(** The selected output [u] is the wallet's output [x]. *)
Definition selectedFrom (x : WalletUtxo) (u : Utxo) : Prop :=
  txId u = w_txid x /\ outputIndex u = w_outIndex x /\ satoshis u = w_value x
  /\ is_Some (script u).

(** The input [i] spends the unspent output [u]. *)
Definition spends (u : Utxo) (i : TxInput) : Prop :=
  prevTxId i = txId u /\ in_outputIndex i = outputIndex u
  /\ out_satoshis (in_output i) = satoshis u.

(** The request asks [own] to sign input [index], which spends [u], in the
    mode of the open pre-transactions. *)
Definition asksFor (own : string) (index : Z) (u : Utxo) (q : SignRequest) : Prop :=
  sr_address q = own /\ sr_inputIndex q = index
  /\ sr_scriptHex q = script u /\ sr_satoshis q = satoshis u
  /\ sr_sigtype q = 0x42.

(** One request per unspent output, in order, for the inputs [i], [i + 1],
    ... *)
Fixpoint signedInOrder (own : string) (i : Z) (us : list Utxo)
    (qs : list SignRequest) : Prop :=
  match us, qs with
  | [], [] => True
  | u :: us', q :: qs' => asksFor own i u q /\ signedInOrder own (i + 1) us' qs'
  | _, _ => False
  end.

(** What an input spends, without its unlocking script. *)
Definition outpoint (i : TxInput) : string * Z * TxOutput :=
  (prevTxId i, in_outputIndex i, in_output i).

(** The output pays the caller and its amount is within the tolerance of
    [amount]. *)
Definition claimable (env : Env) (own : string) (amount : Z) (o : TxOutput) : bool :=
  Spec.ownOutput env own o && Spec.near (out_satoshis o) amount.

(** No output before position [n] can be claimed for [amount], the one at
    position [skip] apart. *)
Definition noneBefore (env : Env) (own : string) (amount skip : Z)
    (outs : list TxOutput) (n : nat) : Prop :=
  forall j o, (j < n)%nat -> outs !! j = Some o ->
    claimable env own amount o = true -> Z.of_nat j = skip.

(** [slot] and [script] point at the first output, other than the one at
    [skip], that can be claimed for [amount]; they are [-1] and [null] when
    there is none. *)
Definition firstClaim (env : Env) (own : string) (amount skip : Z)
    (outs : list TxOutput) (slot : Z) (script : option string) : Prop :=
  (slot = -1 /\ script = None /\ noneBefore env own amount skip outs (length outs))
  \/ (exists j o,
        slot = Z.of_nat j
        /\ outs !! j = Some o
        /\ script = Some (out_script o)
        /\ claimable env own amount o = true
        /\ Z.of_nat j <> skip
        /\ noneBefore env own amount skip outs j).

(** The state of the matching loop after the outputs [done]: the chunk slot
    holds the first output that can be claimed for the chunk amount, the
    index slot the first other output that can be claimed for the index
    amount. *)
Definition claimed (env : Env) (own : string) (chunkAmount indexAmount : Z)
    (done : list TxOutput) (m : Chain.Matched) : Prop :=
  firstClaim env own chunkAmount (-1) done
             (Chain.m_chunkIndex m) (Chain.m_chunkScript m)
  /\ firstClaim env own indexAmount (Chain.m_chunkIndex m) done
                (Chain.m_indexIndex m) (Chain.m_indexScript m).

(** The transaction [buildChunkedUploadMergeTx] hands to the wallet:
    version 10, the selected outputs as inputs, and two outputs that pay
    the two amounts to the script [lock]. *)
Definition mergeRequest (selection : list Utxo) (lock : string)
    (chunkAmount indexAmount : Z) (feeb : Num.number) : PayParams :=
  {| pay_txComposer :=
       {| version := 10;
          inputs := inputs (foldl Mvc.from (Mvc.setVersion 10 Mvc.newTransaction)
                                  selection);
          outputs := [{| out_script := lock; out_satoshis := chunkAmount |};
                      {| out_script := lock; out_satoshis := indexAmount |}] |};
     pay_message := "Merge UTXOs for chunked upload";
     pay_feeb := feeb |}.

(** The fee [estimateUploadFee] arrives at for a file of [fileSize] bytes
    at [rate] satoshis per byte: 559 bytes beside the file, rounded up, then
    a margin of one fifth, rounded up again; each product is the engine's, in
    double precision. *)
Definition uploadFee (rate : Num.number) (fileSize : Z) : Z :=
  Num.toZ
    (Num.ceil
       (Num.mul (Num.ceil (Num.mul (Num.ofZ (559 + fileSize)) rate))
                (Num.decimal 12 10))).

(** What [mergeUTXOs] hands to the wallet: a version 10 transaction
    without inputs and with the one output that pays [amount] to [lock]. *)
Definition mergeOneRequest (lock : string) (amount : Z) (feeb : Num.number)
  : PayParams :=
  {| pay_txComposer :=
       {| version := 10; inputs := [];
          outputs := [{| out_script := lock; out_satoshis := amount |}] |};
     pay_message := "Merge UTXOs";
     pay_feeb := feeb |}.

(** The base transaction of the direct upload over the unspent output [u]:
    version 10, [u] as its only input, carrying [unlocking], and one output
    of 1 satoshi to [lock]. *)
Definition baseTx (u : Utxo) (lock : string) (unlocking : option string)
  : Transaction :=
  {| version := 10;
     inputs := [{| prevTxId := txId u;
                   in_outputIndex := outputIndex u;
                   in_output := {| out_script := default "" (script u);
                                   out_satoshis := satoshis u |};
                   in_script := unlocking |}];
     outputs := [{| out_script := lock; out_satoshis := 1 |}] |}.

(** The signature request for the only input of the serialized base
    transaction, in the mode [0x3 | 0x80 | 0x40]. *)
Definition baseSignRequest (own txHex : string) (u : Utxo) : SignRequest :=
  {| sr_txHex := txHex; sr_address := own; sr_inputIndex := 0;
     sr_scriptHex := script u; sr_satoshis := satoshis u;
     sr_sigtype := 0xC3 |}.

(** The world after the events [evs], nothing else having changed. *)
Definition extend (w : World) (evs : list Event) : World :=
  {| localStorage := localStorage w; trace := trace w ++ evs; timers := timers w |}.

(** The texts with which the steps of the direct upload begin their
    errors. *)
Definition directErrors : list string :=
  ["Required dependencies (toast, chainStore, userStore) are not available";
   "Failed to estimate upload fee: ";
   "Failed to get UTXOs: ";
   "Failed to merge UTXOs: ";
   "Failed to build/sign MVC transaction: ";
   "DirectUpload failed: "].

(** The thrown value is an [Error] whose message begins with one of
    [prefixes]. *)
Definition beginsWith (prefixes : list string) (t : Thrown) : Prop :=
  exists prefix rest, In prefix prefixes /\ t = Error (prefix +:+ rest).

Definition signatureToast : Event :=
  EvToast "Please confirm signature in wallet..." LInfo.

(** The page of tasks an answer of the task endpoint carries: HTTP
    success and code 0; a missing [data] counts as the empty page. *)
Definition servedPage (answer : Outcome (Response Tasks.TaskPage))
  : option Tasks.TaskPage :=
  match answer with
  | Return response =>
      if ok response then
        match json response with
        | Return result =>
            if (code result =? 0)%Z then
              Some (default {| Tasks.tasks := Some []; Tasks.nextCursor := Some 0;
                               Tasks.hasMore := false |}
                            (data result))
            else None
        | Throw _ => None
        end
      else None
  | Throw _ => None
  end.

(** The bytes of a list of parts. *)
Definition totalSize (parts : list UploadPart) : Z :=
  foldr (fun x acc => part_size x + acc) 0 parts.

End Props.

(** * Theorems *)

(** Reading the record of a store that has one. *)
Lemma readLast_some {A} userStore user property (field : UserInfo -> A) :
  last userStore = Some user ->
  readLast userStore property field = Return (field user).
Proof. unfold readLast. now intros ->. Qed.

Lemma readLast_none {A} userStore property (field : UserInfo -> A) :
  last userStore = None ->
  readLast userStore property field = Throw (TypeError property).
Proof. unfold readLast. now intros ->. Qed.

(** The same two facts where the read is awaited. *)
Lemma bind_readLast_some {A B} userStore user property (field : UserInfo -> A)
    (k : A -> M B) w :
  last userStore = Some user ->
  bind (await (readLast userStore property field)) k w = k (field user) w.
Proof. intros H. unfold bind, await. now rewrite (readLast_some _ _ _ _ H). Qed.

Lemma bind_readLast_none {A B} userStore property (field : UserInfo -> A)
    (k : A -> M B) w :
  last userStore = None ->
  bind (await (readLast userStore property field)) k w
  = (Throw (TypeError property), w).
Proof. intros H. unfold bind, await. now rewrite (readLast_none _ _ _ H). Qed.

Lemma await_readLast_some {A B} userStore user property (field : UserInfo -> A)
    (k : A -> M B) :
  last userStore = Some user ->
  bind (await (readLast userStore property field)) k = k (field user).
Proof. intros H. unfold bind, await. now rewrite (readLast_some _ _ _ _ H). Qed.

Section StatusFacts.
Import JsString Status.

Lemma lower_ascii_idem c : lower_ascii (lower_ascii c) = lower_ascii c.
Proof.
  destruct c as [[] [] [] [] [] [] [] []]; reflexivity.
Qed.

Lemma toLowerCase_idem s : toLowerCase (toLowerCase s) = toLowerCase s.
Proof.
  induction s as [|c s IH]; simpl; [reflexivity|].
  now rewrite lower_ascii_idem, IH.
Qed.

Example getStatusClass_upper : getStatusClass (Some "SUCCESS") = "success".
Proof. reflexivity. Qed.

Example getStatusClass_mixed : getStatusClass (Some "Processing") = "processing".
Proof. reflexivity. Qed.

Example getStatusClass_undefined : getStatusClass None = "pending".
Proof. reflexivity. Qed.

Example getStatusClass_unknown : getStatusClass (Some "queued") = "pending".
Proof. reflexivity. Qed.

End StatusFacts.

(** C8. [getStatusClass] is total: on every input (a string, the empty
    string, or [undefined]) it returns one of the four classes; the class is
    decided by the lowercased input alone, each of the three recognised
    words is returned exactly when the lowercased input is that word, and
    every other input is classified as pending. *)
Theorem getStatusClass_total (status : option string) :
  let normalized := JsString.toLowerCase (default "" status) in
  (Status.getStatusClass status = "success"
   \/ Status.getStatusClass status = "failed"
   \/ Status.getStatusClass status = "processing"
   \/ Status.getStatusClass status = "pending")
  /\ (Status.getStatusClass status = "success" <-> normalized = "success")
  /\ (Status.getStatusClass status = "failed" <-> normalized = "failed")
  /\ (Status.getStatusClass status = "processing" <-> normalized = "processing")
  /\ (Status.getStatusClass status = "pending" <->
        normalized <> "success" /\ normalized <> "failed"
        /\ normalized <> "processing")
  /\ Status.getStatusClass status = Status.getStatusClass (Some normalized).
Proof.
  intros normalized.
  assert (Hidem : Status.getStatusClass (Some normalized)
                  = Status.getStatusClass status).
  { unfold Status.getStatusClass, normalized. simpl default.
    now rewrite toLowerCase_idem. }
  rewrite Hidem. clear Hidem.
  unfold Status.getStatusClass. fold normalized.
  destruct (String.eqb_spec normalized "success") as [->|H1].
  { simpl. repeat split; try tauto; try discriminate; intros; try tauto;
      try (exfalso; discriminate). }
  destruct (String.eqb_spec normalized "failed") as [->|H2].
  { simpl. repeat split; try tauto; try discriminate; intros; try tauto;
      try (exfalso; discriminate). }
  destruct (String.eqb_spec normalized "processing") as [->|H3].
  { simpl. repeat split; try tauto; try discriminate; intros; try tauto;
      try (exfalso; discriminate). }
  repeat split; try tauto; try discriminate; intros; try tauto;
    try (exfalso; discriminate).
Qed.

(** ** Upload sessions *)

Section SessionFacts.
Import Session.

Example maxAge_value : maxAge = 604800000.
Proof. reflexivity. Qed.

Example sessionKey_shape :
  Demo.sessionKey = "multipart_upload_movie.bin_2621440_meta1_addr1".
Proof. vm_compute. reflexivity. Qed.

End SessionFacts.

(** C7. A stored session record whose timestamp lies more than seven days
    before the current time is not returned: the lookup yields [null] and
    the record is removed from [localStorage]; a record at most seven days
    old is returned as it is and the store is left alone. *)
Theorem getUploadSession_expiry (env : Env) (file : File) (metaId address : string)
    (w : World) (session : SessionData) :
  localStorage w !! Session.getUploadSessionKey file metaId address
    = Some (SessionJson session) ->
  (dateNow env (trace w) - timestamp session > 7 * 24 * 60 * 60 * 1000 ->
     exists w',
       Session.getUploadSession env file metaId address w = (Return None, w')
       /\ localStorage w' =
            delete (Session.getUploadSessionKey file metaId address) (localStorage w)
       /\ localStorage w' !! Session.getUploadSessionKey file metaId address = None
       /\ trace w' = trace w)
  /\ (dateNow env (trace w) - timestamp session <= 7 * 24 * 60 * 60 * 1000 ->
        Session.getUploadSession env file metaId address w
          = (Return (Some (SessionJson session)), w)).
Proof.
  intros Hstored.
  unfold Session.getUploadSession, bind, getItem, Session.Date_now, history, ret.
  rewrite Hstored. unfold bind, Session.expired. simpl.
  split; intros Hage.
  - assert (Hgt : (dateNow env (trace w) - timestamp session >? Session.maxAge) = true).
    { apply Z.gtb_lt. unfold Session.maxAge. lia. }
    rewrite Hgt. unfold removeItem. simpl.
    eexists. split; [reflexivity|]. simpl.
    repeat split. apply lookup_delete_eq.
  - assert (Hle : (dateNow env (trace w) - timestamp session >? Session.maxAge) = false).
    { rewrite Z.gtb_ltb. apply Z.ltb_ge. unfold Session.maxAge. lia. }
    rewrite Hle. reflexivity.
Qed.

Lemma getUploadSession_expiry_witness :
  localStorage (Demo.world (Demo.stored 1000000000000))
    !! Session.getUploadSessionKey Demo.file "meta1" "addr1"
    = Some (SessionJson (Demo.session 1000000000000))
  /\ dateNow Demo.plain [] - 1000000000000 > 7 * 24 * 60 * 60 * 1000
  /\ fst (Session.getUploadSession Demo.plain Demo.file "meta1" "addr1"
            (Demo.world (Demo.stored 1000000000000))) = Return None.
Proof.
  assert (Hs : localStorage (Demo.world (Demo.stored 1000000000000))
               !! Session.getUploadSessionKey Demo.file "meta1" "addr1"
               = Some (SessionJson (Demo.session 1000000000000))).
  { apply lookup_singleton_eq. }
  assert (Ha : dateNow Demo.plain [] - 1000000000000 > 7 * 24 * 60 * 60 * 1000).
  { vm_compute. reflexivity. }
  split; [exact Hs|]. split; [exact Ha|].
  destruct (getUploadSession_expiry Demo.plain Demo.file "meta1" "addr1"
              (Demo.world (Demo.stored 1000000000000))
              (Demo.session 1000000000000) Hs) as [Hexp _].
  destruct (Hexp Ha) as (w' & Heq & _).
  rewrite Heq. reflexivity.
Defined.

(** ** Sorting *)

Section SortFacts.
Context {A : Type} (cmp : A -> A -> Z).

Lemma insert_by_perm x (l : list A) : Permutation (insert_by cmp x l) (x :: l).
Proof.
  induction l as [|y l IH]; simpl; [reflexivity|].
  destruct (cmp x y <=? 0); [reflexivity|].
  rewrite IH. apply perm_swap.
Qed.

Lemma sort_by_perm (l : list A) : Permutation (sort_by cmp l) l.
Proof.
  induction l as [|x l IH]; simpl; [reflexivity|].
  unfold sort_by in *. simpl. rewrite insert_by_perm. now rewrite IH.
Qed.



(** Sorting a list that is already in order changes nothing. *)
Lemma sort_by_id (l : list A) :
  StronglySorted (fun a b => cmp a b <= 0) l -> sort_by cmp l = l.
Proof.
  induction 1 as [|x l Hs IH Hall]; [reflexivity|].
  unfold sort_by in *. simpl. rewrite IH.
  destruct l as [|y l]; [reflexivity|]. simpl.
  inversion Hall as [|? ? Hxy _]; subst.
  now apply Z.leb_le in Hxy as ->.
Qed.

End SortFacts.

(** ** Selecting wallet outputs *)

Section SelectionFacts.
Import Spec Chain.

Lemma sumValues_app l1 l2 : sumValues (l1 ++ l2) = sumValues l1 + sumValues l2.
Proof. induction l1 as [|u l1 IH]; simpl; [reflexivity|]. unfold sumValues in *. simpl. lia. Qed.


Lemma spendable_above wallet : Forall (fun u => w_value u > 600) (spendable wallet).
Proof.
  apply List.Forall_forall. intros u Hu.
  apply List.filter_In in Hu as [_ Hu]. apply Z.gtb_lt in Hu. lia.
Qed.



Lemma greedyCount_le requiredAmount (l : list WalletUtxo) total :
  (greedyCount requiredAmount l total <= length l)%nat.
Proof.
  revert total. induction l as [|u l IH]; intros total; simpl; [lia|].
  destruct (_ >=? _); [lia|]. specialize (IH (total + w_value u)). lia.
Qed.

Lemma greedyCount_pos requiredAmount u (l : list WalletUtxo) total :
  (1 <= greedyCount requiredAmount (u :: l) total)%nat.
Proof. simpl. destruct (_ >=? _); lia. Qed.



End SelectionFacts.

Section SelectionTheorem.
Import Spec Chain.




Lemma sorted_above wallet :
  Forall (fun u => w_value u > 600) (sort_by byValueDescending (spendable wallet)).
Proof.
  eapply Permutation_Forall; [symmetry; apply sort_by_perm|].
  apply spendable_above.
Qed.


End SelectionTheorem.

Section SelectionEmpty.
Import Spec Chain.




End SelectionEmpty.




(** ** Matching the outputs of the signed merge transaction *)

Section MatchFacts.
Import Spec Chain.

Context (env : Env) (own : string) (chunkAmount indexAmount : Z).

Lemma matchOutput_foreign i o m :
  ownOutput env own o = false ->
  matchOutput env own chunkAmount indexAmount i o m = m.
Proof.
  unfold ownOutput, matchOutput. intros Hown.
  destruct (toAddress env (out_script o)); try reflexivity.
  now rewrite Hown.
Qed.

Lemma matchOutput_own i o m :
  ownOutput env own o = true ->
  matchOutput env own chunkAmount indexAmount i o m =
    if (m_chunkIndex m =? -1) && near (out_satoshis o) chunkAmount
    then {| m_chunkIndex := i; m_indexIndex := m_indexIndex m;
            m_chunkScript := Some (out_script o);
            m_indexScript := m_indexScript m |}
    else if (m_indexIndex m =? -1) && near (out_satoshis o) indexAmount
    then {| m_chunkIndex := m_chunkIndex m; m_indexIndex := i;
            m_chunkScript := m_chunkScript m;
            m_indexScript := Some (out_script o) |}
    else m.
Proof.
  unfold ownOutput, matchOutput, near, amountTolerance. intros Hown.
  destruct (toAddress env (out_script o)); try discriminate.
  now rewrite Hown.
Qed.

Lemma matchOutput_irrelevant i o m :
  candidate env own chunkAmount indexAmount o = false ->
  matchOutput env own chunkAmount indexAmount i o m = m.
Proof.
  unfold candidate. intros Hc.
  destruct (ownOutput env own o) eqn:Hown.
  - rewrite matchOutput_own by assumption.
    simpl in Hc. apply orb_false_elim in Hc as [-> ->].
    now rewrite !andb_false_r.
  - now apply matchOutput_foreign.
Qed.

Lemma candidate_own o :
  candidate env own chunkAmount indexAmount o = true -> ownOutput env own o = true.
Proof. unfold candidate. intros H. now apply andb_prop in H. Qed.

(** Without an own output near the chunk amount the chunk slot keeps its
    value; likewise for the index slot. *)
Lemma matchOutputs_chunk_untouched outs :
  (forall o, In o outs -> ownOutput env own o = true ->
             near (out_satoshis o) chunkAmount = false) ->
  forall i m,
    m_chunkIndex (matchOutputs env own chunkAmount indexAmount outs i m)
      = m_chunkIndex m
    /\ m_chunkScript (matchOutputs env own chunkAmount indexAmount outs i m)
      = m_chunkScript m.
Proof.
  induction outs as [|o outs IH]; intros Hfar i m; simpl; [tauto|].
  destruct (IH (fun o' H' => Hfar o' (or_intror H')) (i + 1)
               (matchOutput env own chunkAmount indexAmount i o m)) as [-> ->].
  destruct (ownOutput env own o) eqn:Hown.
  - rewrite matchOutput_own by assumption.
    rewrite (Hfar o (or_introl eq_refl) Hown), andb_false_r.
    destruct (_ && _); tauto.
  - rewrite matchOutput_foreign by assumption. tauto.
Qed.

Lemma matchOutputs_index_untouched outs :
  (forall o, In o outs -> ownOutput env own o = true ->
             near (out_satoshis o) indexAmount = false) ->
  forall i m,
    m_indexIndex (matchOutputs env own chunkAmount indexAmount outs i m)
      = m_indexIndex m
    /\ m_indexScript (matchOutputs env own chunkAmount indexAmount outs i m)
      = m_indexScript m.
Proof.
  induction outs as [|o outs IH]; intros Hfar i m; simpl; [tauto|].
  destruct (IH (fun o' H' => Hfar o' (or_intror H')) (i + 1)
               (matchOutput env own chunkAmount indexAmount i o m)) as [-> ->].
  destruct (ownOutput env own o) eqn:Hown.
  - rewrite matchOutput_own by assumption.
    rewrite (Hfar o (or_introl eq_refl) Hown), andb_false_r.
    destruct (_ && _); tauto.
  - rewrite matchOutput_foreign by assumption. tauto.
Qed.

End MatchFacts.

Section MergeRun.
Import Spec Chain.

(** The transaction handed to the wallet: the selected inputs and the two
    funding outputs. *)
Lemma buildChunkedUploadMergeTx_run env utxoData chunkAmount indexAmount fee w
    userStore user chainStore lockingScript payed hex :
  userStoreInstance env = Some userStore ->
  last userStore = Some user ->
  chainStoreInstance env = Some chainStore ->
  mvcInstance env = true ->
  TxComposerInstance env = true ->
  walletPayAvailable env = true ->
  buildPublicKeyHashOut env (address user) = Return lockingScript ->
  (forall p, walletPay env (trace w) p = Return (Some payed)) ->
  toHex env payed = Return hex ->
  fst (buildChunkedUploadMergeTx env utxoData chunkAmount indexAmount fee w) =
    let m := matchOutputs env (address user) chunkAmount indexAmount
               (outputs payed) 0 unmatched in
    Return {| mergeTxId := getTxId env payed;
              mergeTxHex := hex;
              chunkPreTxOutputIndex := m_chunkIndex m;
              indexPreTxOutputIndex := m_indexIndex m;
              chunkPreTxScript := m_chunkScript m;
              indexPreTxScript := m_indexScript m |}.
Proof.
  intros Hus Hlast Hcs Hmvc Htc Hpay Hlock Hwallet Hhex.
  unfold buildChunkedUploadMergeTx, try_catch, bind, history, emit, await, ret, throw.
  rewrite Hus, Hcs, Hmvc, Htc. simpl.
  rewrite (readLast_some _ _ _ _ Hlast).
  unfold Mvc.to. rewrite Hlock. simpl.
  rewrite Hpay. simpl. rewrite Hwallet. rewrite Hhex. reflexivity.
Qed.

End MergeRun.

(** C2 (what the code does). When the signed merge transaction has no output
    to the caller's address within 1000 units of the chunk amount,
    [buildChunkedUploadMergeTx] does not fail: it returns a result whose
    chunk output index is [-1] and whose chunk script is [null]; likewise the
    index output index is [-1] when no such output is near the index
    amount. *)
Theorem buildChunkedUploadMergeTx_unmatched_returns (env : Env)
    (utxoData : UtxoData) (chunkAmount indexAmount fee : Z) (w : World)
    (userStore : UserStore) (user : UserInfo) (chainStore : ChainStore) (lockingScript : string)
    (payed : Transaction) (hex : string) :
  userStoreInstance env = Some userStore ->
  last userStore = Some user ->
  chainStoreInstance env = Some chainStore ->
  mvcInstance env = true ->
  TxComposerInstance env = true ->
  walletPayAvailable env = true ->
  buildPublicKeyHashOut env (address user) = Return lockingScript ->
  (forall p, walletPay env (trace w) p = Return (Some payed)) ->
  toHex env payed = Return hex ->
  exists r,
    fst (Chain.buildChunkedUploadMergeTx env utxoData chunkAmount indexAmount fee w)
      = Return r
    /\ ((forall o, In o (outputs payed) ->
           Spec.ownOutput env (address user) o = true ->
           Spec.near (out_satoshis o) chunkAmount = false) ->
        Chain.chunkPreTxOutputIndex r = -1 /\ Chain.chunkPreTxScript r = None)
    /\ ((forall o, In o (outputs payed) ->
           Spec.ownOutput env (address user) o = true ->
           Spec.near (out_satoshis o) indexAmount = false) ->
        Chain.indexPreTxOutputIndex r = -1 /\ Chain.indexPreTxScript r = None).
Proof.
  intros Hus Hlast Hcs Hmvc Htc Hpay Hlock Hwallet Hhex.
  eexists. split.
  - apply (buildChunkedUploadMergeTx_run env utxoData chunkAmount indexAmount fee w
             userStore user chainStore lockingScript payed hex); assumption.
  - cbv zeta. simpl. split; intros Hfar.
    + apply (matchOutputs_chunk_untouched env _ chunkAmount indexAmount
               (outputs payed) Hfar 0 Chain.unmatched).
    + apply (matchOutputs_index_untouched env _ chunkAmount indexAmount
               (outputs payed) Hfar 0 Chain.unmatched).
Qed.

Lemma buildChunkedUploadMergeTx_unmatched_witness :
  exists r,
    fst (Chain.buildChunkedUploadMergeTx
           (Demo.env Demo.wallet [] (Return (Some Demo.payedElsewhere)) (Some (Num.ofZ 1)))
           Demo.selection 5350 1150 568 (Demo.world ∅)) = Return r
    /\ Chain.chunkPreTxOutputIndex r = -1 /\ Chain.chunkPreTxScript r = None
    /\ Chain.indexPreTxOutputIndex r = -1 /\ Chain.indexPreTxScript r = None.
Proof.
  destruct (buildChunkedUploadMergeTx_unmatched_returns
              (Demo.env Demo.wallet [] (Return (Some Demo.payedElsewhere)) (Some (Num.ofZ 1)))
              Demo.selection 5350 1150 568 (Demo.world ∅)
              {| last := Some Demo.user |} Demo.user
              {| mvcFeeRate := Some (Num.ofZ 1) |}
              (Demo.lock "addr1") Demo.payedElsewhere "10:0:2"
              eq_refl eq_refl eq_refl eq_refl eq_refl eq_refl eq_refl
              (fun _ => eq_refl) eq_refl) as (r & Hr & Hchunk & Hindex).
  exists r. split; [exact Hr|].
  assert (Hnone : forall o, In o (outputs Demo.payedElsewhere) ->
                    Spec.ownOutput
                      (Demo.env Demo.wallet [] (Return (Some Demo.payedElsewhere)) (Some (Num.ofZ 1)))
                      "addr1" o = true -> False).
  { intros o [<-|[<-|[]]]; vm_compute; discriminate. }
  destruct Hchunk as [H1 H2].
  { intros o Ho Hown. destruct (Hnone o Ho Hown). }
  destruct Hindex as [H3 H4].
  { intros o Ho Hown. destruct (Hnone o Ho Hown). }
  repeat split; assumption.
Defined.

Section MatchTwo.
Import Spec Chain.

Context (env : Env) (own : string) (chunkAmount indexAmount : Z).
Context (iA iB : Z) (oA oB : TxOutput).

(** The loop invariant behind the order independence: before position
    [s] is read, a slot is filled exactly when its output lies before [s]. *)
Lemma matchOutputs_two :
  near (out_satoshis oA) chunkAmount = true ->
  near (out_satoshis oB) indexAmount = true ->
  near (out_satoshis oB) chunkAmount = false ->
  forall (outs : list TxOutput) (s : Z) (m : Matched),
    (forall (k : nat) o, outs !! k = Some o ->
       (s + Z.of_nat k = iA -> o = oA)
       /\ (s + Z.of_nat k = iB -> o = oB)
       /\ (candidate env own chunkAmount indexAmount o = true
           <-> s + Z.of_nat k = iA \/ s + Z.of_nat k = iB)) ->
    (if decide (iA < s)
     then m_chunkIndex m = iA /\ m_chunkScript m = Some (out_script oA)
     else m_chunkIndex m = -1) ->
    (if decide (iB < s)
     then m_indexIndex m = iB /\ m_indexScript m = Some (out_script oB)
     else m_indexIndex m = -1) ->
    let m' := matchOutputs env own chunkAmount indexAmount outs s m in
    (if decide (iA < s + Z.of_nat (length outs))
     then m_chunkIndex m' = iA /\ m_chunkScript m' = Some (out_script oA)
     else m_chunkIndex m' = -1)
    /\ (if decide (iB < s + Z.of_nat (length outs))
        then m_indexIndex m' = iB /\ m_indexScript m' = Some (out_script oB)
        else m_indexIndex m' = -1).
Proof.
  intros HA HB HBfar.
  induction outs as [|o outs IH]; intros s m Hpos Hchunk Hindex.
  - simpl. rewrite Z.add_0_r. split; assumption.
  - cbv zeta. simpl matchOutputs.
    replace (s + Z.of_nat (length (o :: outs)))
      with ((s + 1) + Z.of_nat (length outs)) by (simpl length; lia).
    destruct (Hpos 0%nat o eq_refl) as (HisA & HisB & Hcand).
    rewrite Z.add_0_r in HisA, HisB, Hcand.
    assert (Hstep :
      (if decide (iA < s + 1)
       then m_chunkIndex (matchOutput env own chunkAmount indexAmount s o m) = iA
            /\ m_chunkScript (matchOutput env own chunkAmount indexAmount s o m)
               = Some (out_script oA)
       else m_chunkIndex (matchOutput env own chunkAmount indexAmount s o m) = -1)
      /\ (if decide (iB < s + 1)
          then m_indexIndex (matchOutput env own chunkAmount indexAmount s o m) = iB
               /\ m_indexScript (matchOutput env own chunkAmount indexAmount s o m)
                  = Some (out_script oB)
          else m_indexIndex (matchOutput env own chunkAmount indexAmount s o m) = -1)).
    { destruct (decide (s = iA)) as [HsA|HsA].
      - (* the chunk output *)
        assert (o = oA) by auto. subst o.
        assert (HneB : s <> iB).
        { intros HsB. assert (oA = oB) by auto. subst oB. congruence. }
        rewrite matchOutput_own
          by (apply (candidate_own env own chunkAmount indexAmount), Hcand; auto).
        destruct (decide (iA < s)); [lia|].
        rewrite Hchunk, HA. simpl.
        destruct (decide (iA < s + 1)); [|lia].
        split; [auto|].
        destruct (decide (iB < s)); destruct (decide (iB < s + 1)); try lia;
          exact Hindex.
      - destruct (decide (s = iB)) as [HsB|HsB].
        + (* the index output *)
          assert (o = oB) by auto. subst o.
          rewrite matchOutput_own
          by (apply (candidate_own env own chunkAmount indexAmount), Hcand; auto).
          rewrite HBfar, andb_false_r.
          destruct (decide (iB < s)); [lia|].
          rewrite Hindex, HB. simpl.
          destruct (decide (iB < s + 1)); [|lia].
          split; [|auto].
          destruct (decide (iA < s)); destruct (decide (iA < s + 1)); try lia;
            exact Hchunk.
        + (* any other output changes nothing *)
          assert (Ho : candidate env own chunkAmount indexAmount o = false).
          { apply not_true_is_false. intros Ho. apply Hcand in Ho. tauto. }
          rewrite matchOutput_irrelevant by assumption.
          split.
          * destruct (decide (iA < s)); destruct (decide (iA < s + 1)); try lia;
              exact Hchunk.
          * destruct (decide (iB < s)); destruct (decide (iB < s + 1)); try lia;
              exact Hindex. }
    destruct Hstep as [Hc' Hi'].
    apply IH; [|exact Hc'|exact Hi'].
    intros k o' Hk. specialize (Hpos (S k) o' Hk).
    replace (s + 1 + Z.of_nat k) with (s + Z.of_nat (S k)) by lia.
    exact Hpos.
Qed.

End MatchTwo.

(** C6, as first stated, fails when the transaction holds a third output to
    the caller's address within 1000 units of a requested amount.  The
    signed transaction pays the caller 5000, 5350 and 1150, in this order;
    the amounts asked for are 5350 and 1150.  The outputs of 5350 and 1150
    are each within 1000 units of their own requested amount only, yet the
    chunk index is 0, the position of the output of 5000, and not 1: the
    first output within the tolerance is taken. *)
Lemma output_matching_third_output_counterexample :
  outputs Demo.payedWithChange
  = [Demo.pays "addr1" 5000; Demo.pays "addr1" 5350; Demo.pays "addr1" 1150]
  /\ Spec.near 5350 5350 = true /\ Spec.near 5350 1150 = false
  /\ Spec.near 1150 1150 = true /\ Spec.near 1150 5350 = false
  /\ fst (Chain.buildChunkedUploadMergeTx
            (Demo.env Demo.wallet [] (Return (Some Demo.payedWithChange))
                      (Some (Num.ofZ 1)))
            Demo.selection 5350 1150 568 (Demo.world ∅))
     = Return {| Chain.mergeTxId := "merge-txid"; Chain.mergeTxHex := "10:0:3";
                 Chain.chunkPreTxOutputIndex := 0;
                 Chain.indexPreTxOutputIndex := 2;
                 Chain.chunkPreTxScript := Some (Demo.lock "addr1");
                 Chain.indexPreTxScript := Some (Demo.lock "addr1") |}.
Proof. vm_compute. repeat split; reflexivity. Qed.

(** C6. Let the signed merge transaction hold two outputs to the caller's
    address, at positions [i] and [j], one of amount A within 1000 units of
    the chunk amount only and one of amount B within 1000 units of the index
    amount only, and let them be the only outputs to that address within
    1000 units of a requested amount.  Then [buildChunkedUploadMergeTx]
    assigns the chunk index to the output of amount A and the index index to
    the output of amount B, whichever of the two comes first in the
    transaction. *)
Theorem output_matching_order_independent (env : Env)
    (utxoData : UtxoData) (chunkAmount indexAmount fee : Z) (w : World)
    (userStore : UserStore) (user : UserInfo) (chainStore : ChainStore)
    (lockingScript : string)
    (payed : Transaction) (hex : string) (i j : nat) (oA oB : TxOutput) :
  userStoreInstance env = Some userStore ->
  last userStore = Some user ->
  chainStoreInstance env = Some chainStore ->
  mvcInstance env = true ->
  TxComposerInstance env = true ->
  walletPayAvailable env = true ->
  buildPublicKeyHashOut env (address user) = Return lockingScript ->
  (forall p, walletPay env (trace w) p = Return (Some payed)) ->
  toHex env payed = Return hex ->
  outputs payed !! i = Some oA ->
  outputs payed !! j = Some oB ->
  (forall (k : nat) o, outputs payed !! k = Some o ->
     (Spec.candidate env (address user) chunkAmount indexAmount o = true
      <-> k = i \/ k = j)) ->
  Spec.near (out_satoshis oA) chunkAmount = true ->
  Spec.near (out_satoshis oA) indexAmount = false ->
  Spec.near (out_satoshis oB) indexAmount = true ->
  Spec.near (out_satoshis oB) chunkAmount = false ->
  exists r,
    fst (Chain.buildChunkedUploadMergeTx env utxoData chunkAmount indexAmount fee w)
      = Return r
    /\ Chain.chunkPreTxOutputIndex r = Z.of_nat i
    /\ Chain.chunkPreTxScript r = Some (out_script oA)
    /\ Chain.indexPreTxOutputIndex r = Z.of_nat j
    /\ Chain.indexPreTxScript r = Some (out_script oB).
Proof.
  intros Hus Hlast Hcs Hmvc Htc Hpay Hlock Hwallet Hhex Hi Hj Hown HA _ HB HBfar.
  eexists. split.
  - apply (buildChunkedUploadMergeTx_run env utxoData chunkAmount indexAmount fee w
             userStore user chainStore lockingScript payed hex); assumption.
  - cbv zeta. simpl.
    pose proof (matchOutputs_two env (address user) chunkAmount indexAmount
                  (Z.of_nat i) (Z.of_nat j) oA oB HA HB HBfar
                  (outputs payed) 0 Chain.unmatched) as Htwo.
    cbv zeta in Htwo.
    destruct Htwo as [Hc Hx].
    + intros k o Hk. rewrite !Z.add_0_l. split; [|split].
      * intros Heq. apply Nat2Z.inj in Heq. subst k. congruence.
      * intros Heq. apply Nat2Z.inj in Heq. subst k. congruence.
      * rewrite (Hown k o Hk). lia.
    + destruct (decide (Z.of_nat i < 0)); [lia|reflexivity].
    + destruct (decide (Z.of_nat j < 0)); [lia|reflexivity].
    + apply lookup_lt_Some in Hi, Hj.
      destruct (decide (Z.of_nat i < 0 + Z.of_nat (length (outputs payed)))); [|lia].
      destruct (decide (Z.of_nat j < 0 + Z.of_nat (length (outputs payed)))); [|lia].
      tauto.
Qed.

Lemma output_matching_order_independent_witness :
  exists r,
    fst (Chain.buildChunkedUploadMergeTx
           (Demo.env Demo.wallet [] (Return (Some Demo.payedReordered)) (Some (Num.ofZ 1)))
           Demo.selection 5350 1150 568 (Demo.world ∅)) = Return r
    /\ Chain.chunkPreTxOutputIndex r = 2
    /\ Chain.chunkPreTxScript r = Some (Demo.lock "addr1")
    /\ Chain.indexPreTxOutputIndex r = 0
    /\ Chain.indexPreTxScript r = Some (Demo.lock "addr1").
Proof.
  apply (output_matching_order_independent
           (Demo.env Demo.wallet [] (Return (Some Demo.payedReordered)) (Some (Num.ofZ 1)))
           Demo.selection 5350 1150 568 (Demo.world ∅)
           {| last := Some Demo.user |} Demo.user
           {| mvcFeeRate := Some (Num.ofZ 1) |}
           (Demo.lock "addr1") Demo.payedReordered "10:0:3" 2%nat 0%nat
           (Demo.pays "addr1" 5350) (Demo.pays "addr1" 1150)
           eq_refl eq_refl eq_refl eq_refl eq_refl eq_refl eq_refl
           (fun _ => eq_refl) eq_refl eq_refl eq_refl).
  - intros [|[|[|k]]] o Hk; simpl in Hk; try discriminate;
      injection Hk as <-; vm_compute; split; intros; try lia; try reflexivity;
      discriminate.
  - reflexivity.
  - reflexivity.
  - reflexivity.
  - reflexivity.
Defined.

(** ** Open pre-transactions *)

Section OpenPreTx.
Import Spec Chain.

Lemma openSigtype_value : openSigtype = 0x42.
Proof. reflexivity. Qed.

(** The builder on a single unspent output, step by step. *)
Lemma buildOpenPreTx_single env utxoData u w userStore user :
  utxos utxoData = [u] ->
  userStoreInstance env = Some userStore ->
  last userStore = Some user ->
  mvcInstance env = true ->
  BufferInstance env = true ->
  buildOpenPreTx env utxoData w =
    match toHex env (openTx u None) with
    | Throw t => (Throw t, w)
    | Return txHex =>
        let request := openSignRequest (address user) txHex u in
        match walletSignTransaction env (trace w) request with
        | Throw t => (Throw t, after w (EvSign request))
        | Return None => (Throw (TypeError "sig"), after w (EvSign request))
        | Return (Some signature) =>
            match signatureToDER env (sig signature) with
            | Throw t => (Throw t, after w (EvSign request))
            | Return der =>
                (toHex env
                   (openTx u (Some (buildPublicKeyHashIn env (publicKey signature)
                                      der 0x42))),
                 after w (EvSign request))
            end
        end
    end.
Proof.
  intros Hu Hus Hlast Hmvc Hbuf.
  unfold buildOpenPreTx. rewrite Hus, Hmvc, Hbuf, Hu. simpl.
  unfold bind, await, history, emit, ret, throw. simpl.
  change (Mvc.from (Mvc.setVersion 10 Mvc.newTransaction) u) with (openTx u None).
  destruct (toHex env (openTx u None)) as [txHex|t]; [|reflexivity].
  rewrite (readLast_some _ _ _ _ Hlast).
  simpl.
  change {| sr_txHex := txHex; sr_address := address user;
            sr_inputIndex := 0; sr_scriptHex := script u;
            sr_satoshis := satoshis u; sr_sigtype := openSigtype |}
    with (openSignRequest (address user) txHex u).
  destruct (walletSignTransaction env (trace w) _) as [[signature|]|t];
    try reflexivity.
  destruct (signatureToDER env (sig signature)) as [der|t]; [|reflexivity].
  simpl. unfold Mvc.setScript. simpl.
  change (buildPublicKeyHashIn env (publicKey signature) der openSigtype)
    with (buildPublicKeyHashIn env (publicKey signature) der 0x42).
  fold (openTx u (Some (buildPublicKeyHashIn env (publicKey signature) der 0x42))).
  unfold after.
  destruct (toHex env _); reflexivity.
Qed.

(** What a returned hex text stands for. *)
Lemma buildOpenPreTx_returns env utxoData u w userStore user hex w' :
  utxos utxoData = [u] ->
  userStoreInstance env = Some userStore ->
  last userStore = Some user ->
  mvcInstance env = true ->
  BufferInstance env = true ->
  (buildOpenPreTx env utxoData w = (Return hex, w') <->
   exists txHex signature der,
     toHex env (openTx u None) = Return txHex
     /\ walletSignTransaction env (trace w)
          (openSignRequest (address user) txHex u)
        = Return (Some signature)
     /\ signatureToDER env (sig signature) = Return der
     /\ toHex env (openTx u (Some (buildPublicKeyHashIn env (publicKey signature)
                                     der 0x42))) = Return hex
     /\ w' = after w (EvSign (openSignRequest (address user) txHex u))).
Proof.
  intros Hu Hus Hlast Hmvc Hbuf.
  rewrite (buildOpenPreTx_single env utxoData u w userStore user Hu Hus Hlast Hmvc Hbuf).
  split.
  - destruct (toHex env (openTx u None)) as [txHex|t]; [|discriminate].
    cbv zeta.
    destruct (walletSignTransaction env (trace w) _) as [[signature|]|t] eqn:Hs;
      try discriminate.
    destruct (signatureToDER env (sig signature)) as [der|t] eqn:Hd;
      try discriminate.
    intros Heq. injection Heq as Hhex Hw.
    exists txHex, signature, der. auto.
  - intros (txHex & signature & der & H0 & Hs & Hd & Hhex & ->).
    rewrite H0. cbv zeta. rewrite Hs, Hd, Hhex. reflexivity.
Qed.

End OpenPreTx.

Section OpenPreTxWrapped.
Import Spec Chain.

Lemma try_catch_returns {A} (c : M A) (h : Thrown -> M A) w a w' :
  (forall t w0, exists t', h t w0 = (Throw t', w0)) ->
  (try_catch c h w = (Return a, w') <-> c w = (Return a, w')).
Proof.
  intros Hh. unfold try_catch.
  destruct (c w) as [[x|t] w0]; [tauto|].
  destruct (Hh t w0) as [t' ->]. split; discriminate.
Qed.

Lemma buildOpenPreTx_openlySigned env utxoData u w userStore user hex w' :
  utxos utxoData = [u] ->
  userStoreInstance env = Some userStore ->
  last userStore = Some user ->
  mvcInstance env = true ->
  BufferInstance env = true ->
  (buildOpenPreTx env utxoData w = (Return hex, w')
   <-> openlySigned env (address user) u w hex w'
       /\ timers w' = timers w).
Proof.
  intros Hu Hus Hlast Hmvc Hbuf.
  rewrite (buildOpenPreTx_returns env utxoData u w userStore user hex w'
             Hu Hus Hlast Hmvc Hbuf).
  unfold openlySigned. split.
  - intros (txHex & signature & der & H0 & Hs & Hd & Hhex & ->).
    split; [|reflexivity].
    exists txHex, signature, der, (openSignRequest (address user) txHex u),
      (openTx u (Some (buildPublicKeyHashIn env (publicKey signature) der 0x42))).
    repeat split; assumption.
  - intros [(txHex & signature & der & request & tx & H0 & -> & _ & _ & Hs & Hd
             & -> & _ & _ & Hhex & Htr & Hst) Htm].
    exists txHex, signature, der. repeat split; try assumption.
    destruct w'. unfold after. simpl in *. congruence.
Qed.

End OpenPreTxWrapped.

(** C1. For a [utxoData] holding exactly one unspent output (and with the
    user store, the library and [Buffer] present), [buildChunkFundingPreTx]
    and [buildIndexPreTx] each return a hex text exactly when the wallet
    signs and the library serializes, and then that text is the
    serialization of a transaction with exactly one input and no output;
    the signature of that input was requested once, with mode [0x2 | 0x40],
    and the unlocking script built from the returned signature and public
    key was set on the input before serializing. *)
Theorem open_pretx_one_input_no_output (env : Env) (utxoData : UtxoData)
    (u : Utxo) (fee : Z) (w : World) (userStore : UserStore) (user : UserInfo)
    (hex : string) (w' : World) :
  utxos utxoData = [u] ->
  userStoreInstance env = Some userStore ->
  last userStore = Some user ->
  mvcInstance env = true ->
  BufferInstance env = true ->
  (Chain.buildChunkFundingPreTx env utxoData fee w = (Return hex, w')
   <-> Spec.openlySigned env (address user) u w hex w'
       /\ timers w' = timers w)
  /\ (Chain.buildIndexPreTx env utxoData fee w = (Return hex, w')
      <-> Spec.openlySigned env (address user) u w hex w'
          /\ timers w' = timers w).
Proof.
  intros Hu Hus Hlast Hmvc Hbuf.
  unfold Chain.buildChunkFundingPreTx, Chain.buildIndexPreTx.
  split.
  - rewrite try_catch_returns by (intros; eexists; reflexivity).
    now apply (buildOpenPreTx_openlySigned env utxoData u w userStore user).
  - rewrite try_catch_returns by (intros; eexists; reflexivity).
    now apply (buildOpenPreTx_openlySigned env utxoData u w userStore user).
Qed.

Lemma open_pretx_one_input_no_output_witness :
  fst (Chain.buildChunkFundingPreTx Demo.plain
         {| utxos := [Demo.funding]; totalAmount := 5350 |} 5000 (Demo.world ∅))
    = Return "10:1:0"
  /\ Spec.openlySigned Demo.plain "addr1" Demo.funding (Demo.world ∅) "10:1:0"
       (snd (Chain.buildChunkFundingPreTx Demo.plain
               {| utxos := [Demo.funding]; totalAmount := 5350 |} 5000
               (Demo.world ∅))).
Proof.
  split; [vm_compute; reflexivity|].
  apply (open_pretx_one_input_no_output Demo.plain
           {| utxos := [Demo.funding]; totalAmount := 5350 |} Demo.funding 5000
           (Demo.world ∅) {| last := Some Demo.user |} Demo.user "10:1:0" _
           eq_refl eq_refl eq_refl eq_refl eq_refl).
  vm_compute. reflexivity.
Defined.

(** ** Fees of the flow *)

Section FeeFacts.
Import Flow.

Example computeFees_default_rate :
  computeFees {| mvcFeeRate := None |} Demo.estimate =
    {| feeRate := Num.ofZ 1; chunkPreTxBuildFee := 350; indexPreTxBuildFee := 350;
       chunkPreTxOutputAmount := 5350; indexPreTxOutputAmount := 1150;
       mergeTxFee := 568; totalRequiredAmount := 7068 |}.
Proof. vm_compute. reflexivity. Qed.

Example computeFees_zero_rate :
  totalRequiredAmount (computeFees {| mvcFeeRate := Some (Num.ofZ 0) |} Demo.estimate)
  = 7068.
Proof. vm_compute. reflexivity. Qed.

Example computeFees_nan_rate :
  totalRequiredAmount
    (computeFees {| mvcFeeRate := Some SpecFloat.S754_nan |} Demo.estimate)
  = 7068.
Proof. vm_compute. reflexivity. Qed.

Example computeFees_fractional_rate :
  computeFees {| mvcFeeRate := Some (Num.decimal 25 10) |} Demo.estimate =
    {| feeRate := Num.decimal 25 10;
       chunkPreTxBuildFee := 875; indexPreTxBuildFee := 875;
       chunkPreTxOutputAmount := 5875; indexPreTxOutputAmount := 1675;
       mergeTxFee := 1420; totalRequiredAmount := 8970 |}.
Proof. vm_compute. reflexivity. Qed.

Example computeFees_rounds_up :
  chunkPreTxBuildFee (computeFees {| mvcFeeRate := Some (Num.decimal 101 100) |}
                                  Demo.estimate)
  = 354.
Proof. vm_compute. reflexivity. Qed.

(** The product is the engine's: at the rate [1.1] the double nearest to
    [350 * 1.1] lies above 385, and the fee is 386; at the rate [0.1] the
    product is rounded to 35 although the double [0.1] lies above a tenth. *)
Example computeFees_product_rounded :
  let fees := computeFees {| mvcFeeRate := Some (Num.decimal 11 10) |} Demo.estimate in
  chunkPreTxBuildFee fees = 386
  /\ mergeTxFee fees = 625
  /\ totalRequiredAmount fees = 7197
  /\ chunkPreTxBuildFee
       (computeFees {| mvcFeeRate := Some (Num.decimal 1 10) |} Demo.estimate) = 35.
Proof. vm_compute. repeat split; reflexivity. Qed.

End FeeFacts.

(** C5. In [runChunkedUploadFlow] the fee rate is the chain store's rate, or
    1 when that rate is falsy (missing, zero or [NaN]); the build fee of each
    pre-transaction is [Math.ceil((200 + 150 * 1) * feeRate)]; the merge fee
    is [Math.ceil((200 + 150 * 2 + 34 * 2) * feeRate)], each product being
    the one the engine computes in double precision; each output amount is
    the backend's estimate plus the build fee; and the amount the flow hands
    to [getWalletUTXOs] is the sum of the two output amounts and the merge
    fee, the same three amounts it hands to [buildChunkedUploadMergeTx].  At
    the rate 1.1 the build fee is 386 and the merge fee 625, where the exact
    products 385 and 624.8 would give 385 and 625. *)
Theorem flow_fee_amounts (env : Env) (chainStore : ChainStore) (file : File)
    (asynchronous : bool) (storageKey : string) (estimateResult : FeeEstimate) :
  let fees := Flow.computeFees chainStore estimateResult in
  let rate := Flow.feeRate fees in
  let ceil (size : Z) := Num.toZ (Num.ceil (Num.mul (Num.ofZ size) rate)) in
  (forall r, mvcFeeRate chainStore = Some r -> Num.truthy r = true -> rate = r)
  /\ (mvcFeeRate chainStore = None -> rate = Num.ofZ 1)
  /\ (forall r, mvcFeeRate chainStore = Some r -> Num.truthy r = false ->
        rate = Num.ofZ 1)
  /\ Flow.chunkPreTxBuildFee fees = ceil (200 + 150 * 1)
  /\ Flow.indexPreTxBuildFee fees = ceil (200 + 150 * 1)
  /\ Flow.mergeTxFee fees = ceil (200 + 150 * 2 + 34 * 2)
  /\ (mvcFeeRate chainStore = Some (Num.decimal 11 10) ->
      Flow.chunkPreTxBuildFee fees = 386 /\ Flow.indexPreTxBuildFee fees = 386
      /\ Flow.mergeTxFee fees = 625)
  /\ Flow.chunkPreTxOutputAmount fees
     = chunkPreTxFee estimateResult + Flow.chunkPreTxBuildFee fees
  /\ Flow.indexPreTxOutputAmount fees
     = indexPreTxFee estimateResult + Flow.indexPreTxBuildFee fees
  /\ Flow.totalRequiredAmount fees
     = Flow.chunkPreTxOutputAmount fees + Flow.indexPreTxOutputAmount fees
       + Flow.mergeTxFee fees
  /\ (exists afterSelection,
        Flow.submitStage env chainStore file asynchronous storageKey estimateResult
        = bind (Chain.getWalletUTXOs env
                  (Flow.chunkPreTxOutputAmount fees
                   + Flow.indexPreTxOutputAmount fees + Flow.mergeTxFee fees))
               (fun allUtxos =>
                  bind (Flow.showToast "Please confirm merge transaction in wallet..." LInfo)
                       (fun _ =>
                          bind (Chain.buildChunkedUploadMergeTx env allUtxos
                                  (Flow.chunkPreTxOutputAmount fees)
                                  (Flow.indexPreTxOutputAmount fees)
                                  (Flow.mergeTxFee fees))
                               afterSelection))).
Proof.
  intros fees rate ceil.
  assert (Hrate : rate = Chain.feeRateOrDefault chainStore) by reflexivity.
  split.
  { intros r Hr Hnz. rewrite Hrate. unfold Chain.feeRateOrDefault.
    now rewrite Hr, Hnz. }
  split.
  { intros Hr. rewrite Hrate. unfold Chain.feeRateOrDefault. now rewrite Hr. }
  split.
  { intros r Hr Hz. rewrite Hrate. unfold Chain.feeRateOrDefault.
    now rewrite Hr, Hz. }
  split; [reflexivity|].
  split; [reflexivity|].
  split; [reflexivity|].
  split.
  { intros Hr. subst fees. unfold Flow.computeFees, Chain.feeRateOrDefault.
    rewrite Hr. cbn [Flow.chunkPreTxBuildFee Flow.indexPreTxBuildFee Flow.mergeTxFee].
    repeat split; vm_compute; reflexivity. }
  split; [reflexivity|].
  split; [reflexivity|].
  split; [reflexivity|].
  eexists. unfold Flow.submitStage. fold fees. reflexivity.
Qed.

(** ** The progress timer *)

Section TimerFacts.
Import Spec ProgressSim.

Lemma scheduled_set calls id :
  scheduled (calls ++ [SetInterval id]) = {[id]} ∪ scheduled calls.
Proof. unfold scheduled. now rewrite foldl_app. Qed.

Lemma scheduled_clear calls id :
  scheduled (calls ++ [ClearInterval id]) = scheduled calls ∖ {[id]}.
Proof. unfold scheduled. now rewrite foldl_app. Qed.

Lemma timerIds_set calls id :
  timerIds (calls ++ [SetInterval id]) = {[id]} ∪ timerIds calls.
Proof. unfold timerIds. now rewrite foldl_app. Qed.

Lemma timerIds_clear calls id :
  timerIds (calls ++ [ClearInterval id]) = timerIds calls.
Proof. unfold timerIds. now rewrite foldl_app. Qed.

(** Only a timer the host has handed out can be scheduled. *)
Lemma scheduled_known calls : scheduled calls ⊆ timerIds calls.
Proof.
  induction calls as [|call calls IH] using rev_ind; [reflexivity|].
  destruct call as [id|id].
  - rewrite scheduled_set, timerIds_set. set_solver.
  - rewrite scheduled_clear, timerIds_clear. set_solver.
Qed.

Lemma fresh_not_scheduled calls :
  fresh ({[0%nat]} ∪ timerIds calls) ∉ scheduled calls.
Proof.
  intros Hin. apply scheduled_known in Hin.
  apply (is_fresh ({[0%nat]} ∪ timerIds calls)). set_solver.
Qed.

(** The identifier the host hands out is truthy. *)
Lemma fresh_positive calls :
  negb (fresh ({[0%nat]} ∪ timerIds calls) =? 0)%nat = true.
Proof.
  destruct (Nat.eqb_spec (fresh ({[0%nat]} ∪ timerIds calls)) 0) as [E|]; [|reflexivity].
  exfalso. apply (is_fresh ({[0%nat]} ∪ timerIds calls)). rewrite E. set_solver.
Qed.

(** A value that is not at the ceiling or above it is not above it. *)
Lemma leb_false_ltb a b : Num.leb a b = false -> Num.ltb a b = false.
Proof.
  unfold Num.leb, Num.ltb, SpecFloat.SFleb, SpecFloat.SFltb.
  destruct (SpecFloat.SFcompare a b) as [[| |]|]; congruence.
Qed.

Lemma setTimers_same w : setTimers (timers w) w = w.
Proof. now destruct w. Qed.

(** A cleared timer never fires again. *)
Lemma ticks_cleared n pps id s w :
  id ∉ scheduled (timers w) -> ticks n pps id s w = (Return s, w).
Proof.
  revert s. induction n as [|n IH]; intros s Hid; [reflexivity|].
  simpl. unfold bind, tick.
  destruct (decide (id ∈ scheduled (timers w))); [contradiction|].
  now apply IH.
Qed.

(** The simulation after [n] seconds, while the request is pending: either
    no run of the callback has reached the ceiling, and the progress is the
    value computed for the last second; or the run of second [k] has, and
    the callback has set the progress to 90 and cleared its own timer. *)
Lemma ticks_run pps id n :
  forall s w,
    id ∈ scheduled (timers w) ->
    isApiReturned s = false ->
    ticks n pps id s w =
      match firstCeiling pps (elapsedSeconds s + 1) n with
      | Some k =>
          (Return {| currentProgress := Num.ofZ 90; elapsedSeconds := k;
                     isApiReturned := false |},
           setTimers (timers w ++ [ClearInterval id]) w)
      | None =>
          (Return match n with
                  | O => s
                  | S _ =>
                      {| currentProgress :=
                           progressAt pps (elapsedSeconds s + Z.of_nat n);
                         elapsedSeconds := elapsedSeconds s + Z.of_nat n;
                         isApiReturned := false |}
                  end, w)
      end.
Proof.
  induction n as [|n IH]; intros s w Hid Hapi; [reflexivity|].
  cbn [ticks firstCeiling]. unfold bind at 1. unfold tick.
  destruct (decide (id ∈ scheduled (timers w))); [|contradiction].
  unfold callback. rewrite Hapi. fold (progressAt pps (elapsedSeconds s + 1)).
  unfold reachesCeiling.
  destruct (Num.leb (Num.ofZ 90) (progressAt pps (elapsedSeconds s + 1))) eqn:Htop.
  - unfold bind, clearInterval, ret. cbn beta iota.
    rewrite ticks_cleared; [reflexivity|].
    cbn [timers]. rewrite scheduled_clear. set_solver.
  - unfold ret.
    rewrite (IH {| currentProgress := progressAt pps (elapsedSeconds s + 1);
                   elapsedSeconds := elapsedSeconds s + 1;
                   isApiReturned := false |} w Hid eq_refl).
    cbn [elapsedSeconds].
    destruct (firstCeiling pps (elapsedSeconds s + 1 + 1) n); [reflexivity|].
    destruct n as [|n].
    + replace (elapsedSeconds s + Z.of_nat 1) with (elapsedSeconds s + 1) by lia.
      reflexivity.
    + replace (elapsedSeconds s + 1 + Z.of_nat (S n))
        with (elapsedSeconds s + Z.of_nat (S (S n))) by lia.
      reflexivity.
Qed.

(** The ticks touch nothing but the timer calls. *)
Lemma ticks_frame n pps id s w :
  exists s' T, ticks n pps id s w = (Return s', setTimers T w).
Proof.
  revert s w. induction n as [|n IH]; intros s w.
  - exists s, (timers w). now rewrite setTimers_same.
  - simpl. unfold bind at 1. unfold tick.
    destruct (decide (id ∈ scheduled (timers w))) as [Hin|Hout]; [|apply IH].
    unfold callback.
    destruct (isApiReturned s); [|destruct (Num.leb _ _)];
      unfold bind, clearInterval, ret; cbn beta iota;
      try apply IH.
    + destruct (IH s (setTimers (timers w ++ [ClearInterval id]) w)) as (s' & T & Hrun).
      exists s', T. exact Hrun.
    + destruct (IH {| currentProgress := Num.ofZ 90;
                      elapsedSeconds := elapsedSeconds s + 1;
                      isApiReturned := false |}
                   (setTimers (timers w ++ [ClearInterval id]) w))
        as (s' & T & Hrun).
      exists s', T. exact Hrun.
Qed.

(** The progress never exceeds the ceiling. *)
Lemma ticks_below_ceiling pps id n s w s' w' :
  id ∈ scheduled (timers w) ->
  isApiReturned s = false ->
  Num.ltb (Num.ofZ 90) (currentProgress s) = false ->
  ticks n pps id s w = (Return s', w') ->
  Num.ltb (Num.ofZ 90) (currentProgress s') = false.
Proof.
  revert s w. induction n as [|n IH]; intros s w Hid Hapi Hs Hrun.
  - injection Hrun as <- _. exact Hs.
  - cbn [ticks] in Hrun. unfold bind at 1 in Hrun. unfold tick in Hrun.
    destruct (decide (id ∈ scheduled (timers w))); [|contradiction].
    unfold callback in Hrun. rewrite Hapi in Hrun.
    destruct (Num.leb (Num.ofZ 90) _) eqn:Htop.
    + unfold bind, clearInterval, ret in Hrun. cbn beta iota in Hrun.
      rewrite ticks_cleared in Hrun
        by (cbn [timers]; rewrite scheduled_clear; set_solver).
      injection Hrun as <- _. reflexivity.
    + unfold ret in Hrun.
      eapply IH; [exact Hid| | |exact Hrun]; [reflexivity|].
      cbn [currentProgress]. now apply leb_false_ltb.
Qed.

End TimerFacts.

Section SyncUpload.
Import Spec ProgressSim Backend Flow.

(** The timer calls are invisible to the request. *)
Lemma chunkedUpload_frame env file content storageKey c i m w T :
  chunkedUpload env file content storageKey c i m (setTimers T w) =
    (fst (chunkedUpload env file content storageKey c i m w),
     setTimers T (snd (chunkedUpload env file content storageKey c i m w))).
Proof.
  unfold chunkedUpload, try_catch.
  destruct (userStoreInstance env) as [userStore|]; [|reflexivity].
  destruct (chainStoreInstance env) as [chainStore|]; [|reflexivity].
  unfold readLast.
  destruct (last userStore) as [user|]; [|reflexivity].
  unfold bind, await. destruct (withPayload _ content storageKey) as [body|t];
    [|reflexivity].
  unfold Oss.fetch, bind, history, emit, await, ret. simpl.
  destruct (fetchChunkedUpload env (trace w) (ReqChunkedUpload body)) as [response|t];
    [|reflexivity].
  unfold readData. destruct (ok response); simpl; [|reflexivity].
  unfold bind, await. destruct (json response) as [result|t]; [|reflexivity].
  destruct (code result =? 0)%Z; reflexivity.
Qed.

Lemma chunkedUpload_timers env file content storageKey c i m w :
  timers (snd (chunkedUpload env file content storageKey c i m w)) = timers w.
Proof.
  pose proof (chunkedUpload_frame env file content storageKey c i m w (timers w)) as Hf.
  rewrite setTimers_same in Hf.
  destruct (chunkedUpload env file content storageKey c i m w) as [r w'].
  injection Hf as Hw. destruct w'. unfold setTimers in Hw. simpl in *. congruence.
Qed.

(** The synchronous upload with its timer: the host is asked for a timer,
    the callback clears it if it reaches the ceiling while the request is
    pending, and it is cleared when the request has settled, either way.
    The outcome and everything else in the world are those of the plain
    request. *)
Lemma syncUpload_run env file storageKey c i m chunkNumber w :
  let id := fresh ({[0%nat]} ∪ timerIds (timers w)) in
  let request := chunkedUpload env file None storageKey c i m w in
  syncUpload env file storageKey c i m chunkNumber w
  = (fst request,
     setTimers
       (timers w ++ [SetInterval id]
        ++ (match firstCeiling (progressPerSecond chunkNumber) 1
                    (timerTicks env (trace w)) with
            | Some _ => [ClearInterval id]
            | None => []
            end)
        ++ [ClearInterval id])
       (snd request)).
Proof.
  cbv zeta.
  unfold syncUpload, bind at 1, setInterval.
  rewrite (fresh_positive (timers w)).
  set (id := fresh ({[0%nat]} ∪ timerIds (timers w))).
  unfold bind at 1, history. unfold bind at 1.
  set (w1 := {| localStorage := localStorage w; trace := trace w;
                timers := timers w ++ [SetInterval id] |}).
  cbn [trace].
  change (trace w1) with (trace w).
  rewrite (ticks_run (progressPerSecond chunkNumber) id (timerTicks env (trace w))
             start w1)
    by (first [reflexivity | subst w1; cbn [timers]; rewrite scheduled_set; set_solver]).
  cbn [elapsedSeconds start]. rewrite Z.add_0_l.
  destruct (firstCeiling (progressPerSecond chunkNumber) 1 (timerTicks env (trace w)))
    as [k|].
  - change (setTimers (timers w1 ++ [ClearInterval id]) w1)
      with (setTimers (timers w1 ++ [ClearInterval id]) w).
    unfold try_catch, bind. rewrite chunkedUpload_frame.
    destruct (chunkedUpload env file None storageKey c i m w) as [[r|t] w'];
      cbn [fst snd]; unfold clearInterval, ret, throw, setTimers; cbn [timers];
      subst w1; cbn [timers]; rewrite <- !app_assoc; reflexivity.
  - change w1 with (setTimers (timers w ++ [SetInterval id]) w).
    unfold try_catch, bind. rewrite chunkedUpload_frame.
    destruct (chunkedUpload env file None storageKey c i m w) as [[r|t] w'];
      cbn [fst snd]; unfold clearInterval, ret, throw, setTimers; cbn [timers];
      rewrite <- ?app_assoc; reflexivity.
Qed.

End SyncUpload.

(** C9. In the synchronous branch of the flow the simulated progress starts
    at 50; the run of the callback in second [j] sets it to
    [50 + (40 / (3 * (chunkNumber + 1))) * j], computed as the engine
    computes it, until a run reaches 90: that run sets it to 90 and clears
    the timer, so that it never exceeds 90.  The timer [syncUpload] asks the
    host for is cleared on every path: by the callback when the ceiling is
    reached while the request is pending, and once more when the request has
    settled, whether it resolved or threw; no timer is left scheduled.  The
    timer never touches the request: outcome, trace and [localStorage] of
    [syncUpload] are those of the bare [chunkedUpload], however many seconds
    pass. *)
Theorem progress_timer_behaviour (env : Env) (file : File)
    (storageKey chunkPreTxHex indexPreTxHex mergeTxHex : string)
    (chunkNumber : Z) (w : World) :
  let perSecond := ProgressSim.progressPerSecond chunkNumber in
  let id := fresh ({[0%nat]} ∪ timerIds (timers w)) in
  let seconds := timerTicks env (trace w) in
  let pending := Spec.setTimers (timers w ++ [SetInterval id]) w in
  let run :=
    Flow.syncUpload env file storageKey chunkPreTxHex indexPreTxHex mergeTxHex
      chunkNumber w in
  let request :=
    Backend.chunkedUpload env file None storageKey chunkPreTxHex indexPreTxHex
      mergeTxHex w in
  perSecond = Num.div (Num.ofZ 40) (Num.ofZ ((chunkNumber + 1) * 3))
  /\ ProgressSim.currentProgress ProgressSim.start = Num.ofZ 50
  /\ (forall j : nat, (j <= seconds)%nat ->
        exists s' w',
          ProgressSim.ticks j perSecond id ProgressSim.start pending = (Return s', w')
          /\ Num.ltb (Num.ofZ 90) (ProgressSim.currentProgress s') = false
          /\ match Spec.firstCeiling perSecond 1 j with
             | None =>
                 w' = pending
                 /\ id ∈ scheduled (timers w')
                 /\ ((0 < j)%nat ->
                     ProgressSim.currentProgress s'
                     = Num.add (Num.ofZ 50)
                               (Num.mul perSecond (Num.ofZ (Z.of_nat j))))
             | Some k =>
                 ProgressSim.currentProgress s' = Num.ofZ 90
                 /\ timers w' = timers w ++ [SetInterval id; ClearInterval id]
                 /\ id ∉ scheduled (timers w')
             end)
  /\ fst run = fst request
  /\ trace (snd run) = trace (snd request)
  /\ localStorage (snd run) = localStorage (snd request)
  /\ timers (snd run)
     = timers w ++ [SetInterval id]
       ++ (match Spec.firstCeiling perSecond 1 seconds with
           | Some _ => [ClearInterval id]
           | None => []
           end)
       ++ [ClearInterval id]
  /\ (id ∉ scheduled (timers (snd run)))
  /\ scheduled (timers (snd run)) = scheduled (timers w).
Proof.
  intros perSecond id seconds pending run request.
  assert (Hid : id ∈ scheduled (timers pending)).
  { unfold pending. cbn [Spec.setTimers timers]. rewrite scheduled_set. set_solver. }
  assert (Hfresh : id ∉ scheduled (timers w)) by apply fresh_not_scheduled.
  split; [reflexivity|].
  split; [reflexivity|].
  split.
  { intros j _.
    pose proof (ticks_run perSecond id j ProgressSim.start pending Hid eq_refl) as Hrun.
    cbn [ProgressSim.elapsedSeconds ProgressSim.start] in Hrun.
    rewrite Z.add_0_l in Hrun.
    destruct (Spec.firstCeiling perSecond 1 j) as [k|] eqn:Hceiling.
    - eexists _, _. split; [exact Hrun|].
      split; [reflexivity|].
      split; [reflexivity|].
      unfold pending. cbn [Spec.setTimers timers].
      split; [now rewrite <- app_assoc|].
      rewrite scheduled_clear. set_solver.
    - eexists _, _. split; [exact Hrun|].
      split.
      { assert (Hstart : Num.ltb (Num.ofZ 90)
                                 (ProgressSim.currentProgress ProgressSim.start)
                         = false) by (vm_compute; reflexivity).
        exact (ticks_below_ceiling perSecond id j ProgressSim.start pending _ _
                 Hid eq_refl Hstart Hrun). }
      split; [reflexivity|]. split; [exact Hid|].
      intros Hj. destruct j as [|j]; [lia|].
      cbn [ProgressSim.currentProgress]. rewrite Z.add_0_l. reflexivity. }
  unfold run, request.
  rewrite syncUpload_run. cbv zeta. cbn [fst snd Spec.setTimers trace localStorage timers].
  fold id. fold perSecond. fold seconds.
  split; [reflexivity|]. split; [reflexivity|]. split; [reflexivity|].
  split; [reflexivity|].
  assert (Hsched :
    scheduled (timers w ++ [SetInterval id]
               ++ (match Spec.firstCeiling perSecond 1 seconds with
                   | Some _ => [ClearInterval id]
                   | None => []
                   end) ++ [ClearInterval id])
    = scheduled (timers w)).
  { destruct (Spec.firstCeiling perSecond 1 seconds).
    - replace (timers w ++ [SetInterval id] ++ [ClearInterval id] ++ [ClearInterval id])
        with (((timers w ++ [SetInterval id]) ++ [ClearInterval id])
              ++ [ClearInterval id]) by (now rewrite <- !app_assoc).
      rewrite !scheduled_clear, scheduled_set. set_solver.
    - replace (timers w ++ [SetInterval id] ++ [] ++ [ClearInterval id])
        with ((timers w ++ [SetInterval id]) ++ [ClearInterval id])
        by (now rewrite <- !app_assoc).
      rewrite scheduled_clear, scheduled_set. set_solver. }
  rewrite Hsched. split; [exact Hfresh|reflexivity].
Qed.

(** With three chunks the ceiling lies twelve seconds away: four seconds
    leave the timer to the request.  Without any transaction the rate is
    infinite, and the first run of the callback clears the timer. *)
Example progress_timer_demo :
  timers (snd (Flow.syncUpload Demo.plain Demo.file "k1" "aa" "bb" "cc" 3
                 (Demo.world ∅)))
  = [SetInterval 1; ClearInterval 1]
  /\ timers (snd (Flow.syncUpload Demo.plain Demo.file "k1" "aa" "bb" "cc" (-1)
                    (Demo.world ∅)))
     = [SetInterval 1; ClearInterval 1; ClearInterval 1]
  /\ Spec.firstCeiling (ProgressSim.progressPerSecond 0) 1 4 = Some 3.
Proof. vm_compute. repeat split; reflexivity. Qed.

(** ** The flow as a whole *)

Section FlowFacts.
Import Spec Flow.

Lemma flowCatch_toast t w :
  flowCatch t w = (Return None, after w (failureToast t)).
Proof.
  unfold flowCatch, failureToast, userCancelled, bind, showToast, emit, ret, after.
  destruct t as [m|]; simpl; [|reflexivity].
  destruct m as [|c m]; [reflexivity|].
  simpl JsString.truthy. rewrite andb_true_l.
  destruct (JsString.includes "user cancelled" (String c m)); reflexivity.
Qed.

(** A rejected wallet payment that mentions the cancellation ends in the
    softer notice. *)
Example flow_cancelled_in_wallet :
  let r := runChunkedUploadFlow
             (Demo.env Demo.richWallet [] (Throw (Error "user cancelled the request"))
                       (Some (Num.ofZ 1)))
             Demo.file true (Demo.world ∅) in
  fst r = Return None
  /\ List.last (trace (snd r)) EvLoadTasks
     = EvToast "Async Chunked Upload Task cancelled" LWarning.
Proof. vm_compute. split; reflexivity. Qed.

(** A wallet that cannot fund the upload ends in the error notice. *)
Example flow_insufficient_funds :
  let r := runChunkedUploadFlow
             (Demo.env Demo.dustWallet [] (Return None) (Some (Num.ofZ 1)))
             Demo.file true (Demo.world ∅) in
  fst r = Return None
  /\ List.last (trace (snd r)) EvLoadTasks
     = EvToast ("Async Chunked Upload Task failed: "
                +:+ "Failed to get UTXOs: No UTXOs larger than 600 satoshis available in wallet")
               LError.
Proof. vm_compute. split; reflexivity. Qed.

(** The amount asked of the wallet shows in the failure notice: the two
    output amounts 5350 and 1150 and the merge fee 568, plus one. *)
Example flow_reports_required_amount :
  List.last (trace (snd (runChunkedUploadFlow
                           (Demo.env Demo.wallet [] (Return None) (Some (Num.ofZ 1)))
                           Demo.file true (Demo.world ∅)))) EvLoadTasks
  = EvToast ("Async Chunked Upload Task failed: Failed to get UTXOs: "
             +:+ "Insufficient balance! Need 7069 satoshis, but only have 6000 satoshis")
            LError.
Proof. vm_compute. reflexivity. Qed.

(** The two successful ends. *)
Example flow_async_success :
  let r := runChunkedUploadFlow
             (Demo.env Demo.richWallet [] (Return (Some Demo.payedReordered)) (Some (Num.ofZ 1)))
             Demo.file true (Demo.world ∅) in
  fst r = Return None
  /\ List.last (trace (snd r)) EvConfirmDialog = EvLoadTasks
  /\ localStorage (snd r) = ∅.
Proof. vm_compute. repeat split; reflexivity. Qed.

Example flow_sync_success :
  fst (runChunkedUploadFlow
         (Demo.env Demo.richWallet [] (Return (Some Demo.payedReordered)) (Some (Num.ofZ 1)))
         Demo.file false (Demo.world ∅))
  = Return (Some {| fr_txId := "index-txid"; fr_pinId := "index-txidi0" |}).
Proof. vm_compute. reflexivity. Qed.

End FlowFacts.

(** With the three dependencies present and the user store holding its
    record, [runChunkedUploadFlow] never rejects: whatever is thrown inside
    the [try] block is caught, a toast reports it (the softer cancellation
    notice when its message contains 'user cancelled', the failure notice
    with the message otherwise) and the call resolves with [undefined];
    a body that completes hands its value through; an upload error is one
    instance.  The call rejects when one of the three dependencies is
    missing, and when the user store holds no record, and in no other
    case. *)
Lemma runChunkedUploadFlow_catches (env : Env) (file : File)
    (asynchronous : bool) (w : World) :
  (forall chainStore userStore user,
     toastInstance env = true ->
     chainStoreInstance env = Some chainStore ->
     userStoreInstance env = Some userStore ->
     last userStore = Some user ->
     (forall t w1,
        Flow.flowBody env chainStore file asynchronous w = (Throw t, w1) ->
        Flow.runChunkedUploadFlow env file asynchronous w
        = (Return None, Spec.after w1 (Spec.failureToast t)))
     /\ (forall a w1,
           Flow.flowBody env chainStore file asynchronous w = (Return a, w1) ->
           Flow.runChunkedUploadFlow env file asynchronous w = (Return a, w1))
     /\ (forall t w1,
           Oss.uploadFileToOSS env file
             (Spec.after w (EvToast "Starting Async Chunked Upload Task..." LInfo))
           = (Throw t, w1) ->
           Flow.runChunkedUploadFlow env file asynchronous w
           = (Return None, Spec.after w1 (Spec.failureToast t))))
  /\ ((toastInstance env = false \/ chainStoreInstance env = None
       \/ userStoreInstance env = None) ->
      Flow.runChunkedUploadFlow env file asynchronous w
      = (Throw (Error "Required dependencies (toast, chainStore, userStore) are not available"),
         w))
  /\ ((exists t w', Flow.runChunkedUploadFlow env file asynchronous w = (Throw t, w'))
      <-> (toastInstance env = false \/ chainStoreInstance env = None
           \/ userStoreInstance env = None
           \/ exists userStore,
                userStoreInstance env = Some userStore /\ last userStore = None)).
Proof.
  assert (Hmissing :
            (toastInstance env = false \/ chainStoreInstance env = None
             \/ userStoreInstance env = None) ->
            Flow.runChunkedUploadFlow env file asynchronous w
            = (Throw (Error "Required dependencies (toast, chainStore, userStore) are not available"),
               w)).
  { unfold Flow.runChunkedUploadFlow, throw.
    intros [H|[H|H]]; rewrite H; try reflexivity.
    - destruct (toastInstance env); reflexivity.
    - destruct (toastInstance env); [|reflexivity].
      destruct (chainStoreInstance env); reflexivity. }
  assert (Hpresent :
            forall chainStore userStore user,
              toastInstance env = true ->
              chainStoreInstance env = Some chainStore ->
              userStoreInstance env = Some userStore ->
              last userStore = Some user ->
              Flow.runChunkedUploadFlow env file asynchronous w
              = try_catch (Flow.flowBody env chainStore file asynchronous)
                          Flow.flowCatch w).
  { intros chainStore userStore user Ht Hc Hu Hl.
    unfold Flow.runChunkedUploadFlow. rewrite Ht, Hc, Hu.
    now rewrite (readLast_some _ _ _ _ Hl). }
  split; [|split; [exact Hmissing|]].
  - intros chainStore userStore user Ht Hc Hu Hl.
    rewrite (Hpresent chainStore userStore user Ht Hc Hu Hl). unfold try_catch.
    split; [|split].
    + intros t w1 ->. apply flowCatch_toast.
    + intros a w1 ->. reflexivity.
    + intros t w1 Hup.
      unfold Flow.flowBody, bind, Flow.showToast, emit. cbn beta iota.
      change {| localStorage := localStorage w;
                trace := trace w ++ [EvToast ("Starting " +:+ Flow.flowLabel +:+ "...") LInfo];
                timers := timers w |}
        with (Spec.after w (EvToast "Starting Async Chunked Upload Task..." LInfo)).
      rewrite Hup. apply flowCatch_toast.
  - split.
    + intros (t & w' & Hrun).
      destruct (toastInstance env) eqn:Ht; [|auto].
      destruct (chainStoreInstance env) as [chainStore|] eqn:Hc; [|auto].
      destruct (userStoreInstance env) as [userStore|] eqn:Hu; [|auto].
      destruct (last userStore) as [user|] eqn:Hl; [|right; right; right; eauto].
      rewrite (Hpresent chainStore userStore user eq_refl eq_refl eq_refl Hl) in Hrun.
      unfold try_catch in Hrun.
      destruct (Flow.flowBody env chainStore file asynchronous w) as [[a|t0] w1].
      * discriminate.
      * rewrite flowCatch_toast in Hrun. discriminate.
    + intros [H|[H|[H|(userStore & Hu & Hl)]]];
        try (rewrite Hmissing by auto; eauto).
      destruct (toastInstance env) eqn:Ht; [|rewrite Hmissing by auto; eauto].
      destruct (chainStoreInstance env) as [chainStore|] eqn:Hc;
        [|rewrite Hmissing by auto; eauto].
      unfold Flow.runChunkedUploadFlow. rewrite Ht, Hc, Hu.
      rewrite (readLast_none _ _ _ Hl). eauto.
Qed.

(** C10 (what the code does). With the toast and both stores present, a
    user store that holds no record in [last] makes [runChunkedUploadFlow]
    reject: the address is read between the check of the dependencies and
    the [try] block, the [TypeError] of that read is not caught, no toast is
    shown and nothing else happens. *)
Theorem runChunkedUploadFlow_rejects_without_last (env : Env) (file : File)
    (asynchronous : bool) (w : World) (chainStore : ChainStore)
    (userStore : UserStore) :
  toastInstance env = true ->
  chainStoreInstance env = Some chainStore ->
  userStoreInstance env = Some userStore ->
  last userStore = None ->
  Flow.runChunkedUploadFlow env file asynchronous w
  = (Throw (Error "Cannot read properties of undefined (reading 'address')"), w).
Proof.
  intros Ht Hc Hu Hl.
  unfold Flow.runChunkedUploadFlow. rewrite Ht, Hc, Hu.
  now rewrite (readLast_none _ _ _ Hl).
Qed.

Lemma runChunkedUploadFlow_rejects_without_last_witness :
  Flow.runChunkedUploadFlow Demo.signedOut Demo.file true (Demo.world ∅)
  = (Throw (Error "Cannot read properties of undefined (reading 'address')"),
     Demo.world ∅).
Proof.
  exact (runChunkedUploadFlow_rejects_without_last Demo.signedOut Demo.file true
           (Demo.world ∅) {| mvcFeeRate := Some (Num.ofZ 1) |} {| last := None |}
           eq_refl eq_refl eq_refl eq_refl).
Defined.

(** ** Resuming a multipart upload *)

Section UploadLoop.
Import Spec Oss.

Context (env : Env) (file : File) (uid ukey : option string)
        (existing : gmap Z UploadPart) (total totalBytes : Z).

(** Closes the cases in which the loop stops on an error. *)
Ltac loop_stops :=
  eexists; unfold throw; simpl; rewrite <- ?app_assoc; simpl;
  split; [reflexivity|]; split; [reflexivity|]; split; [reflexivity|];
  split; [first [apply prefix_nil | eexists; reflexivity]|];
  split; [apply prefix_nil|];
  intros ? ? Hret; discriminate Hret.

(** What one run of the part loop leaves behind. *)
Lemma uploadParts_spec (n : nat) :
  forall (p : Z) (parts : list UploadPart) (bytes : Z) (w : World),
    totalBytes = file_size file ->
    exists evs r,
      uploadParts env file uid ukey existing total totalBytes n p parts bytes w
        = (r, {| localStorage := localStorage w; trace := trace w ++ evs;
                 timers := timers w |})
      /\ completions evs = []
      /\ initiations evs = []
      /\ uploadedParts evs `prefix_of` map (fun q => (uid, ukey, q)) (missing existing p n)
      /\ progressReports evs `prefix_of` progressFrom file total p n bytes
      /\ forall parts' bytes',
           r = Return (parts', bytes') ->
           uploadedParts evs = map (fun q => (uid, ukey, q)) (missing existing p n)
           /\ progressReports evs = progressFrom file total p n bytes
           /\ exists added,
                parts' = parts ++ added
                /\ map partNumber added = countFrom p n
                /\ (forall x, In x added ->
                      part_size x = partSize file (partNumber x)
                      /\ forall e, existing !! partNumber x = Some e -> etag x = etag e).
Proof.
  induction n as [|n IH]; intros p parts bytes w Hbytes.
  - exists [], (Return (parts, bytes)). simpl. rewrite app_nil_r.
    split; [now destruct w|]. split; [reflexivity|]. split; [reflexivity|].
    split; [apply prefix_nil|]. split; [apply prefix_nil|].
    intros parts' bytes' Hret. injection Hret as <- <-.
    split; [reflexivity|]. split; [reflexivity|].
    exists []. rewrite app_nil_r. repeat split; contradiction.
  - simpl uploadParts. simpl missing. simpl progressFrom.
    fold (partSize file p).
    destruct (existing !! p) as [e|] eqn:Hp.
    + (* the part is already in the store *)
      unfold bind, updateOSSUploadProgress, emit. cbn beta iota.
      set (w1 := {| localStorage := localStorage w;
                    trace := trace w ++ [EvProgress p total (bytes + partSize file p) totalBytes];
                    timers := timers w |}).
      destruct (IH (p + 1)
                  (parts ++ [{| partNumber := p; etag := etag e;
                                part_size := partSize file p |}])
                  (bytes + partSize file p) w1 Hbytes)
        as (evs & r & Hw & Hc & Hi & Hu & Hpr & Hok).
      exists (EvProgress p total (bytes + partSize file p) totalBytes :: evs), r.
      split; [rewrite Hw; subst w1; simpl; now rewrite <- app_assoc|].
      split; [exact Hc|]. split; [exact Hi|]. split; [exact Hu|].
      split.
      { unfold progressReports. simpl. rewrite Hbytes. now apply prefix_cons. }
      intros parts' bytes' Hret.
      destruct (Hok parts' bytes' Hret) as (Hu' & Hpr' & added & -> & Hnum & Hadded).
      split; [exact Hu'|].
      split; [unfold progressReports in *; simpl; rewrite Hbytes; f_equal; exact Hpr'|].
      exists ({| partNumber := p; etag := etag e; part_size := partSize file p |} :: added).
      split; [now rewrite <- app_assoc|].
      split; [simpl; now rewrite Hnum|].
      intros x [<-|Hx]; [|now apply Hadded]. simpl.
      split; [reflexivity|]. intros e' He'. congruence.
    + (* the part is read and sent *)
      unfold readChunk, fetch, updateOSSUploadProgress.
      unfold bind, history, emit, await, ret, throw.
      cbn beta iota zeta. cbn [trace localStorage timers].
      set (start := (p - 1) * MULTIPART_CHUNK_SIZE).
      set (stop := Z.min (start + MULTIPART_CHUNK_SIZE) (file_size file)).
      destruct (readAsDataURL env (trace w) file start stop) as [chunk|t].
      2:{ exists [EvReadChunk start stop]. loop_stops. }
      set (request := ReqUploadPart uid ukey p chunk).
      destruct (fetchUploadPart env (trace w ++ [EvReadChunk start stop]) request)
        as [response|t].
      2:{ exists [EvReadChunk start stop; EvFetch request]. loop_stops. }
      destruct (ok response); cbn [negb]; cbn beta iota.
      2:{ exists [EvReadChunk start stop; EvFetch request]. loop_stops. }
      destruct (json response) as [result|t].
      2:{ exists [EvReadChunk start stop; EvFetch request]. loop_stops. }
      destruct (code result =? 0); cbn [negb]; cbn beta iota.
      2:{ exists [EvReadChunk start stop; EvFetch request]. loop_stops. }
      destruct (data result) as [newEtag|].
      2:{ exists [EvReadChunk start stop; EvFetch request]. loop_stops. }
      cbn [trace localStorage timers].
      match goal with
      | |- context [uploadParts _ _ _ _ _ _ _ n _ ?ps ?b ?w0] =>
          destruct (IH (p + 1) ps b w0 Hbytes)
            as (evs & r & Hw & Hc & Hi & Hu & Hpr & Hok)
      end.
      exists (EvReadChunk start stop :: EvFetch request
              :: EvProgress p total (bytes + partSize file p) totalBytes :: evs), r.
      split; [rewrite Hw; simpl; now rewrite <- !app_assoc|].
      split; [exact Hc|]. split; [exact Hi|].
      split; [unfold uploadedParts in *; simpl; now apply prefix_cons|].
      split; [unfold progressReports in *; simpl; rewrite Hbytes; now apply prefix_cons|].
      intros parts' bytes' Hret.
      destruct (Hok parts' bytes' Hret) as (Hu' & Hpr' & added & -> & Hnum & Hadded).
      split; [unfold uploadedParts in *; simpl; f_equal; exact Hu'|].
      split; [unfold progressReports in *; simpl; rewrite Hbytes; f_equal; exact Hpr'|].
      exists ({| partNumber := p; etag := newEtag; part_size := partSize file p |} :: added).
      split; [now rewrite <- app_assoc|].
      split; [simpl; now rewrite Hnum|].
      intros x [<-|Hx]; [|now apply Hadded]. simpl.
      split; [reflexivity|]. intros e' He'. congruence.
Qed.

End UploadLoop.

Section ResumeFacts.
Import Spec Oss Session.

Lemma existingPartsMap_lookup (listed : list UploadPart) :
  forall (m : gmap Z UploadPart) p e,
    foldl (fun m part => <[partNumber part := part]> m) m listed !! p = Some e ->
    (In e listed /\ partNumber e = p) \/ m !! p = Some e.
Proof.
  induction listed as [|x l IH]; intros m p e He; simpl in *; [auto|].
  destruct (IH _ _ _ He) as [[Hin Hp]|Hm]; [auto|].
  destruct (decide (partNumber x = p)) as [Heq|Hne].
  - rewrite Heq, lookup_insert_eq in Hm. injection Hm as <-. auto.
  - rewrite lookup_insert_ne in Hm by assumption. auto.
Qed.

(** A part found in the lookup is one the store listed, under its number. *)
Lemma existingPartsMap_listed listed p e :
  existingPartsMap listed !! p = Some e -> In e listed /\ partNumber e = p.
Proof.
  intros He. destruct (existingPartsMap_lookup listed ∅ p e He) as [H|H]; [exact H|].
  rewrite lookup_empty in H. discriminate.
Qed.


Lemma missing_absent existing p n :
  (forall q, p <= q < p + Z.of_nat n -> existing !! q = None) ->
  missing existing p n = countFrom p n.
Proof.
  revert p. induction n as [|n IH]; intros p Hall; [reflexivity|]. simpl.
  rewrite (Hall p ltac:(lia)). f_equal.
  apply IH. intros q Hq. apply Hall. lia.
Qed.



Lemma countFrom_lower p n x : In x (countFrom p n) -> p <= x.
Proof.
  revert p. induction n as [|n IH]; intros p; simpl; [tauto|].
  intros [<-|Hx]; [lia|]. apply IH in Hx. lia.
Qed.

Lemma parts_ascending (parts : list UploadPart) p n :
  map partNumber parts = countFrom p n ->
  StronglySorted (fun a b => partNumber a < partNumber b) parts.
Proof.
  revert p n. induction parts as [|x l IH]; intros p n Hn; [constructor|].
  destruct n as [|n]; [discriminate|]. simpl in Hn. injection Hn as Hx Hl.
  constructor; [now apply (IH (p + 1) n)|].
  apply List.Forall_forall. intros y Hy.
  assert (In (partNumber y) (countFrom (p + 1) n)).
  { rewrite <- Hl. now apply List.in_map. }
  apply countFrom_lower in H. lia.
Qed.

(** The sort before the completion call finds the parts in order. *)
Lemma parts_sort_id (parts : list UploadPart) p n :
  map partNumber parts = countFrom p n ->
  sort_by (fun a b => partNumber a - partNumber b) parts = parts.
Proof.
  intros Hn. apply sort_by_id.
  pose proof (parts_ascending parts p n Hn) as Hs. clear Hn.
  induction Hs as [|x l Hs IH Hall]; [constructor|].
  constructor; [assumption|].
  eapply List.Forall_impl; [|exact Hall]. simpl. intros; lia.
Qed.

Lemma getUploadSession_live env file metaId address w session :
  localStorage w !! getUploadSessionKey file metaId address
    = Some (SessionJson session) ->
  dateNow env (trace w) - timestamp session <= maxAge ->
  getUploadSession env file metaId address w
  = (Return (Some (SessionJson session)), w).
Proof.
  intros Hs Hage.
  unfold getUploadSession, bind, getItem, Date_now, history, ret.
  rewrite Hs. unfold bind, expired. simpl.
  destruct (Z.gtb_spec (dateNow env (trace w) - timestamp session) maxAge); [lia|].
  reflexivity.
Qed.


(** The completion call always issues its one request. *)
Lemma completeUpload_spec env uid ukey parts w :
  exists r,
    completeUpload env uid ukey parts w
    = (r, after w (EvFetch (ReqComplete uid ukey parts))).
Proof.
  unfold completeUpload, fetch.
  unfold bind, history, emit, await, ret, throw. cbn beta iota zeta.
  fold (after w (EvFetch (ReqComplete uid ukey parts))).
  destruct (fetchComplete env (trace w) (ReqComplete uid ukey parts)) as [response|t];
    [|eexists; reflexivity].
  destruct (ok response); cbn [negb]; cbn beta iota; [|eexists; reflexivity].
  destruct (json response) as [result|t]; [|eexists; reflexivity].
  destruct (code result =? 0); cbn [negb]; cbn beta iota; [|eexists; reflexivity].
  destruct (data result); eexists; reflexivity.
Qed.

End ResumeFacts.

Section ResumeRun.
Import Spec Oss Session.


End ResumeRun.

Section TraceFacts.
Import Spec.

Lemma uploadedParts_app a b : uploadedParts (a ++ b) = uploadedParts a ++ uploadedParts b.
Proof. apply omap_app. Qed.

Lemma completions_app a b : completions (a ++ b) = completions a ++ completions b.
Proof. apply omap_app. Qed.

Lemma initiations_app a b : initiations (a ++ b) = initiations a ++ initiations b.
Proof. apply omap_app. Qed.


End TraceFacts.

(** A file of 2.5 MiB: three parts.  A first upload from an empty store
    returns the storage key and leaves no session behind. *)
Example upload_fresh :
  let r := Oss.uploadFileToOSS Demo.plain Demo.file (Demo.world ∅) in
  fst r = Return "k1"
  /\ localStorage (snd r) = ∅
  /\ Spec.uploadedParts (trace (snd r))
     = [(Some "upload-1", Some "k1", 1); (Some "upload-1", Some "k1", 2);
        (Some "upload-1", Some "k1", 3)]
  /\ Spec.completions (trace (snd r))
     = [(Some "upload-1", Some "k1",
         [{| partNumber := 1; etag := "etag-1"; part_size := 1048576 |};
          {| partNumber := 2; etag := "etag-2"; part_size := 1048576 |};
          {| partNumber := 3; etag := "etag-3"; part_size := 524288 |}])].
Proof. vm_compute. repeat split; reflexivity. Qed.

(** The store fails on part 3: the call throws and the session stays. *)
Example upload_interrupted :
  let r := Oss.uploadFileToOSS (Demo.interrupted 3) Demo.file (Demo.world ∅) in
  fst r = Throw (Error "Failed to upload file to OSS: Failed to upload part 3: HTTP 500")
  /\ localStorage (snd r) !! Demo.sessionKey
     = Some (SessionJson
               {| uploadId := "upload-1"; key := "k1";
                  fileName := "movie.bin"; fileSize := 2621440;
                  s_metaId := "meta1"; s_address := "addr1";
                  timestamp := 1700000000001 |})
  /\ Spec.uploadedParts (trace (snd r))
     = [(Some "upload-1", Some "k1", 1); (Some "upload-1", Some "k1", 2);
        (Some "upload-1", Some "k1", 3)]
  /\ Spec.completions (trace (snd r)) = [].
Proof. vm_compute. repeat split; reflexivity. Qed.

(** The next call, the store now listing parts 1 and 2, sends part 3 alone
    and completes with all three. *)
Example upload_resumed :
  let interruptedRun :=
    Oss.uploadFileToOSS (Demo.interrupted 3) Demo.file (Demo.world ∅) in
  let r := Oss.uploadFileToOSS (Demo.env [] Demo.listedTwo (Return None) (Some (Num.ofZ 1)))
             Demo.file (Demo.world (localStorage (snd interruptedRun))) in
  fst r = Return "k1"
  /\ localStorage (snd r) = ∅
  /\ Spec.uploadedParts (trace (snd r)) = [(Some "upload-1", Some "k1", 3)]
  /\ Spec.progressReports (trace (snd r))
     = [(0, 3, 0, 2621440); (1, 3, 1048576, 2621440); (2, 3, 2097152, 2621440);
        (3, 3, 2621440, 2621440); (3, 3, 2621440, 2621440)]
  /\ Spec.completions (trace (snd r))
     = [(Some "upload-1", Some "k1",
         [{| partNumber := 1; etag := "etag-1"; part_size := 1048576 |};
          {| partNumber := 2; etag := "etag-2"; part_size := 1048576 |};
          {| partNumber := 3; etag := "etag-3"; part_size := 524288 |}])].
Proof. vm_compute. repeat split; reflexivity. Qed.



(** * Further properties of the two hooks *)

(** ** Strings *)

Section StringFacts.
Import JsString.

Lemma startsWith_app p s : startsWith p (p +:+ s) = true.
Proof.
  induction p as [|c p IH]; simpl; [reflexivity|].
  rewrite Ascii.eqb_refl. exact IH.
Qed.

Lemma includes_startsWith p s : startsWith p s = true -> includes p s = true.
Proof. intros H. destruct s; simpl in *; rewrite H; reflexivity. Qed.

(** A text that contains [p] still does behind any prefix. *)
Lemma includes_app_l p pre s : includes p s = true -> includes p (pre +:+ s) = true.
Proof.
  intros H. induction pre as [|c pre IH]; [exact H|].
  change (String c pre +:+ s) with (String c (pre +:+ s)).
  simpl. rewrite IH. apply orb_true_r.
Qed.

Lemma includes_suffix p s : includes p (s +:+ p) = true.
Proof.
  apply includes_app_l, includes_startsWith.
  induction p as [|c p IH]; [reflexivity|]. simpl.
  rewrite Ascii.eqb_refl. exact IH.
Qed.

Lemma truthy_app_r s p : truthy p = true -> truthy (s +:+ p) = true.
Proof. destruct s; [auto|reflexivity]. Qed.

End StringFacts.

(** ** Content types *)

(** X1. [buildContentType] never yields the empty text; a text type
    ([text/...], JSON, JavaScript, XML) is passed through as it is; every
    other type carries the marker [;binary] in the result; and the result is
    stable: a file that already has the result as its type gets it back
    unchanged, so the marker is never added twice. *)
Theorem buildContentType_stable (file : File) :
  let result := Backend.buildContentType file in
  let again :=
    Backend.buildContentType
      {| file_name := file_name file; file_size := file_size file;
         file_type := result |} in
  JsString.truthy result = true
  /\ (JsString.startsWith "text/" (file_type file) = true
      \/ In (file_type file)
            ["application/json"; "application/javascript"; "application/xml"] ->
      result = file_type file)
  /\ (result = file_type file
      \/ result = "application/octet-stream;binary"
      \/ result = file_type file +:+ ";binary")
  /\ (JsString.includes ";binary" result = false ->
      result = file_type file
      /\ (JsString.startsWith "text/" result = true
          \/ In result ["application/json"; "application/javascript";
                        "application/xml"]))
  /\ again = result.
Proof.
  cbv zeta. unfold Backend.buildContentType.
  set (ct := if JsString.truthy (file_type file) then file_type file
             else "application/octet-stream").
  assert (Hct : JsString.truthy ct = true).
  { unfold ct. destruct (JsString.truthy (file_type file)) eqn:E; [exact E|reflexivity]. }
  assert (Hcases : ct = file_type file
                   \/ (file_type file = "" /\ ct = "application/octet-stream")).
  { unfold ct. destruct (file_type file); simpl; auto. }
  set (isText := (JsString.startsWith "text/" ct
                  || String.eqb ct "application/json"
                  || String.eqb ct "application/javascript"
                  || String.eqb ct "application/xml")%bool).
  cbn [file_type].
  split.
  { destruct (negb isText && negb (JsString.includes ";binary" ct))%bool;
      [apply truthy_app_r; reflexivity|exact Hct]. }
  split.
  { intros Htext.
    assert (Hne : file_type file <> "").
    { intros E. rewrite E in Htext. destruct Htext as [H|H]; [discriminate|].
      simpl in H. intuition discriminate. }
    destruct Hcases as [Heq|[E _]]; [|contradiction].
    assert (Ht : isText = true).
    { unfold isText. rewrite Heq.
      destruct Htext as [->|Hin]; [reflexivity|].
      simpl in Hin. destruct Hin as [<-|[<-|[<-|[]]]];
        rewrite ?String.eqb_refl, ?orb_true_r; reflexivity. }
    rewrite Ht. simpl. exact Heq. }
  split.
  { destruct (negb isText && negb (JsString.includes ";binary" ct))%bool eqn:E.
    - destruct Hcases as [->|[_ ->]]; auto.
    - destruct Hcases as [->|[_ Hd]]; [auto|].
      exfalso. unfold isText in E. rewrite Hd in E. vm_compute in E. discriminate. }
  split.
  { destruct (negb isText && negb (JsString.includes ";binary" ct))%bool eqn:E.
    - rewrite includes_suffix. discriminate.
    - intros Hno. rewrite Hno in E. rewrite andb_true_r in E.
      apply negb_false_iff in E.
      split.
      + destruct Hcases as [->|[_ Hd]]; [reflexivity|].
        exfalso. unfold isText in E. rewrite Hd in E. vm_compute in E. discriminate.
      + unfold isText in E.
        apply orb_true_iff in E as [E|E]; [|right; apply String.eqb_eq in E; rewrite E; simpl; auto].
        apply orb_true_iff in E as [E|E]; [|right; apply String.eqb_eq in E; rewrite E; simpl; auto].
        apply orb_true_iff in E as [E|E]; [left; exact E|].
        right. apply String.eqb_eq in E. rewrite E. simpl. auto. }
  destruct (negb isText && negb (JsString.includes ";binary" ct))%bool eqn:E.
  - rewrite (truthy_app_r ct ";binary" eq_refl).
    rewrite includes_suffix. rewrite andb_false_r. reflexivity.
  - rewrite Hct. fold isText. rewrite E. reflexivity.
Qed.

(** ** What a computation may append to the trace *)

Section EmitsFacts.
Import Props.

Context {P : Event -> Prop}.

Lemma Emits_ret {A} (a : A) : Emits P (ret a).
Proof. intros w. exists []. simpl. rewrite app_nil_r. auto. Qed.

Lemma Emits_throw {A} t : Emits P (@throw A t).
Proof. intros w. exists []. simpl. rewrite app_nil_r. auto. Qed.

Lemma Emits_await {A} (o : Outcome A) : Emits P (await o).
Proof. intros w. exists []. simpl. rewrite app_nil_r. auto. Qed.

Lemma Emits_history : Emits P history.
Proof. intros w. exists []. simpl. rewrite app_nil_r. auto. Qed.

Lemma Emits_getItem k : Emits P (getItem k).
Proof. intros w. exists []. simpl. rewrite app_nil_r. auto. Qed.

Lemma Emits_setItem k v : Emits P (setItem k v).
Proof. intros w. exists []. simpl. rewrite app_nil_r. auto. Qed.

Lemma Emits_removeItem k : Emits P (removeItem k).
Proof. intros w. exists []. simpl. rewrite app_nil_r. auto. Qed.

Lemma Emits_setInterval : Emits P setInterval.
Proof. intros w. exists []. simpl. rewrite app_nil_r. auto. Qed.

Lemma Emits_clearInterval id : Emits P (clearInterval id).
Proof. intros w. exists []. simpl. rewrite app_nil_r. auto. Qed.

Lemma Emits_emit e : P e -> Emits P (emit e).
Proof. intros He w. exists [e]. simpl. auto. Qed.

Lemma Emits_bind {A B} (c : M A) (k : A -> M B) :
  Emits P c -> (forall a, Emits P (k a)) -> Emits P (bind c k).
Proof.
  intros Hc Hk w. unfold bind.
  destruct (Hc w) as (evs & Htr & Hall).
  destruct (c w) as [[a|t] w1]; simpl in Htr.
  - destruct (Hk a w1) as (evs' & Htr' & Hall').
    exists (evs ++ evs'). rewrite Htr', Htr, app_assoc.
    split; [reflexivity|]. apply Forall_app; auto.
  - exists evs. auto.
Qed.

Lemma Emits_try_catch {A} (c : M A) (h : Thrown -> M A) :
  Emits P c -> (forall t, Emits P (h t)) -> Emits P (try_catch c h).
Proof.
  intros Hc Hh w. unfold try_catch.
  destruct (Hc w) as (evs & Htr & Hall).
  destruct (c w) as [[a|t] w1]; simpl in Htr.
  - exists evs. auto.
  - destruct (Hh t w1) as (evs' & Htr' & Hall').
    exists (evs ++ evs'). rewrite Htr', Htr, app_assoc.
    split; [reflexivity|]. apply Forall_app; auto.
Qed.

End EmitsFacts.

Lemma Emits_weaken {A} (P Q : Event -> Prop) (c : M A) :
  (forall e, P e -> Q e) -> Props.Emits P c -> Props.Emits Q c.
Proof.
  intros HPQ Hc w. destruct (Hc w) as (evs & Htr & Hall).
  exists evs. split; [exact Htr|]. eapply List.Forall_impl; eauto.
Qed.

(** Walks through a computation built from the monad's operations. *)
Ltac emits_step :=
  lazymatch goal with
  | |- Props.Emits _ (bind _ _) => apply Emits_bind; [|intros ?]
  | |- Props.Emits _ (try_catch _ _) => apply Emits_try_catch; [|intros ?]
  | |- Props.Emits _ (ret _) => apply Emits_ret
  | |- Props.Emits _ (throw _) => apply Emits_throw
  | |- Props.Emits _ (await _) => apply Emits_await
  | |- Props.Emits _ history => apply Emits_history
  | |- Props.Emits _ (getItem _) => apply Emits_getItem
  | |- Props.Emits _ (setItem _ _) => apply Emits_setItem
  | |- Props.Emits _ (removeItem _) => apply Emits_removeItem
  | |- Props.Emits _ setInterval => apply Emits_setInterval
  | |- Props.Emits _ (clearInterval _) => apply Emits_clearInterval
  | |- Props.Emits _ (emit _) =>
      apply Emits_emit; try first [exact I | split; [reflexivity|discriminate] | discriminate]
  | |- Props.Emits _ (match ?x with _ => _ end) => destruct x
  | |- Props.Emits _ (let _ := _ in _) => cbv zeta
  end.

Ltac emits := repeat emits_step.

Section EmitsOfTheHook.
Import Props.

Lemma Emits_fetch {D} P (answer : list Event -> Request -> Outcome (Response D)) r :
  P (EvFetch r) -> Emits P (Oss.fetch answer r).
Proof. intros HP. unfold Oss.fetch. emits. exact HP. Qed.

End EmitsOfTheHook.

Section EmitsOfTheHooks.
Import Props.

Lemma quiet_fetch r : quiet (EvFetch r).
Proof. split; [reflexivity|discriminate]. Qed.

Lemma Emits_getUploadSession P env file metaId address :
  Emits P (Session.getUploadSession env file metaId address).
Proof. unfold Session.getUploadSession, Session.Date_now. emits. Qed.

Lemma Emits_saveUploadSession P env file metaId address uploadId key :
  Emits P (Session.saveUploadSession env file metaId address uploadId key).
Proof. unfold Session.saveUploadSession, Session.Date_now. emits. Qed.

Lemma Emits_listExistingParts env session :
  Emits quiet (Oss.listExistingParts env session).
Proof. unfold Oss.listExistingParts, Oss.fetch. emits. Qed.

Lemma Emits_initiateUpload env file metaId address :
  Emits quiet (Oss.initiateUpload env file metaId address).
Proof.
  unfold Oss.initiateUpload, Oss.fetch. emits.
  apply Emits_saveUploadSession.
Qed.

Lemma Emits_uploadParts env file uid ukey existing total totalBytes n :
  forall p parts bytes,
    Emits quiet (Oss.uploadParts env file uid ukey existing total totalBytes n p parts bytes).
Proof.
  induction n as [|n IH]; intros p parts bytes; simpl.
  - emits.
  - unfold Oss.readChunk, Oss.fetch, Oss.updateOSSUploadProgress.
    repeat first [emits_step | apply IH].
Qed.

Lemma Emits_completeUpload env uid ukey parts :
  Emits quiet (Oss.completeUpload env uid ukey parts).
Proof. unfold Oss.completeUpload, Oss.fetch. emits. Qed.

Lemma Emits_uploadFileToOSS env file : Emits quiet (Oss.uploadFileToOSS env file).
Proof.
  unfold Oss.uploadFileToOSS, Oss.uploadFileToOSS_body,
    Oss.updateOSSUploadProgress, Session.clearUploadSession.
  repeat first
    [ apply Emits_getUploadSession | apply Emits_listExistingParts
    | apply Emits_initiateUpload | apply Emits_uploadParts
    | apply Emits_completeUpload | emits_step ].
Qed.

End EmitsOfTheHooks.

Section EmitsOfTheFlow.
Import Props.

Lemma Emits_readData {D} P (response : Response D) : Emits P (Backend.readData response).
Proof. unfold Backend.readData. emits. Qed.

Lemma Emits_estimateChunkedUploadFee env file content storageKey :
  Emits quiet (Backend.estimateChunkedUploadFee env file content storageKey).
Proof.
  unfold Backend.estimateChunkedUploadFee, Oss.fetch.
  repeat first [apply Emits_readData | emits_step].
Qed.

Lemma Emits_createChunkedUploadTask env file content storageKey c i m :
  Emits quiet (Backend.createChunkedUploadTask env file content storageKey c i m).
Proof.
  unfold Backend.createChunkedUploadTask, Oss.fetch.
  repeat first [apply Emits_readData | emits_step].
Qed.

Lemma Emits_chunkedUpload env file content storageKey c i m :
  Emits quiet (Backend.chunkedUpload env file content storageKey c i m).
Proof.
  unfold Backend.chunkedUpload, Oss.fetch.
  repeat first [apply Emits_readData | emits_step].
Qed.

Lemma Emits_getWalletUTXOs env requiredAmount :
  Emits notDialog (Chain.getWalletUTXOs env requiredAmount).
Proof. unfold Chain.getWalletUTXOs. emits. Qed.

Lemma Emits_buildChunkedUploadMergeTx env utxoData a b c :
  Emits notDialog (Chain.buildChunkedUploadMergeTx env utxoData a b c).
Proof. unfold Chain.buildChunkedUploadMergeTx. emits. Qed.

Lemma Emits_signInputs env own remaining :
  forall i tx, Emits notDialog (Chain.signInputs env own remaining i tx).
Proof.
  induction remaining as [|u rest IH]; intros i tx; simpl.
  - emits.
  - repeat first [emits_step | apply IH].
Qed.

Lemma Emits_buildOpenPreTx env utxoData : Emits notDialog (Chain.buildOpenPreTx env utxoData).
Proof.
  unfold Chain.buildOpenPreTx.
  repeat first [apply Emits_signInputs | emits_step].
Qed.

Lemma Emits_ticks P n pps id s : Emits P (ProgressSim.ticks n pps id s).
Proof.
  intros w. destruct (ticks_frame n pps id s w) as (s' & T & ->).
  exists []. simpl. rewrite app_nil_r. auto.
Qed.

Lemma Emits_syncUpload env file storageKey c i m chunkNumber :
  Emits quiet (Flow.syncUpload env file storageKey c i m chunkNumber).
Proof.
  unfold Flow.syncUpload.
  repeat first [apply Emits_ticks | apply Emits_chunkedUpload | emits_step].
Qed.

Lemma quiet_weaken {A} (c : M A) : Emits quiet c -> Emits notDialog c.
Proof. apply Emits_weaken. intros e [_ H]. exact H. Qed.

Lemma Emits_submitStage env chainStore file asynchronous storageKey estimateResult :
  Emits notDialog (Flow.submitStage env chainStore file asynchronous storageKey estimateResult).
Proof.
  unfold Flow.submitStage, Flow.showToast, Chain.buildChunkFundingPreTx,
    Chain.buildIndexPreTx.
  repeat first
    [ apply Emits_getWalletUTXOs | apply Emits_buildChunkedUploadMergeTx
    | apply Emits_buildOpenPreTx
    | apply quiet_weaken, Emits_createChunkedUploadTask
    | apply quiet_weaken, Emits_syncUpload
    | emits_step ].
Qed.

End EmitsOfTheFlow.

(** ** The wallet and the confirmation dialog *)

Section FlowOrder.
Import Props.

Lemma bind_returns {A B} (c : M A) (k : A -> M B) w b w' :
  bind c k w = (Return b, w') ->
  exists a w1, c w = (Return a, w1) /\ k a w1 = (Return b, w').
Proof.
  unfold bind. destruct (c w) as [[a|t] w1]; [eauto|discriminate].
Qed.

Lemma Emits_run {A} P (c : M A) w r w' :
  Emits P c -> c w = (r, w') ->
  exists evs, trace w' = trace w ++ evs /\ Forall P evs.
Proof. intros Hc Hrun. specialize (Hc w). now rewrite Hrun in Hc. Qed.

(** A call of [uploadFileToOSS] that returns has ended on the completion
    request. *)
Lemma uploadFileToOSS_completes env file w storageKey w' :
  Oss.uploadFileToOSS env file w = (Return storageKey, w') ->
  exists pre u k parts,
    trace w' = trace w ++ pre ++ [EvFetch (ReqComplete u k parts)]
    /\ Forall quiet pre.
Proof.
  intros Hrun. unfold Oss.uploadFileToOSS in Hrun.
  apply try_catch_returns in Hrun; [|intros t w0; eexists; reflexivity].
  unfold Oss.uploadFileToOSS_body in Hrun.
  destruct (userStoreInstance env) as [userStore|]; [|discriminate].
  apply bind_returns in Hrun as (metaId & w01 & H01 & Hrun).
  apply bind_returns in Hrun as (currentAddress & w02 & H02 & Hrun).
  unfold await in H01, H02. injection H01 as _ <-. injection H02 as _ <-.
  apply bind_returns in Hrun as (session & w1 & H1 & Hrun).
  apply bind_returns in Hrun as (resumed & w2 & H2 & Hrun).
  apply bind_returns in Hrun as (started & w3 & H3 & Hrun).
  destruct started as [[uid ukey] existingParts].
  apply bind_returns in Hrun as (u4 & w4 & H4 & Hrun).
  apply bind_returns in Hrun as (uploaded & w5 & H5 & Hrun).
  apply bind_returns in Hrun as (u6 & w6 & H6 & Hrun).
  apply bind_returns in Hrun as (sk & w7 & H7 & Hrun).
  apply bind_returns in Hrun as (u8 & w8 & H8 & Hrun).
  injection Hrun as _ <-.
  injection H8 as _ <-.
  destruct (Emits_run quiet _ _ _ _ (Emits_getUploadSession quiet env file _ _) H1)
    as (e1 & T1 & F1).
  assert (exists e2, trace w2 = trace w1 ++ e2 /\ Forall quiet e2) as (e2 & T2 & F2).
  { destruct session as [session|].
    - destruct (Session.isTruthy session).
      + exact (Emits_run quiet _ _ _ _ (Emits_listExistingParts env session) H2).
      + injection H2 as _ <-. exists []. rewrite app_nil_r. auto.
    - injection H2 as _ <-. exists []. rewrite app_nil_r. auto. }
  assert (exists e3, trace w3 = trace w2 ++ e3 /\ Forall quiet e3) as (e3 & T3 & F3).
  { assert (Hfresh : forall wa r wb,
              (let* fresh := Oss.initiateUpload env file metaId currentAddress in
               ret (Some (fst fresh), Some (snd fresh), @nil UploadPart)) wa
              = (r, wb) ->
              exists e3, trace wb = trace wa ++ e3 /\ Forall quiet e3).
    { intros wa r wb. apply Emits_run. emits_step; [apply Emits_initiateUpload|emits]. }
    destruct resumed as [[s|] [|x0 l0]]; try (eapply Hfresh; exact H3).
    unfold ret in H3. assert (w3 = w2) as -> by congruence.
    exists []. rewrite app_nil_r. auto. }
  injection H4 as _ <-. injection H6 as _ <-.
  destruct (Emits_run quiet _ _ _ _
              (Emits_uploadParts env file _ _ _ _ _ _ _ _ _) H5) as (e5 & T5 & F5).
  destruct (completeUpload_spec env uid ukey
              (sort_by (fun a b => partNumber a - partNumber b) (fst uploaded))
              {| localStorage := localStorage w5;
                 trace := trace w5 ++ [EvProgress
                            (ceil_div (file_size file) Oss.MULTIPART_CHUNK_SIZE)
                            (ceil_div (file_size file) Oss.MULTIPART_CHUNK_SIZE)
                            (file_size file) (file_size file)];
                 timers := timers w5 |}) as (rc & Hc).
  rewrite Hc in H7. injection H7 as _ <-.
  simpl. rewrite T5. simpl. rewrite T3, T2, T1.
  eexists (e1 ++ e2 ++ e3 ++ [_] ++ e5 ++ [_]), uid, ukey, _.
  split.
  { rewrite <- !app_assoc. simpl. rewrite <- ?app_assoc. reflexivity. }
  repeat (apply Forall_app; split); auto;
    repeat constructor; discriminate.
Qed.

(** An estimate that returns has been asked of the backend. *)
Lemma estimateChunkedUploadFee_fetches env file content storageKey w r w' :
  Backend.estimateChunkedUploadFee env file content storageKey w = (Return r, w') ->
  exists body, trace w' = trace w ++ [EvFetch (ReqEstimate body)].
Proof.
  intros Hrun. unfold Backend.estimateChunkedUploadFee in Hrun.
  apply try_catch_returns in Hrun; [|intros t w0; eexists; reflexivity].
  destruct (chainStoreInstance env) as [chainStore|]; [|discriminate].
  apply bind_returns in Hrun as (body & w1 & H1 & Hrun).
  apply bind_returns in Hrun as (response & w2 & H2 & Hrun).
  unfold await in H1. injection H1 as _ <-.
  unfold Oss.fetch in H2.
  apply bind_returns in H2 as (h & wa & Ha & H2). injection Ha as <- <-.
  apply bind_returns in H2 as (ub & wb & Hb & H2). injection Hb as _ <-.
  unfold await in H2. injection H2 as _ <-.
  destruct (Emits_run (fun e => False) _ _ _ _ (Emits_readData _ response) Hrun)
    as (evs & Htr & Hall).
  destruct evs as [|e evs]; [|inversion Hall; contradiction].
  rewrite app_nil_r in Htr. rewrite Htr. simpl. eauto.
Qed.

(** The trace of the [try] block: events that reach neither the wallet nor
    the user, then possibly the dialog and what follows it. *)
Lemma flowBody_trace env chainStore file asynchronous w :
  exists before rest,
    trace (snd (Flow.flowBody env chainStore file asynchronous w))
      = trace w ++ before ++ rest
    /\ Forall quiet before
    /\ (rest = []
        \/ exists rest',
             rest = EvConfirmDialog :: rest'
             /\ Forall notDialog rest'
             /\ (exists u k parts, In (EvFetch (ReqComplete u k parts)) before)
             /\ (exists body, In (EvFetch (ReqEstimate body)) before)).
Proof.
  unfold Flow.flowBody. unfold bind at 1. unfold Flow.showToast at 1, emit at 1.
  set (toast := EvToast _ LInfo).
  set (w0 := {| localStorage := localStorage w; trace := trace w ++ [toast];
                timers := timers w |}).
  assert (Hq : quiet toast) by (split; [reflexivity|discriminate]).
  unfold bind at 1.
  destruct (Oss.uploadFileToOSS env file w0) as [[storageKey|t] w1] eqn:Hup.
  2:{ destruct (Emits_run quiet _ _ _ _ (Emits_uploadFileToOSS env file) Hup)
        as (e1 & T1 & F1).
      exists (toast :: e1), []. simpl. rewrite T1. simpl.
      rewrite app_nil_r, <- app_assoc. split; [reflexivity|]. split; [|auto].
      constructor; assumption. }
  destruct (uploadFileToOSS_completes env file w0 storageKey w1 Hup)
    as (pre & u & k & parts & T1 & F1).
  unfold bind at 1.
  destruct (Backend.estimateChunkedUploadFee env file None storageKey w1)
    as [[estimateResult|t] w2] eqn:Hest.
  2:{ destruct (Emits_run quiet _ _ _ _
                  (Emits_estimateChunkedUploadFee env file None storageKey) Hest)
        as (e2 & T2 & F2).
      exists (toast :: pre ++ [EvFetch (ReqComplete u k parts)] ++ e2), [].
      simpl. rewrite T2, T1. simpl.
      rewrite app_nil_r, <- !app_assoc. split; [reflexivity|]. split; [|auto].
      constructor; [assumption|].
      apply Forall_app; split; [assumption|].
      constructor; [apply quiet_fetch|assumption]. }
  destruct (estimateChunkedUploadFee_fetches env file None storageKey w1 _ w2 Hest)
    as (body & T2).
  set (before := toast :: pre ++ [EvFetch (ReqComplete u k parts);
                                  EvFetch (ReqEstimate body)]).
  assert (Hbefore : trace w2 = trace w ++ before).
  { rewrite T2, T1. unfold before. simpl. rewrite <- !app_assoc. reflexivity. }
  assert (Fbefore : Forall quiet before).
  { unfold before. constructor; [assumption|].
    apply Forall_app; split; [assumption|].
    repeat constructor; discriminate. }
  assert (Hin : (exists u k parts, In (EvFetch (ReqComplete u k parts)) before)
                /\ (exists body, In (EvFetch (ReqEstimate body)) before)).
  { split; [exists u, k, parts|exists body]; unfold before; right;
      apply in_or_app; right; simpl; auto. }
  clearbody before.
  destruct estimateResult as [estimateResult|].
  2:{ exists before, []. simpl. rewrite app_nil_r. auto. }
  unfold bind at 1. unfold Flow.showChunkedUploadConfirmation.
  unfold bind at 1, history at 1. unfold bind at 1, emit at 1. unfold ret at 1.
  set (w3 := {| localStorage := localStorage w2;
                trace := trace w2 ++ [EvConfirmDialog]; timers := timers w2 |}).
  destruct (confirmDialog env (trace w2) file estimateResult); cbn [negb].
  - destruct (Emits_submitStage env chainStore file asynchronous storageKey
                estimateResult w3) as (evs & T3 & F3).
    exists before, (EvConfirmDialog :: evs). rewrite T3. simpl. rewrite Hbefore.
    split; [now rewrite <- !app_assoc|]. split; [assumption|].
    right. exists evs. tauto.
  - exists before, [EvConfirmDialog]. simpl. rewrite Hbefore.
    split; [now rewrite <- !app_assoc|]. split; [assumption|].
    right. exists []. split; [reflexivity|]. split; [constructor|tauto].
Qed.

End FlowOrder.

(** X2. In every run of [runChunkedUploadFlow], whatever the collaborators
    answer: the trace only grows; a request to the wallet (listing the
    outputs, paying, signing) is made only after the confirmation dialog
    has been shown; the dialog is shown at most once, and only after the
    upload to the store has been completed and the fee estimate fetched. *)
Theorem wallet_waits_for_confirmation (env : Env) (file : File)
    (asynchronous : bool) (w : World) :
  exists evs,
    trace (snd (Flow.runChunkedUploadFlow env file asynchronous w)) = trace w ++ evs
    /\ (forall pre e post,
          evs = pre ++ e :: post -> Props.walletEvent e = true ->
          In EvConfirmDialog pre)
    /\ (forall pre post,
          evs = pre ++ EvConfirmDialog :: post ->
          (exists u k parts, In (EvFetch (ReqComplete u k parts)) pre)
          /\ (exists body, In (EvFetch (ReqEstimate body)) pre)
          /\ ~ In EvConfirmDialog pre
          /\ ~ In EvConfirmDialog post).
Proof.
  assert (Hnone : forall l : list Event,
            Forall Props.quiet l ->
            (forall pre e post, l = pre ++ e :: post -> Props.walletEvent e = true ->
                                In EvConfirmDialog pre)
            /\ (forall pre post, l = pre ++ EvConfirmDialog :: post -> False)).
  { intros l Hl. split.
    - intros pre e post -> He. apply Forall_app in Hl as [_ Hl].
      inversion Hl as [|? ? [Hw _] _]; subst. congruence.
    - intros pre post ->. apply Forall_app in Hl as [_ Hl].
      inversion Hl as [|? ? [_ Hd] _]; subst. congruence. }
  unfold Flow.runChunkedUploadFlow.
  destruct (toastInstance env);
    [|exists []; rewrite app_nil_r;
      destruct (Hnone [] ltac:(constructor)) as [Ha Hb];
      split; [reflexivity|]; split; [exact Ha|];
      intros pre post E; destruct (Hb pre post E)].
  destruct (chainStoreInstance env) as [chainStore|];
    [|exists []; rewrite app_nil_r;
      destruct (Hnone [] ltac:(constructor)) as [Ha Hb];
      split; [reflexivity|]; split; [exact Ha|];
      intros pre post E; destruct (Hb pre post E)].
  destruct (userStoreInstance env) as [userStore|];
    [|exists []; rewrite app_nil_r;
      destruct (Hnone [] ltac:(constructor)) as [Ha Hb];
      split; [reflexivity|]; split; [exact Ha|];
      intros pre post E; destruct (Hb pre post E)].
  unfold bind at 1, await at 1, readLast.
  destruct (last userStore) as [user|];
    [|exists []; rewrite app_nil_r;
      destruct (Hnone [] ltac:(constructor)) as [Ha Hb];
      split; [reflexivity|]; split; [exact Ha|];
      intros pre post E; destruct (Hb pre post E)].
  cbv zeta. unfold try_catch.
  destruct (flowBody_trace env chainStore file asynchronous w)
    as (before & rest & Htr & Fq & Hrest).
  (* the catch block adds one toast at most *)
  assert (Hend : exists tail,
            trace (snd (match Flow.flowBody env chainStore file asynchronous w with
                        | (Return a, w') => (Return a, w')
                        | (Throw t, w') => Flow.flowCatch t w'
                        end))
            = trace w ++ before ++ rest ++ tail
            /\ Forall Props.quiet tail).
  { destruct (Flow.flowBody env chainStore file asynchronous w) as [[a|t] w1].
    - exists []. simpl in *. rewrite app_nil_r. auto.
    - rewrite flowCatch_toast. simpl in *. rewrite Htr.
      exists [Spec.failureToast t]. rewrite <- !app_assoc.
      split; [reflexivity|]. constructor; [|constructor].
      unfold Spec.failureToast.
      destruct (Spec.userCancelled t); split; try reflexivity; discriminate. }
  destruct Hend as (tail & Hend & Ftail).
  exists (before ++ rest ++ tail). split; [exact Hend|].
  destruct Hrest as [->|(rest' & -> & Frest & Hcomplete & Hestimate)].
  - simpl. destruct (Hnone (before ++ tail)) as [Ha Hb].
    { apply Forall_app; auto. }
    split; [exact Ha|]. intros pre post E. destruct (Hb pre post E).
  - assert (Fafter : Forall Props.notDialog (rest' ++ tail)).
    { apply Forall_app; split; [assumption|].
      eapply List.Forall_impl; [|exact Ftail]. intros e [_ H]. exact H. }
    change ((EvConfirmDialog :: rest') ++ tail)
      with (EvConfirmDialog :: (rest' ++ tail)).
    set (later := rest' ++ tail) in *.
    assert (Hq : forall e, In e before -> Props.quiet e)
      by (apply List.Forall_forall; exact Fq).
    assert (Hl : forall e, In e later -> e <> EvConfirmDialog)
      by (apply List.Forall_forall; exact Fafter).
    split.
    + intros pre e post E He.
      apply List.app_eq_app in E as [l [[E1 E2]|[E1 E2]]].
      * destruct l as [|x l]; simpl in E2; injection E2 as -> E2.
        -- discriminate He.
        -- destruct (Hq x) as [Hw _]; [rewrite E1; apply in_or_app; right; left; reflexivity|].
           congruence.
      * destruct l as [|x l]; simpl in E2; injection E2 as <- E2.
        -- discriminate He.
        -- rewrite E1. apply in_or_app. right. left. reflexivity.
    + intros pre post E.
      assert (pre = before /\ post = later) as [-> ->].
      { apply List.app_eq_app in E as [l [[E1 E2]|[E1 E2]]].
        - destruct l as [|x l]; simpl in E2.
          + injection E2 as E2. rewrite app_nil_r in E1. auto.
          + injection E2 as E2 E3.
            destruct (Hq EvConfirmDialog) as [_ Hd];
              [rewrite E1; apply in_or_app; right; left; congruence|].
            congruence.
        - destruct l as [|x l]; simpl in E2.
          + injection E2 as E2. rewrite app_nil_r in E1. auto.
          + injection E2 as E2 E3.
            exfalso. apply (Hl EvConfirmDialog); [|reflexivity].
            rewrite E3. apply in_or_app. right. left. reflexivity. }
      split; [exact Hcomplete|]. split; [exact Hestimate|].
      split.
      * intros Hin. destruct (Hq _ Hin) as [_ Hd]. congruence.
      * intros Hin. exact (Hl _ Hin eq_refl).
Qed.

(** ** Sessions: saving, reading back, clearing *)

(** X3. A session that was saved is read back as long as the record is
    still in place and at most seven days have passed on the clock: the
    lookup returns the saved upload id and key together with the file's
    name and size, the user's ids and the time of saving, and leaves the
    world alone.  Saving touches no other key, and after
    [clearUploadSession] the lookup finds nothing. *)
Theorem saveUploadSession_round_trip (env : Env) (file : File)
    (metaId address uploadId key : string) (w w2 : World) :
  let sessionKey := Session.getUploadSessionKey file metaId address in
  let w1 := snd (Session.saveUploadSession env file metaId address uploadId key w) in
  let saved :=
    {| uploadId := uploadId; key := key;
       fileName := file_name file; fileSize := file_size file;
       s_metaId := metaId; s_address := address;
       timestamp := dateNow env (trace w) |} in
  localStorage w2 !! sessionKey = localStorage w1 !! sessionKey ->
  dateNow env (trace w2) - dateNow env (trace w) <= 7 * 24 * 60 * 60 * 1000 ->
  Session.getUploadSession env file metaId address w2
  = (Return (Some (SessionJson saved)), w2)
  /\ (forall k, k <> sessionKey -> localStorage w1 !! k = localStorage w !! k)
  /\ trace w1 = trace w
  /\ fst (Session.getUploadSession env file metaId address
            (snd (Session.clearUploadSession file metaId address w2)))
     = Return None.
Proof.
  intros sessionKey w1 saved Hkept Hage.
  assert (Hw1 : localStorage w1 = <[sessionKey := SessionJson saved]> (localStorage w))
    by reflexivity.
  split.
  { apply getUploadSession_live.
    - fold sessionKey. rewrite Hkept, Hw1. apply lookup_insert_eq.
    - unfold Session.maxAge. simpl. lia. }
  split.
  { intros k Hk. rewrite Hw1. apply lookup_insert_ne. congruence. }
  split; [reflexivity|].
  unfold Session.getUploadSession, Session.clearUploadSession, removeItem, bind, getItem.
  cbn [snd localStorage]. fold sessionKey. rewrite lookup_delete_eq. reflexivity.
Qed.

Lemma saveUploadSession_round_trip_witness :
  Session.getUploadSession Demo.plain Demo.file "meta1" "addr1"
    (snd (Session.saveUploadSession Demo.plain Demo.file "meta1" "addr1"
            "upload-7" "k7" (Demo.world ∅)))
  = (Return (Some (SessionJson
                     {| uploadId := "upload-7"; key := "k7";
                        fileName := "movie.bin"; fileSize := 2621440;
                        s_metaId := "meta1"; s_address := "addr1";
                        timestamp := 1700000000000 |})),
     snd (Session.saveUploadSession Demo.plain Demo.file "meta1" "addr1"
            "upload-7" "k7" (Demo.world ∅))).
Proof.
  apply (saveUploadSession_round_trip Demo.plain Demo.file "meta1" "addr1"
           "upload-7" "k7" (Demo.world ∅)
           (snd (Session.saveUploadSession Demo.plain Demo.file "meta1" "addr1"
                   "upload-7" "k7" (Demo.world ∅)))).
  - reflexivity.
  - vm_compute. discriminate.
Defined.

(** X4. [getUploadSession] never throws and appends nothing to the trace;
    it leaves the timers and every other key of [localStorage] alone.  What
    comes back is the value parsed from the stored text, its timestamp is
    then no number or at most seven days old, and nothing is changed.  When
    nothing comes back, the key is empty afterwards, or it held the empty
    text and still does.  A session record comes back exactly when it is at
    most seven days old; a text that cannot be read is removed; a parsed
    value without a numeric timestamp, an empty object say, comes back as it
    is and stays in place. *)
Theorem getUploadSession_safe (env : Env) (file : File) (metaId address : string)
    (w : World) :
  let sessionKey := Session.getUploadSessionKey file metaId address in
  exists r w',
    Session.getUploadSession env file metaId address w = (Return r, w')
    /\ trace w' = trace w
    /\ timers w' = timers w
    /\ (forall k, k <> sessionKey -> localStorage w' !! k = localStorage w !! k)
    /\ match r with
       | Some parsed =>
           localStorage w !! sessionKey = Some parsed
           /\ (forall text, parsed <> Unreadable text)
           /\ (forall t, Session.timestampOf parsed = Some t ->
                 dateNow env (trace w) - t <= Session.maxAge)
           /\ w' = w
       | None =>
           localStorage w' !! sessionKey = None
           \/ (localStorage w !! sessionKey = Some (Unreadable "") /\ w' = w)
       end
    /\ (forall session, localStorage w !! sessionKey = Some (SessionJson session) ->
        r = if dateNow env (trace w) - timestamp session >? Session.maxAge
            then None else Some (SessionJson session))
    /\ (forall text, localStorage w !! sessionKey = Some (Unreadable text) ->
        text <> "" -> r = None /\ localStorage w' !! sessionKey = None)
    /\ (forall value, localStorage w !! sessionKey = Some (JsonText value) ->
        j_timestamp value = None -> r = Some (JsonText value) /\ w' = w).
Proof.
  intros sessionKey.
  unfold Session.getUploadSession, bind, getItem, Session.Date_now, history, ret.
  fold sessionKey.
  assert (Hlive : forall parsed,
            localStorage w !! sessionKey = Some parsed ->
            (forall text, parsed <> Unreadable text) ->
            exists r w',
              (if Session.expired (dateNow env (trace w)) (Session.timestampOf parsed)
               then (let (o, w'0) := removeItem sessionKey w in
                     match o with
                     | Return _ => (Return None, w'0)
                     | Throw t => (Throw t, w'0)
                     end)
               else (Return (Some parsed), w)) = (Return r, w')
              /\ r = (if Session.expired (dateNow env (trace w))
                           (Session.timestampOf parsed)
                      then None else Some parsed)
              /\ trace w' = trace w
              /\ timers w' = timers w
              /\ (forall k, k <> sessionKey ->
                    localStorage w' !! k = localStorage w !! k)
              /\ match r with
                 | Some parsed' =>
                     localStorage w !! sessionKey = Some parsed'
                     /\ (forall text, parsed' <> Unreadable text)
                     /\ (forall t, Session.timestampOf parsed' = Some t ->
                           dateNow env (trace w) - t <= Session.maxAge)
                     /\ w' = w
                 | None =>
                     localStorage w' !! sessionKey = None
                     \/ (localStorage w !! sessionKey = Some (Unreadable "") /\ w' = w)
                 end).
  { intros parsed Hs Hreadable.
    destruct (Session.expired (dateNow env (trace w)) (Session.timestampOf parsed))
      eqn:Hexp.
    - eexists None, _. split; [reflexivity|]. split; [reflexivity|].
      cbn [removeItem trace timers localStorage].
      split; [reflexivity|]. split; [reflexivity|].
      split; [intros k Hk; apply lookup_delete_ne; congruence|].
      left. apply lookup_delete_eq.
    - eexists (Some parsed), _. split; [reflexivity|]. split; [reflexivity|].
      split; [reflexivity|]. split; [reflexivity|]. split; [reflexivity|].
      split; [exact Hs|]. split; [exact Hreadable|]. split; [|reflexivity].
      intros t Ht. rewrite Ht in Hexp. unfold Session.expired in Hexp. lia. }
  destruct (localStorage w !! sessionKey) as [[session|value|text]|] eqn:Hs.
  - destruct (Hlive (SessionJson session) eq_refl ltac:(discriminate))
      as (r & w' & Hrun & Hr & Ht & Hi & Hk & Hm).
    exists r, w'. unfold bind. cbn beta iota.
    split; [clear Hr; destruct (Session.expired _ _); exact Hrun|]. split; [exact Ht|]. split; [exact Hi|]. split; [exact Hk|].
    split; [exact Hm|]. split; [|split; intros ? H; discriminate H].
    intros session' H. injection H as <-. exact Hr.
  - destruct (Hlive (JsonText value) eq_refl ltac:(discriminate))
      as (r & w' & Hrun & Hr & Ht & Hi & Hk & Hm).
    exists r, w'. unfold bind. cbn beta iota.
    split; [clear Hr; destruct (Session.expired _ _); exact Hrun|]. split; [exact Ht|]. split; [exact Hi|]. split; [exact Hk|].
    split; [exact Hm|]. split; [intros ? H; discriminate H|].
    split; [intros ? H; discriminate H|].
    intros value' H Hno. injection H as <-.
    cbn [Session.timestampOf] in Hr, Hrun. rewrite Hno in Hr, Hrun.
    cbn [Session.expired] in Hr, Hrun. split; [exact Hr|congruence].
  - destruct text as [|c text].
    + eexists None, _. split; [reflexivity|].
      split; [reflexivity|]. split; [reflexivity|]. split; [reflexivity|].
      split; [right; auto|]. split; [intros ? H; discriminate H|].
      split; [|intros ? H; discriminate H]. intros text Ht Hne. congruence.
    + eexists None, _. split; [reflexivity|]. cbn [removeItem trace timers localStorage].
      split; [reflexivity|]. split; [reflexivity|].
      split; [intros k Hk; apply lookup_delete_ne; congruence|].
      split; [left; apply lookup_delete_eq|]. split; [intros ? H; discriminate H|].
      split; [|intros ? H; discriminate H].
      intros text' Ht Hne. split; [reflexivity|apply lookup_delete_eq].
  - eexists None, _. split; [reflexivity|].
    split; [reflexivity|]. split; [reflexivity|]. split; [reflexivity|].
    split; [left; exact Hs|]. split; [intros ? H; discriminate H|].
    split; intros ? H; discriminate H.
Qed.

(** ** Starting an upload afresh *)

Section FreshRun.
Import Spec Props Oss Session.

Lemma existingPartsMap_nil p : existingPartsMap [] !! p = None.
Proof. apply lookup_empty. Qed.

Lemma initiateUpload_accepted env file metaId address w uid ukey st msg :
  fetchInitiate env (trace w) (ReqInitiate (file_name file) (file_size file) metaId address)
    = Return {| ok := true; status := st;
                json := Return {| code := 0; message := msg;
                                  data := Some (uid, ukey) |} |} ->
  let request := ReqInitiate (file_name file) (file_size file) metaId address in
  initiateUpload env file metaId address w
  = (Return (uid, ukey),
     {| localStorage :=
          <[getUploadSessionKey file metaId address :=
              SessionJson {| uploadId := uid; key := ukey;
                             fileName := file_name file; fileSize := file_size file;
                             s_metaId := metaId; s_address := address;
                             timestamp := dateNow env (trace w ++ [EvFetch request]) |}]>
            (localStorage w);
        trace := trace w ++ [EvFetch request];
        timers := timers w |}).
Proof.
  intros Hinit request. subst request.
  unfold initiateUpload, fetch.
  unfold bind, history, emit, await, ret. cbn beta iota zeta.
  rewrite Hinit. reflexivity.
Qed.

(** The run from the initiation on, once the attempt to resume has come
    back without parts. *)
Lemma uploadFileToOSS_afresh env file w userStore user existingSession wa kept w0
    uid ukey st msg :
  let sessionKey := getUploadSessionKey file (metaid user) (address user) in
  let request := ReqInitiate (file_name file) (file_size file) (metaid user) (address user) in
  userStoreInstance env = Some userStore ->
  last userStore = Some user ->
  getUploadSession env file (metaid user) (address user) w
    = (Return existingSession, wa) ->
  match existingSession with
  | Some session =>
      if isTruthy session then listExistingParts env session
      else ret (existingSession, [])
  | None => ret (None, [])
  end wa = (Return (kept, []), w0) ->
  fetchInitiate env (trace w0) request
    = Return {| ok := true; status := st;
                json := Return {| code := 0; message := msg;
                                  data := Some (uid, ukey) |} |} ->
  let w1 :=
    {| localStorage :=
         <[sessionKey := SessionJson (sessionRecord file user uid ukey
                           (dateNow env (trace w0 ++ [EvFetch request])))]>
           (localStorage w0);
       trace := trace w0 ++ [EvFetch request];
       timers := timers w0 |} in
  exists evs r w',
    uploadFileToOSS env file w = (r, w')
    /\ trace w' = trace w1 ++ evs
    /\ freshUpload env file uid ukey sessionKey w1 evs r w'.
Proof.
  intros sessionKey request Hus Hlast Hsess Hres Hinit w1.
  set (totalZ := ceil_div (file_size file) MULTIPART_CHUNK_SIZE).
  set (total := totalParts file).
  assert (Hbody :
    uploadFileToOSS_body env file w =
      match uploadParts env file (Some uid) (Some ukey) (existingPartsMap []) totalZ (file_size file)
              (Z.to_nat totalZ) 1 [] 0
              (after w1 (EvProgress 0 totalZ 0 (file_size file))) with
      | (Throw t, w2) => (Throw t, w2)
      | (Return uploaded, w2) =>
          match completeUpload env (Some uid) (Some ukey)
                  (sort_by (fun a b => partNumber a - partNumber b) (fst uploaded))
                  (after w2 (EvProgress totalZ totalZ (file_size file) (file_size file)))
          with
          | (Throw t, w4) => (Throw t, w4)
          | (Return storageKey, w4) =>
              (Return storageKey,
               {| localStorage := delete sessionKey (localStorage w4);
                  trace := trace w4; timers := timers w4 |})
          end
      end).
  { unfold uploadFileToOSS_body. rewrite Hus.
    rewrite !(bind_readLast_some _ _ _ _ _ _ Hlast).
    unfold bind at 1. rewrite Hsess.
    unfold bind at 1. rewrite Hres.
    assert (Hstart :
      (let* fresh := initiateUpload env file (metaid user) (address user) in
       ret (Some (fst fresh), Some (snd fresh), @nil UploadPart)) w0
      = (Return (Some uid, Some ukey, []), w1)).
    { unfold bind. rewrite (initiateUpload_accepted env file _ _ w0 uid ukey st msg Hinit).
      reflexivity. }
    unfold bind at 1.
    replace (match kept with
             | Some session => _
             | None => _
             end w0) with (@Return (option string * option string * list UploadPart)
                               (Some uid, Some ukey, []), w1)
      by (destruct kept; symmetry; exact Hstart).
    cbv beta iota zeta.
    unfold bind at 1. unfold updateOSSUploadProgress at 1. unfold emit at 1.
    fold totalZ.
    change {| localStorage := localStorage w1;
              trace := trace w1 ++ [EvProgress 0 totalZ 0 (file_size file)];
              timers := timers w1 |}
      with (after w1 (EvProgress 0 totalZ 0 (file_size file))).
    unfold bind at 1.
    destruct (uploadParts env file (Some uid) (Some ukey) (existingPartsMap []) totalZ (file_size file)
                (Z.to_nat totalZ) 1 [] 0 _) as [[uploaded|t] w2]; [|reflexivity].
    unfold bind at 1. unfold updateOSSUploadProgress at 1. unfold emit at 1.
    unfold bind at 1.
    change {| localStorage := localStorage w2;
              trace := trace w2 ++ [EvProgress totalZ totalZ (file_size file) (file_size file)];
              timers := timers w2 |}
      with (after w2 (EvProgress totalZ totalZ (file_size file) (file_size file))).
    destruct (completeUpload env (Some uid) (Some ukey) _ _) as [[storageKey|t] w4]; [|reflexivity].
    unfold bind, clearUploadSession, removeItem, ret. reflexivity. }
  unfold uploadFileToOSS, try_catch. rewrite Hbody.
  set (w1p := after w1 (EvProgress 0 totalZ 0 (file_size file))).
  destruct (uploadParts_spec env file (Some uid) (Some ukey) (existingPartsMap []) totalZ
              (file_size file) (Z.to_nat totalZ) 1 [] 0 w1p eq_refl)
    as (evs & rl & Hrun & Hc & Hi & Hu & Hpr & Hok).
  change (Z.to_nat totalZ) with total in Hu, Hok, Hrun.
  rewrite (missing_absent (existingPartsMap []) 1 total
             (fun q _ => existingPartsMap_nil q)) in Hu, Hok.
  change (Z.to_nat totalZ) with total. rewrite Hrun.
  set (sent := fun q : Z => (Some uid, Some ukey, q)) in *.
  destruct rl as [[parts' bytes']|t].
  - destruct (Hok parts' bytes' eq_refl) as (Hu' & _ & added & Hparts & Hnum & Hadded).
    simpl in Hparts. subst parts'. cbn [fst].
    rewrite (parts_sort_id added 1 total Hnum).
    set (w3 := after _ (EvProgress totalZ totalZ (file_size file) (file_size file))).
    destruct (completeUpload_spec env (Some uid) (Some ukey) added w3) as (rc & Hcomplete).
    rewrite Hcomplete.
    set (doneEv := EvFetch (ReqComplete (Some uid) (Some ukey) added)).
    set (all := [EvProgress 0 totalZ 0 (file_size file)] ++ evs
                ++ [EvProgress totalZ totalZ (file_size file) (file_size file); doneEv]).
    assert (Hup : uploadedParts all = map sent (countFrom 1 total)).
    { unfold all. rewrite !uploadedParts_app, Hu'. simpl. now rewrite app_nil_r. }
    assert (Hcs : completions all = [(Some uid, Some ukey, added)]).
    { unfold all. rewrite !completions_app, Hc. reflexivity. }
    assert (Hin : initiations all = []).
    { unfold all. rewrite !initiations_app, Hi. reflexivity. }
    assert (Htrace : trace (after w3 doneEv) = trace w1 ++ all).
    { unfold all. simpl. now rewrite <- !app_assoc. }
    destruct rc as [storageKey|t].
    + exists all, (Return storageKey). eexists. split; [reflexivity|].
      split; [exact Htrace|].
      unfold freshUpload. fold total. fold sent.
      split; [reflexivity|]. split; [exact Hin|].
      split; [rewrite Hup; reflexivity|].
      split.
      * intros storageKey' _. split; [exact Hup|].
        split; [|reflexivity].
        exists added. split; [exact Hcs|]. split; [exact Hnum|].
        intros x Hx. apply (Hadded x Hx).
      * intros t Ht. discriminate.
    + exists all, (Throw (Error ("Failed to upload file to OSS: " +:+ show_message t))).
      eexists. split; [reflexivity|].
      split; [exact Htrace|].
      unfold freshUpload. fold total. fold sent.
      split; [reflexivity|]. split; [exact Hin|].
      split; [rewrite Hup; reflexivity|].
      split; [intros ? Hr; discriminate|].
      intros t' Ht'. split; [reflexivity|]. injection Ht' as <-. eauto.
  - set (all := [EvProgress 0 totalZ 0 (file_size file)] ++ evs).
    exists all, (Throw (Error ("Failed to upload file to OSS: " +:+ show_message t))).
    eexists. split; [reflexivity|].
    split; [unfold all; simpl; now rewrite <- !app_assoc|].
    unfold freshUpload. fold total. fold sent.
    split; [reflexivity|].
    split; [unfold all; rewrite initiations_app, Hi; reflexivity|].
    split; [unfold all; rewrite uploadedParts_app; exact Hu|].
    split; [intros ? Hr; discriminate|].
    intros t' Ht'. split; [reflexivity|]. injection Ht' as <-. eauto.
Qed.

End FreshRun.

Section FreshFacts.
Import Spec Props Oss Session.

Lemma getUploadSession_trace env file metaId address w r w0 :
  getUploadSession env file metaId address w = (r, w0) ->
  trace w0 = trace w /\ timers w0 = timers w.
Proof.
  unfold getUploadSession, bind, getItem, Date_now, history, ret, removeItem.
  destruct (localStorage w !! _) as [[session|value|[|c text]]|]; cbn beta iota;
    try (intros H; injection H as _ <-; split; reflexivity);
    unfold bind; cbn beta iota; destruct (expired _ _);
    intros H; injection H as _ <-; split; reflexivity.
Qed.

(** A listing that cannot be used leaves the resume attempt without parts,
    whatever went wrong. *)
Lemma listExistingParts_unusable env session w :
  let request := ReqListParts (Some (uploadId session)) (Some (key session)) in
  listingUsable (fetchListParts env (trace w) request) = false ->
  exists kept,
    listExistingParts env (SessionJson session) w
    = (Return (kept, []), after w (EvFetch request)).
Proof.
  intros request Hbad. unfold listingUsable in Hbad.
  unfold listExistingParts, try_catch, fetch.
  unfold bind, history, emit, await, ret. cbn beta iota zeta.
  cbn [uploadIdOf keyOf].
  fold request. fold (after w (EvFetch request)).
  destruct (fetchListParts env (trace w) request) as [response|t]; [|eauto].
  destruct (ok response); [|eauto]. simpl in Hbad.
  destruct (json response) as [result|t]; [|eauto].
  destruct (data result) as [[[|x l]|]|]; eauto;
    destruct (code result =? 0)%Z; try discriminate; eauto.
Qed.

End FreshFacts.

(** X5. Let no usable session be found for the file ([getUploadSession]
    yields nothing: no record, an expired one, or an unreadable one) and
    let the store accept the initiation with an upload id and a key.  Then
    [uploadFileToOSS] issues that one initiation first and no other; it
    sends the parts 1, 2, ... in order under the new id and key, all of
    them when it returns; a call that returns has issued one completion
    listing the parts 1..total with their sizes and has removed the
    session; a call that throws, at whatever point after the initiation,
    leaves the new session in [localStorage], so that a later call can
    resume it. *)
Theorem uploadFileToOSS_starts_afresh (env : Env) (file : File) (w w0 : World)
    (userStore : UserStore) (user : UserInfo) (uid ukey : string) (st : Z)
    (msg : option string) :
  let sessionKey := Session.getUploadSessionKey file (metaid user) (address user) in
  let request :=
    ReqInitiate (file_name file) (file_size file) (metaid user) (address user) in
  let saved :=
    Props.sessionRecord file user uid ukey (dateNow env (trace w ++ [EvFetch request])) in
  let w1 :=
    {| localStorage := <[sessionKey := SessionJson saved]> (localStorage w0);
       trace := trace w ++ [EvFetch request];
       timers := timers w |} in
  userStoreInstance env = Some userStore ->
  last userStore = Some user ->
  Session.getUploadSession env file (metaid user) (address user) w = (Return None, w0) ->
  fetchInitiate env (trace w) request
    = Return {| ok := true; status := st;
                json := Return {| code := 0; message := msg;
                                  data := Some (uid, ukey) |} |} ->
  exists evs r w',
    Oss.uploadFileToOSS env file w = (r, w')
    /\ trace w' = trace w ++ EvFetch request :: evs
    /\ Props.freshUpload env file uid ukey sessionKey w1 evs r w'
    /\ (forall t, r = Throw t ->
          localStorage w' !! sessionKey = Some (SessionJson saved))
    /\ (forall storageKey, r = Return storageKey ->
          localStorage w' !! sessionKey = None).
Proof.
  intros sessionKey request saved w1 Hus Hlast Hsess Hinit.
  destruct (getUploadSession_trace env file _ _ w _ w0 Hsess) as [Htr Htm].
  destruct (uploadFileToOSS_afresh env file w userStore user None w0 None w0 uid ukey
              st msg Hus Hlast Hsess eq_refl ltac:(rewrite Htr; exact Hinit))
    as (evs & r & w' & Hrun & Htrace & Hfresh).
  cbv zeta in Htrace, Hfresh. rewrite Htr, Htm in Hfresh.
  fold sessionKey request saved w1 in Hfresh.
  exists evs, r, w'. split; [exact Hrun|].
  split; [rewrite Htrace, Htr; cbn [trace]; now rewrite <- app_assoc|].
  split; [exact Hfresh|].
  destruct Hfresh as (_ & _ & _ & Hret & Hthrow).
  split.
  - intros t Ht. destruct (Hthrow t Ht) as [-> _].
    cbn [w1 localStorage]. apply lookup_insert_eq.
  - intros storageKey Hr. destruct (Hret storageKey Hr) as (_ & _ & ->).
    apply lookup_delete_eq.
Qed.

Lemma uploadFileToOSS_starts_afresh_witness :
  exists evs w',
    Oss.uploadFileToOSS Demo.plain Demo.file (Demo.world (Demo.stored 1000)) = (Return "k1", w')
    /\ trace w' = EvFetch (ReqInitiate "movie.bin" 2621440 "meta1" "addr1") :: evs
    /\ Spec.uploadedParts evs
       = [(Some "upload-1", Some "k1", 1); (Some "upload-1", Some "k1", 2);
        (Some "upload-1", Some "k1", 3)]
    /\ localStorage w' !! Demo.sessionKey = None.
Proof.
  destruct (uploadFileToOSS_starts_afresh Demo.plain Demo.file
              (Demo.world (Demo.stored 1000)) (Demo.world ∅)
              {| last := Some Demo.user |} Demo.user "upload-1" "k1" 200 None)
    as (evs & r & w' & Hrun & Htr & Hfresh & _ & Hgone).
  - reflexivity.
  - reflexivity.
  - vm_compute. reflexivity.
  - reflexivity.
  - assert (Hr : fst (Oss.uploadFileToOSS Demo.plain Demo.file
                        (Demo.world (Demo.stored 1000))) = Return "k1")
      by (vm_compute; reflexivity).
    rewrite Hrun in Hr. simpl in Hr. subst r.
    destruct Hfresh as (_ & _ & _ & Hret & _).
    destruct (Hret "k1" eq_refl) as (Hup & _ & _).
    exists evs, w'. split; [exact Hrun|]. split; [exact Htr|].
    split; [rewrite Hup; vm_compute; reflexivity|exact (Hgone "k1" eq_refl)].
Defined.

(** X6. Let a live session be stored, and let the list-parts request not
    yield a usable listing: the request is rejected, the answer is no HTTP
    success, its body cannot be read, its code is not 0, or it lists no
    part.  Then the failure is swallowed and the upload starts afresh: the
    initiation follows the listing, the stored session is replaced by the
    new one, and all parts 1..total are sent under the new upload id; the
    parts the store may hold under the old id are not used. *)
Theorem uploadFileToOSS_unusable_listing (env : Env) (file : File) (w : World)
    (userStore : UserStore) (user : UserInfo) (session : SessionData)
    (uid ukey : string) (st : Z) (msg : option string) :
  let sessionKey := Session.getUploadSessionKey file (metaid user) (address user) in
  let listing := ReqListParts (Some (uploadId session)) (Some (key session)) in
  let request :=
    ReqInitiate (file_name file) (file_size file) (metaid user) (address user) in
  let saved :=
    Props.sessionRecord file user uid ukey
      (dateNow env (trace w ++ [EvFetch listing; EvFetch request])) in
  let w1 :=
    {| localStorage := <[sessionKey := SessionJson saved]> (localStorage w);
       trace := trace w ++ [EvFetch listing; EvFetch request];
       timers := timers w |} in
  userStoreInstance env = Some userStore ->
  last userStore = Some user ->
  localStorage w !! sessionKey = Some (SessionJson session) ->
  dateNow env (trace w) - timestamp session <= 7 * 24 * 60 * 60 * 1000 ->
  Props.listingUsable (fetchListParts env (trace w) listing) = false ->
  fetchInitiate env (trace w ++ [EvFetch listing]) request
    = Return {| ok := true; status := st;
                json := Return {| code := 0; message := msg;
                                  data := Some (uid, ukey) |} |} ->
  exists evs r w',
    Oss.uploadFileToOSS env file w = (r, w')
    /\ trace w' = trace w ++ EvFetch listing :: EvFetch request :: evs
    /\ Props.freshUpload env file uid ukey sessionKey w1 evs r w'
    /\ (forall t, r = Throw t ->
          localStorage w' !! sessionKey = Some (SessionJson saved))
    /\ (forall storageKey, r = Return storageKey ->
          localStorage w' !! sessionKey = None).
Proof.
  intros sessionKey listing request saved w1 Hus Hlast Hs Hage Hbad Hinit.
  destruct (listExistingParts_unusable env session w Hbad) as (kept & Hlist).
  fold listing in Hlist.
  destruct (uploadFileToOSS_afresh env file w userStore user
              (Some (SessionJson session)) w kept
              (Spec.after w (EvFetch listing)) uid ukey st msg Hus Hlast
              (getUploadSession_live env file _ _ w session Hs
                 ltac:(unfold Session.maxAge; lia))
              Hlist Hinit)
    as (evs & r & w' & Hrun & Htrace & Hfresh).
  cbv zeta in Htrace, Hfresh. cbn [Spec.after trace localStorage timers] in Htrace, Hfresh.
  rewrite <- app_assoc in Htrace, Hfresh. cbn [app] in Htrace, Hfresh.
  fold sessionKey request listing saved w1 in Hfresh.
  exists evs, r, w'. split; [exact Hrun|].
  split; [rewrite Htrace; now rewrite <- app_assoc|].
  split; [exact Hfresh|].
  destruct Hfresh as (_ & _ & _ & Hret & Hthrow).
  split.
  - intros t Ht. destruct (Hthrow t Ht) as [-> _].
    cbn [w1 localStorage]. apply lookup_insert_eq.
  - intros storageKey Hr. destruct (Hret storageKey Hr) as (_ & _ & ->).
    apply lookup_delete_eq.
Qed.

Lemma uploadFileToOSS_unusable_listing_witness :
  exists evs w',
    Oss.uploadFileToOSS Demo.plain Demo.file (Demo.world (Demo.stored 1699999999000))
      = (Return "k1", w')
    /\ trace w' = EvFetch (ReqListParts (Some "upload-0") (Some "k0"))
                    :: EvFetch (ReqInitiate "movie.bin" 2621440 "meta1" "addr1") :: evs
    /\ Spec.uploadedParts evs
       = [(Some "upload-1", Some "k1", 1); (Some "upload-1", Some "k1", 2);
        (Some "upload-1", Some "k1", 3)]
    /\ localStorage w' !! Demo.sessionKey = None.
Proof.
  destruct (uploadFileToOSS_unusable_listing Demo.plain Demo.file
              (Demo.world (Demo.stored 1699999999000))
              {| last := Some Demo.user |} Demo.user (Demo.session 1699999999000)
              "upload-1" "k1" 200 None)
    as (evs & r & w' & Hrun & Htr & Hfresh & _ & Hgone).
  - reflexivity.
  - reflexivity.
  - apply lookup_singleton_eq.
  - vm_compute. discriminate.
  - reflexivity.
  - reflexivity.
  - assert (Hr : fst (Oss.uploadFileToOSS Demo.plain Demo.file
                        (Demo.world (Demo.stored 1699999999000))) = Return "k1")
      by (vm_compute; reflexivity).
    rewrite Hrun in Hr. simpl in Hr. subst r.
    destruct Hfresh as (_ & _ & _ & Hret & _).
    destruct (Hret "k1" eq_refl) as (Hup & _ & _).
    exists evs, w'. split; [exact Hrun|]. split; [exact Htr|].
    split; [rewrite Hup; vm_compute; reflexivity|exact (Hgone "k1" eq_refl)].
Defined.

(** ** What a returned selection holds *)

Section SelectionReturned.
Import Spec Props Chain.

Lemma sumSatoshis_app a b : sumSatoshis (a ++ b) = sumSatoshis a + sumSatoshis b.
Proof. induction a as [|u a IH]; unfold sumSatoshis in *; simpl; lia. Qed.

(** The loop, whenever it returns: what it added comes from the front of
    the list, one for one; it stopped as soon as the target was met. *)
Lemma selectUtxos_returns env requiredAmount (l : list WalletUtxo) :
  forall acc total sel tot,
    selectUtxos env requiredAmount l acc total = Return (sel, tot) ->
    exists added,
      sel = acc ++ added
      /\ tot = total + sumSatoshis added
      /\ Forall2 selectedFrom (take (length added) l) added
      /\ (l <> [] -> added <> [])
      /\ (total < requiredAmount + 1 ->
          forall front lastOne, added = front ++ [lastOne] ->
            total + sumSatoshis front < requiredAmount + 1).
Proof.
  induction l as [|x l IH]; intros acc total sel tot Hrun; simpl in Hrun.
  - injection Hrun as <- <-. exists []. rewrite app_nil_r.
    split; [reflexivity|]. split; [unfold sumSatoshis; simpl; lia|].
    split; [constructor|]. split; [congruence|].
    intros _ front lastOne E. destruct front; discriminate.
  - destruct (buildPublicKeyHashOut env (w_address x)) as [scriptHex|t]; [|discriminate].
    set (u := {| txId := w_txid x; outputIndex := w_outIndex x;
                 script := Some scriptHex; satoshis := w_value x |}) in *.
    assert (Hu : selectedFrom x u) by (repeat split; eauto).
    destruct (total + w_value x >=? requiredAmount + 1) eqn:Hstop.
    + injection Hrun as <- <-. exists [u].
      split; [reflexivity|]. split; [unfold sumSatoshis; simpl; lia|].
      split; [simpl; constructor; [exact Hu|constructor]|].
      split; [discriminate|].
      intros Hge front lastOne E.
      destruct front as [|f front]; [|destruct front; discriminate].
      unfold sumSatoshis. simpl. lia.
    + destruct (IH _ _ _ _ Hrun) as (added & -> & -> & Hfrom & Hne & Hmin).
      exists (u :: added). rewrite <- app_assoc.
      split; [reflexivity|]. split; [unfold sumSatoshis; simpl; lia|].
      split; [simpl; constructor; assumption|].
      split; [discriminate|].
      intros Hge front lastOne E.
      rewrite Z.geb_leb in Hstop. apply Z.leb_gt in Hstop.
      destruct front as [|f front].
      * unfold sumSatoshis. simpl. lia.
      * simpl in E. injection E as <- E.
        specialize (Hmin Hstop front lastOne E).
        unfold sumSatoshis in *. simpl in *. lia.
Qed.

End SelectionReturned.

Section WalletReturned.
Import Spec Props Chain.

(** A call of [getWalletUTXOs] that returns. *)
Lemma getWalletUTXOs_returned env requiredAmount w data w' :
  getWalletUTXOs env requiredAmount w = (Return data, w') ->
  exists wallet,
    walletGetUtxos env (trace w) = Return (Some wallet)
    /\ w' = after w EvGetUtxos
    /\ utxos data <> []
    /\ totalAmount data = sumSatoshis (utxos data)
    /\ totalAmount data >= requiredAmount + 1
    /\ Forall2 selectedFrom
         (take (length (utxos data)) (sort_by byValueDescending (spendable wallet)))
         (utxos data)
    /\ (0 <= requiredAmount ->
        forall front lastOne, utxos data = front ++ [lastOne] ->
          sumSatoshis front < requiredAmount + 1).
Proof.
  intros Hrun. unfold getWalletUTXOs in Hrun.
  apply try_catch_returns in Hrun; [|intros t w0; eexists; reflexivity].
  destruct (mvcInstance env); [|discriminate]. cbn [negb] in Hrun.
  unfold bind, history, emit, await, ret, throw in Hrun. cbn beta iota zeta in Hrun.
  fold (after w EvGetUtxos) in Hrun.
  destruct (walletGetUtxos env (trace w)) as [[wallet|]|t]; try discriminate.
  destruct wallet as [|x0 wallet0] eqn:Hw; [discriminate|]. rewrite <- Hw in *.
  fold (spendable wallet) in Hrun. fold byValueDescending in Hrun.
  destruct (spendable wallet) as [|s0 rest] eqn:Hsp; [discriminate|].
  rewrite <- Hsp in Hrun.
  set (sorted := sort_by byValueDescending (spendable wallet)) in *.
  destruct (selectUtxos env requiredAmount sorted [] 0) as [[sel tot]|t] eqn:Hsel;
    [|discriminate].
  cbn [fst snd] in Hrun.
  destruct (Z.ltb_spec tot (requiredAmount + 1)) as [Hshort|Hmet]; [discriminate|].
  injection Hrun as <- <-.
  destruct (selectUtxos_returns env requiredAmount sorted [] 0 sel tot Hsel)
    as (added & -> & -> & Hfrom & Hne & Hmin).
  cbn [utxos totalAmount app].
  exists wallet. split; [reflexivity|]. split; [reflexivity|].
  split.
  { apply Hne. intros Hnil.
    assert (Hperm := sort_by_perm byValueDescending (spendable wallet)).
    fold sorted in Hperm. rewrite Hnil, Hsp in Hperm.
    exact (Permutation_nil_cons Hperm). }
  split; [lia|]. split; [lia|]. split; [exact Hfrom|].
  intros Hreq front lastOne E. specialize (Hmin ltac:(lia) front lastOne E). lia.
Qed.

End WalletReturned.

(** X7. Whenever [getWalletUTXOs] returns, whatever the wallet and the
    library answered: the wallet was asked once and nothing else happened;
    the selection is not empty; it is, one for one, a front part of the
    wallet's outputs above 600 satoshis sorted by descending value, each
    with its transaction id, index and value and with a locking script; the
    reported total is the sum of the selected values and exceeds the
    required amount; and for a required amount that is not negative the
    selection without its last member falls short, so no output is taken
    that is not needed. *)
Theorem getWalletUTXOs_returns_funded (env : Env) (requiredAmount : Z)
    (w w' : World) (data : UtxoData) :
  Chain.getWalletUTXOs env requiredAmount w = (Return data, w') ->
  exists wallet,
    walletGetUtxos env (trace w) = Return (Some wallet)
    /\ trace w' = trace w ++ [EvGetUtxos]
    /\ localStorage w' = localStorage w
    /\ timers w' = timers w
    /\ utxos data <> []
    /\ Forall2 Props.selectedFrom
         (take (length (utxos data))
               (sort_by Spec.byValueDescending (Spec.spendable wallet)))
         (utxos data)
    /\ Forall (fun u => satoshis u > 600) (utxos data)
    /\ totalAmount data = Props.sumSatoshis (utxos data)
    /\ totalAmount data > requiredAmount
    /\ (0 <= requiredAmount ->
        forall front lastOne, utxos data = front ++ [lastOne] ->
          Props.sumSatoshis front <= requiredAmount).
Proof.
  intros Hrun.
  destruct (getWalletUTXOs_returned env requiredAmount w data w' Hrun)
    as (wallet & Hwallet & -> & Hne & Htot & Hge & Hfrom & Hmin).
  exists wallet. split; [exact Hwallet|].
  split; [reflexivity|]. split; [reflexivity|]. split; [reflexivity|].
  split; [exact Hne|]. split; [exact Hfrom|].
  split.
  { assert (Habove := sorted_above wallet).
    apply List.Forall_forall. intros u Hu.
    apply list_elem_of_In, list_elem_of_lookup_1 in Hu as [i Hi].
    destruct (Forall2_lookup_r _ _ _ _ _ Hfrom Hi) as (x & Hx & (_ & _ & Hval & _)).
    apply lookup_take_Some in Hx as [Hx _].
    rewrite Hval.
    apply (proj1 (List.Forall_forall _ _) Habove).
    apply list_elem_of_In. eapply list_elem_of_lookup_2. exact Hx. }
  split; [exact Htot|]. split; [lia|].
  intros Hreq front lastOne E. specialize (Hmin Hreq front lastOne E). lia.
Qed.

Lemma getWalletUTXOs_returns_funded_witness :
  exists data w',
    Chain.getWalletUTXOs (Demo.env Demo.wallet [] (Return None) None) 4000
      (Demo.world ∅) = (Return data, w')
    /\ map txId (utxos data) = ["c"; "d"]
    /\ totalAmount data = 5000.
Proof.
  eexists _, _.
  assert (Hrun : Chain.getWalletUTXOs (Demo.env Demo.wallet [] (Return None) None) 4000
                   (Demo.world ∅)
                 = (Return {| utxos := map (Spec.selected Demo.lock)
                                         [Demo.coin "c" 3000; Demo.coin "d" 2000];
                              totalAmount := 5000 |},
                    Spec.after (Demo.world ∅) EvGetUtxos))
    by (vm_compute; reflexivity).
  split; [exact Hrun|].
  destruct (getWalletUTXOs_returns_funded _ _ _ _ _ Hrun)
    as (wallet & _ & _ & _ & _ & _ & _ & _ & Htot & _).
  split; [reflexivity|exact Htot].
Defined.

(** ** Open pre-transactions over several inputs *)

Section SignInputs.
Import Spec Props Chain.

Lemma from_all (us : list Utxo) :
  forall tx,
    version (foldl Mvc.from tx us) = version tx
    /\ outputs (foldl Mvc.from tx us) = outputs tx
    /\ exists added,
         inputs (foldl Mvc.from tx us) = inputs tx ++ added
         /\ Forall2 spends us added
         /\ Forall (fun i => in_script i = None) added.
Proof.
  induction us as [|u us IH]; intros tx; simpl.
  - split; [reflexivity|]. split; [reflexivity|].
    exists []. rewrite app_nil_r. repeat constructor.
  - destruct (IH (Mvc.from tx u)) as (Hv & Ho & added & Hi & Hs & Hn).
    split; [exact Hv|]. split; [exact Ho|].
    eexists (_ :: added). simpl in Hi. rewrite <- app_assoc in Hi.
    split; [exact Hi|].
    split; constructor; try assumption; repeat split.
Qed.

Lemma setScript_returns tx i s tx' :
  Mvc.setScript tx i s = Return tx' ->
  0 <= i
  /\ version tx' = version tx
  /\ outputs tx' = outputs tx
  /\ exists input,
       inputs tx !! Z.to_nat i = Some input
       /\ inputs tx'
          = <[Z.to_nat i := {| prevTxId := prevTxId input;
                               in_outputIndex := in_outputIndex input;
                               in_output := in_output input;
                               in_script := Some s |}]> (inputs tx).
Proof.
  unfold Mvc.setScript. destruct (Z.ltb_spec i 0) as [Hneg|Hpos]; [discriminate|].
  destruct (inputs tx !! Z.to_nat i) as [input|] eqn:Hi; [|discriminate].
  intros Hret. injection Hret as <-. simpl. eauto 10.
Qed.

(** The signing loop, when it returns: one request per remaining output,
    in order; the transaction keeps its version, its outputs and what its
    inputs spend; the inputs it went through carry a script, and so do the
    earlier ones that carried one. *)
Lemma signInputs_returns env userStore user (remaining : list Utxo) :
  last userStore = Some user ->
  forall i tx w tx' w',
    0 <= i ->
    signInputs env userStore remaining i tx w = (Return tx', w') ->
    exists qs,
      w' = {| localStorage := localStorage w; trace := trace w ++ map EvSign qs;
              timers := timers w |}
      /\ signedInOrder (address user) i remaining qs
      /\ version tx' = version tx
      /\ outputs tx' = outputs tx
      /\ map outpoint (inputs tx') = map outpoint (inputs tx)
      /\ (forall j input,
            (Z.of_nat j < i + Z.of_nat (length remaining))%Z ->
            inputs tx' !! j = Some input ->
            (i <= Z.of_nat j)%Z
            \/ (exists before, inputs tx !! j = Some before
                               /\ is_Some (in_script before)) ->
            is_Some (in_script input)).
Proof.
  intros Hlast.
  induction remaining as [|u rest IH]; intros i tx w tx' w' Hi Hrun; simpl in Hrun.
  - injection Hrun as <- <-. exists []. simpl. rewrite app_nil_r.
    split; [now destruct w|]. split; [exact I|].
    split; [reflexivity|]. split; [reflexivity|]. split; [reflexivity|].
    intros j input Hj Hinput [Hge|(before & Hb & Hs)]; [lia|].
    congruence.
  - unfold bind at 1 in Hrun. unfold await at 1 in Hrun.
    destruct (toHex env tx) as [txHex|t]; [|discriminate].
    rewrite (bind_readLast_some _ _ _ _ _ _ Hlast) in Hrun.
    unfold bind at 1, history at 1 in Hrun.
    unfold bind at 1, emit at 1 in Hrun.
    unfold bind at 1, await at 1 in Hrun. cbn [trace] in Hrun.
    set (request := {| sr_txHex := txHex; sr_address := address user;
                       sr_inputIndex := i;
                       sr_scriptHex := script u; sr_satoshis := satoshis u;
                       sr_sigtype := openSigtype |}) in *.
    destruct (walletSignTransaction env (trace w) request) as [[signature|]|t];
      try discriminate.
    unfold bind at 1, await at 1 in Hrun.
    destruct (signatureToDER env (sig signature)) as [der|t]; [|discriminate].
    unfold bind at 1, await at 1 in Hrun.
    destruct (Mvc.setScript tx i _) as [tx1|t] eqn:Hset; [|discriminate].
    destruct (setScript_returns _ _ _ _ Hset) as (_ & Hv1 & Ho1 & input & Hin & Hins).
    destruct (IH (i + 1) tx1 _ tx' w' ltac:(lia) Hrun)
      as (qs & -> & Hord & Hv & Ho & Hp & Hscripts).
    exists (request :: qs). cbn [localStorage trace timers].
    split; [simpl; now rewrite <- app_assoc|].
    split; [simpl; split; [repeat split|exact Hord]|].
    split; [congruence|]. split; [congruence|].
    split.
    { rewrite Hp, Hins. apply list_eq. intros j.
      rewrite !list_lookup_fmap.
      destruct (decide (j = Z.to_nat i)) as [->|Hne].
      - rewrite list_lookup_insert_eq by (eapply lookup_lt_Some; exact Hin).
        rewrite Hin. reflexivity.
      - rewrite list_lookup_insert_ne by congruence. reflexivity. }
    intros j inp Hj Hinp Hwhy.
    apply (Hscripts j inp); [simpl length in Hj; lia|exact Hinp|].
    destruct (decide (j = Z.to_nat i)) as [->|Hne].
    + right. eexists. rewrite Hins.
      rewrite list_lookup_insert_eq by (eapply lookup_lt_Some; exact Hin).
      split; [reflexivity|]. simpl. eauto.
    + destruct Hwhy as [Hge|(before & Hb & Hs)].
      * left. lia.
      * right. exists before. rewrite Hins, list_lookup_insert_ne by congruence.
        auto.
Qed.

(** Without a record in the user store the loop returns only when there is
    nothing to sign. *)
Lemma signInputs_no_record env userStore (remaining : list Utxo) i tx w tx' w' :
  last userStore = None ->
  signInputs env userStore remaining i tx w = (Return tx', w') ->
  remaining = [] /\ tx' = tx /\ w' = w.
Proof.
  intros Hlast Hrun. destruct remaining as [|u rest]; simpl in Hrun.
  - injection Hrun as <- <-. auto.
  - unfold bind at 1 in Hrun. unfold await at 1 in Hrun.
    destruct (toHex env tx) as [txHex|t]; [|discriminate].
    rewrite (bind_readLast_none _ _ _ _ _ Hlast) in Hrun. discriminate.
Qed.

End SignInputs.

Section OpenPreTxAll.
Import Spec Props Chain.

Lemma signedInOrder_length own us :
  forall qs i, signedInOrder own i us qs -> length qs = length us.
Proof.
  induction us as [|u us IH]; intros [|q qs] i H; simpl in *; try tauto.
  destruct H as [_ H]. f_equal. eapply IH. exact H.
Qed.

Lemma spends_outpoint us :
  forall l1 l2,
    Forall2 spends us l2 -> map outpoint l1 = map outpoint l2 -> Forall2 spends us l1.
Proof.
  induction us as [|u us IH]; intros l1 l2 H2 Hmap; inversion H2; subst.
  - destruct l1; [constructor|discriminate].
  - destruct l1 as [|i1 l1]; [discriminate|]. simpl in Hmap.
    injection Hmap as Hp Hi Ho Hrest.
    constructor; [|eapply IH; eassumption].
    match goal with H : spends u _ |- _ => destruct H as (Ha & Hb & Hc) end.
    repeat split; congruence.
Qed.

(** A pre-transaction builder that returns has signed every input. *)
Lemma buildOpenPreTx_all_signed env utxoData w hex w' :
  buildOpenPreTx env utxoData w = (Return hex, w') ->
  exists userStore qs tx,
    userStoreInstance env = Some userStore
    /\ w' = {| localStorage := localStorage w; trace := trace w ++ map EvSign qs;
               timers := timers w |}
    /\ length qs = length (utxos utxoData)
    /\ (forall user, last userStore = Some user ->
          signedInOrder (address user) 0 (utxos utxoData) qs)
    /\ (utxos utxoData <> [] -> is_Some (last userStore))
    /\ toHex env tx = Return hex
    /\ version tx = 10
    /\ outputs tx = []
    /\ Forall2 spends (utxos utxoData) (inputs tx)
    /\ Forall (fun i => is_Some (in_script i)) (inputs tx).
Proof.
  unfold buildOpenPreTx. intros Hrun.
  destruct (userStoreInstance env) as [userStore|]; [|discriminate].
  destruct (mvcInstance env && BufferInstance env)%bool; [|discriminate].
  cbn [negb] in Hrun. cbv zeta in Hrun.
  apply bind_returns in Hrun as (tx & w1 & Hsign & Hhex).
  unfold await in Hhex. injection Hhex as Hhex <-.
  set (tx0 := foldl Mvc.from (Mvc.setVersion 10 Mvc.newTransaction) (utxos utxoData)) in *.
  destruct (from_all (utxos utxoData) (Mvc.setVersion 10 Mvc.newTransaction))
    as (Hv0 & Ho0 & added & Hi0 & Hsp & _).
  fold tx0 in Hv0, Ho0, Hi0. simpl in Hv0, Ho0, Hi0.
  destruct (last userStore) as [user|] eqn:Hlast.
  - destruct (signInputs_returns env userStore user _ Hlast 0 tx0 w tx w1
                ltac:(lia) Hsign)
      as (qs & -> & Hord & Hv & Ho & Hp & Hscripts).
    exists userStore, qs, tx. split; [reflexivity|]. split; [reflexivity|].
    split; [exact (signedInOrder_length _ _ _ _ Hord)|].
    split; [intros user' E; rewrite Hlast in E; injection E as <-; exact Hord|].
    split; [eauto|]. split; [exact Hhex|].
    split; [congruence|]. split; [congruence|].
    assert (Hspends : Forall2 spends (utxos utxoData) (inputs tx)).
    { apply (spends_outpoint _ _ added Hsp). now rewrite Hp, Hi0. }
    split; [exact Hspends|].
    apply Forall_lookup_2. intros j input Hj.
    apply (Hscripts j input); [|exact Hj|left; lia].
    apply lookup_lt_Some in Hj. rewrite <- (Forall2_length _ _ _ Hspends) in Hj. lia.
  - destruct (signInputs_no_record env userStore _ 0 tx0 w tx w1 Hlast Hsign)
      as (Hnil & -> & ->).
    exists userStore, [], tx0. rewrite Hnil in *. simpl in Hsp, Hi0.
    split; [reflexivity|]. split; [simpl; rewrite app_nil_r; now destruct w|].
    split; [reflexivity|]. split; [intros user E; congruence|].
    split; [congruence|]. split; [exact Hhex|].
    split; [exact Hv0|]. split; [exact Ho0|].
    rewrite Hi0. inversion Hsp. split; constructor.
Qed.

End OpenPreTxAll.

(** X8. Whenever one of the two pre-transaction builders returns, over any
    number of unspent outputs: the wallet was asked for exactly one
    signature per output, in order, for the inputs 0, 1, 2, ..., each
    request naming the caller's address, the output's script and value and
    the mode [0x2 | 0x40] (the address is that of the record in the user
    store, which is there unless there was nothing to sign); nothing else
    happened; and the hex text returned is the serialization of a version 10
    transaction that spends exactly those outputs, in order, every input
    carrying an unlocking script, and that has no output of its own. *)
Theorem open_pretx_signs_every_input (env : Env) (utxoData : UtxoData)
    (fee : Z) (w w' : World) (hex : string) :
  Chain.buildChunkFundingPreTx env utxoData fee w = (Return hex, w')
  \/ Chain.buildIndexPreTx env utxoData fee w = (Return hex, w') ->
  exists userStore requests tx,
    userStoreInstance env = Some userStore
    /\ trace w' = trace w ++ map EvSign requests
    /\ localStorage w' = localStorage w
    /\ timers w' = timers w
    /\ length requests = length (utxos utxoData)
    /\ (forall user, last userStore = Some user ->
          Props.signedInOrder (address user) 0 (utxos utxoData) requests)
    /\ (utxos utxoData <> [] -> is_Some (last userStore))
    /\ toHex env tx = Return hex
    /\ version tx = 10
    /\ outputs tx = []
    /\ Forall2 Props.spends (utxos utxoData) (inputs tx)
    /\ Forall (fun i => is_Some (in_script i)) (inputs tx).
Proof.
  intros Hrun.
  assert (Hbody : Chain.buildOpenPreTx env utxoData w = (Return hex, w')).
  { destruct Hrun as [Hrun|Hrun];
      [unfold Chain.buildChunkFundingPreTx in Hrun
      |unfold Chain.buildIndexPreTx in Hrun];
      apply try_catch_returns in Hrun; try exact Hrun;
      intros t w0; eexists; reflexivity. }
  destruct (buildOpenPreTx_all_signed env utxoData w hex w' Hbody)
    as (userStore & qs & tx & Hus & -> & Hlen & Hord & Hrec & Hhex & Hv & Ho & Hsp & Hsc).
  exists userStore, qs, tx. cbn [trace localStorage timers].
  repeat (split; [first [assumption|reflexivity]|]). assumption.
Qed.

Lemma open_pretx_signs_every_input_witness :
  exists requests w',
    Chain.buildIndexPreTx Demo.plain
      {| utxos := [Demo.funding; Demo.funding]; totalAmount := 10700 |} 800
      (Demo.world ∅) = (Return "10:2:0", w')
    /\ trace w' = map EvSign requests
    /\ map sr_inputIndex requests = [0; 1].
Proof.
  assert (Hrun : exists w',
            Chain.buildIndexPreTx Demo.plain
              {| utxos := [Demo.funding; Demo.funding]; totalAmount := 10700 |} 800
              (Demo.world ∅) = (Return "10:2:0", w'))
    by (eexists; vm_compute; reflexivity).
  destruct Hrun as [w' Hrun].
  destruct (open_pretx_signs_every_input Demo.plain _ 800 _ w' "10:2:0" (or_intror Hrun))
    as (userStore & requests & tx & Hus & Htr & _ & _ & _ & Hord & _).
  exists requests, w'. split; [exact Hrun|]. split; [exact Htr|].
  injection Hus as <-. specialize (Hord Demo.user eq_refl).
  destruct requests as [|q1 [|q2 [|q3 qs]]]; simpl in Hord; try tauto.
  destruct Hord as ((_ & H1 & _) & (_ & H2 & _) & _). simpl. now rewrite H1, H2.
Defined.

(** ** Which outputs the matching claims *)

Section FirstClaim.
Import Spec Props Chain.

Context (env : Env) (own : string) (chunkAmount indexAmount : Z).

Lemma firstClaim_found amount skip done o slot script :
  slot <> -1 ->
  firstClaim env own amount skip done slot script ->
  firstClaim env own amount skip (done ++ [o]) slot script.
Proof.
  intros Hslot [[-> _]|(j & oj & -> & Hj & -> & Hc & Hskip & Hnone)]; [congruence|].
  right. exists j, oj.
  assert (Hlt : (j < length done)%nat) by (eapply lookup_lt_Some; exact Hj).
  split; [reflexivity|]. split; [now apply lookup_app_l_Some|].
  split; [reflexivity|]. split; [exact Hc|]. split; [exact Hskip|].
  intros j' o' Hj' Ho'. apply (Hnone j' o' Hj').
  rewrite lookup_app_l in Ho' by lia. exact Ho'.
Qed.

Lemma firstClaim_missing amount skip done o :
  firstClaim env own amount skip done (-1) None ->
  claimable env own amount o = false \/ Z.of_nat (length done) = skip ->
  firstClaim env own amount skip (done ++ [o]) (-1) None.
Proof.
  intros [(_ & _ & Hnone)|(j & oj & Hj & _)] Ho; [|lia].
  left. split; [reflexivity|]. split; [reflexivity|].
  intros j' o' Hj' Ho'. rewrite length_app in Hj'. simpl in Hj'.
  destruct (decide (j' < length done)%nat) as [Hlt|Hge].
  - rewrite lookup_app_l in Ho' by exact Hlt. now apply (Hnone j' o').
  - assert (j' = length done) as -> by lia.
    rewrite lookup_app_r, Nat.sub_diag in Ho' by lia. injection Ho' as <-.
    intros Hc. destruct Ho as [Hno|Hskip]; [congruence|exact Hskip].
Qed.

Lemma firstClaim_new amount skip done o :
  firstClaim env own amount skip done (-1) None ->
  claimable env own amount o = true ->
  Z.of_nat (length done) <> skip ->
  firstClaim env own amount skip (done ++ [o]) (Z.of_nat (length done))
             (Some (out_script o)).
Proof.
  intros [(_ & _ & Hnone)|(j & oj & Hj & _)] Hc Hskip; [|lia].
  right. exists (length done), o. split; [reflexivity|].
  split; [rewrite lookup_app_r, Nat.sub_diag by lia; reflexivity|].
  split; [reflexivity|]. split; [exact Hc|]. split; [exact Hskip|].
  intros j' o' Hj' Ho'. rewrite lookup_app_l in Ho' by exact Hj'.
  now apply (Hnone j' o').
Qed.

(** Moving the position to skip from "none" to a position that is not
    there yet changes nothing. *)
Lemma firstClaim_skip amount done slot script (n : nat) :
  (length done <= n)%nat ->
  firstClaim env own amount (-1) done slot script ->
  firstClaim env own amount (Z.of_nat n) done slot script.
Proof.
  intros Hn [(-> & -> & Hnone)|(j & oj & -> & Hj & -> & Hc & Hskip & Hnone)].
  - left. split; [reflexivity|]. split; [reflexivity|].
    intros j' o' Hj' Ho' Hc'. specialize (Hnone j' o' Hj' Ho' Hc'). lia.
  - right. exists j, oj.
    assert (Hlt : (j < length done)%nat) by (eapply lookup_lt_Some; exact Hj).
    split; [reflexivity|]. split; [exact Hj|]. split; [reflexivity|].
    split; [exact Hc|]. split; [lia|].
    intros j' o' Hj' Ho' Hc'. specialize (Hnone j' o' Hj' Ho' Hc'). lia.
Qed.

Lemma firstClaim_slot amount skip done slot script :
  firstClaim env own amount skip done slot script ->
  (slot = -1 /\ script = None) \/ (0 <= slot < Z.of_nat (length done)).
Proof.
  intros [(-> & -> & _)|(j & oj & -> & Hj & _)]; [auto|].
  right. apply lookup_lt_Some in Hj. lia.
Qed.

Lemma matchOutput_claimed done o m :
  claimed env own chunkAmount indexAmount done m ->
  claimed env own chunkAmount indexAmount (done ++ [o])
          (matchOutput env own chunkAmount indexAmount (Z.of_nat (length done)) o m).
Proof.
  intros [Hchunk Hindex].
  destruct (ownOutput env own o) eqn:Hown.
  2:{ rewrite matchOutput_foreign by assumption.
      assert (Hno : forall a, claimable env own a o = false)
        by (intros a; unfold claimable; now rewrite Hown).
      split.
      - destruct (firstClaim_slot _ _ _ _ _ Hchunk) as [[Hs Hn]|Hs].
        + rewrite Hs, Hn in *. apply firstClaim_missing; auto.
        + apply firstClaim_found; [lia|assumption].
      - destruct (firstClaim_slot _ _ _ _ _ Hindex) as [[Hs Hn]|Hs].
        + rewrite Hs, Hn in *. apply firstClaim_missing; auto.
        + apply firstClaim_found; [lia|assumption]. }
  rewrite matchOutput_own by assumption.
  assert (Hcl : forall a, claimable env own a o = near (out_satoshis o) a)
    by (intros a; unfold claimable; now rewrite Hown).
  destruct (firstClaim_slot _ _ _ _ _ Hchunk) as [[Hcs Hcn]|Hcs];
    destruct (firstClaim_slot _ _ _ _ _ Hindex) as [[His Hin]|His].
  - (* nothing claimed so far *)
    rewrite (proj2 (Z.eqb_eq _ _) Hcs), (proj2 (Z.eqb_eq _ _) His). cbn [andb].
    rewrite Hcs, Hcn, His, Hin in *.
    destruct (near (out_satoshis o) chunkAmount) eqn:Hnc; cbn beta iota.
    + split; cbn [m_chunkIndex m_chunkScript m_indexIndex m_indexScript].
      * apply firstClaim_new; [assumption|now rewrite Hcl|lia].
      * apply firstClaim_missing; [|right; reflexivity].
        apply firstClaim_skip; [lia|assumption].
    + destruct (near (out_satoshis o) indexAmount) eqn:Hni; cbn beta iota.
      * split; cbn [m_chunkIndex m_chunkScript m_indexIndex m_indexScript].
        -- apply firstClaim_missing; [assumption|left; now rewrite Hcl].
        -- apply firstClaim_new; [assumption|now rewrite Hcl|lia].
      * split; rewrite ?Hcs, ?Hcn, ?His, ?Hin;
          apply firstClaim_missing; try assumption; left; now rewrite Hcl.
  - (* only the index output is claimed *)
    rewrite (proj2 (Z.eqb_eq _ _) Hcs). cbn [andb].
    assert (Hi : (m_indexIndex m =? -1) = false) by (apply Z.eqb_neq; lia).
    rewrite Hi. cbn [andb].
    rewrite Hcs, Hcn in *.
    destruct (near (out_satoshis o) chunkAmount) eqn:Hnc; cbn beta iota.
    + split; cbn [m_chunkIndex m_chunkScript m_indexIndex m_indexScript].
      * apply firstClaim_new; [assumption|now rewrite Hcl|lia].
      * apply firstClaim_found; [lia|].
        apply firstClaim_skip; [lia|assumption].
    + split; rewrite ?Hcs, ?Hcn.
      * apply firstClaim_missing; [assumption|left; now rewrite Hcl].
      * apply firstClaim_found; [lia|assumption].
  - (* only the chunk output is claimed *)
    assert (Hc : (m_chunkIndex m =? -1) = false) by (apply Z.eqb_neq; lia).
    rewrite Hc, (proj2 (Z.eqb_eq _ _) His). cbn [andb].
    rewrite His, Hin in *.
    destruct (near (out_satoshis o) indexAmount) eqn:Hni; cbn beta iota.
    + split; cbn [m_chunkIndex m_chunkScript m_indexIndex m_indexScript].
      * apply firstClaim_found; [lia|assumption].
      * apply firstClaim_new; [assumption|now rewrite Hcl|lia].
    + split; rewrite ?His, ?Hin.
      * apply firstClaim_found; [lia|assumption].
      * apply firstClaim_missing; [assumption|left; now rewrite Hcl].
  - (* both are claimed *)
    assert (Hc : (m_chunkIndex m =? -1) = false) by (apply Z.eqb_neq; lia).
    assert (Hi : (m_indexIndex m =? -1) = false) by (apply Z.eqb_neq; lia).
    rewrite Hc, Hi. cbn [andb].
    split; apply firstClaim_found; try assumption; lia.
Qed.

Lemma matchOutputs_claimed rest :
  forall done m,
    claimed env own chunkAmount indexAmount done m ->
    claimed env own chunkAmount indexAmount (done ++ rest)
            (matchOutputs env own chunkAmount indexAmount rest
                          (Z.of_nat (length done)) m).
Proof.
  induction rest as [|o rest IH]; intros done m Hm; simpl.
  - now rewrite app_nil_r.
  - replace (Z.of_nat (length done) + 1) with (Z.of_nat (length (done ++ [o])))
      by (rewrite length_app; simpl; lia).
    replace (done ++ o :: rest) with ((done ++ [o]) ++ rest)
      by (now rewrite <- app_assoc).
    apply IH, matchOutput_claimed, Hm.
Qed.

Lemma claimed_start : claimed env own chunkAmount indexAmount [] unmatched.
Proof.
  split; left; (split; [reflexivity|]); (split; [reflexivity|]);
    intros j o Hj; simpl in Hj; lia.
Qed.

End FirstClaim.

Section MergeReturned.
Import Spec Props Chain.

(** A call of [buildChunkedUploadMergeTx] that returns. *)
Lemma buildChunkedUploadMergeTx_returned env utxoData chunkAmount indexAmount fee
    w res w' :
  buildChunkedUploadMergeTx env utxoData chunkAmount indexAmount fee w
    = (Return res, w') ->
  exists userStore user chainStore lock payed,
    userStoreInstance env = Some userStore
    /\ last userStore = Some user
    /\ chainStoreInstance env = Some chainStore
    /\ buildPublicKeyHashOut env (address user) = Return lock
    /\ walletPayAvailable env = true
    /\ let request := mergeRequest (utxos utxoData) lock chunkAmount indexAmount
                        (feeRateOrDefault chainStore) in
       let m := matchOutputs env (address user) chunkAmount indexAmount
                  (outputs payed) 0 unmatched in
       w' = after w (EvPay request)
       /\ walletPay env (trace w) request = Return (Some payed)
       /\ toHex env payed = Return (mergeTxHex res)
       /\ res = {| mergeTxId := getTxId env payed;
                   mergeTxHex := mergeTxHex res;
                   chunkPreTxOutputIndex := m_chunkIndex m;
                   indexPreTxOutputIndex := m_indexIndex m;
                   chunkPreTxScript := m_chunkScript m;
                   indexPreTxScript := m_indexScript m |}.
Proof.
  intros Hrun. unfold buildChunkedUploadMergeTx in Hrun.
  apply try_catch_returns in Hrun; [|intros t w0; eexists; reflexivity].
  destruct (userStoreInstance env) as [userStore|] eqn:Hus; [|discriminate].
  destruct (chainStoreInstance env) as [chainStore|] eqn:Hcs; [|discriminate].
  destruct (mvcInstance env && TxComposerInstance env)%bool; [|discriminate].
  cbn [negb] in Hrun. cbv zeta in Hrun.
  destruct (last userStore) as [user|] eqn:Hlast;
    [rewrite (bind_readLast_some _ _ _ _ _ _ Hlast) in Hrun
    |rewrite (bind_readLast_none _ _ _ _ _ Hlast) in Hrun; discriminate].
  unfold Mvc.to in Hrun.
  destruct (buildPublicKeyHashOut env (address user)) as [lock|t] eqn:Hlock;
    [|discriminate].
  unfold bind at 1, await at 1 in Hrun.
  unfold bind at 1, await at 1 in Hrun.
  destruct (walletPayAvailable env) eqn:Hpay; [|discriminate]. cbn [negb] in Hrun.
  unfold bind, history, emit, await, ret, throw in Hrun.
  cbn [trace localStorage timers version inputs outputs] in Hrun.
  destruct (from_all (utxos utxoData) (Mvc.setVersion 10 Mvc.newTransaction))
    as (Hv & Ho & _).
  cbn [Mvc.setVersion Mvc.newTransaction version outputs] in Hv, Ho.
  rewrite Hv, Ho in Hrun. cbn [app] in Hrun.
  fold (mergeRequest (utxos utxoData) lock chunkAmount indexAmount
          (feeRateOrDefault chainStore)) in Hrun.
  set (request := mergeRequest _ _ _ _ _) in *.
  fold (after w (EvPay request)) in Hrun.
  destruct (walletPay env (trace w) request) as [[payed|]|t] eqn:Hwallet;
    try discriminate.
  destruct (toHex env payed) as [hex|t] eqn:Hhex; [|discriminate].
  injection Hrun as <- <-.
  exists userStore, user, chainStore, lock, payed.
  split; [reflexivity|]. split; [exact Hlast|]. split; [reflexivity|].
  split; [exact Hlock|].
  split; [reflexivity|]. cbv zeta. fold request.
  split; [reflexivity|]. split; [exact Hwallet|]. split; [exact Hhex|].
  reflexivity.
Qed.

End MergeReturned.

(** X9. Whenever [buildChunkedUploadMergeTx] returns: the wallet was asked
    to pay exactly once and nothing else happened; the transaction it was
    handed has version 10, spends exactly the selected outputs, in order,
    and has exactly two outputs, both paying the caller's address: the
    chunk amount first, the index amount second; the fee rate handed over
    is the chain store's, or 1 when that is missing or zero.  The argument
    [mergeTxFee] plays no part: any other value gives the same run. *)
Theorem merge_tx_request (env : Env) (utxoData : UtxoData)
    (chunkAmount indexAmount mergeTxFee : Z) (w w' : World)
    (res : Chain.MergeResult) :
  Chain.buildChunkedUploadMergeTx env utxoData chunkAmount indexAmount mergeTxFee w
    = (Return res, w') ->
  exists userStore user chainStore lock request,
    userStoreInstance env = Some userStore
    /\ last userStore = Some user
    /\ chainStoreInstance env = Some chainStore
    /\ buildPublicKeyHashOut env (address user) = Return lock
    /\ trace w' = trace w ++ [EvPay request]
    /\ localStorage w' = localStorage w
    /\ timers w' = timers w
    /\ version (pay_txComposer request) = 10
    /\ Forall2 Props.spends (utxos utxoData) (inputs (pay_txComposer request))
    /\ outputs (pay_txComposer request)
       = [{| out_script := lock; out_satoshis := chunkAmount |};
          {| out_script := lock; out_satoshis := indexAmount |}]
    /\ pay_feeb request = Chain.feeRateOrDefault chainStore
    /\ (forall otherFee,
          Chain.buildChunkedUploadMergeTx env utxoData chunkAmount indexAmount
            otherFee w = (Return res, w')).
Proof.
  intros Hrun.
  destruct (buildChunkedUploadMergeTx_returned _ _ _ _ _ _ _ _ Hrun)
    as (userStore & user & chainStore & lock & payed & Hus & Hlast & Hcs & Hlock
        & Hpay & -> & Hwallet & Hhex & Hres).
  exists userStore, user, chainStore, lock.
  eexists. split; [exact Hus|]. split; [exact Hlast|]. split; [exact Hcs|].
  split; [exact Hlock|].
  split; [reflexivity|]. split; [reflexivity|]. split; [reflexivity|].
  split; [reflexivity|].
  split.
  { cbn [Props.mergeRequest pay_txComposer inputs].
    destruct (from_all (utxos utxoData) (Mvc.setVersion 10 Mvc.newTransaction))
      as (_ & _ & added & -> & Hsp & _). exact Hsp. }
  split; [reflexivity|]. split; [reflexivity|].
  intros otherFee. exact Hrun.
Qed.

Lemma merge_tx_request_witness :
  exists request w',
    fst (Chain.buildChunkedUploadMergeTx
           (Demo.env Demo.wallet [] (Return (Some Demo.payedReordered)) None)
           Demo.selection 5350 1150 568 (Demo.world ∅))
    = Return {| Chain.mergeTxId := "merge-txid"; Chain.mergeTxHex := "10:0:3";
                Chain.chunkPreTxOutputIndex := 2; Chain.indexPreTxOutputIndex := 0;
                Chain.chunkPreTxScript := Some (Demo.lock "addr1");
                Chain.indexPreTxScript := Some (Demo.lock "addr1") |}
    /\ trace w' = [EvPay request]
    /\ map out_satoshis (outputs (pay_txComposer request)) = [5350; 1150].
Proof.
  destruct (Chain.buildChunkedUploadMergeTx
              (Demo.env Demo.wallet [] (Return (Some Demo.payedReordered)) None)
              Demo.selection 5350 1150 568 (Demo.world ∅)) as [r w'] eqn:Hrun.
  assert (Hr : r = Return {| Chain.mergeTxId := "merge-txid";
                             Chain.mergeTxHex := "10:0:3";
                             Chain.chunkPreTxOutputIndex := 2;
                             Chain.indexPreTxOutputIndex := 0;
                             Chain.chunkPreTxScript := Some (Demo.lock "addr1");
                             Chain.indexPreTxScript := Some (Demo.lock "addr1") |}).
  { change r with (fst (r, w')). rewrite <- Hrun. vm_compute. reflexivity. }
  subst r.
  destruct (merge_tx_request _ _ _ _ _ _ _ _ Hrun)
    as (userStore & user & chainStore & lock & request & _ & _ & _ & _ & Htr & _ & _
        & _ & _ & Hout & _).
  exists request, w'. split; [reflexivity|]. split; [exact Htr|].
  rewrite Hout. reflexivity.
Defined.

(** X10. Which outputs a returned merge result points at.  The chunk
    index is the position of the first output of the signed transaction
    that pays the caller's address with an amount within 1000 satoshis of
    the chunk amount, and the chunk script is that output's script; the
    index index is the position of the first such output for the index
    amount other than the one taken for the chunk.  A slot for which no
    such output exists holds [-1] and [null].  So an index that is not
    [-1] is a position of the transaction, the two never point at the same
    output, and no output of another address is ever claimed. *)
Theorem merge_outputs_claimed (env : Env) (utxoData : UtxoData)
    (chunkAmount indexAmount mergeTxFee : Z) (w w' : World)
    (res : Chain.MergeResult) :
  Chain.buildChunkedUploadMergeTx env utxoData chunkAmount indexAmount mergeTxFee w
    = (Return res, w') ->
  exists userStore user request payed,
    userStoreInstance env = Some userStore
    /\ last userStore = Some user
    /\ walletPay env (trace w) request = Return (Some payed)
    /\ Props.firstClaim env (address user) chunkAmount (-1)
         (outputs payed)
         (Chain.chunkPreTxOutputIndex res) (Chain.chunkPreTxScript res)
    /\ Props.firstClaim env (address user) indexAmount
         (Chain.chunkPreTxOutputIndex res) (outputs payed)
         (Chain.indexPreTxOutputIndex res) (Chain.indexPreTxScript res)
    /\ (Chain.chunkPreTxOutputIndex res = -1
        \/ 0 <= Chain.chunkPreTxOutputIndex res < Z.of_nat (length (outputs payed)))
    /\ (Chain.indexPreTxOutputIndex res = -1
        \/ 0 <= Chain.indexPreTxOutputIndex res < Z.of_nat (length (outputs payed))
           /\ Chain.indexPreTxOutputIndex res <> Chain.chunkPreTxOutputIndex res).
Proof.
  intros Hrun.
  destruct (buildChunkedUploadMergeTx_returned _ _ _ _ _ _ _ _ Hrun)
    as (userStore & user & chainStore & lock & payed & Hus & Hlast & Hcs & Hlock
        & Hpay & _ & Hwallet & Hhex & Hres).
  assert (Hclaimed :
            Props.claimed env (address user) chunkAmount indexAmount
              (outputs payed)
              (Chain.matchOutputs env (address user) chunkAmount
                 indexAmount (outputs payed) 0 Chain.unmatched))
    by exact (matchOutputs_claimed env (address user) chunkAmount
                indexAmount (outputs payed) [] Chain.unmatched
                (claimed_start env _ _ _)).
  destruct Hclaimed as [Hchunk Hindex].
  rewrite Hres. cbn [Chain.chunkPreTxOutputIndex Chain.chunkPreTxScript
                     Chain.indexPreTxOutputIndex Chain.indexPreTxScript].
  eexists userStore, user, _, payed.
  split; [exact Hus|]. split; [exact Hlast|]. split; [exact Hwallet|].
  split; [exact Hchunk|]. split; [exact Hindex|].
  split.
  - destruct (firstClaim_slot _ _ _ _ _ _ _ Hchunk) as [[-> _]|H]; auto.
  - destruct Hindex as [(-> & _)|(j & o & Hj & Ho & _ & _ & Hskip & _)]; [auto|].
    right. rewrite Hj. apply lookup_lt_Some in Ho. split; [lia|exact Hskip].
Qed.

Lemma merge_outputs_claimed_witness :
  exists res w',
    Chain.buildChunkedUploadMergeTx
      (Demo.env Demo.wallet [] (Return (Some Demo.payedReordered)) None)
      Demo.selection 5350 1150 568 (Demo.world ∅) = (Return res, w')
    /\ Chain.chunkPreTxOutputIndex res = 2
    /\ Chain.indexPreTxOutputIndex res <> Chain.chunkPreTxOutputIndex res.
Proof.
  destruct (Chain.buildChunkedUploadMergeTx
              (Demo.env Demo.wallet [] (Return (Some Demo.payedReordered)) None)
              Demo.selection 5350 1150 568 (Demo.world ∅)) as [r w'] eqn:Hrun.
  assert (Hr : r = Return {| Chain.mergeTxId := "merge-txid";
                             Chain.mergeTxHex := "10:0:3";
                             Chain.chunkPreTxOutputIndex := 2;
                             Chain.indexPreTxOutputIndex := 0;
                             Chain.chunkPreTxScript := Some (Demo.lock "addr1");
                             Chain.indexPreTxScript := Some (Demo.lock "addr1") |}).
  { change r with (fst (r, w')). rewrite <- Hrun. vm_compute. reflexivity. }
  subst r.
  destruct (merge_outputs_claimed _ _ _ _ _ _ _ _ Hrun)
    as (userStore & user & request & payed & _ & _ & _ & _ & _ & _ & Hindex).
  eexists _, w'. split; [reflexivity|]. split; [reflexivity|].
  destruct Hindex as [H|[_ H]]; [discriminate H|exact H].
Defined.

(** X11. When the two requested amounts lie within 1000 satoshis of each
    other, the assignment follows the order of the outputs and not their
    amounts.  Let the signed merge transaction have exactly two outputs,
    both paying the caller: the first carries exactly the index amount, the
    second exactly the chunk amount.  Then the result points the chunk
    pre-transaction at the first output and the index pre-transaction at
    the second: each at the output that carries the other one's amount. *)
Theorem close_amounts_follow_output_order (env : Env) (utxoData : UtxoData)
    (chunkAmount indexAmount mergeTxFee : Z) (w : World)
    (userStore : UserStore) (user : UserInfo) (chainStore : ChainStore)
    (lockingScript hex : string) (payed : Transaction) (first second : TxOutput) :
  userStoreInstance env = Some userStore ->
  last userStore = Some user ->
  chainStoreInstance env = Some chainStore ->
  mvcInstance env = true ->
  TxComposerInstance env = true ->
  walletPayAvailable env = true ->
  buildPublicKeyHashOut env (address user) = Return lockingScript ->
  (forall p, walletPay env (trace w) p = Return (Some payed)) ->
  toHex env payed = Return hex ->
  outputs payed = [first; second] ->
  Spec.ownOutput env (address user) first = true ->
  Spec.ownOutput env (address user) second = true ->
  out_satoshis first = indexAmount ->
  out_satoshis second = chunkAmount ->
  Z.abs (chunkAmount - indexAmount) <= 1000 ->
  fst (Chain.buildChunkedUploadMergeTx env utxoData chunkAmount indexAmount
         mergeTxFee w)
  = Return {| Chain.mergeTxId := getTxId env payed;
              Chain.mergeTxHex := hex;
              Chain.chunkPreTxOutputIndex := 0;
              Chain.indexPreTxOutputIndex := 1;
              Chain.chunkPreTxScript := Some (out_script first);
              Chain.indexPreTxScript := Some (out_script second) |}.
Proof.
  intros Hus Hlast Hcs Hmvc Htc Hpay Hlock Hwallet Hhex Hout Hown1 Hown2 Ha1 Ha2 Hclose.
  rewrite (buildChunkedUploadMergeTx_run env utxoData chunkAmount indexAmount
             mergeTxFee w userStore user chainStore lockingScript payed hex
             Hus Hlast Hcs Hmvc Htc Hpay Hlock Hwallet Hhex).
  cbv zeta. rewrite Hout. cbn [Chain.matchOutputs].
  rewrite (matchOutput_own env _ chunkAmount indexAmount 0 first _ Hown1).
  assert (Hn1 : Spec.near (out_satoshis first) chunkAmount = true).
  { unfold Spec.near. apply Z.leb_le. lia. }
  assert (Hn2 : Spec.near (out_satoshis second) indexAmount = true).
  { unfold Spec.near. apply Z.leb_le. lia. }
  cbn [Chain.unmatched Chain.m_chunkIndex Chain.m_indexIndex
       Chain.m_chunkScript Chain.m_indexScript].
  change (-1 =? -1) with true. rewrite Hn1. cbn [andb].
  rewrite (matchOutput_own env _ chunkAmount indexAmount (0 + 1) second _ Hown2).
  cbn [Chain.m_chunkIndex Chain.m_indexIndex Chain.m_chunkScript Chain.m_indexScript].
  change (0 =? -1) with false. change (-1 =? -1) with true. rewrite Hn2.
  cbn [andb]. reflexivity.
Qed.

Lemma close_amounts_follow_output_order_witness :
  fst (Chain.buildChunkedUploadMergeTx
         (Demo.env Demo.wallet []
            (Return (Some {| version := 10; inputs := [];
                             outputs := [Demo.pays "addr1" 1150;
                                         Demo.pays "addr1" 1500] |})) None)
         Demo.selection 1500 1150 568 (Demo.world ∅))
  = Return {| Chain.mergeTxId := "merge-txid"; Chain.mergeTxHex := "10:0:2";
              Chain.chunkPreTxOutputIndex := 0;
              Chain.indexPreTxOutputIndex := 1;
              Chain.chunkPreTxScript := Some (Demo.lock "addr1");
              Chain.indexPreTxScript := Some (Demo.lock "addr1") |}.
Proof.
  apply (close_amounts_follow_output_order
           (Demo.env Demo.wallet []
              (Return (Some {| version := 10; inputs := [];
                               outputs := [Demo.pays "addr1" 1150;
                                           Demo.pays "addr1" 1500] |})) None)
           Demo.selection 1500 1150 568 (Demo.world ∅)
           {| last := Some Demo.user |} Demo.user {| mvcFeeRate := None |}
           (Demo.lock "addr1") "10:0:2"
           {| version := 10; inputs := [];
              outputs := [Demo.pays "addr1" 1150; Demo.pays "addr1" 1500] |}
           (Demo.pays "addr1" 1150) (Demo.pays "addr1" 1500));
    try reflexivity.
  vm_compute. discriminate.
Defined.

(** ** The direct upload: fee estimate *)

(** X12. [estimateUploadFee] changes nothing.  With a chain store present
    it returns the fee for 559 bytes beside the file at the store's rate (1
    when the rate is missing, zero or no number): the product rounded up,
    times 1.2, rounded up again, each product being the engine's, in double
    precision.  So at the rate 1.1 a file of 91 bytes is estimated at 860
    satoshis, where the exact products would give 858; at the rate 1 it is
    estimated at 780.  Without a chain store the call throws. *)
Theorem estimateUploadFee_value (env : Env) (file : File) (w : World) :
  (forall chainStore,
     chainStoreInstance env = Some chainStore ->
     Direct.estimateUploadFee env file w
     = (Return (Props.uploadFee (Chain.feeRateOrDefault chainStore) (file_size file)),
        w))
  /\ (chainStoreInstance env = Some {| mvcFeeRate := Some (Num.decimal 11 10) |} ->
      file_size file = 91 ->
      Direct.estimateUploadFee env file w = (Return 860, w))
  /\ (chainStoreInstance env = Some {| mvcFeeRate := None |} ->
      file_size file = 91 ->
      Direct.estimateUploadFee env file w = (Return 780, w))
  /\ (chainStoreInstance env = None ->
      Direct.estimateUploadFee env file w
      = (Throw (Error "Failed to estimate upload fee: ChainStore not available"), w)).
Proof.
  assert (Hrun : forall chainStore,
            chainStoreInstance env = Some chainStore ->
            Direct.estimateUploadFee env file w
            = (Return (Props.uploadFee (Chain.feeRateOrDefault chainStore)
                         (file_size file)), w)).
  { intros chainStore Hcs.
    unfold Direct.estimateUploadFee, try_catch. rewrite Hcs. unfold ret.
    cbv zeta.
    assert (Hsize : 200 + 150 + 34 * 2
                    + (50 + (6 + 10
                             + Z.of_nat (String.length
                                 (if JsString.truthy ""
                                  then "" +:+ ":" +:+ "/file" else "/file"))
                             + 10 + 10 + 50)
                       + file_size file)
                    = 559 + file_size file) by (simpl; lia).
    rewrite Hsize. reflexivity. }
  split; [exact Hrun|].
  split; [intros Hcs Hsize; rewrite (Hrun _ Hcs), Hsize; vm_compute; reflexivity|].
  split; [intros Hcs Hsize; rewrite (Hrun _ Hcs), Hsize; vm_compute; reflexivity|].
  intros Hcs. unfold Direct.estimateUploadFee, try_catch. now rewrite Hcs.
Qed.

Lemma estimateUploadFee_value_witness :
  Direct.estimateUploadFee Demo.plain Demo.file (Demo.world ∅)
  = (Return 3146399, Demo.world ∅).
Proof.
  exact (proj1 (estimateUploadFee_value Demo.plain Demo.file (Demo.world ∅))
           {| mvcFeeRate := Some (Num.ofZ 1) |} eq_refl).
Defined.

(** ** The direct upload: merging the selected outputs *)

Section DirectMerge.
Import Spec Props Direct.

Lemma findOwnOutput_spec env own outs :
  forall i,
    match findOwnOutput env own outs i with
    | Some (k, amount) =>
        exists j o,
          k = i + Z.of_nat j
          /\ outs !! j = Some o
          /\ amount = out_satoshis o
          /\ ownOutput env own o = true
          /\ forall j' o', (j' < j)%nat -> outs !! j' = Some o' ->
                           ownOutput env own o' = false
    | None => forall o, In o outs -> ownOutput env own o = false
    end.
Proof.
  induction outs as [|x outs IH]; intros i; simpl; [tauto|].
  assert (Hskip : ownOutput env own x = false ->
                  match findOwnOutput env own outs (i + 1) with
                  | Some (k, amount) =>
                      exists j o,
                        k = i + Z.of_nat j
                        /\ (x :: outs) !! j = Some o
                        /\ amount = out_satoshis o
                        /\ ownOutput env own o = true
                        /\ forall j' o', (j' < j)%nat -> (x :: outs) !! j' = Some o' ->
                                         ownOutput env own o' = false
                  | None => forall o, x = o \/ In o outs -> ownOutput env own o = false
                  end).
  { intros Hx. specialize (IH (i + 1)).
    destruct (findOwnOutput env own outs (i + 1)) as [[k amount]|].
    - destruct IH as (j & o & -> & Hj & -> & Ho & Hbefore).
      exists (S j), o. split; [lia|]. split; [exact Hj|]. split; [reflexivity|].
      split; [exact Ho|]. intros [|j'] o' Hj' Ho'.
      + simpl in Ho'. injection Ho' as <-. exact Hx.
      + apply (Hbefore j' o'); [lia|exact Ho'].
    - intros o [<-|Hin]; auto. }
  unfold ownOutput in Hskip at 1.
  destruct (toAddress env (out_script x)) as [| |a] eqn:Ha; try (apply Hskip; reflexivity).
  destruct (String.eqb a own) eqn:Heq; [|apply Hskip; reflexivity].
  exists 0%nat, x. split; [lia|]. split; [reflexivity|]. split; [reflexivity|].
  split; [unfold ownOutput; now rewrite Ha|]. intros j' o' Hj'. lia.
Qed.

(** A call of [mergeUTXOs] that returns. *)
Lemma mergeUTXOs_returned env utxoData estimatedFee w res w' :
  mergeUTXOs env utxoData estimatedFee w = (Return res, w') ->
  exists userStore user chainStore lock payed j o,
    userStoreInstance env = Some userStore
    /\ last userStore = Some user
    /\ chainStoreInstance env = Some chainStore
    /\ buildPublicKeyHashOut env (address user) = Return lock
    /\ let request := mergeOneRequest lock estimatedFee
                        (Chain.feeRateOrDefault chainStore) in
       w' = after w (EvPay request)
       /\ walletPay env (trace w) request = Return (Some payed)
       /\ toHex env payed = Return (merged_mergeTxHex res)
       /\ merged_mergeTxId res = getTxId env payed
       /\ outputs payed !! j = Some o
       /\ merged_utxos res
          = [{| txId := getTxId env payed; outputIndex := Z.of_nat j;
                script := Some (out_script o); satoshis := out_satoshis o |}]
       /\ merged_totalAmount res = out_satoshis o
       /\ ((ownOutput env (address user) o = true
            /\ forall j' o', (j' < j)%nat -> outputs payed !! j' = Some o' ->
                             ownOutput env (address user) o' = false)
           \/ (j = 0%nat
               /\ forall o', In o' (outputs payed) ->
                             ownOutput env (address user) o' = false)).
Proof.
  intros Hrun. unfold mergeUTXOs in Hrun.
  apply try_catch_returns in Hrun; [|intros t w0; eexists; reflexivity].
  destruct (userStoreInstance env) as [userStore|] eqn:Hus; [|discriminate].
  destruct (chainStoreInstance env) as [chainStore|] eqn:Hcs; [|discriminate].
  destruct (mvcInstance env && TxComposerInstance env)%bool; [|discriminate].
  cbn [negb] in Hrun.
  destruct (walletPayAvailable env); [|discriminate]. cbn [negb] in Hrun.
  cbv zeta in Hrun.
  destruct (last userStore) as [user|] eqn:Hlast;
    [rewrite (bind_readLast_some _ _ _ _ _ _ Hlast) in Hrun
    |rewrite (bind_readLast_none _ _ _ _ _ Hlast) in Hrun; discriminate].
  unfold Mvc.to in Hrun.
  destruct (buildPublicKeyHashOut env (address user)) as [lock|t] eqn:Hlock;
    [|discriminate].
  unfold bind at 1, await at 1 in Hrun.
  cbn [Mvc.setVersion Mvc.newTransaction version inputs outputs app] in Hrun.
  fold (mergeOneRequest lock estimatedFee (Chain.feeRateOrDefault chainStore)) in Hrun.
  set (request := mergeOneRequest _ _ _) in *.
  unfold bind at 1, history at 1 in Hrun.
  unfold bind at 1, emit at 1 in Hrun.
  unfold bind at 1, await at 1 in Hrun. cbn [trace] in Hrun.
  fold (after w (EvPay request)) in Hrun.
  destruct (walletPay env (trace w) request) as [[payed|]|t] eqn:Hwallet;
    try discriminate.
  unfold bind at 1, await at 1 in Hrun.
  destruct (toHex env payed) as [hex|t] eqn:Hhex; [|discriminate].
  pose proof (findOwnOutput_spec env (address user) (outputs payed) 0)
    as Hfound.
  unfold bind at 1 in Hrun.
  destruct (findOwnOutput env (address user) (outputs payed) 0)
    as [[k amount]|].
  - destruct Hfound as (j & o & -> & Hj & -> & Ho & Hbefore).
    unfold ret at 1 in Hrun. cbn [fst snd] in Hrun.
    rewrite Z.add_0_l, Nat2Z.id, Hj in Hrun.
    unfold ret in Hrun. injection Hrun as <- <-.
    exists userStore, user, chainStore, lock, payed, j, o.
    split; [reflexivity|]. split; [exact Hlast|]. split; [reflexivity|].
    split; [exact Hlock|].
    cbv zeta. fold request. cbn [merged_mergeTxHex merged_mergeTxId merged_utxos
                                  merged_totalAmount satoshis].
    repeat (split; [first [reflexivity|assumption]|]). left. auto.
  - destruct (outputs payed !! 0%nat) as [first|] eqn:Hfirst; [|discriminate].
    unfold ret at 1 in Hrun. cbn [fst snd] in Hrun.
    change (Z.to_nat 0) with 0%nat in Hrun. rewrite Hfirst in Hrun.
    unfold ret in Hrun. injection Hrun as <- <-.
    exists userStore, user, chainStore, lock, payed, 0%nat, first.
    split; [reflexivity|]. split; [exact Hlast|]. split; [reflexivity|].
    split; [exact Hlock|].
    cbv zeta. fold request. cbn [merged_mergeTxHex merged_mergeTxId merged_utxos
                                  merged_totalAmount satoshis].
    repeat (split; [first [reflexivity|assumption]|]). right. auto.
Qed.

End DirectMerge.

(** X13. Whenever [mergeUTXOs] returns: the wallet was asked to pay once,
    for a version 10 transaction without inputs and with one output paying
    the estimated fee to the caller; the outputs selected before play no
    part.  The result holds exactly one unspent output, taken from the
    signed transaction: its first output that pays the caller's address,
    or, when no output does, output 0; position, script and value are that
    output's, and the reported total is its value. *)
Theorem mergeUTXOs_single_output (env : Env) (utxoData : UtxoData)
    (estimatedFee : Z) (w w' : World) (res : Direct.Merged) :
  Direct.mergeUTXOs env utxoData estimatedFee w = (Return res, w') ->
  exists userStore user chainStore lock payed j o,
    userStoreInstance env = Some userStore
    /\ last userStore = Some user
    /\ chainStoreInstance env = Some chainStore
    /\ buildPublicKeyHashOut env (address user) = Return lock
    /\ let request := Props.mergeOneRequest lock estimatedFee
                        (Chain.feeRateOrDefault chainStore) in
       trace w' = trace w ++ [EvPay request]
       /\ localStorage w' = localStorage w
       /\ walletPay env (trace w) request = Return (Some payed)
       /\ toHex env payed = Return (Direct.merged_mergeTxHex res)
       /\ outputs payed !! j = Some o
       /\ Direct.merged_utxos res
          = [{| txId := getTxId env payed; outputIndex := Z.of_nat j;
                script := Some (out_script o); satoshis := out_satoshis o |}]
       /\ Direct.merged_totalAmount res = out_satoshis o
       /\ ((Spec.ownOutput env (address user) o = true
            /\ forall j' o', (j' < j)%nat -> outputs payed !! j' = Some o' ->
                             Spec.ownOutput env (address user) o' = false)
           \/ (j = 0%nat
               /\ forall o', In o' (outputs payed) ->
                             Spec.ownOutput env (address user) o' = false))
       /\ (forall other,
             Direct.mergeUTXOs env other estimatedFee w = (Return res, w')).
Proof.
  intros Hrun.
  destruct (mergeUTXOs_returned env utxoData estimatedFee w res w' Hrun)
    as (userStore & user & chainStore & lock & payed & j & o & Hus & Hlast & Hcs
        & Hlock & H).
  cbv zeta in H.
  destruct H as (-> & Hwallet & Hhex & Hid & Hj & Hutxos & Htotal & Hwhich).
  exists userStore, user, chainStore, lock, payed, j, o.
  split; [exact Hus|]. split; [exact Hlast|]. split; [exact Hcs|].
  split; [exact Hlock|].
  cbv zeta. split; [reflexivity|]. split; [reflexivity|].
  split; [exact Hwallet|]. split; [exact Hhex|]. split; [exact Hj|].
  split; [exact Hutxos|]. split; [exact Htotal|]. split; [exact Hwhich|].
  intros other. exact Hrun.
Qed.

Lemma mergeUTXOs_single_output_witness :
  exists res w',
    Direct.mergeUTXOs (Demo.env Demo.wallet [] (Return (Some Demo.payedElsewhere)) None)
      Demo.selection 4000 (Demo.world ∅) = (Return res, w')
    /\ map outputIndex (Direct.merged_utxos res) = [0]
    /\ Direct.merged_totalAmount res = 5350.
Proof.
  destruct (Direct.mergeUTXOs
              (Demo.env Demo.wallet [] (Return (Some Demo.payedElsewhere)) None)
              Demo.selection 4000 (Demo.world ∅)) as [r w'] eqn:Hrun.
  assert (Hr : r = Return {| Direct.merged_utxos :=
                               [{| txId := "merge-txid"; outputIndex := 0;
                                   script := Some (Demo.lock "addr9");
                                   satoshis := 5350 |}];
                             Direct.merged_totalAmount := 5350;
                             Direct.merged_mergeTxId := "merge-txid";
                             Direct.merged_mergeTxHex := "10:0:2" |}).
  { change r with (fst (r, w')). rewrite <- Hrun. vm_compute. reflexivity. }
  subst r.
  destruct (mergeUTXOs_single_output _ _ _ _ _ _ Hrun)
    as (userStore & user & chainStore & lock & payed & j & o & _ & _ & _ & _ & H).
  cbv zeta in H. destruct H as (_ & _ & _ & _ & _ & _ & Htotal & _).
  eexists _, w'. split; [reflexivity|]. split; reflexivity.
Defined.

(** ** The direct upload: the base transaction *)

Section BaseTx.
Import Spec Props Direct.

Lemma baseSigtype_value : baseSigtype = 0xC3.
Proof. reflexivity. Qed.

(** [buildAndSignBaseTx] over exactly one unspent output, step by step. *)
Lemma buildAndSignBaseTx_single env utxoData u w userStore user lock :
  utxos utxoData = [u] ->
  userStoreInstance env = Some userStore ->
  last userStore = Some user ->
  mvcInstance env = true ->
  BufferInstance env = true ->
  buildPublicKeyHashOut env (address user) = Return lock ->
  let wrap (t : Thrown) :=
    @Throw string (Error ("Failed to build/sign MVC transaction: " +:+ show_message t)) in
  buildAndSignBaseTx env utxoData w =
    match toHex env (baseTx u lock None) with
    | Throw t => (wrap t, w)
    | Return txHex =>
        let request := baseSignRequest (address user) txHex u in
        match walletSignTransaction env (trace w) request with
        | Throw t => (wrap t, after w (EvSign request))
        | Return None =>
            (wrap (Error "Failed to get signature"), after w (EvSign request))
        | Return (Some signature) =>
            if JsString.truthy (sig signature) then
              match signatureToDER env (sig signature) with
              | Throw t => (wrap t, after w (EvSign request))
              | Return der =>
                  match toHex env
                          (baseTx u lock
                             (Some (buildPublicKeyHashIn env (publicKey signature)
                                      der 0xC3))) with
                  | Throw t => (wrap t, after w (EvSign request))
                  | Return hex => (Return hex, after w (EvSign request))
                  end
              end
            else (wrap (Error "Failed to get signature"), after w (EvSign request))
        end
    end.
Proof.
  intros Hu Hus Hlast Hmvc Hbuf Hlock wrap.
  unfold buildAndSignBaseTx, try_catch. rewrite Hus, Hmvc, Hbuf, Hu.
  cbn [negb andb]. cbv zeta. rewrite (bind_readLast_some _ _ _ _ _ _ Hlast).
  unfold Mvc.to. rewrite Hlock.
  unfold bind at 1, await at 1.
  cbn [Mvc.from Mvc.setVersion Mvc.newTransaction version inputs outputs app].
  fold (baseTx u lock None).
  unfold bind at 1, await at 1.
  destruct (toHex env (baseTx u lock None)) as [txHex|t]; [|reflexivity].
  change {| sr_txHex := txHex; sr_address := address user;
            sr_inputIndex := 0; sr_scriptHex := script u;
            sr_satoshis := satoshis u; sr_sigtype := baseSigtype |}
    with (baseSignRequest (address user) txHex u).
  set (request := baseSignRequest _ _ _).
  unfold bind at 1, history at 1. unfold bind at 1, emit at 1.
  unfold bind at 1, await at 1. cbn [trace].
  fold (after w (EvSign request)).
  destruct (walletSignTransaction env (trace w) request) as [[signature|]|t];
    try reflexivity.
  destruct (JsString.truthy (sig signature)); cbn [negb]; [|reflexivity].
  unfold bind at 1, await at 1.
  destruct (signatureToDER env (sig signature)) as [der|t]; [|reflexivity].
  unfold bind, await. unfold Mvc.setScript. cbn [Z.ltb Z.compare Z.to_nat].
  cbn [baseTx inputs lookup list_lookup].
  change (buildPublicKeyHashIn env (publicKey signature) der baseSigtype)
    with (buildPublicKeyHashIn env (publicKey signature) der 0xC3).
  simpl.
  fold (baseTx u lock (Some (buildPublicKeyHashIn env (publicKey signature) der 0xC3))).
  destruct (toHex env _); reflexivity.
Qed.

End BaseTx.

(** X14. [buildAndSignBaseTx], with the user store, the library and
    [Buffer] present.  Over any number of unspent outputs other than one it
    throws the error that names that number, and the wallet is not asked.
    Over exactly one, when it returns, the wallet was asked once, for
    input 0 of the version 10 transaction that spends that output and pays
    1 satoshi to the caller, with the mode [0x3 | 0x80 | 0x40]; the hex text
    returned is the serialization of that transaction with the unlocking
    script in its input.  A wallet answer without a signature, or with an
    empty one, gives the error [Failed to get signature]. *)
Theorem buildAndSignBaseTx_exactly_one (env : Env) (utxoData : UtxoData)
    (w : World) (userStore : UserStore) (user : UserInfo) :
  userStoreInstance env = Some userStore ->
  last userStore = Some user ->
  mvcInstance env = true ->
  BufferInstance env = true ->
  let own := address user in
  (length (utxos utxoData) <> 1%nat ->
     Direct.buildAndSignBaseTx env utxoData w
     = (Throw (Error ("Failed to build/sign MVC transaction: "
                      +:+ ("SIGHASH_SINGLE requires exactly 1 UTXO, got "
                           +:+ JsString.ofZ (Z.of_nat (length (utxos utxoData)))))),
        w))
  /\ (forall hex w',
        Direct.buildAndSignBaseTx env utxoData w = (Return hex, w') ->
        exists u lock txHex signature der,
          utxos utxoData = [u]
          /\ buildPublicKeyHashOut env own = Return lock
          /\ toHex env (Props.baseTx u lock None) = Return txHex
          /\ w' = Spec.after w (EvSign (Props.baseSignRequest own txHex u))
          /\ sr_sigtype (Props.baseSignRequest own txHex u) = Z.lor (Z.lor 0x3 0x80) 0x40
          /\ walletSignTransaction env (trace w) (Props.baseSignRequest own txHex u)
             = Return (Some signature)
          /\ sig signature <> ""
          /\ signatureToDER env (sig signature) = Return der
          /\ toHex env
               (Props.baseTx u lock
                  (Some (buildPublicKeyHashIn env (publicKey signature) der 0xC3)))
             = Return hex)
  /\ (forall u lock txHex signature,
        utxos utxoData = [u] ->
        buildPublicKeyHashOut env own = Return lock ->
        toHex env (Props.baseTx u lock None) = Return txHex ->
        walletSignTransaction env (trace w) (Props.baseSignRequest own txHex u)
          = Return signature ->
        signature = None \/ (exists s, signature = Some s /\ sig s = "") ->
        fst (Direct.buildAndSignBaseTx env utxoData w)
        = Throw (Error ("Failed to build/sign MVC transaction: "
                        +:+ "Failed to get signature"))).
Proof.
  intros Hus Hlast Hmvc Hbuf own.
  split.
  { intros Hlen. unfold Direct.buildAndSignBaseTx, try_catch.
    rewrite Hus, Hmvc, Hbuf. cbn [negb andb].
    destruct (utxos utxoData) as [|u [|u' rest]]; try reflexivity.
    simpl in Hlen. congruence. }
  split.
  { intros hex w' Hrun.
    destruct (utxos utxoData) as [|u [|u' rest]] eqn:Hu.
    - unfold Direct.buildAndSignBaseTx, try_catch in Hrun.
      rewrite Hus, Hmvc, Hbuf, Hu in Hrun. discriminate.
    - destruct (buildPublicKeyHashOut env own) as [lock|t] eqn:Hlock.
      2:{ unfold Direct.buildAndSignBaseTx, try_catch in Hrun.
          rewrite Hus, Hmvc, Hbuf, Hu in Hrun. cbn [negb andb] in Hrun.
          cbv zeta in Hrun. rewrite (bind_readLast_some _ _ _ _ _ _ Hlast) in Hrun.
          unfold Mvc.to in Hrun. fold own in Hrun.
          rewrite Hlock in Hrun. discriminate. }
      rewrite (buildAndSignBaseTx_single env utxoData u w userStore user lock
                 Hu Hus Hlast Hmvc Hbuf Hlock) in Hrun.
      cbv zeta in Hrun. fold own in Hrun.
      destruct (toHex env (Props.baseTx u lock None)) as [txHex|t] eqn:Htx;
        [|discriminate].
      destruct (walletSignTransaction env (trace w) _) as [[signature|]|t] eqn:Hsign;
        try discriminate.
      destruct (JsString.truthy (sig signature)) eqn:Hsig; [|discriminate].
      destruct (signatureToDER env (sig signature)) as [der|t] eqn:Hder;
        [|discriminate].
      destruct (toHex env (Props.baseTx u lock (Some _))) as [hex'|t] eqn:Hhex;
        [|discriminate].
      injection Hrun as <- <-.
      exists u, lock, txHex, signature, der.
      repeat (split; [first [reflexivity|assumption]|]).
      split; [|split; assumption].
      intros E. rewrite E in Hsig. discriminate.
    - unfold Direct.buildAndSignBaseTx, try_catch in Hrun.
      rewrite Hus, Hmvc, Hbuf, Hu in Hrun. discriminate. }
  intros u lock txHex signature Hu Hlock Htx Hsign Hbad.
  rewrite (buildAndSignBaseTx_single env utxoData u w userStore user lock
             Hu Hus Hlast Hmvc Hbuf Hlock).
  cbv zeta. fold own. rewrite Htx, Hsign.
  destruct Hbad as [->|(s & -> & Hs)]; [reflexivity|].
  rewrite Hs. reflexivity.
Qed.

Lemma buildAndSignBaseTx_exactly_one_witness :
  Direct.buildAndSignBaseTx Demo.plain
    {| utxos := [Demo.funding; Demo.funding]; totalAmount := 10700 |} (Demo.world ∅)
  = (Throw (Error "Failed to build/sign MVC transaction: SIGHASH_SINGLE requires exactly 1 UTXO, got 2"),
     Demo.world ∅).
Proof.
  apply (buildAndSignBaseTx_exactly_one Demo.plain
           {| utxos := [Demo.funding; Demo.funding]; totalAmount := 10700 |}
           (Demo.world ∅) {| last := Some Demo.user |} Demo.user
           eq_refl eq_refl eq_refl eq_refl).
  simpl. discriminate.
Defined.

(** ** The direct upload: the request and the whole flow *)

Section DirectUploadFacts.
Import Spec Props Direct.

Lemma contentTypeOf_binary file :
  JsString.includes ";binary" (contentTypeOf file) = true.
Proof.
  unfold contentTypeOf.
  set (ct := if JsString.truthy (file_type file) then file_type file
             else "application/octet-stream").
  destruct (JsString.includes ";binary" ct) eqn:E; cbn [negb]; [exact E|].
  apply includes_suffix.
Qed.

(** A call of [directUpload] that returns. *)
Lemma directUpload_returned env site file preTxHex total mergeTxHex w d w' :
  directUpload env site file preTxHex total mergeTxHex w = (Return d, w') ->
  exists chainStore userStore user rate response result,
    chainStoreInstance env = Some chainStore
    /\ userStoreInstance env = Some userStore
    /\ last userStore = Some user
    /\ mvcFeeRate chainStore = Some rate
    /\ w' = w
    /\ fetchDirectUpload site (trace w) (apiBase site +:+ "/api/v1/files/direct-upload")
         {| f_file := file;
            f_path := "/file";
            f_mergeTxHex := if JsString.truthy mergeTxHex then Some mergeTxHex else None;
            f_preTxHex := preTxHex;
            f_operation := "create";
            f_contentType := contentTypeOf file;
            f_metaId := metaid user;
            f_address := address user;
            f_changeAddress := address user;
            f_feeRate := or_string (Some (numberToString site rate)) "1";
            f_totalInputAmount := JsString.ofZ total |}
       = Return response
    /\ ok response = true
    /\ json response = Return result
    /\ code result = 0
    /\ data result = Some d.
Proof.
  intros Hrun. unfold directUpload in Hrun.
  apply try_catch_returns in Hrun; [|intros t w0; eexists; reflexivity].
  destruct (chainStoreInstance env) as [chainStore|] eqn:Hcs; [|discriminate].
  destruct (userStoreInstance env) as [userStore|] eqn:Hus; [|discriminate].
  cbv zeta in Hrun. cbn [JsString.truthy] in Hrun.
  destruct (last userStore) as [user|] eqn:Hlast;
    [rewrite !(bind_readLast_some _ _ _ _ _ _ Hlast) in Hrun
    |rewrite (bind_readLast_none _ _ _ _ _ Hlast) in Hrun; discriminate].
  destruct (mvcFeeRate chainStore) as [rate|] eqn:Hrate; [|discriminate].
  unfold bind at 1, ret at 1 in Hrun.
  unfold bind at 1, history at 1 in Hrun.
  unfold bind at 1, await at 1 in Hrun.
  destruct (fetchDirectUpload site (trace w) _ _) as [response|t] eqn:Hfetch;
    [|discriminate].
  unfold bind at 1, Backend.readData in Hrun.
  destruct (ok response) eqn:Hok; [|discriminate]. cbn [negb] in Hrun.
  unfold bind at 1, await at 1 in Hrun.
  destruct (json response) as [result|t] eqn:Hjson; [|discriminate].
  destruct (code result =? 0) eqn:Hcode; [|discriminate]. cbn [negb] in Hrun.
  unfold ret at 1 in Hrun.
  destruct (data result) as [d'|] eqn:Hdata; [|discriminate].
  injection Hrun as <- <-.
  exists chainStore, userStore, user, rate, response, result.
  apply Z.eqb_eq in Hcode. auto 13.
Qed.

End DirectUploadFacts.

(** X15. [directUpload], with both stores present.  When it returns, it
    has changed nothing and hands back the data of an answer with HTTP
    success and code 0 to one form, posted below the uploader URL of the
    constants, else their base URL, else the built-in one.  The form's
    content type always carries [;binary], text types included; the merge
    transaction is part of the form exactly when its hex text is not empty;
    receiving and change address are both the caller's; the total input
    amount is sent as decimal text; the fee rate is the text of the store's
    rate as it is: no default is put in its place.  When the store has no
    rate, the call fails on reading it, although [estimateUploadFee] has
    priced the same upload at rate 1. *)
Theorem directUpload_form (env : Env) (site : Direct.Site) (file : File)
    (preTxHex mergeTxHex : string) (total : Z) (w : World)
    (chainStore : ChainStore) (userStore : UserStore) (user : UserInfo) :
  chainStoreInstance env = Some chainStore ->
  userStoreInstance env = Some userStore ->
  last userStore = Some user ->
  (forall d w',
     Direct.directUpload env site file preTxHex total mergeTxHex w = (Return d, w') ->
     exists rate form response result,
       w' = w
       /\ mvcFeeRate chainStore = Some rate
       /\ Direct.fetchDirectUpload site (trace w)
            (Direct.apiBase site +:+ "/api/v1/files/direct-upload") form
          = Return response
       /\ ok response = true
       /\ json response = Return result
       /\ code result = 0
       /\ data result = Some d
       /\ JsString.includes ";binary" (Direct.f_contentType form) = true
       /\ (Direct.f_mergeTxHex form = None <-> mergeTxHex = "")
       /\ (mergeTxHex <> "" -> Direct.f_mergeTxHex form = Some mergeTxHex)
       /\ Direct.f_preTxHex form = preTxHex
       /\ Direct.f_address form = address user
       /\ Direct.f_changeAddress form = address user
       /\ Direct.f_metaId form = metaid user
       /\ Direct.f_totalInputAmount form = JsString.ofZ total
       /\ (Direct.numberToString site rate <> "" ->
           Direct.f_feeRate form = Direct.numberToString site rate))
  /\ (mvcFeeRate chainStore = None ->
      Direct.directUpload env site file preTxHex total mergeTxHex w
      = (Throw (Error ("DirectUpload failed: "
                       +:+ "Cannot read properties of undefined (reading 'toString')")),
         w)
      /\ Direct.estimateUploadFee env file w
         = (Return (Props.uploadFee (Num.ofZ 1) (file_size file)), w))
  /\ Direct.apiBase site
     = match Direct.constantsInstance site with
       | None => Direct.API_BASE
       | Some constants =>
           or_string (Direct.METAFS_API_UPLOADER constants)
                     (or_string (Direct.METAFS_API_BASE constants) Direct.API_BASE)
       end.
Proof.
  intros Hcs Hus Hlast.
  split.
  { intros d w' Hrun.
    destruct (directUpload_returned _ _ _ _ _ _ _ _ _ Hrun)
      as (chainStore' & userStore' & user' & rate & response & result
          & Hcs' & Hus' & Hlast' & Hrate & -> & Hfetch & Hok & Hjson & Hcode & Hdata).
    assert (chainStore' = chainStore) as -> by congruence.
    assert (userStore' = userStore) as -> by congruence.
    assert (user' = user) as -> by congruence.
    eexists rate, _, response, result.
    split; [reflexivity|]. split; [exact Hrate|]. split; [exact Hfetch|].
    split; [exact Hok|]. split; [exact Hjson|]. split; [exact Hcode|].
    split; [exact Hdata|].
    cbn [Direct.f_contentType Direct.f_mergeTxHex Direct.f_preTxHex Direct.f_address
         Direct.f_changeAddress Direct.f_metaId Direct.f_totalInputAmount
         Direct.f_feeRate].
    split; [apply contentTypeOf_binary|].
    split.
    { destruct mergeTxHex; simpl; split; congruence. }
    split.
    { destruct mergeTxHex; simpl; congruence. }
    repeat (split; [reflexivity|]).
    intros Hne. unfold or_string.
    destruct (Direct.numberToString site rate); [congruence|reflexivity]. }
  split.
  { intros Hrate. split.
    - unfold Direct.directUpload, try_catch. rewrite Hcs, Hus. cbv zeta.
      rewrite !(bind_readLast_some _ _ _ _ _ _ Hlast).
      rewrite Hrate. reflexivity.
    - unfold Direct.estimateUploadFee, try_catch. rewrite Hcs. unfold ret. cbv zeta.
      unfold Chain.feeRateOrDefault. rewrite Hrate.
      f_equal. f_equal. unfold Props.uploadFee.
      assert (Hsize : 200 + 150 + 34 * 2
                      + (50 + (6 + 10
                               + Z.of_nat (String.length
                                   (if JsString.truthy ""
                                    then "" +:+ ":" +:+ "/file" else "/file"))
                               + 10 + 10 + 50)
                         + file_size file)
                      = 559 + file_size file) by (simpl; lia).
      rewrite Hsize. reflexivity. }
  unfold Direct.apiBase. destruct (Direct.constantsInstance site); reflexivity.
Qed.

Lemma directUpload_form_witness :
  Direct.directUpload Demo.plain Demo2.site Demo.file "pre" 5350 "" (Demo.world ∅)
  = (Return Demo2.uploaded, Demo.world ∅)
  /\ Direct.apiBase Demo2.site = "https://uploader.example".
Proof.
  destruct (directUpload_form Demo.plain Demo2.site Demo.file "pre" "" 5350
              (Demo.world ∅) {| mvcFeeRate := Some (Num.ofZ 1) |}
              {| last := Some Demo.user |} Demo.user
              eq_refl eq_refl eq_refl) as (_ & _ & Hbase).
  split; [reflexivity|]. rewrite Hbase. reflexivity.
Defined.

Section DirectFrames.
Import Spec Props Direct.

(** Takes a run apart along the [match]es of its definition. *)
Ltac run_cases H :=
  repeat first
    [ progress (unfold bind, try_catch, await, ret, throw, history, emit in H;
                cbn beta iota zeta in H; cbn [trace localStorage timers negb] in H)
    | match type of H with
      | context [match ?x with _ => _ end] =>
          lazymatch x with
          | context [match _ with _ => _ end] => fail
          | _ => destruct x eqn:?
          end
      end ].

Lemma estimateUploadFee_frame env file w r w' :
  estimateUploadFee env file w = (r, w') ->
  w' = w
  /\ forall t, r = Throw t ->
       exists m, t = Error ("Failed to estimate upload fee: " +:+ m).
Proof.
  unfold estimateUploadFee. intros Hrun. run_cases Hrun;
    injection Hrun as <- <-; (split; [reflexivity|]); intros t' Ht;
    try discriminate; injection Ht as <-; eauto.
Qed.

Lemma getWalletUTXOs_frame env requiredAmount w r w' :
  Chain.getWalletUTXOs env requiredAmount w = (r, w') ->
  (w' = w \/ w' = after w EvGetUtxos)
  /\ forall t, r = Throw t -> exists m, t = Error ("Failed to get UTXOs: " +:+ m).
Proof.
  unfold Chain.getWalletUTXOs. intros Hrun. run_cases Hrun;
    injection Hrun as <- <-; (split; [unfold after; auto|]); intros t' Ht;
    try discriminate; injection Ht as <-; eauto.
Qed.

Lemma mergeUTXOs_frame env utxoData estimatedFee w r w' :
  mergeUTXOs env utxoData estimatedFee w = (r, w') ->
  (w' = w \/ exists p, w' = after w (EvPay p))
  /\ forall t, r = Throw t -> exists m, t = Error ("Failed to merge UTXOs: " +:+ m).
Proof.
  unfold mergeUTXOs. intros Hrun. run_cases Hrun;
    injection Hrun as <- <-; (split; [unfold after; eauto|]); intros t' Ht;
    try discriminate; injection Ht as <-; eauto.
Qed.

Lemma buildAndSignBaseTx_frame env utxoData w r w' :
  buildAndSignBaseTx env utxoData w = (r, w') ->
  (w' = w \/ exists q, w' = after w (EvSign q) /\ sr_sigtype q = 0xC3)
  /\ (forall t, r = Throw t ->
       exists m, t = Error ("Failed to build/sign MVC transaction: " +:+ m))
  /\ (forall hex, r = Return hex ->
       exists q, w' = after w (EvSign q) /\ sr_sigtype q = 0xC3).
Proof.
  unfold buildAndSignBaseTx. intros Hrun. run_cases Hrun;
    injection Hrun as <- <-;
    (split; [unfold after; eauto|]);
    (split; [intros t' Ht; try discriminate; injection Ht as <-; eauto|]);
    intros hex' Hhex; try discriminate; unfold after; eauto.
Qed.

Lemma directUpload_frame env site file preTxHex total mergeTxHex w r w' :
  directUpload env site file preTxHex total mergeTxHex w = (r, w') ->
  w' = w
  /\ forall t, r = Throw t -> exists m, t = Error ("DirectUpload failed: " +:+ m).
Proof.
  unfold directUpload, Backend.readData. intros Hrun. run_cases Hrun;
    injection Hrun as <- <-; (split; [reflexivity|]); intros t' Ht;
    try discriminate; injection Ht as <-; eauto.
Qed.

End DirectFrames.

Section DirectFlow.
Import Spec Props Direct.

Lemma extend_nil w : extend w [] = w.
Proof. unfold extend. rewrite app_nil_r. now destruct w. Qed.

Lemma extend_after w e : after w e = extend w [e].
Proof. reflexivity. Qed.

Lemma extend_extend w a b : extend (extend w a) b = extend w (a ++ b).
Proof. unfold extend. simpl. now rewrite app_assoc. Qed.

(** A call of [fundUpload] that returns: one output was selected and is
    handed on, or several were and their merge is. *)
Lemma fundUpload_returned env file w funded w' :
  fundUpload env file w = (Return funded, w') ->
  exists fee selection,
    estimateUploadFee env file w = (Return fee, w)
    /\ Chain.getWalletUTXOs env fee w = (Return selection, after w EvGetUtxos)
    /\ ((length (utxos selection) = 1%nat
         /\ funded = ({| utxos := utxos selection;
                         totalAmount := totalAmount selection |}, "")
         /\ w' = after w EvGetUtxos)
        \/ ((1 < length (utxos selection))%nat
            /\ exists merged,
                 mergeUTXOs env selection fee (after w EvGetUtxos) = (Return merged, w')
                 /\ funded = ({| utxos := merged_utxos merged;
                                 totalAmount := merged_totalAmount merged |},
                              merged_mergeTxHex merged))).
Proof.
  unfold fundUpload. intros Hrun.
  apply bind_returns in Hrun as (fee & w1 & Hfee & Hrun).
  destruct (estimateUploadFee_frame _ _ _ _ _ Hfee) as [-> _].
  apply bind_returns in Hrun as (selection & w2 & Hsel & Hrun).
  destruct (getWalletUTXOs_returned _ _ _ _ _ Hsel) as (wallet & _ & -> & Hne & _).
  exists fee, selection. split; [exact Hfee|]. split; [exact Hsel|].
  destruct (Z.gtb_spec (Z.of_nat (length (utxos selection))) 1) as [Hmany|Hone].
  - right. split; [lia|].
    apply bind_returns in Hrun as (merged & w3 & Hmerge & Hrun).
    unfold ret in Hrun. injection Hrun as <- <-.
    exists merged. split; [exact Hmerge|].
    f_equal. unfold or_string. destruct (merged_mergeTxHex merged); reflexivity.
  - left. unfold ret in Hrun. injection Hrun as <- <-.
    split; [|auto].
    destruct (utxos selection) as [|u [|u' rest]]; simpl in *; [congruence|reflexivity|lia].
Qed.

(** What a run of [fundUpload] can leave in the trace, and how it can
    fail. *)
Lemma fundUpload_frame env file w r w' :
  fundUpload env file w = (r, w') ->
  exists evs,
    w' = extend w evs
    /\ (evs = [] \/ evs = [EvGetUtxos] \/ exists p, evs = [EvGetUtxos; EvPay p])
    /\ (forall t, r = Throw t -> beginsWith directErrors t)
    /\ (forall funded, r = Return funded -> evs <> []).
Proof.
  unfold fundUpload, bind. intros Hrun.
  destruct (estimateUploadFee env file w) as [[fee|t] w1] eqn:Hfee;
    destruct (estimateUploadFee_frame _ _ _ _ _ Hfee) as [-> Hthrow].
  2:{ injection Hrun as <- <-. exists []. rewrite extend_nil.
      split; [reflexivity|]. split; [auto|]. split; [|discriminate].
      intros t' Ht. injection Ht as <-. destruct (Hthrow t eq_refl) as [m ->].
      exists "Failed to estimate upload fee: ", m. simpl. auto. }
  destruct (Chain.getWalletUTXOs env fee w) as [[selection|t] w2] eqn:Hsel;
    destruct (getWalletUTXOs_frame _ _ _ _ _ Hsel) as [Hw2 Hthrow2].
  2:{ injection Hrun as <- <-.
      assert (Hwhy : beginsWith directErrors t).
      { destruct (Hthrow2 t eq_refl) as [m ->].
        exists "Failed to get UTXOs: ", m. simpl. auto 6. }
      destruct Hw2 as [-> | ->].
      - exists []. rewrite extend_nil. split; [reflexivity|]. split; [auto|].
        split; [|discriminate]. intros t' Ht. injection Ht as <-. exact Hwhy.
      - exists [EvGetUtxos]. split; [reflexivity|]. split; [auto|].
        split; [|discriminate]. intros t' Ht. injection Ht as <-. exact Hwhy. }
  destruct (getWalletUTXOs_returned _ _ _ _ _ Hsel) as (wallet & _ & -> & _).
  destruct (Z.of_nat (length (utxos selection)) >? 1).
  - destruct (mergeUTXOs env selection fee (after w EvGetUtxos)) as [[merged|t] w3]
      eqn:Hmerge;
      destruct (mergeUTXOs_frame _ _ _ _ _ _ Hmerge) as [Hw3 Hthrow3].
    + unfold ret in Hrun. injection Hrun as <- <-.
      destruct (mergeUTXOs_returned _ _ _ _ _ _ Hmerge)
        as (us & user & cs & lock & payed & j & o & _ & _ & _ & _ & H).
      cbv zeta in H. destruct H as (-> & _).
      eexists [EvGetUtxos; EvPay _].
      split; [rewrite !extend_after, extend_extend; reflexivity|].
      split; [eauto|]. split; [discriminate|]. discriminate.
    + injection Hrun as <- <-.
      destruct Hw3 as [-> | [p ->]].
      * exists [EvGetUtxos]. split; [reflexivity|]. split; [auto|].
        split; [|discriminate].
        intros t' Ht. injection Ht as <-. destruct (Hthrow3 t eq_refl) as [m ->].
        exists "Failed to merge UTXOs: ", m. simpl. auto 6.
      * exists [EvGetUtxos; EvPay p].
        split; [rewrite !extend_after, extend_extend; reflexivity|]. split; [eauto|].
        split; [|discriminate].
        intros t' Ht. injection Ht as <-. destruct (Hthrow3 t eq_refl) as [m ->].
        exists "Failed to merge UTXOs: ", m. simpl. auto 6.
  - unfold ret in Hrun. injection Hrun as <- <-.
    exists [EvGetUtxos]. split; [reflexivity|]. split; [auto|].
    split; discriminate.
Qed.

End DirectFlow.

(** X16. Whenever [fundUpload] returns, the funding it hands to the
    signing step holds exactly one unspent output, so the check for
    exactly one output in [buildAndSignBaseTx] finds what it needs.  Either
    the wallet's selection held one output: then that output is handed on,
    worth more than the estimated fee, no merge is paid for and the merge
    hex text is empty.  Or the selection held several: then the wallet was
    asked once to pay the merge, and the one output and the hex text are
    those of the signed merge transaction. *)
Theorem fundUpload_single_output (env : Env) (file : File) (w w' : World)
    (finalUtxo : UtxoData) (mergeTxHex : string) :
  Direct.fundUpload env file w = (Return (finalUtxo, mergeTxHex), w') ->
  exists fee selection,
    Direct.estimateUploadFee env file w = (Return fee, w)
    /\ Chain.getWalletUTXOs env fee w = (Return selection, Spec.after w EvGetUtxos)
    /\ length (utxos finalUtxo) = 1%nat
    /\ totalAmount finalUtxo = Props.sumSatoshis (utxos finalUtxo)
    /\ ((length (utxos selection) = 1%nat
         /\ utxos finalUtxo = utxos selection
         /\ totalAmount finalUtxo > fee
         /\ mergeTxHex = ""
         /\ trace w' = trace w ++ [EvGetUtxos])
        \/ ((1 < length (utxos selection))%nat
            /\ exists request payed,
                 trace w' = trace w ++ [EvGetUtxos; EvPay request]
                 /\ map out_satoshis (outputs (pay_txComposer request)) = [fee]
                 /\ walletPay env (trace w ++ [EvGetUtxos]) request
                    = Return (Some payed)
                 /\ toHex env payed = Return mergeTxHex
                 /\ map txId (utxos finalUtxo) = [getTxId env payed])).
Proof.
  intros Hrun.
  destruct (fundUpload_returned env file w _ w' Hrun)
    as (fee & selection & Hfee & Hsel & Hcases).
  destruct (getWalletUTXOs_returned _ _ _ _ _ Hsel)
    as (wallet & _ & _ & _ & Htot & Hge & _).
  exists fee, selection. split; [exact Hfee|]. split; [exact Hsel|].
  destruct Hcases as [(Hone & Hf & ->)|(Hmany & merged & Hmerge & Hf)];
    injection Hf as -> ->.
  - split; [exact Hone|]. split; [exact Htot|]. left.
    cbn [utxos totalAmount]. repeat split; [exact Hone|lia].
  - destruct (mergeUTXOs_returned _ _ _ _ _ _ Hmerge)
      as (us & user & cs & lock & payed & j & o & _ & _ & _ & _ & H).
    cbv zeta in H. destruct H as (-> & Hpay & Hhex & _ & _ & Hutxos & Htotal & _).
    cbn [utxos totalAmount]. rewrite Hutxos, Htotal.
    split; [reflexivity|].
    split; [unfold Props.sumSatoshis; simpl; lia|].
    right. split; [exact Hmany|].
    eexists _, payed. split; [simpl; now rewrite <- app_assoc|].
    split; [reflexivity|]. split; [exact Hpay|]. split; [exact Hhex|reflexivity].
Qed.

Lemma fundUpload_single_output_witness :
  exists finalUtxo w',
    Direct.fundUpload (Demo.env Demo.richWallet [] (Return None) (Some (Num.ofZ 1)))
      {| file_name := "note.txt"; file_size := 1000; file_type := "text/plain" |}
      (Demo.world ∅) = (Return (finalUtxo, ""), w')
    /\ map txId (utxos finalUtxo) = ["f"]
    /\ trace w' = [EvGetUtxos].
Proof.
  destruct (Direct.fundUpload (Demo.env Demo.richWallet [] (Return None) (Some (Num.ofZ 1)))
              {| file_name := "note.txt"; file_size := 1000; file_type := "text/plain" |}
              (Demo.world ∅)) as [r w'] eqn:Hrun.
  assert (Hr : r = Return ({| utxos := [Spec.selected Demo.lock (Demo.coin "f" 9000)];
                              totalAmount := 9000 |}, ""))
    by (change r with (fst (r, w')); rewrite <- Hrun; vm_compute; reflexivity).
  subst r.
  destruct (fundUpload_single_output _ _ _ _ _ _ Hrun)
    as (fee & selection & _ & _ & _ & _ & [(_ & _ & _ & _ & Htr)|(_ & request & payed & _ & _ & Hpay & _)]).
  - eexists _, w'. split; [reflexivity|]. split; [reflexivity|exact Htr].
  - discriminate Hpay.
Defined.

(** X17. Every run of [uploadFileToChainDirect], whatever the
    collaborators answer.  [localStorage] and the timers are left alone.
    The trace grows by a funding part followed by a signing part.  The
    funding part is empty, or the one request for the wallet's outputs,
    followed by at most one request to pay a merge.  The signing part is
    empty, or the toast that asks for the signature, followed by at most
    one signature request, whose mode is [0x3 | 0x80 | 0x40]; it is empty
    when the funding part is.  A run that returns has asked for the outputs
    and for the signature.  A run that fails shows no toast about it and
    rethrows the error of the step that failed: an [Error] whose message
    begins with that step's text. *)
Theorem uploadFileToChainDirect_run (env : Env) (site : Direct.Site)
    (file : File) (w : World) :
  exists r funding signing,
    Direct.uploadFileToChainDirect env site file w
      = (r, Props.extend w (funding ++ signing))
    /\ (funding = [] \/ funding = [EvGetUtxos]
        \/ exists p, funding = [EvGetUtxos; EvPay p])
    /\ (signing = [] \/ signing = [Props.signatureToast]
        \/ exists q, signing = [Props.signatureToast; EvSign q]
                     /\ sr_sigtype q = 0xC3)
    /\ (funding = [] -> signing = [])
    /\ (forall d, r = Return d ->
          funding <> []
          /\ exists q, signing = [Props.signatureToast; EvSign q])
    /\ (forall t, r = Throw t -> Props.beginsWith Props.directErrors t).
Proof.
  assert (Hdeps : exists r funding signing,
            (@throw Direct.DirectResult
               (Error "Required dependencies (toast, chainStore, userStore) are not available") w
             = (r, Props.extend w (funding ++ signing)))
            /\ (funding = [] \/ funding = [EvGetUtxos]
                \/ exists p, funding = [EvGetUtxos; EvPay p])
            /\ (signing = [] \/ signing = [Props.signatureToast]
                \/ exists q, signing = [Props.signatureToast; EvSign q]
                             /\ sr_sigtype q = 0xC3)
            /\ (funding = [] -> signing = [])
            /\ (forall d, r = Return d ->
                  funding <> []
                  /\ exists q, signing = [Props.signatureToast; EvSign q])
            /\ (forall t, r = Throw t -> Props.beginsWith Props.directErrors t)).
  { eexists _, [], []. split; [unfold throw; rewrite extend_nil; reflexivity|].
    split; [auto|]. split; [auto|]. split; [auto|]. split; [discriminate|].
    intros t Ht. injection Ht as <-.
    exists "Required dependencies (toast, chainStore, userStore) are not available", "".
    split; [simpl; auto|]. reflexivity. }
  unfold Direct.uploadFileToChainDirect, try_catch.
  destruct (toastInstance env); [|exact Hdeps].
  destruct (chainStoreInstance env) as [chainStore|]; [|exact Hdeps].
  destruct (userStoreInstance env) as [userStore|]; [|exact Hdeps].
  clear Hdeps. cbv zeta.
  assert (Hrethrow : forall (c : M Direct.DirectResult),
            match c w with
            | (Return a, w') => (Return a, w')
            | (Throw t, w') => throw t w'
            end = c w).
  { intros c. destruct (c w) as [[a|t] w1]; reflexivity. }
  rewrite Hrethrow. clear Hrethrow.
  unfold bind at 1.
  destruct (Direct.fundUpload env file w) as [[funded|t] w1] eqn:Hfund;
    destruct (fundUpload_frame _ _ _ _ _ Hfund) as (funding & -> & Hshape & Hthrow & Hret).
  2:{ exists (Throw t), funding, []. rewrite app_nil_r.
      split; [reflexivity|]. split; [exact Hshape|]. split; [auto|]. split; [auto|].
      split; [discriminate|]. intros t' Ht. injection Ht as <-. auto. }
  specialize (Hret funded eq_refl).
  unfold bind at 1, Flow.showToast at 1, emit at 1.
  change {| localStorage := localStorage (Props.extend w funding);
            trace := trace (Props.extend w funding)
                     ++ [EvToast "Please confirm signature in wallet..." LInfo];
            timers := timers (Props.extend w funding) |}
    with (Spec.after (Props.extend w funding) Props.signatureToast).
  rewrite extend_after, extend_extend.
  unfold bind at 1.
  destruct (Direct.buildAndSignBaseTx env (fst funded) _) as [[preTxHex|t] w2] eqn:Hsign;
    destruct (buildAndSignBaseTx_frame _ _ _ _ _ Hsign) as (Hw2 & Hthrow2 & Hret2).
  2:{ assert (Hwhy : Props.beginsWith Props.directErrors t).
      { destruct (Hthrow2 t eq_refl) as [m ->].
        exists "Failed to build/sign MVC transaction: ", m. simpl. auto 8. }
      destruct Hw2 as [-> | (q & -> & Hq)].
      - exists (Throw t), funding, [Props.signatureToast].
        split; [reflexivity|]. split; [exact Hshape|]. split; [auto|].
        split; [intros E; contradiction|]. split; [discriminate|].
        intros t' Ht. injection Ht as <-. exact Hwhy.
      - exists (Throw t), funding, [Props.signatureToast; EvSign q].
        split; [rewrite extend_after, extend_extend, <- app_assoc; reflexivity|].
        split; [exact Hshape|]. split; [eauto|].
        split; [intros E; contradiction|]. split; [discriminate|].
        intros t' Ht. injection Ht as <-. exact Hwhy. }
  destruct (Hret2 preTxHex eq_refl) as (q & -> & Hq).
  rewrite extend_after, extend_extend, <- app_assoc. cbn [app].
  destruct (Direct.directUpload env site file preTxHex _ _ _) as [r w3] eqn:Hup.
  destruct (directUpload_frame _ _ _ _ _ _ _ _ _ Hup) as (-> & Hthrow3).
  exists r, funding, [Props.signatureToast; EvSign q].
  split; [reflexivity|]. split; [exact Hshape|]. split; [eauto|].
  split; [intros E; contradiction|].
  split; [intros d _; split; [exact Hret|eauto]|].
  intros t Ht. destruct (Hthrow3 t Ht) as [m ->].
  exists "DirectUpload failed: ", m. simpl. auto 8.
Qed.

(** ** The task list *)

(** X18. [loadChunkTasks], with the user store and the toast present.  It
    never throws and changes nothing but the three variables and,
    by one toast at most, the trace.  Without the list container on the
    page nothing happens.  A request for more while no more tasks are
    announced is refused with the toast [No more tasks]: the endpoint is
    not consulted and the variables keep their values.  Otherwise the
    endpoint is asked for ten tasks from cursor 0, or from the stored
    cursor when appending.  A page that is served replaces the list, or is
    appended to it, and sets the cursor (0 when none is given) and the flag
    for more; no toast is shown.  Any other answer leaves the three
    variables as they were and shows the error toast, unless the call is
    silent. *)
Theorem loadChunkTasks_transitions (env : Env) (page : Tasks.Page)
    (append silent : bool) (s : Tasks.State) (w : World) (userStore : UserStore)
    (user : UserInfo) :
  userStoreInstance env = Some userStore ->
  last userStore = Some user ->
  toastInstance env = true ->
  let answer :=
    Tasks.fetchTasks page (trace w) (address user)
      (if append then Tasks.taskCursor s else 0) 10 in
  let run := Tasks.loadChunkTasks env page append silent s w in
  (exists s' evs,
     run = (Return s', Props.extend w evs)
     /\ (evs = [] \/ exists text level, evs = [EvToast text level])
     /\ (append = true -> Tasks.taskList s `prefix_of` Tasks.taskList s'))
  /\ (Tasks.taskListContainer page = false -> run = (Return s, w))
  /\ (Tasks.taskListContainer page = true ->
      append = true -> Tasks.taskHasMore s = false ->
      run = (Return s, Spec.after w (EvToast "No more tasks" LInfo)))
  /\ (Tasks.taskListContainer page = true ->
      (append = true -> Tasks.taskHasMore s = true) ->
      (forall served,
         Props.servedPage answer = Some served ->
         run = (Return {| Tasks.taskList :=
                            (if append then Tasks.taskList s else [])
                            ++ default [] (Tasks.tasks served);
                          Tasks.taskCursor := default 0 (Tasks.nextCursor served);
                          Tasks.taskHasMore := Tasks.hasMore served |},
                w))
      /\ (Props.servedPage answer = None ->
          fst run = Return s
          /\ (silent = true -> snd run = w)
          /\ (silent = false ->
              exists text,
                snd run = Spec.after w (EvToast ("Failed to load tasks: " +:+ text)
                                                LError)))).
Proof.
  intros Hus Hlast Htoast answer run.
  assert (Hrefused : Tasks.taskListContainer page = true ->
                     append = true -> Tasks.taskHasMore s = false ->
                     run = (Return s, Spec.after w (EvToast "No more tasks" LInfo))).
  { intros Hc -> Hm. unfold run, Tasks.loadChunkTasks.
    rewrite Hus, Htoast, Hc, Hm. reflexivity. }
  assert (Hmissing : Tasks.taskListContainer page = false -> run = (Return s, w)).
  { intros Hc. unfold run, Tasks.loadChunkTasks. now rewrite Hus, Htoast, Hc. }
  assert (Hasked :
    Tasks.taskListContainer page = true ->
    (append = true -> Tasks.taskHasMore s = true) ->
    run =
      match Props.servedPage answer with
      | Some served =>
          (Return {| Tasks.taskList :=
                       (if append then Tasks.taskList s else [])
                       ++ default [] (Tasks.tasks served);
                     Tasks.taskCursor := default 0 (Tasks.nextCursor served);
                     Tasks.taskHasMore := Tasks.hasMore served |}, w)
      | None =>
          (Return s,
           if silent then w
           else Spec.after w
                  (EvToast ("Failed to load tasks: "
                            +:+ show_message
                                  match answer with
                                  | Throw t => t
                                  | Return response =>
                                      if ok response then
                                        match json response with
                                        | Throw t => t
                                        | Return result =>
                                            Error (or_string (message result)
                                                             "Failed to fetch tasks")
                                        end
                                      else Error ("HTTP Error: "
                                                  +:+ JsString.ofZ (status response))
                                  end) LError))
      end).
  { intros Hc Hm. unfold run, Tasks.loadChunkTasks.
    rewrite Hus, Htoast, Hc. cbn [negb].
    assert (Hgo : (append && negb (Tasks.taskHasMore s))%bool = false).
    { destruct append; [rewrite (Hm eq_refl)|]; reflexivity. }
    rewrite Hgo.
    unfold try_catch, bind, history, await, ret, throw, Flow.showToast, emit.
    rewrite (readLast_some _ _ _ _ Hlast).
    cbn beta iota zeta. fold answer. unfold Tasks.TASK_PAGE_SIZE. fold answer.
    unfold Props.servedPage.
    destruct answer as [response|t]; [|destruct silent; reflexivity].
    destruct (ok response); cbn [negb]; [|destruct silent; reflexivity].
    destruct (json response) as [result|t]; [|destruct silent; reflexivity].
    destruct (code result =? 0); cbn [negb]; [|destruct silent; reflexivity].
    destruct append; reflexivity. }
  split.
  { destruct (Tasks.taskListContainer page) eqn:Hc.
    2:{ exists s, []. rewrite extend_nil. split; [auto|]. split; [auto|]. reflexivity. }
    destruct (append && negb (Tasks.taskHasMore s))%bool eqn:Hgo.
    - apply andb_prop in Hgo as [-> Hm]. apply negb_true_iff in Hm.
      exists s, [EvToast "No more tasks" LInfo].
      split; [now apply Hrefused|]. split; [eauto|]. reflexivity.
    - rewrite Hasked; [|reflexivity|].
      2:{ intros ->. simpl in Hgo. now apply negb_false_iff in Hgo. }
      destruct (Props.servedPage answer) as [served|].
      + eexists _, []. rewrite extend_nil. split; [reflexivity|]. split; [auto|].
        intros ->. simpl. now apply prefix_app_r.
      + destruct silent.
        * exists s, []. rewrite extend_nil. split; [reflexivity|]. split; [auto|].
          reflexivity.
        * eexists s, [_]. split; [reflexivity|]. split; [eauto|]. reflexivity. }
  split; [exact Hmissing|]. split; [exact Hrefused|].
  intros Hc Hm. rewrite (Hasked Hc Hm).
  split.
  - intros served ->. reflexivity.
  - intros ->. cbn [fst snd]. split; [reflexivity|].
    split; [intros ->; reflexivity|]. intros ->. eauto.
Qed.

Lemma loadChunkTasks_transitions_witness :
  exists first second,
    Tasks.loadChunkTasks Demo.plain Demo2.page false false Tasks.initial (Demo.world ∅)
      = (Return first, Demo.world ∅)
    /\ Tasks.loadChunkTasks Demo.plain Demo2.page true false first (Demo.world ∅)
       = (Return second, Demo.world ∅)
    /\ map Tasks.taskId (Tasks.taskList second) = ["t0"; "t1"; "t2"; "t3"]
    /\ Tasks.taskCursor second = 4
    /\ Tasks.loadChunkTasks Demo.plain Demo2.page true false second (Demo.world ∅)
       = (Return second,
          Spec.after (Demo.world ∅) (EvToast "No more tasks" LInfo)).
Proof.
  eexists _, _.
  split; [vm_compute; reflexivity|].
  split; [vm_compute; reflexivity|].
  split; [reflexivity|]. split; [reflexivity|].
  apply (loadChunkTasks_transitions Demo.plain Demo2.page true false _ (Demo.world ∅)
           {| last := Some Demo.user |} Demo.user eq_refl eq_refl eq_refl); reflexivity.
Defined.

(** ** What the backend calls send *)

Section Payload.
Import Spec Props Backend.

Lemma withPayload_key body content storageKey :
  storageKey <> "" ->
  exists body',
    withPayload body content storageKey = Return body'
    /\ b_storageKey body' = Some storageKey
    /\ b_content body' = None
    /\ b_fileName body' = b_fileName body
    /\ b_contentType body' = b_contentType body
    /\ b_isBroadcast body' = b_isBroadcast body
    /\ b_feeRate body' = b_feeRate body.
Proof.
  intros Hkey. unfold withPayload.
  destruct storageKey; [congruence|]. simpl. eexists. split; [reflexivity|].
  simpl. auto 10.
Qed.

Lemma withPayload_nothing body content :
  content = None \/ content = Some "" ->
  withPayload body content ""
  = Throw (Error "Either storageKey or content must be provided").
Proof. intros [->| ->]; reflexivity. Qed.

End Payload.

(** X19. The three backend calls that carry the file, with both stores
    present.  Called with an empty storage key and without content, each
    one fails with its own prefix before any request is made.  Called with
    a storage key, each one makes exactly one request, whose body names the
    key and carries no content, whatever content was passed along; the
    body's content type is [buildContentType]'s, its fee rate the store's or
    1; only [chunkedUpload] asks for the broadcast. *)
Theorem backend_payload (env : Env) (file : File) (content : option string)
    (storageKey chunkPreTxHex indexPreTxHex mergeTxHex : string) (w : World)
    (userStore : UserStore) (user : UserInfo) (chainStore : ChainStore) :
  userStoreInstance env = Some userStore ->
  last userStore = Some user ->
  chainStoreInstance env = Some chainStore ->
  let estimate := Backend.estimateChunkedUploadFee env file content storageKey w in
  let create :=
    Backend.createChunkedUploadTask env file content storageKey chunkPreTxHex
      indexPreTxHex mergeTxHex w in
  let upload :=
    Backend.chunkedUpload env file content storageKey chunkPreTxHex indexPreTxHex
      mergeTxHex w in
  let sends (body : UploadBody) (broadcast : bool) :=
    b_storageKey body = Some storageKey
    /\ b_content body = None
    /\ b_fileName body = file_name file
    /\ b_contentType body = Backend.buildContentType file
    /\ b_feeRate body = Chain.feeRateOrDefault chainStore
    /\ b_isBroadcast body = broadcast in
  (storageKey = "" -> content = None \/ content = Some "" ->
     estimate = (Throw (Error ("Failed to estimate fee: "
                               +:+ "Either storageKey or content must be provided")), w)
     /\ create = (Throw (Error ("Chunked upload task failed: "
                                +:+ "Either storageKey or content must be provided")), w)
     /\ upload = (Throw (Error ("ChunkedUpload failed: "
                                +:+ "Either storageKey or content must be provided")), w))
  /\ (storageKey <> "" ->
      (exists body, snd estimate = Spec.after w (EvFetch (ReqEstimate body))
                    /\ sends body false
                    /\ b_metaId body = None /\ b_address body = None)
      /\ (exists body, snd create = Spec.after w (EvFetch (ReqCreateTask body))
                       /\ sends body false
                       /\ b_address body = Some (address user)
                       /\ b_mergeTxHex body = Some mergeTxHex)
      /\ (exists body, snd upload = Spec.after w (EvFetch (ReqChunkedUpload body))
                       /\ sends body true
                       /\ b_address body = Some (address user)
                       /\ b_mergeTxHex body = Some mergeTxHex)).
Proof.
  intros Hus Hlast Hcs estimate create upload sends.
  split.
  { intros -> Hnone. unfold estimate, create, upload.
    unfold Backend.estimateChunkedUploadFee, Backend.createChunkedUploadTask,
      Backend.chunkedUpload.
    rewrite Hus, Hcs, !(await_readLast_some _ _ _ _ _ Hlast).
    unfold try_catch, bind, await.
    rewrite !(withPayload_nothing _ content Hnone). auto. }
  intros Hkey.
  assert (Hread : forall D (response : Response D) w0,
            snd (Backend.readData response w0) = w0).
  { intros D response w0. unfold Backend.readData, bind, await, ret, throw.
    destruct (ok response); [|reflexivity]. cbn [negb].
    destruct (json response) as [result|t]; [|reflexivity].
    destruct (code result =? 0); reflexivity. }
  assert (Hfetch : forall D E (answer : list Event -> Request -> Outcome (Response D))
                     request (h : Thrown -> M (option E)) (k : Response D -> M (option E)),
            (forall t w0, snd (h t w0) = w0) ->
            (forall response w0, snd (k response w0) = w0) ->
            snd (try_catch (bind (Oss.fetch answer request) k) h w)
            = Spec.after w (EvFetch request)).
  { intros D E answer request h k Hh Hk.
    unfold try_catch, bind, Oss.fetch, bind, history, emit, await. cbn beta iota.
    fold (Spec.after w (EvFetch request)).
    destruct (answer (trace w) request) as [response|t]; [|apply Hh].
    specialize (Hk response (Spec.after w (EvFetch request))).
    destruct (k response _) as [[a|t] w1]; simpl in Hk; subst; [reflexivity|apply Hh]. }
  unfold estimate, create, upload.
  unfold Backend.estimateChunkedUploadFee, Backend.createChunkedUploadTask,
    Backend.chunkedUpload.
  rewrite Hus, Hcs, !(await_readLast_some _ _ _ _ _ Hlast).
  split; [|split].
  - destruct (withPayload_key
                {| b_metaId := None; b_address := None;
                   b_fileName := file_name file; b_path := "/file";
                   b_operation := None;
                   b_contentType := Backend.buildContentType file;
                   b_chunkPreTxHex := None; b_indexPreTxHex := None;
                   b_mergeTxHex := None;
                   b_feeRate := Chain.feeRateOrDefault chainStore;
                   b_isBroadcast := false;
                   b_storageKey := None; b_content := None |} content storageKey Hkey)
      as (body & Hbody & Hk & Hc & Hn & Ht & Hb & Hf).
    exists body. cbv zeta. unfold bind at 1, await at 1.
    unfold try_catch at 1. unfold bind at 1.
    assert (Hgo := Hfetch _ FeeEstimate (fetchEstimate env) (ReqEstimate body)
                     (fun error => throw (Error ("Failed to estimate fee: "
                                                 +:+ show_message error)))
                     Backend.readData (fun _ _ => eq_refl) (Hread _)).
    unfold try_catch, bind in Hgo. unfold await. rewrite Hbody.
    split; [exact Hgo|].
    unfold Backend.withPayload in Hbody. destruct storageKey; [congruence|].
    simpl in Hbody. injection Hbody as <-. unfold sends. simpl. auto 10.
  - destruct (withPayload_key
                (Backend.uploadBody (metaid user) (address user) chainStore file
                   chunkPreTxHex indexPreTxHex mergeTxHex false)
                content storageKey Hkey)
      as (body & Hbody & Hk & Hc & Hn & Ht & Hb & Hf).
    exists body. cbv zeta. unfold try_catch at 1. unfold bind at 1, await at 1.
    assert (Hgo := Hfetch _ unit (fetchCreateTask env) (ReqCreateTask body)
                     (fun error => throw (Error ("Chunked upload task failed: "
                                                 +:+ show_message error)))
                     Backend.readData (fun _ _ => eq_refl) (Hread _)).
    unfold try_catch, bind in Hgo. rewrite Hbody.
    split; [exact Hgo|].
    unfold Backend.withPayload in Hbody. destruct storageKey; [congruence|].
    simpl in Hbody. injection Hbody as <-. unfold sends. simpl. auto 10.
  - destruct (withPayload_key
                (Backend.uploadBody (metaid user) (address user) chainStore file
                   chunkPreTxHex indexPreTxHex mergeTxHex true)
                content storageKey Hkey)
      as (body & Hbody & Hk & Hc & Hn & Ht & Hb & Hf).
    exists body. cbv zeta. unfold try_catch at 1. unfold bind at 1, await at 1.
    assert (Hgo := Hfetch _ UploadResult (fetchChunkedUpload env) (ReqChunkedUpload body)
                     (fun error => throw (Error ("ChunkedUpload failed: "
                                                 +:+ show_message error)))
                     Backend.readData (fun _ _ => eq_refl) (Hread _)).
    unfold try_catch, bind in Hgo. rewrite Hbody.
    split; [exact Hgo|].
    unfold Backend.withPayload in Hbody. destruct storageKey; [congruence|].
    simpl in Hbody. injection Hbody as <-. unfold sends. simpl. auto 10.
Qed.

Lemma backend_payload_witness :
  Backend.estimateChunkedUploadFee Demo.plain Demo.file None "" (Demo.world ∅)
  = (Throw (Error "Failed to estimate fee: Either storageKey or content must be provided"),
     Demo.world ∅).
Proof.
  apply (backend_payload Demo.plain Demo.file None "" "c" "i" "m" (Demo.world ∅)
           {| last := Some Demo.user |} Demo.user {| mvcFeeRate := Some (Num.ofZ 1) |}
           eq_refl eq_refl eq_refl);
    auto.
Defined.

(** ** What the flow resolves with *)

Section FlowResult.
Import Spec Props Flow.

Lemma Emits_preTx env utxoData fee :
  Emits notDialog (Chain.buildChunkFundingPreTx env utxoData fee)
  /\ Emits notDialog (Chain.buildIndexPreTx env utxoData fee).
Proof.
  split; unfold Chain.buildChunkFundingPreTx, Chain.buildIndexPreTx;
    (apply Emits_try_catch; [apply Emits_buildOpenPreTx|intros t; apply Emits_throw]).
Qed.

(** A stage that returns a result ran in synchronous mode and ended on the
    success toast. *)
Lemma submitStage_result env chainStore file asynchronous storageKey estimateResult
    w res w' :
  submitStage env chainStore file asynchronous storageKey estimateResult w
    = (Return (Some res), w') ->
  asynchronous = false
  /\ exists uploadResult evs,
       trace w' = trace w ++ evs ++ [EvToast "🎉 File uploaded successfully!" LSuccess]
       /\ ur_status uploadResult <> "failed"
       /\ res = {| fr_txId := ur_indexTxId uploadResult;
                   fr_pinId := ur_indexTxId uploadResult +:+ "i0" |}.
Proof.
  unfold submitStage. intros Hrun.
  apply bind_returns in Hrun as (allUtxos & w1 & H1 & Hrun).
  apply bind_returns in Hrun as (u1 & w2 & H2 & Hrun).
  apply bind_returns in Hrun as (mergeResult & w3 & H3 & Hrun).
  apply bind_returns in Hrun as (u2 & w4 & H4 & Hrun).
  apply bind_returns in Hrun as (chunkPreTxHex & w5 & H5 & Hrun).
  apply bind_returns in Hrun as (indexPreTxHex & w6 & H6 & Hrun).
  destruct asynchronous.
  - apply bind_returns in Hrun as (u3 & w7 & _ & Hrun).
    apply bind_returns in Hrun as (u4 & w8 & _ & Hrun).
    apply bind_returns in Hrun as (u5 & w9 & _ & Hrun).
    discriminate.
  - split; [reflexivity|].
    apply bind_returns in Hrun as (uploadResult & w7 & H7 & Hrun).
    destruct uploadResult as [uploadResult|]; [|discriminate].
    destruct (String.eqb (ur_status uploadResult) "failed") eqn:Hst; [discriminate|].
    apply bind_returns in Hrun as (u3 & w8 & Htoast & Hrun).
    unfold ret in Hrun. injection Hrun as <- <-.
    unfold showToast, emit in Htoast, H2, H4.
    injection Htoast as _ <-. injection H2 as _ <-. injection H4 as _ <-.
    destruct (Emits_run _ _ _ _ _ (Emits_getWalletUTXOs env _) H1) as (e1 & T1 & _).
    destruct (Emits_run _ _ _ _ _ (Emits_buildChunkedUploadMergeTx env _ _ _ _) H3)
      as (e3 & T3 & _).
    destruct (Emits_run _ _ _ _ _ (proj1 (Emits_preTx env _ _)) H5) as (e5 & T5 & _).
    destruct (Emits_run _ _ _ _ _ (proj2 (Emits_preTx env _ _)) H6) as (e6 & T6 & _).
    destruct (Emits_run _ _ _ _ _ (Emits_syncUpload env _ _ _ _ _ _) H7) as (e7 & T7 & _).
    cbn [trace] in T3, T5.
    exists uploadResult,
      (e1 ++ [EvToast "Please confirm merge transaction in wallet..." LInfo] ++ e3
       ++ [EvToast "Please confirm pre-transactions in wallet..." LInfo]
       ++ e5 ++ e6 ++ e7).
    split.
    { cbn [trace]. rewrite T7, T6, T5, T3, T1. rewrite <- !app_assoc. reflexivity. }
    split; [|reflexivity]. intros E. rewrite E in Hst. discriminate.
Qed.

End FlowResult.

(** X20. What [runChunkedUploadFlow] can settle to.  It rejects in two
    cases only, and nothing has happened then: with the error about the
    missing dependencies, exactly when one of the three is missing; and
    with the [TypeError] of reading the address, exactly when the three are
    there and the user store holds no record.  Otherwise it resolves with
    nothing, or, in synchronous mode only, with a result: then the last
    thing that happened is the success toast, and the pin id is the
    transaction id followed by [i0].  In asynchronous mode the flow never
    resolves with a result, not even when the task was created. *)
Theorem flow_settles (env : Env) (file : File) (asynchronous : bool) (w : World) :
  let run := Flow.runChunkedUploadFlow env file asynchronous w in
  let missing :=
    Error "Required dependencies (toast, chainStore, userStore) are not available" in
  let present :=
    toastInstance env = true /\ is_Some (chainStoreInstance env)
    /\ is_Some (userStoreInstance env) in
  let noRecord :=
    exists userStore, userStoreInstance env = Some userStore /\ last userStore = None in
  (fst run = Return None
   \/ (exists res, fst run = Return (Some res))
   \/ fst run = Throw missing
   \/ fst run = Throw (TypeError "address"))
  /\ (forall res, fst run = Return (Some res) ->
        asynchronous = false
        /\ Flow.fr_pinId res = Flow.fr_txId res +:+ "i0"
        /\ exists evs,
             trace (snd run)
             = trace w ++ evs ++ [EvToast "🎉 File uploaded successfully!" LSuccess])
  /\ (forall t, fst run = Throw t ->
        snd run = w
        /\ ((t = missing /\ ~ present) \/ (t = TypeError "address" /\ present /\ noRecord)))
  /\ (~ present -> run = (Throw missing, w))
  /\ (present -> noRecord -> run = (Throw (TypeError "address"), w)).
Proof.
  cbv zeta. unfold Flow.runChunkedUploadFlow.
  destruct (toastInstance env).
  2:{ cbn [fst snd throw]. split; [auto|]. split; [discriminate|].
      split; [|split; [reflexivity|intros (E & _); discriminate E]].
      intros t E. injection E as <-. split; [reflexivity|]. left.
      split; [reflexivity|]. intros (E & _). discriminate E. }
  destruct (chainStoreInstance env) as [chainStore|].
  2:{ cbn [fst snd throw]. split; [auto|]. split; [discriminate|].
      split; [|split; [reflexivity|intros (_ & [x E] & _); discriminate E]].
      intros t E. injection E as <-. split; [reflexivity|]. left.
      split; [reflexivity|]. intros (_ & [x E] & _). discriminate E. }
  destruct (userStoreInstance env) as [userStore|].
  2:{ cbn [fst snd throw]. split; [auto|]. split; [discriminate|].
      split; [|split; [reflexivity|intros (_ & _ & [x E]); discriminate E]].
      intros t E. injection E as <-. split; [reflexivity|]. left.
      split; [reflexivity|]. intros (_ & _ & [x E]). discriminate E. }
  assert (Hpresent : true = true /\ is_Some (Some chainStore) /\ is_Some (Some userStore))
    by eauto.
  destruct (last userStore) as [user|] eqn:Hlast.
  2:{ rewrite (bind_readLast_none _ _ _ _ _ Hlast). cbn [fst snd].
      split; [auto|]. split; [discriminate|].
      split; [|split; [intros Hn; destruct (Hn Hpresent)|reflexivity]].
      intros t E. injection E as <-. split; [reflexivity|]. right.
      split; [reflexivity|]. split; [exact Hpresent|]. eauto. }
  rewrite (bind_readLast_some _ _ _ _ _ _ Hlast).
  assert (Hrecord : ~ exists userStore',
                        Some userStore = Some userStore' /\ last userStore' = None).
  { intros (userStore' & E & Hnone). injection E as <-. congruence. }
  cbv zeta. unfold try_catch.
  destruct (Flow.flowBody env chainStore file asynchronous w) as [[[res|]|t] w1] eqn:Hbody.
  - cbn [fst snd]. split; [eauto|]. split; [|split; [discriminate|]].
    2:{ split; [intros Hn; destruct (Hn Hpresent)|intros _ Hn; destruct (Hrecord Hn)]. }
    intros res' Hres. injection Hres as <-.
    unfold Flow.flowBody in Hbody.
    apply bind_returns in Hbody as (u1 & w2 & H1 & Hbody).
    apply bind_returns in Hbody as (storageKey & w3 & H2 & Hbody).
    apply bind_returns in Hbody as (estimateResult & w4 & H3 & Hbody).
    destruct estimateResult as [estimateResult|]; [|discriminate].
    apply bind_returns in Hbody as (confirmed & w5 & H4 & Hbody).
    destruct confirmed; cbn [negb] in Hbody; [|discriminate].
    destruct (submitStage_result _ _ _ _ _ _ _ _ _ Hbody)
      as (-> & uploadResult & evs & Htr & _ & ->).
    split; [reflexivity|]. split; [reflexivity|].
    unfold Flow.showToast, emit in H1. injection H1 as _ <-.
    destruct (Emits_run _ _ _ _ _ (Emits_uploadFileToOSS env file) H2) as (e2 & T2 & _).
    destruct (Emits_run _ _ _ _ _
                (Emits_estimateChunkedUploadFee env file None storageKey) H3)
      as (e3 & T3 & _).
    unfold Flow.showChunkedUploadConfirmation, bind, history, emit, ret in H4.
    injection H4 as _ <-.
    cbn [trace] in T2, Htr.
    exists ([EvToast ("Starting " +:+ Flow.flowLabel +:+ "...") LInfo] ++ e2 ++ e3
            ++ [EvConfirmDialog] ++ evs).
    rewrite Htr, T3, T2. rewrite <- !app_assoc. reflexivity.
  - cbn [fst snd]. split; [auto|]. split; [discriminate|]. split; [discriminate|].
    split; [intros Hn; destruct (Hn Hpresent)|intros _ Hn; destruct (Hrecord Hn)].
  - rewrite flowCatch_toast. cbn [fst snd]. split; [auto|].
    split; [discriminate|]. split; [discriminate|].
    split; [intros Hn; destruct (Hn Hpresent)|intros _ Hn; destruct (Hrecord Hn)].
Qed.

(** ** The parts tile the file *)

Section Tiling.
Import Spec Props Oss.

Lemma ceil_div_bounds size :
  let total := ceil_div size MULTIPART_CHUNK_SIZE in
  (total - 1) * MULTIPART_CHUNK_SIZE < size <= total * MULTIPART_CHUNK_SIZE.
Proof.
  unfold ceil_div, MULTIPART_CHUNK_SIZE. cbv zeta.
  change (1 * 1024 * 1024) with 1048576.
  pose proof (Z.div_mod (- size) 1048576 ltac:(lia)) as Hdm.
  pose proof (Z.mod_pos_bound (- size) 1048576 ltac:(lia)) as Hb.
  lia.
Qed.

Lemma countFrom_snoc p n : countFrom p (S n) = countFrom p n ++ [p + Z.of_nat n].
Proof.
  revert p. induction n as [|n IH]; intros p.
  - simpl. f_equal. lia.
  - change (countFrom p (S (S n))) with (p :: countFrom (p + 1) (S n)).
    rewrite IH. simpl. do 3 f_equal. lia.
Qed.

Lemma countFrom_upper p n x : In x (countFrom p n) -> x < p + Z.of_nat n.
Proof.
  revert p. induction n as [|n IH]; intros p; simpl; [tauto|].
  intros [<-|Hx]; [lia|]. apply IH in Hx. lia.
Qed.

Lemma partSize_full file p :
  1 <= p < ceil_div (file_size file) MULTIPART_CHUNK_SIZE ->
  partSize file p = MULTIPART_CHUNK_SIZE.
Proof.
  intros Hp. pose proof (ceil_div_bounds (file_size file)) as Hb. cbv zeta in Hb.
  unfold partSize. unfold MULTIPART_CHUNK_SIZE in *.
  change (1 * 1024 * 1024) with 1048576 in *. nia.
Qed.

Lemma partSize_last file :
  let total := ceil_div (file_size file) MULTIPART_CHUNK_SIZE in
  1 <= total ->
  0 < partSize file total <= MULTIPART_CHUNK_SIZE
  /\ partSize file total = file_size file - (total - 1) * MULTIPART_CHUNK_SIZE.
Proof.
  intros total Hp. pose proof (ceil_div_bounds (file_size file)) as Hb.
  cbv zeta in Hb. fold total in Hb.
  unfold partSize. unfold MULTIPART_CHUNK_SIZE in *.
  change (1 * 1024 * 1024) with 1048576 in *. nia.
Qed.

(** The parts 1..k, for k up to the number of parts, hold the first
    [min (k * 1 MiB) size] bytes. *)
Lemma partSize_prefix_sum file (k : nat) :
  0 <= file_size file ->
  Z.of_nat k <= ceil_div (file_size file) MULTIPART_CHUNK_SIZE ->
  foldr Z.add 0 (map (partSize file) (countFrom 1 k))
  = Z.min (Z.of_nat k * MULTIPART_CHUNK_SIZE) (file_size file).
Proof.
  intros Hsize.
  pose proof (ceil_div_bounds (file_size file)) as Hb. cbv zeta in Hb.
  induction k as [|k IH]; intros Hk.
  - simpl. unfold MULTIPART_CHUNK_SIZE in *. lia.
  - rewrite countFrom_snoc, map_app, foldr_app. simpl.
    assert (Hfold : forall l z, foldr Z.add z l = foldr Z.add 0 l + z).
    { induction l as [|x l IHl]; intros z; simpl; [lia|]. rewrite IHl. lia. }
    rewrite Hfold, IH by lia.
    unfold partSize. unfold MULTIPART_CHUNK_SIZE in *.
    change (1 * 1024 * 1024) with 1048576 in *.
    set (total := ceil_div (file_size file) 1048576) in *.
    assert (Hbelow : Z.of_nat k * 1048576 <= (total - 1) * 1048576) by nia.
    replace ((1 + Z.of_nat k - 1) * 1048576) with (Z.of_nat k * 1048576) by lia.
    replace (Z.of_nat (S k) * 1048576) with (Z.of_nat k * 1048576 + 1048576) by lia.
    lia.
Qed.

Lemma totalSize_sizes parts :
  totalSize parts = foldr Z.add 0 (map part_size parts).
Proof. induction parts as [|x l IH]; simpl; [reflexivity|]. now rewrite <- IH. Qed.

(** The byte counter of the loop. *)
Lemma uploadParts_bytes env file uid ukey existing total totalBytes (n : nat) :
  forall p parts bytes w parts' bytes' w',
    uploadParts env file uid ukey existing total totalBytes n p parts bytes w
      = (Return (parts', bytes'), w') ->
    bytes' = bytes + foldr Z.add 0 (map (partSize file) (countFrom p n)).
Proof.
  induction n as [|n IH]; intros p parts bytes w parts' bytes' w' Hrun.
  - simpl in Hrun. unfold ret in Hrun. injection Hrun as _ <- _. simpl. lia.
  - simpl in Hrun. fold (partSize file p) in Hrun.
    destruct (existing !! p) as [e|].
    + apply bind_returns in Hrun as (u & w1 & _ & Hrun).
      apply IH in Hrun. simpl. lia.
    + apply bind_returns in Hrun as (chunk & w1 & _ & Hrun).
      apply bind_returns in Hrun as (response & w2 & _ & Hrun).
      destruct (ok response); [|discriminate]. cbn [negb] in Hrun.
      apply bind_returns in Hrun as (result & w3 & _ & Hrun).
      destruct (code result =? 0); [|discriminate]. cbn [negb] in Hrun.
      destruct (data result) as [newEtag|]; [|discriminate].
      apply bind_returns in Hrun as (u & w4 & _ & Hrun).
      apply IH in Hrun. simpl. lia.
Qed.

End Tiling.

(** X21. Whenever the part loop of [uploadFileToOSS] runs to its end over
    a file of a size that is not negative, with or without parts already in
    the store: the parts it has gathered are numbered 1, 2, ..., total, in
    order; every part but the last is exactly 1 MiB, the last one is not
    empty and at most 1 MiB; together the parts are exactly as large as the
    file, and so is the byte count the loop ends on.  An empty file has no
    part. *)
Theorem parts_tile_the_file (env : Env) (file : File) (uid ukey : option string)
    (existing : gmap Z UploadPart) (w w' : World)
    (parts : list UploadPart) (bytes : Z) :
  0 <= file_size file ->
  let total := ceil_div (file_size file) Oss.MULTIPART_CHUNK_SIZE in
  Oss.uploadParts env file uid ukey existing total (file_size file)
    (Z.to_nat total) 1 [] 0 w = (Return (parts, bytes), w') ->
  map partNumber parts = Spec.countFrom 1 (Z.to_nat total)
  /\ (forall x, In x parts -> partNumber x < total ->
        part_size x = 1024 * 1024)
  /\ (forall x, In x parts -> 0 < part_size x <= 1024 * 1024)
  /\ Props.totalSize parts = file_size file
  /\ bytes = file_size file
  /\ (file_size file = 0 -> parts = []).
Proof.
  intros Hsize total Hrun.
  pose proof (ceil_div_bounds (file_size file)) as Hb. cbv zeta in Hb. fold total in Hb.
  assert (Htotal : 0 <= total).
  { unfold Oss.MULTIPART_CHUNK_SIZE in Hb. lia. }
  destruct (uploadParts_spec env file uid ukey existing total (file_size file)
              (Z.to_nat total) 1 [] 0 w eq_refl)
    as (evs & r & Hrun' & _ & _ & _ & _ & Hok).
  rewrite Hrun in Hrun'. injection Hrun' as <- _.
  destruct (Hok parts bytes eq_refl) as (_ & _ & added & Hparts & Hnum & Hadded).
  simpl in Hparts. subst added.
  assert (Hrange : forall x, In x parts -> 1 <= partNumber x <= total).
  { intros x Hx.
    assert (Hin : In (partNumber x) (Spec.countFrom 1 (Z.to_nat total)))
      by (rewrite <- Hnum; now apply in_map).
    pose proof (countFrom_lower _ _ _ Hin) as Hlow.
    pose proof (countFrom_upper _ _ _ Hin) as Hup. lia. }
  assert (Hsizes : map part_size parts
                   = map (Spec.partSize file) (Spec.countFrom 1 (Z.to_nat total))).
  { rewrite <- Hnum, map_map. apply map_ext_in. intros x Hx. apply (Hadded x Hx). }
  split; [exact Hnum|].
  split.
  { intros x Hx Hlt. rewrite (proj1 (Hadded x Hx)).
    rewrite partSize_full; [reflexivity|]. fold total.
    specialize (Hrange x Hx). lia. }
  split.
  { intros x Hx. rewrite (proj1 (Hadded x Hx)).
    destruct (Hrange x Hx) as [Hlo Hhi].
    destruct (Z.eq_dec (partNumber x) total) as [->|Hne].
    - destruct (partSize_last file ltac:(fold total; lia)) as [Hlast _].
      exact Hlast.
    - rewrite partSize_full by (fold total; lia).
      unfold Oss.MULTIPART_CHUNK_SIZE. lia. }
  assert (Hsum : foldr Z.add 0 (map (Spec.partSize file)
                                    (Spec.countFrom 1 (Z.to_nat total)))
                 = file_size file).
  { rewrite partSize_prefix_sum by (try fold total; lia).
    rewrite Z2Nat.id by lia. lia. }
  split; [rewrite totalSize_sizes, Hsizes; exact Hsum|].
  split.
  { rewrite (uploadParts_bytes _ _ _ _ _ _ _ _ _ _ _ _ _ _ _ Hrun), Hsum. lia. }
  intros Hzero.
  assert (total = 0) by (unfold Oss.MULTIPART_CHUNK_SIZE in Hb; lia).
  rewrite H in Hnum. simpl in Hnum. now destruct parts.
Qed.

Lemma parts_tile_the_file_witness :
  exists parts w',
    Oss.uploadParts Demo.plain Demo.file (Some "upload-1") (Some "k1") ∅ 3 2621440 3 1 [] 0
      (Demo.world ∅) = (Return (parts, 2621440), w')
    /\ map part_size parts = [1048576; 1048576; 524288].
Proof.
  destruct (Oss.uploadParts Demo.plain Demo.file (Some "upload-1") (Some "k1") ∅ 3 2621440 3 1 [] 0
              (Demo.world ∅)) as [r w'] eqn:Hrun.
  assert (Hr : exists parts,
            r = Return (parts, 2621440)
            /\ map part_size parts = [1048576; 1048576; 524288]).
  { change r with (fst (r, w')). rewrite <- Hrun. vm_compute. eauto. }
  destruct Hr as (parts & -> & Hsizes).
  destruct (parts_tile_the_file Demo.plain Demo.file (Some "upload-1") (Some "k1") ∅ (Demo.world ∅)
              w' parts 2621440 ltac:(vm_compute; discriminate) Hrun)
    as (_ & _ & _ & _ & _ & _).
  exists parts, w'. split; [reflexivity|exact Hsizes].
Defined.

(** ** Session keys *)

Section KeyFacts.
Import JsString.

Lemma append_assoc_s (a b c : string) : (a +:+ b) +:+ c = a +:+ (b +:+ c).
Proof.
  induction a as [|x a IH]; [reflexivity|].
  change (String x ((a +:+ b) +:+ c) = String x (a +:+ (b +:+ c))). now rewrite IH.
Qed.

Lemma includes_underscore_cons c s :
  includes "_" (String c s) = (Ascii.eqb "_" c || includes "_" s)%bool.
Proof. simpl. now rewrite andb_true_r. Qed.

Lemma includes_underscore_mid x y : includes "_" (x +:+ "_" +:+ y) = true.
Proof. apply includes_app_l. reflexivity. Qed.

(** A text is cut at its last underscore in one way only. *)
Lemma split_last_underscore x :
  forall x' a a',
    includes "_" a = false -> includes "_" a' = false ->
    x +:+ "_" +:+ a = x' +:+ "_" +:+ a' -> x = x' /\ a = a'.
Proof.
  induction x as [|c x IH]; intros [|c' x'] a a' Ha Ha' E.
  - change (String "_" a = String "_" a') in E. injection E as E. auto.
  - change (String "_" a = String c' (x' +:+ "_" +:+ a')) in E.
    injection E as Hc E. rewrite E, includes_underscore_mid in Ha. discriminate.
  - change (String c (x +:+ "_" +:+ a) = String "_" a') in E.
    injection E as Hc E. rewrite <- E, includes_underscore_mid in Ha'. discriminate.
  - change (String c (x +:+ "_" +:+ a) = String c' (x' +:+ "_" +:+ a')) in E.
    injection E as Hc E. destruct (IH x' a a' Ha Ha' E) as [-> ->]. now subst.
Qed.

Lemma pretty_N_go_underscore (x : N) :
  forall s, includes "_" s = false -> includes "_" (pretty_N_go x s) = false.
Proof.
  induction (N.lt_wf_0 x) as [x _ IH]; intros s Hs.
  destruct (N.eq_dec x 0%N) as [->|Hx]; [now rewrite pretty_N_go_0|].
  rewrite pretty_N_go_step by lia.
  apply IH; [apply N.div_lt; lia|].
  rewrite includes_underscore_cons, Hs, orb_false_r.
  unfold pretty_N_char. repeat case_match; reflexivity.
Qed.

Lemma ofZ_underscore (z : Z) : includes "_" (ofZ z) = false.
Proof.
  assert (HN : forall n : N, includes "_" (pretty n) = false).
  { intros n. unfold pretty, pretty_N. case_decide; [reflexivity|].
    now apply pretty_N_go_underscore. }
  unfold ofZ, pretty, pretty_Z. destruct z as [|p|p]; [reflexivity|apply HN|].
  change ("-" +:+ pretty p) with (String "-" (pretty p)).
  rewrite includes_underscore_cons. apply HN.
Qed.

(** The session key tells apart any two uploads whose ids hold no
    underscore. *)
Lemma getUploadSessionKey_inj file1 metaId1 address1 file2 metaId2 address2 :
  includes "_" metaId1 = false -> includes "_" address1 = false ->
  includes "_" metaId2 = false -> includes "_" address2 = false ->
  Session.getUploadSessionKey file1 metaId1 address1
    = Session.getUploadSessionKey file2 metaId2 address2 ->
  file_name file1 = file_name file2 /\ file_size file1 = file_size file2
  /\ metaId1 = metaId2 /\ address1 = address2.
Proof.
  intros Hm1 Ha1 Hm2 Ha2 E. unfold Session.getUploadSessionKey in E.
  apply String.app_inj in E.
  rewrite <- !append_assoc_s in E.
  assert (Hcut : forall x x' a a',
            includes "_" a = false -> includes "_" a' = false ->
            (x +:+ "_") +:+ a = (x' +:+ "_") +:+ a' -> x = x' /\ a = a').
  { intros x x' a a' Ha Ha'. rewrite !append_assoc_s.
    now apply split_last_underscore. }
  apply Hcut in E as [E ->]; [|assumption..].
  apply Hcut in E as [E ->]; [|assumption..].
  apply Hcut in E as [-> E]; [|apply ofZ_underscore..].
  apply (inj pretty) in E. auto.
Qed.

End KeyFacts.

Section SessionLookup.
Import Session.

(** The lookup reads nothing but its own key and the clock. *)
Lemma getUploadSession_reads env file metaId address w1 w2 :
  localStorage w1 !! getUploadSessionKey file metaId address
    = localStorage w2 !! getUploadSessionKey file metaId address ->
  trace w1 = trace w2 ->
  fst (getUploadSession env file metaId address w1)
  = fst (getUploadSession env file metaId address w2).
Proof.
  intros Hk Ht.
  unfold getUploadSession, bind, getItem, Date_now, history, ret, removeItem.
  cbn beta iota. rewrite Hk.
  destruct (localStorage w2 !! _) as [[session|value|[|c text]]|]; try reflexivity;
    unfold bind; cbn beta iota; rewrite Ht; destruct (expired _ _); reflexivity.
Qed.

End SessionLookup.

(** Without the condition on the ids two different uploads can share a
    key. *)
Example sessionKey_collision :
  Session.getUploadSessionKey
    {| file_name := "a_1"; file_size := 2; file_type := "" |} "m" "addr"
  = Session.getUploadSessionKey
      {| file_name := "a"; file_size := 1; file_type := "" |} "2_m" "addr".
Proof. reflexivity. Qed.

(** X22. Sessions of different uploads are kept apart.  Let neither the
    meta ids nor the addresses hold an underscore.  Then two uploads that
    differ in the file name, the file size, the meta id or the address have
    different session keys, and saving or clearing the session of the one
    does not change what [getUploadSession] finds for the other. *)
Theorem sessions_kept_apart (env : Env) (file1 file2 : File)
    (metaId1 address1 metaId2 address2 uploadId key : string) (w : World) :
  JsString.includes "_" metaId1 = false ->
  JsString.includes "_" address1 = false ->
  JsString.includes "_" metaId2 = false ->
  JsString.includes "_" address2 = false ->
  (file_name file1, file_size file1, metaId1, address1)
    <> (file_name file2, file_size file2, metaId2, address2) ->
  Session.getUploadSessionKey file1 metaId1 address1
    <> Session.getUploadSessionKey file2 metaId2 address2
  /\ fst (Session.getUploadSession env file2 metaId2 address2
            (snd (Session.saveUploadSession env file1 metaId1 address1
                    uploadId key w)))
     = fst (Session.getUploadSession env file2 metaId2 address2 w)
  /\ fst (Session.getUploadSession env file2 metaId2 address2
            (snd (Session.clearUploadSession file1 metaId1 address1 w)))
     = fst (Session.getUploadSession env file2 metaId2 address2 w).
Proof.
  intros Hm1 Ha1 Hm2 Ha2 Hdiff.
  assert (Hkeys : Session.getUploadSessionKey file1 metaId1 address1
                  <> Session.getUploadSessionKey file2 metaId2 address2).
  { intros E.
    destruct (getUploadSessionKey_inj _ _ _ _ _ _ Hm1 Ha1 Hm2 Ha2 E)
      as (Hn & Hs & Hm & Ha).
    apply Hdiff. congruence. }
  split; [exact Hkeys|].
  split; apply getUploadSession_reads; try reflexivity.
  - unfold Session.saveUploadSession, Session.Date_now.
    unfold bind, history, ret, setItem.
    cbn beta iota. cbn [snd localStorage].
    rewrite lookup_insert_ne by exact Hkeys. reflexivity.
  - unfold Session.clearUploadSession, removeItem.
    cbn beta iota. cbn [snd localStorage].
    rewrite lookup_delete_ne by exact Hkeys. reflexivity.
Qed.

Lemma sessions_kept_apart_witness :
  fst (Session.getUploadSession Demo.plain Demo.file "meta1" "addr1"
         (snd (Session.saveUploadSession Demo.plain
                 {| file_name := "movie.bin"; file_size := 2621441;
                    file_type := "application/octet-stream" |}
                 "meta1" "addr1" "upload-9" "k9" (Demo.world ∅))))
  = Return None.
Proof.
  destruct (sessions_kept_apart Demo.plain
              {| file_name := "movie.bin"; file_size := 2621441;
                 file_type := "application/octet-stream" |}
              Demo.file "meta1" "addr1" "meta1" "addr1" "upload-9" "k9"
              (Demo.world ∅) eq_refl eq_refl eq_refl eq_refl
              ltac:(intros E; discriminate E)) as (_ & Hsave & _).
  rewrite Hsave. reflexivity.
Defined.

(** ** A cancellation in the wallet *)

Section Cancellation.
Import Spec Props.

Lemma userCancelled_wrapped prefix t :
  userCancelled t = true ->
  userCancelled (Error (prefix +:+ show_message t)) = true.
Proof.
  destruct t as [m|]; [|discriminate]. simpl. intros Hm.
  now apply includes_app_l.
Qed.

Lemma flowCatch_cancelled t w :
  userCancelled t = true ->
  Flow.flowCatch t w
  = (Return None, after w (EvToast "Async Chunked Upload Task cancelled" LWarning)).
Proof.
  intros Hc. rewrite flowCatch_toast. unfold failureToast. now rewrite Hc.
Qed.

End Cancellation.

(** X23. A cancellation in the wallet stays recognisable.  Let the wallet
    reject with an error whose message contains [user cancelled]: the
    request to pay the merge transaction, or the request for the signature
    of a pre-transaction over one unspent output, as the flow builds them.
    Then the builder throws, and what it throws is still taken for a
    cancellation: the [catch] block of the flow answers it with the warning
    toast about the cancellation and not with the error toast. *)
Theorem wallet_cancellation_recognised (env : Env) (w : World) (t0 : Thrown)
    (userStore : UserStore) (user : UserInfo) :
  Spec.userCancelled t0 = true ->
  userStoreInstance env = Some userStore ->
  last userStore = Some user ->
  mvcInstance env = true ->
  let own := address user in
  let recognised {A} (run : Outcome A * World) :=
    exists t, fst run = Throw t
              /\ Spec.userCancelled t = true
              /\ Flow.flowCatch t (snd run)
                 = (Return None,
                    Spec.after (snd run)
                      (EvToast "Async Chunked Upload Task cancelled" LWarning)) in
  (forall utxoData chunkAmount indexAmount fee chainStore lock,
     chainStoreInstance env = Some chainStore ->
     TxComposerInstance env = true ->
     walletPayAvailable env = true ->
     buildPublicKeyHashOut env own = Return lock ->
     walletPay env (trace w)
       (Props.mergeRequest (utxos utxoData) lock chunkAmount indexAmount
          (Chain.feeRateOrDefault chainStore)) = Throw t0 ->
     recognised (Chain.buildChunkedUploadMergeTx env utxoData chunkAmount
                   indexAmount fee w))
  /\ (forall utxoData fee u txHex,
        BufferInstance env = true ->
        utxos utxoData = [u] ->
        toHex env (Spec.openTx u None) = Return txHex ->
        walletSignTransaction env (trace w) (Spec.openSignRequest own txHex u)
          = Throw t0 ->
        recognised (Chain.buildChunkFundingPreTx env utxoData fee w)
        /\ recognised (Chain.buildIndexPreTx env utxoData fee w)).
Proof.
  intros Hcancel Hus Hlast Hmvc own recognised.
  split.
  - intros utxoData chunkAmount indexAmount fee chainStore lock Hcs Htc Hpay Hlock Hwallet.
    unfold recognised.
    exists (Error ("Failed to build merge transaction: " +:+ show_message t0)).
    assert (Hrun : fst (Chain.buildChunkedUploadMergeTx env utxoData chunkAmount
                          indexAmount fee w)
                   = Throw (Error ("Failed to build merge transaction: "
                                   +:+ show_message t0))).
    { unfold Chain.buildChunkedUploadMergeTx, try_catch.
      rewrite Hus, Hcs, Hmvc, Htc. cbn [andb negb]. cbv zeta.
      rewrite (bind_readLast_some _ _ _ _ _ _ Hlast).
      unfold Mvc.to. fold own. rewrite Hlock.
      unfold bind at 1, await at 1. unfold bind at 1, await at 1.
      rewrite Hpay. cbn [negb].
      unfold bind, history, emit, await.
      cbn [trace localStorage timers version inputs outputs].
      destruct (from_all (utxos utxoData) (Mvc.setVersion 10 Mvc.newTransaction))
        as (Hv & Ho & _).
      cbn [Mvc.setVersion Mvc.newTransaction version outputs] in Hv, Ho.
      rewrite Hv, Ho. cbn [app].
      fold (Props.mergeRequest (utxos utxoData) lock chunkAmount indexAmount
              (Chain.feeRateOrDefault chainStore)).
      rewrite Hwallet. reflexivity. }
    split; [exact Hrun|].
    split; [now apply userCancelled_wrapped|].
    apply flowCatch_cancelled. now apply userCancelled_wrapped.
  - intros utxoData fee u txHex Hbuf Hu Htx Hsign.
    assert (Hbody : forall w0, trace w0 = trace w ->
              fst (Chain.buildOpenPreTx env utxoData w0) = Throw t0).
    { intros w0 Hw0.
      rewrite (buildOpenPreTx_single env utxoData u w0 userStore user Hu Hus Hlast
                 Hmvc Hbuf).
      rewrite Htx. cbv zeta. fold own. rewrite Hw0, Hsign. reflexivity. }
    unfold recognised.
    split.
    + exists (Error ("Failed to build chunk funding pre-tx: " +:+ show_message t0)).
      assert (Hrun : fst (Chain.buildChunkFundingPreTx env utxoData fee w)
                     = Throw (Error ("Failed to build chunk funding pre-tx: "
                                     +:+ show_message t0))).
      { unfold Chain.buildChunkFundingPreTx, try_catch.
        specialize (Hbody w eq_refl).
        destruct (Chain.buildOpenPreTx env utxoData w) as [[hex|t] w1];
          simpl in Hbody; [discriminate|]. injection Hbody as ->. reflexivity. }
      split; [exact Hrun|].
      split; [now apply userCancelled_wrapped|].
      apply flowCatch_cancelled. now apply userCancelled_wrapped.
    + exists (Error ("Failed to build index pre-tx: " +:+ show_message t0)).
      assert (Hrun : fst (Chain.buildIndexPreTx env utxoData fee w)
                     = Throw (Error ("Failed to build index pre-tx: "
                                     +:+ show_message t0))).
      { unfold Chain.buildIndexPreTx, try_catch.
        specialize (Hbody w eq_refl).
        destruct (Chain.buildOpenPreTx env utxoData w) as [[hex|t] w1];
          simpl in Hbody; [discriminate|]. injection Hbody as ->. reflexivity. }
      split; [exact Hrun|].
      split; [now apply userCancelled_wrapped|].
      apply flowCatch_cancelled. now apply userCancelled_wrapped.
Qed.

Lemma wallet_cancellation_recognised_witness :
  fst (Chain.buildChunkedUploadMergeTx
         (Demo.env Demo.wallet [] (Throw (Error "The user cancelled the request")) None)
         Demo.selection 5350 1150 568 (Demo.world ∅))
  = Throw (Error "Failed to build merge transaction: The user cancelled the request").
Proof.
  destruct (wallet_cancellation_recognised
              (Demo.env Demo.wallet [] (Throw (Error "The user cancelled the request")) None)
              (Demo.world ∅) (Error "The user cancelled the request")
              {| last := Some Demo.user |} Demo.user eq_refl eq_refl eq_refl eq_refl)
    as [Hpay _].
  destruct (Hpay Demo.selection 5350 1150 568 {| mvcFeeRate := None |}
              (Demo.lock "addr1") eq_refl eq_refl eq_refl eq_refl eq_refl)
    as (t & Hrun & _).
  rewrite Hrun. vm_compute in Hrun. injection Hrun as <-. reflexivity.
Defined.
